(** * Referential integrity of the home-library store

    A shallow embedding of the integrity and lifecycle engine of the
    library application: the SQLite schema of [electron/database/migrations.ts],
    the impact queries, the create, update and delete paths and the search
    statements of [BookRepository], the repositories of authors,
    publishers, series, genres, topics and categories, the diagnostics of
    [DomainService], the export, the merge and the CSV quoting of
    [ImportExportService], the IPC handlers of the delete, update and
    impact-check paths and the delete button of the authors page.

    A table is the list of its rows in insertion order.  Only the columns
    the engine reads are kept: the primary key, the display name (title for
    books) and the foreign keys.  The remaining scalar columns (bio, isbn,
    pages, rating, timestamps, ...) are never read by any query below and
    are left out, and with them the two CHECK constraints of [books]
    ([reading_status], [rating]) and the full-text index that the triggers
    of [books] maintain.  Primary keys, the UNIQUE names of genres, topics
    and categories, and the foreign keys with their ON DELETE actions are
    enforced by the write statements, as SQLite does under
    [PRAGMA foreign_keys = ON].

    A query without ORDER BY returns its rows in table order; the order
    of a query with ORDER BY on a column that is not kept is a parameter.
    The generator of fresh identifiers ([uuidv4]) is a parameter of the
    functions that call it, and so is the validation of a book by its Zod
    schema in the handlers that validate.  Numbers of a search (years, limit, offset) are
    integers. *)

From Stdlib Require Import String Ascii List Bool Arith ZArith Lia DecimalString Permutation.
Import ListNotations.
Local Open Scope string_scope.
Local Open Scope list_scope.

Set Implicit Arguments.

(* ------------------------------------------------------------------ *)
(** ** JavaScript values *)

Module Js.

(** [if (s)] on a string: the empty string is falsy. *)
Definition truthy (s : string) : bool :=
  match s with
  | EmptyString => false
  | String _ _ => true
  end.

(** [if (v)] on a value that is a string or null. *)
Definition truthy_opt (v : option string) : bool :=
  match v with
  | Some s => truthy s
  | None => false
  end.

(** [if (n)] on a value that is a number or undefined: zero is falsy. *)
Definition truthy_num (v : option Z) : bool :=
  match v with
  | Some n => negb (Z.eqb n 0)
  | None => false
  end.

(** [n || d] on a value that is a number or undefined. *)
Definition num_or (v : option Z) (d : Z) : Z :=
  match v with
  | Some n => if Z.eqb n 0 then d else n
  | None => d
  end.

(** [v || null] on a value that is a string, null or undefined. *)
Definition or_null (v : option string) : option string :=
  if truthy_opt v then v else None.

(** [arr.includes(x)] *)
Definition includes (arr : list string) (x : string) : bool :=
  existsb (String.eqb x) arr.

(** [v !== s] where [s] is a string and [v] a string, null or undefined. *)
Definition strict_neq (v : option string) (s : string) : bool :=
  match v with
  | Some s' => negb (String.eqb s' s)
  | None => true
  end.

(** Number to string, in decimal. *)
Definition of_nat (n : nat) : string :=
  NilEmpty.string_of_uint (Nat.to_uint n).

(** The double quote character inside a template literal. *)
Definition dq : string := String (ascii_of_nat 34) EmptyString.

(** The line feed of [\n]. *)
Definition nl : string := String (ascii_of_nat 10) EmptyString.

(** The bullet of the blocking message (U+2022 in UTF-8). *)
Definition bullet : string :=
  String (ascii_of_nat 226) (String (ascii_of_nat 128)
    (String (ascii_of_nat 162) EmptyString)).

(** [arr.join(sep)] *)
Definition join (sep : string) (arr : list string) : string :=
  String.concat sep arr.

(** [s.includes(c)] for a one-character [c].  Strings are held as UTF-8
    bytes; for an ASCII [c] the test on bytes and the test on UTF-16 code
    units agree. *)
Fixpoint has_char (c : ascii) (s : string) : bool :=
  match s with
  | EmptyString => false
  | String c' rest => Ascii.eqb c' c || has_char c rest
  end.

(** [s.replace(/c/g, r)] for a one-character pattern [c]. *)
Fixpoint replace_char (c : ascii) (r : string) (s : string) : string :=
  match s with
  | EmptyString => EmptyString
  | String c' rest =>
      (if Ascii.eqb c' c then r else String c' EmptyString) ++ replace_char c r rest
  end.

End Js.

(* ------------------------------------------------------------------ *)
(** ** The schema *)

(** A row of [authors], [publishers], [series], [genres], [topics] or
    [categories]; also the shape of every [SELECT x.id, x.name]. *)
Record NamedRow : Type := mkRow {
  id : string;
  name : string
}.

(** A row of [books]. *)
Record BookRow : Type := mkBook {
  book_id : string;
  title : string;
  publisher_id : string;            (* NOT NULL *)
  series_id : option string;        (* nullable *)
  category_id : string              (* NOT NULL *)
}.

(** A row of a junction table: (left key, right key).
    [book_authors (book_id, author_id)], [book_genres (book_id, genre_id)],
    [book_topics (book_id, topic_id)], [series_authors (series_id, author_id)]. *)
Definition Link : Type := (string * string)%type.

Record Database : Type := mkDb {
  authors : list NamedRow;
  publishers : list NamedRow;
  series : list NamedRow;
  genres : list NamedRow;
  topics : list NamedRow;
  categories : list NamedRow;
  books : list BookRow;
  book_authors : list Link;
  book_genres : list Link;
  book_topics : list Link;
  series_authors : list Link
}.

Definition empty_db : Database :=
  mkDb [] [] [] [] [] [] [] [] [] [] [].

(* ------------------------------------------------------------------ *)
(** ** Prepared queries *)

Module Sql.

(** [SELECT * FROM t WHERE id = ?] with [.get]: the first matching row. *)
Definition get_row (t : list NamedRow) (i : string) : option NamedRow :=
  find (fun r => String.eqb (id r) i) t.

(** [SELECT * FROM books WHERE id = ?] with [.get]. *)
Definition get_book (db : Database) (i : string) : option BookRow :=
  find (fun b => String.eqb (book_id b) i) (books db).

Definition has_row (t : list NamedRow) (i : string) : bool :=
  existsb (fun r => String.eqb (id r) i) t.

Definition has_book (db : Database) (i : string) : bool :=
  existsb (fun b => String.eqb (book_id b) i) (books db).

(** [SELECT COUNT( * ) FROM book_authors WHERE author_id = ?] *)
Definition count_book_authors_by_author (db : Database) (a : string) : nat :=
  length (filter (fun l => String.eqb (snd l) a) (book_authors db)).

(** [SELECT COUNT( * ) FROM books WHERE publisher_id = ?] *)
Definition count_books_by_publisher (db : Database) (p : string) : nat :=
  length (filter (fun b => String.eqb (publisher_id b) p) (books db)).

(** The comparison [series_id = ?]: NULL matches nothing. *)
Definition series_is (b : BookRow) (s : string) : bool :=
  match series_id b with
  | Some s' => String.eqb s' s
  | None => false
  end.

(** [SELECT COUNT( * ) FROM books WHERE series_id = ?] *)
Definition count_books_by_series (db : Database) (s : string) : nat :=
  length (filter (fun b => series_is b s) (books db)).

(** [SELECT COUNT( * ) FROM series_authors WHERE series_id = ?] *)
Definition count_series_authors_by_series (db : Database) (s : string) : nat :=
  length (filter (fun l => String.eqb (fst l) s) (series_authors db)).

(** [SELECT author_id FROM book_authors WHERE book_id = ?] *)
Definition author_ids_of_book (db : Database) (b : string) : list string :=
  map snd (filter (fun l => String.eqb (fst l) b) (book_authors db)).

(** [SELECT a.id, a.name FROM authors a
     JOIN book_authors ba ON a.id = ba.author_id
     WHERE ba.book_id = ?
     AND (SELECT COUNT( * ) FROM book_authors ba2 WHERE ba2.author_id = a.id) = 1] *)
Definition authors_with_only_book (db : Database) (b : string) : list NamedRow :=
  flat_map
    (fun a =>
       map (fun _ => mkRow (id a) (name a))
         (filter
            (fun ba =>
               String.eqb (id a) (snd ba) && String.eqb (fst ba) b
               && Nat.eqb (count_book_authors_by_author db (id a)) 1)
            (book_authors db)))
    (authors db).

(** [SELECT s.id, s.name FROM series s
     JOIN series_authors sa ON s.id = sa.series_id
     WHERE sa.author_id = ?
     AND (SELECT COUNT( * ) FROM series_authors sa2 WHERE sa2.series_id = s.id) = 1] *)
Definition series_with_only_author (db : Database) (a : string) : list NamedRow :=
  flat_map
    (fun s =>
       map (fun _ => mkRow (id s) (name s))
         (filter
            (fun sa =>
               String.eqb (id s) (fst sa) && String.eqb (snd sa) a
               && Nat.eqb (count_series_authors_by_series db (id s)) 1)
            (series_authors db)))
    (series db).

(** [SELECT a.id, a.name FROM authors a
     LEFT JOIN book_authors ba ON a.id = ba.author_id
     WHERE ba.book_id IS NULL] *)
Definition orphan_authors (db : Database) : list NamedRow :=
  map (fun a => mkRow (id a) (name a))
    (filter
       (fun a => negb (existsb (fun ba => String.eqb (id a) (snd ba)) (book_authors db)))
       (authors db)).

(** [SELECT p.id, p.name FROM publishers p
     LEFT JOIN books b ON p.id = b.publisher_id
     WHERE b.id IS NULL] *)
Definition orphan_publishers (db : Database) : list NamedRow :=
  map (fun p => mkRow (id p) (name p))
    (filter
       (fun p => negb (existsb (fun b => String.eqb (id p) (publisher_id b)) (books db)))
       (publishers db)).

(** [SELECT s.id, s.name FROM series s
     LEFT JOIN books b ON s.id = b.series_id
     WHERE b.id IS NULL] *)
Definition orphan_series (db : Database) : list NamedRow :=
  map (fun s => mkRow (id s) (name s))
    (filter
       (fun s => negb (existsb (fun b => series_is b (id s)) (books db)))
       (series db)).

(** [SELECT s.id, s.name FROM series s
     LEFT JOIN series_authors sa ON s.id = sa.series_id
     WHERE sa.author_id IS NULL] *)
Definition series_no_authors (db : Database) : list NamedRow :=
  map (fun s => mkRow (id s) (name s))
    (filter
       (fun s => negb (existsb (fun sa => String.eqb (id s) (fst sa)) (series_authors db)))
       (series db)).

(** [SELECT b.id, b.title FROM books b
     LEFT JOIN publishers p ON b.publisher_id = p.id
     WHERE p.id IS NULL] *)
Definition books_no_publisher (db : Database) : list NamedRow :=
  map (fun b => mkRow (book_id b) (title b))
    (filter (fun b => negb (has_row (publishers db) (publisher_id b))) (books db)).

(** [SELECT b.id, b.title FROM books b
     LEFT JOIN categories c ON b.category_id = c.id
     WHERE c.id IS NULL] *)
Definition books_no_category (db : Database) : list NamedRow :=
  map (fun b => mkRow (book_id b) (title b))
    (filter (fun b => negb (has_row (categories db) (category_id b))) (books db)).

(** [SELECT a.* FROM authors a
     JOIN book_authors ba ON a.id = ba.author_id
     WHERE ba.book_id = ?] *)
Definition authors_of_book (db : Database) (b : string) : list NamedRow :=
  flat_map
    (fun a =>
       map (fun _ => a)
         (filter (fun ba => String.eqb (id a) (snd ba) && String.eqb (fst ba) b)
            (book_authors db)))
    (authors db).

(** [SELECT g.* FROM genres g
     JOIN book_genres bg ON g.id = bg.genre_id
     WHERE bg.book_id = ?] *)
Definition genres_of_book (db : Database) (b : string) : list NamedRow :=
  flat_map
    (fun g =>
       map (fun _ => g)
         (filter (fun bg => String.eqb (id g) (snd bg) && String.eqb (fst bg) b)
            (book_genres db)))
    (genres db).

(** [SELECT t.* FROM topics t
     JOIN book_topics bt ON t.id = bt.topic_id
     WHERE bt.book_id = ?] *)
Definition topics_of_book (db : Database) (b : string) : list NamedRow :=
  flat_map
    (fun t =>
       map (fun _ => t)
         (filter (fun bt => String.eqb (id t) (snd bt) && String.eqb (fst bt) b)
            (book_topics db)))
    (topics db).

(** [SELECT a.* FROM authors a
     JOIN series_authors sa ON a.id = sa.author_id
     WHERE sa.series_id = ?] *)
Definition authors_of_series (db : Database) (s : string) : list NamedRow :=
  flat_map
    (fun a =>
       map (fun _ => a)
         (filter (fun sa => String.eqb (id a) (snd sa) && String.eqb (fst sa) s)
            (series_authors db)))
    (authors db).

(** [SELECT COUNT( * ) FROM books WHERE category_id = ?] *)
Definition count_books_by_category (db : Database) (c : string) : nat :=
  length (filter (fun b => String.eqb (category_id b) c) (books db)).

End Sql.

(* ------------------------------------------------------------------ *)
(** ** Impact reports *)

(** [BookDeleteImpact] of [src/shared/types.ts]. *)
Record BookDeleteImpact : Type := mkImpact {
  orphanedAuthors : list NamedRow;
  orphanedPublisher : option NamedRow;
  orphanedSeries : option NamedRow;
  hasImpact : bool
}.

(** [arr.length > 0] *)
Definition nonempty {A : Type} (l : list A) : bool :=
  match l with
  | [] => false
  | _ :: _ => true
  end.

(** [v !== null], and the truthiness of an object-or-null. *)
Definition not_null {A : Type} (v : option A) : bool :=
  match v with
  | Some _ => true
  | None => false
  end.

(** The literal returned for a book that is not there. *)
Definition no_impact : BookDeleteImpact :=
  mkImpact [] None None false.

(* ------------------------------------------------------------------ *)
(** ** Exceptions and store-passing *)

(** What a call can throw: a constraint failure raised by SQLite, or an
    [Error] built by the application with [throw new Error(message)]. *)
Inductive Error : Type :=
| SqliteConstraint (detail : string)
| JsError (msg : string).

(** [error.message] *)
Definition message (e : Error) : string :=
  match e with
  | SqliteConstraint d => d
  | JsError m => m
  end.

(** A computation over a mutable state [S] that returns an [A] or throws;
    the state reached when it throws is kept, as in JavaScript. *)
Definition M (S A : Type) : Type := S -> S * (Error + A).

(** A computation over the store. *)
Definition Tx (A : Type) : Type := M Database A.

Definition ret {S A : Type} (a : A) : M S A :=
  fun s => (s, inr a).

Definition bind {S A B : Type} (m : M S A) (f : A -> M S B) : M S B :=
  fun s =>
    match m s with
    | (s', inr a) => f a s'
    | (s', inl e) => (s', inl e)
    end.

Definition throw {S A : Type} (e : Error) : M S A :=
  fun s => (s, inl e).

(** [try { m } catch (error) { h error }] *)
Definition try_catch {S A : Type} (m : M S A) (h : Error -> M S A) : M S A :=
  fun s =>
    match m s with
    | (s', inl e) => h e s'
    | (s', inr a) => (s', inr a)
    end.

(** A read of the state. *)
Definition query {S A : Type} (q : S -> A) : M S A :=
  fun s => (s, inr (q s)).

(** A write of the state. *)
Definition modify {S : Type} (f : S -> S) : M S unit :=
  fun s => (f s, inr tt).

Declare Scope tx_scope.
Delimit Scope tx_scope with tx.
Notation "x <- m ;; k" := (bind m (fun x => k))
  (at level 61, m at next level, right associativity) : tx_scope.
Notation "m ;; k" := (bind m (fun _ => k))
  (at level 61, right associativity) : tx_scope.
Local Open Scope tx_scope.

(** [for (const x of l) { body x }] *)
Fixpoint for_each {S A : Type} (l : list A) (body : A -> M S unit) : M S unit :=
  match l with
  | [] => ret tt
  | x :: rest => body x ;; for_each rest body
  end.

(** [transaction(fn)] of [electron/database/connection.ts], that is
    better-sqlite3's [db.transaction(fn)()]: when [fn] throws, every write
    it made is rolled back and the exception is thrown again.  Nested calls
    are savepoints and behave the same way. *)
Definition transaction {A : Type} (fn : Tx A) : Tx A :=
  fun db =>
    match fn db with
    | (db', inr a) => (db', inr a)
    | (_, inl e) => (db, inl e)
    end.

(* ------------------------------------------------------------------ *)
(** ** Write statements, with [PRAGMA foreign_keys = ON] *)

Module Stmt.

Definition set_authors (db : Database) (t : list NamedRow) : Database :=
  mkDb t (publishers db) (series db) (genres db) (topics db) (categories db)
    (books db) (book_authors db) (book_genres db) (book_topics db) (series_authors db).

Definition set_publishers (db : Database) (t : list NamedRow) : Database :=
  mkDb (authors db) t (series db) (genres db) (topics db) (categories db)
    (books db) (book_authors db) (book_genres db) (book_topics db) (series_authors db).

Definition set_series (db : Database) (t : list NamedRow) : Database :=
  mkDb (authors db) (publishers db) t (genres db) (topics db) (categories db)
    (books db) (book_authors db) (book_genres db) (book_topics db) (series_authors db).

Definition set_genres (db : Database) (t : list NamedRow) : Database :=
  mkDb (authors db) (publishers db) (series db) t (topics db) (categories db)
    (books db) (book_authors db) (book_genres db) (book_topics db) (series_authors db).

Definition set_topics (db : Database) (t : list NamedRow) : Database :=
  mkDb (authors db) (publishers db) (series db) (genres db) t (categories db)
    (books db) (book_authors db) (book_genres db) (book_topics db) (series_authors db).

Definition set_categories (db : Database) (t : list NamedRow) : Database :=
  mkDb (authors db) (publishers db) (series db) (genres db) (topics db) t
    (books db) (book_authors db) (book_genres db) (book_topics db) (series_authors db).

Definition set_books (db : Database) (t : list BookRow) : Database :=
  mkDb (authors db) (publishers db) (series db) (genres db) (topics db) (categories db)
    t (book_authors db) (book_genres db) (book_topics db) (series_authors db).

Definition set_book_authors (db : Database) (t : list Link) : Database :=
  mkDb (authors db) (publishers db) (series db) (genres db) (topics db) (categories db)
    (books db) t (book_genres db) (book_topics db) (series_authors db).

Definition set_book_genres (db : Database) (t : list Link) : Database :=
  mkDb (authors db) (publishers db) (series db) (genres db) (topics db) (categories db)
    (books db) (book_authors db) t (book_topics db) (series_authors db).

Definition set_book_topics (db : Database) (t : list Link) : Database :=
  mkDb (authors db) (publishers db) (series db) (genres db) (topics db) (categories db)
    (books db) (book_authors db) (book_genres db) t (series_authors db).

Definition set_series_authors (db : Database) (t : list Link) : Database :=
  mkDb (authors db) (publishers db) (series db) (genres db) (topics db) (categories db)
    (books db) (book_authors db) (book_genres db) (book_topics db) t.

Definition fk_failed : Error :=
  SqliteConstraint "FOREIGN KEY constraint failed".

Definition unique_failed (columns : string) : Error :=
  SqliteConstraint ("UNIQUE constraint failed: " ++ columns).

Definition has_name (t : list NamedRow) (n : string) : bool :=
  existsb (fun r => String.eqb (name r) n) t.

Definition has_link (t : list Link) (l : Link) : bool :=
  existsb (fun l' => String.eqb (fst l') (fst l) && String.eqb (snd l') (snd l)) t.

(** Rows whose key is not [i]: what [DELETE ... WHERE id = ?] leaves. *)
Definition without (t : list NamedRow) (i : string) : list NamedRow :=
  filter (fun r => negb (String.eqb (id r) i)) t.

Definition without_left (t : list Link) (i : string) : list Link :=
  filter (fun l => negb (String.eqb (fst l) i)) t.

Definition without_right (t : list Link) (i : string) : list Link :=
  filter (fun l => negb (String.eqb (snd l) i)) t.

(** [result.changes] of a [DELETE ... WHERE id = ?]. *)
Definition matching (t : list NamedRow) (i : string) : nat :=
  length (filter (fun r => String.eqb (id r) i) t).

(** [INSERT INTO authors (id, name, ...)]: [id] is the primary key. *)
Definition insert_authors (r : NamedRow) : Tx unit :=
  fun db =>
    if Sql.has_row (authors db) (id r) then (db, inl (unique_failed "authors.id"))
    else (set_authors db (authors db ++ [r]), inr tt).

(** [INSERT INTO publishers (id, name, ...)] *)
Definition insert_publishers (r : NamedRow) : Tx unit :=
  fun db =>
    if Sql.has_row (publishers db) (id r) then (db, inl (unique_failed "publishers.id"))
    else (set_publishers db (publishers db ++ [r]), inr tt).

(** [INSERT INTO series (id, name, ...)] *)
Definition insert_series (r : NamedRow) : Tx unit :=
  fun db =>
    if Sql.has_row (series db) (id r) then (db, inl (unique_failed "series.id"))
    else (set_series db (series db ++ [r]), inr tt).

(** [INSERT INTO genres (id, name, ...)]: [name] is UNIQUE. *)
Definition insert_genres (r : NamedRow) : Tx unit :=
  fun db =>
    if Sql.has_row (genres db) (id r) then (db, inl (unique_failed "genres.id"))
    else if has_name (genres db) (name r) then (db, inl (unique_failed "genres.name"))
    else (set_genres db (genres db ++ [r]), inr tt).

(** [INSERT INTO topics (id, name, ...)]: [name] is UNIQUE. *)
Definition insert_topics (r : NamedRow) : Tx unit :=
  fun db =>
    if Sql.has_row (topics db) (id r) then (db, inl (unique_failed "topics.id"))
    else if has_name (topics db) (name r) then (db, inl (unique_failed "topics.name"))
    else (set_topics db (topics db ++ [r]), inr tt).

(** [INSERT INTO categories (id, name, ...)]: [name] is UNIQUE. *)
Definition insert_categories (r : NamedRow) : Tx unit :=
  fun db =>
    if Sql.has_row (categories db) (id r) then (db, inl (unique_failed "categories.id"))
    else if has_name (categories db) (name r) then (db, inl (unique_failed "categories.name"))
    else (set_categories db (categories db ++ [r]), inr tt).

(** The three foreign keys of a [books] row. *)
Definition book_fks_ok (db : Database) (b : BookRow) : bool :=
  Sql.has_row (publishers db) (publisher_id b)
  && Sql.has_row (categories db) (category_id b)
  && match series_id b with
     | Some s => Sql.has_row (series db) s
     | None => true
     end.

(** [INSERT INTO books (id, title, ..., publisher_id, series_id, ..., category_id, ...)] *)
Definition insert_books (b : BookRow) : Tx unit :=
  fun db =>
    if Sql.has_book db (book_id b) then (db, inl (unique_failed "books.id"))
    else if negb (book_fks_ok db b) then (db, inl fk_failed)
    else (set_books db (books db ++ [b]), inr tt).

(** [INSERT INTO book_authors (book_id, author_id)] *)
Definition insert_book_authors (l : Link) : Tx unit :=
  fun db =>
    if has_link (book_authors db) l
    then (db, inl (unique_failed "book_authors.book_id, book_authors.author_id"))
    else if negb (Sql.has_book db (fst l) && Sql.has_row (authors db) (snd l))
    then (db, inl fk_failed)
    else (set_book_authors db (book_authors db ++ [l]), inr tt).

(** [INSERT INTO book_genres (book_id, genre_id)] *)
Definition insert_book_genres (l : Link) : Tx unit :=
  fun db =>
    if has_link (book_genres db) l
    then (db, inl (unique_failed "book_genres.book_id, book_genres.genre_id"))
    else if negb (Sql.has_book db (fst l) && Sql.has_row (genres db) (snd l))
    then (db, inl fk_failed)
    else (set_book_genres db (book_genres db ++ [l]), inr tt).

(** [INSERT INTO book_topics (book_id, topic_id)] *)
Definition insert_book_topics (l : Link) : Tx unit :=
  fun db =>
    if has_link (book_topics db) l
    then (db, inl (unique_failed "book_topics.book_id, book_topics.topic_id"))
    else if negb (Sql.has_book db (fst l) && Sql.has_row (topics db) (snd l))
    then (db, inl fk_failed)
    else (set_book_topics db (book_topics db ++ [l]), inr tt).

(** [INSERT INTO series_authors (series_id, author_id)] *)
Definition insert_series_authors (l : Link) : Tx unit :=
  fun db =>
    if has_link (series_authors db) l
    then (db, inl (unique_failed "series_authors.series_id, series_authors.author_id"))
    else if negb (Sql.has_row (series db) (fst l) && Sql.has_row (authors db) (snd l))
    then (db, inl fk_failed)
    else (set_series_authors db (series_authors db ++ [l]), inr tt).

(** [DELETE FROM book_authors WHERE book_id = ?] *)
Definition delete_book_authors_by_book (b : string) : Tx unit :=
  modify (fun db => set_book_authors db (without_left (book_authors db) b)).

(** [DELETE FROM book_genres WHERE book_id = ?] *)
Definition delete_book_genres_by_book (b : string) : Tx unit :=
  modify (fun db => set_book_genres db (without_left (book_genres db) b)).

(** [DELETE FROM book_topics WHERE book_id = ?] *)
Definition delete_book_topics_by_book (b : string) : Tx unit :=
  modify (fun db => set_book_topics db (without_left (book_topics db) b)).

(** [DELETE FROM series_authors WHERE author_id = ?] *)
Definition delete_series_authors_by_author (a : string) : Tx unit :=
  modify (fun db => set_series_authors db (without_right (series_authors db) a)).

(** [DELETE FROM series_authors WHERE series_id = ?] *)
Definition delete_series_authors_by_series (s : string) : Tx unit :=
  modify (fun db => set_series_authors db (without_left (series_authors db) s)).

(** [DELETE FROM books WHERE id = ?]; the junction rows of a deleted book
    go with it (ON DELETE CASCADE).  Returns [changes]. *)
Definition delete_books (b : string) : Tx nat :=
  fun db =>
    let n := length (filter (fun r => String.eqb (book_id r) b) (books db)) in
    if Nat.eqb n 0 then (db, inr 0)
    else
      (mkDb (authors db) (publishers db) (series db) (genres db) (topics db) (categories db)
         (filter (fun r => negb (String.eqb (book_id r) b)) (books db))
         (without_left (book_authors db) b)
         (without_left (book_genres db) b)
         (without_left (book_topics db) b)
         (series_authors db),
       inr n).

(** [DELETE FROM authors WHERE id = ?]; [book_authors] and [series_authors]
    rows of a deleted author go with it (ON DELETE CASCADE). *)
Definition delete_authors (a : string) : Tx nat :=
  fun db =>
    let n := matching (authors db) a in
    if Nat.eqb n 0 then (db, inr 0)
    else
      (mkDb (without (authors db) a) (publishers db) (series db) (genres db) (topics db)
         (categories db) (books db)
         (without_right (book_authors db) a)
         (book_genres db) (book_topics db)
         (without_right (series_authors db) a),
       inr n).

(** [DELETE FROM publishers WHERE id = ?]; refused while a book refers to
    the publisher (ON DELETE RESTRICT). *)
Definition delete_publishers (p : string) : Tx nat :=
  fun db =>
    let n := matching (publishers db) p in
    if Nat.eqb n 0 then (db, inr 0)
    else if negb (Nat.eqb (Sql.count_books_by_publisher db p) 0) then (db, inl fk_failed)
    else (set_publishers db (without (publishers db) p), inr n).

(** [DELETE FROM series WHERE id = ?]; [series_authors] rows of a deleted
    series go with it (CASCADE) and books of the series get a NULL
    [series_id] (ON DELETE SET NULL). *)
Definition delete_series (s : string) : Tx nat :=
  fun db =>
    let n := matching (series db) s in
    if Nat.eqb n 0 then (db, inr 0)
    else
      (mkDb (authors db) (publishers db) (without (series db) s) (genres db) (topics db)
         (categories db)
         (map (fun b =>
                 if Sql.series_is b s
                 then mkBook (book_id b) (title b) (publisher_id b) None (category_id b)
                 else b)
            (books db))
         (book_authors db) (book_genres db) (book_topics db)
         (without_left (series_authors db) s),
       inr n).

(** [UPDATE books SET title = ?, ..., publisher_id = ?, series_id = ?, ...,
     category_id = ? WHERE id = ?].  Returns [changes]. *)
Definition update_books (b : string) (row : BookRow) : Tx nat :=
  fun db =>
    let n := length (filter (fun r => String.eqb (book_id r) b) (books db)) in
    if Nat.eqb n 0 then (db, inr 0)
    else if negb (book_fks_ok db row) then (db, inl fk_failed)
    else
      (set_books db
         (map (fun r =>
                 if String.eqb (book_id r) b
                 then mkBook (book_id r) (title row) (publisher_id row) (series_id row)
                        (category_id row)
                 else r)
            (books db)),
       inr n).

(** [DELETE FROM categories WHERE id = ?]; refused while a book refers to
    the category (ON DELETE RESTRICT). *)
Definition delete_categories (c : string) : Tx nat :=
  fun db =>
    let n := matching (categories db) c in
    if Nat.eqb n 0 then (db, inr 0)
    else if negb (Nat.eqb (Sql.count_books_by_category db c) 0) then (db, inl fk_failed)
    else (set_categories db (without (categories db) c), inr n).

(** [DELETE FROM genres WHERE id = ?]; the [book_genres] rows of a deleted
    genre go with it (ON DELETE CASCADE). *)
Definition delete_genres (g : string) : Tx nat :=
  fun db =>
    let n := matching (genres db) g in
    if Nat.eqb n 0 then (db, inr 0)
    else
      (mkDb (authors db) (publishers db) (series db) (without (genres db) g) (topics db)
         (categories db) (books db) (book_authors db)
         (without_right (book_genres db) g)
         (book_topics db) (series_authors db),
       inr n).

(** [DELETE FROM topics WHERE id = ?]; the [book_topics] rows of a deleted
    topic go with it (ON DELETE CASCADE). *)
Definition delete_topics (t : string) : Tx nat :=
  fun db =>
    let n := matching (topics db) t in
    if Nat.eqb n 0 then (db, inr 0)
    else
      (mkDb (authors db) (publishers db) (series db) (genres db) (without (topics db) t)
         (categories db) (books db) (book_authors db) (book_genres db)
         (without_right (book_topics db) t)
         (series_authors db),
       inr n).

(** [UPDATE series SET name = ?, ... WHERE id = ?].  Returns [changes]. *)
Definition update_series (s : string) (n : string) : Tx nat :=
  fun db =>
    let c := matching (series db) s in
    if Nat.eqb c 0 then (db, inr 0)
    else
      (set_series db
         (map (fun r => if String.eqb (id r) s then mkRow (id r) n else r) (series db)),
       inr c).

End Stmt.

(* ------------------------------------------------------------------ *)
(** ** Inputs of the repositories *)

(** [AuthorInput], [PublisherInput], [GenreInput], [TopicInput] and
    [CategoryInput]: an optional id and a name. *)
Record NamedInput : Type := mkNamedInput {
  ni_id : option string;
  ni_name : string
}.

(** [SeriesInput] *)
Record SeriesInput : Type := mkSeriesInput {
  si_id : option string;
  si_name : string;
  si_authorIds : list string
}.

(** [BookInput] *)
Record BookInput : Type := mkBookInput {
  bi_id : option string;
  bi_title : string;
  publisherId : string;
  seriesId : option string;           (* string, null or undefined *)
  categoryId : string;
  authorIds : list string;
  genreIds : list string;
  topicIds : list string
}.

(** [input.id || uuidv4()]; [uuidv4] is the generator of the [uuid]
    package, taken as a parameter: nothing is known of what it returns. *)
Definition mint (uuidv4 : Database -> string) (i : option string) : Tx string :=
  query (fun db => if Js.truthy_opt i then match i with Some s => s | None => uuidv4 db end
                   else uuidv4 db).

(* ------------------------------------------------------------------ *)
(** ** BookRepository *)

Module BookRepository.

(** The lines pushed on [problems] by [delete]. *)
Definition problems (orphanedAuthors : list NamedRow)
    (orphanedPublisher orphanedSeries : option NamedRow) : list string :=
  (if nonempty orphanedAuthors
   then [("Author(s) " ++ Js.dq ++ Js.join ", " (map name orphanedAuthors) ++ Js.dq
          ++ " would have no books")%string]
   else [])
  ++ match orphanedPublisher with
     | Some p => [("Publisher " ++ Js.dq ++ name p ++ Js.dq ++ " would have no books")%string]
     | None => []
     end
  ++ match orphanedSeries with
     | Some s => [("Series " ++ Js.dq ++ name s ++ Js.dq ++ " would have no books")%string]
     | None => []
     end.

(** The message of the error thrown by a blocked [delete]. *)
Definition blocked_message (problems : list string) : string :=
  ("Cannot delete this book because it would violate business rules:" ++ Js.nl
   ++ Js.bullet ++ " " ++ Js.join (Js.nl ++ Js.bullet ++ " ") problems ++ Js.nl ++ Js.nl
   ++ "Please reassign these entities to other books first, or delete the book with the "
   ++ Js.dq ++ "Also delete orphaned entities" ++ Js.dq ++ " option.")%string.

(** [create(input)] *)
Definition create (uuidv4 : Database -> string) (input : BookInput) : Tx (option BookRow) :=
  i <- mint uuidv4 (bi_id input) ;;
  transaction (
    Stmt.insert_books
      (mkBook i (bi_title input) (publisherId input) (Js.or_null (seriesId input))
         (categoryId input)) ;;
    for_each (authorIds input) (fun authorId => Stmt.insert_book_authors (i, authorId)) ;;
    for_each (genreIds input) (fun genreId => Stmt.insert_book_genres (i, genreId)) ;;
    for_each (topicIds input) (fun topicId => Stmt.insert_book_topics (i, topicId)) ;;
    query (fun db => Sql.get_book db i)).

(** [checkDeleteImpact(id)] *)
Definition checkDeleteImpact (bookId : string) (db : Database) : BookDeleteImpact :=
  match Sql.get_book db bookId with
  | None => mkImpact [] None None false
  | Some book =>
      let orphanedAuthors := Sql.authors_with_only_book db bookId in
      let publisherBookCount := Sql.count_books_by_publisher db (publisher_id book) in
      let orphanedPublisher :=
        if Nat.eqb publisherBookCount 1 then
          match Sql.get_row (publishers db) (publisher_id book) with
          | Some publisher => Some (mkRow (id publisher) (name publisher))
          | None => None
          end
        else None in
      let orphanedSeries :=
        match series_id book with
        | Some sid =>
            if Js.truthy sid then
              let seriesBookCount := Sql.count_books_by_series db sid in
              if Nat.eqb seriesBookCount 1 then
                match Sql.get_row (series db) sid with
                | Some s => Some (mkRow (id s) (name s))
                | None => None
                end
              else None
            else None
        | None => None
        end in
      mkImpact orphanedAuthors orphanedPublisher orphanedSeries
        (nonempty orphanedAuthors || not_null orphanedPublisher || not_null orphanedSeries)
  end.

(** [checkUpdateImpact(id, input)] *)
Definition checkUpdateImpact (bookId : string) (input : BookInput) (db : Database)
    : BookDeleteImpact :=
  match Sql.get_book db bookId with
  | None => mkImpact [] None None false
  | Some book =>
      let currentAuthorIds := Sql.author_ids_of_book db bookId in
      let removedAuthorIds :=
        filter (fun aid => negb (Js.includes (authorIds input) aid)) currentAuthorIds in
      let orphanedAuthors :=
        flat_map
          (fun authorId =>
             let authorBookCount := Sql.count_book_authors_by_author db authorId in
             if Nat.eqb authorBookCount 1 then
               match Sql.get_row (authors db) authorId with
               | Some author => [mkRow (id author) (name author)]
               | None => []
               end
             else [])
          removedAuthorIds in
      let orphanedPublisher :=
        if Js.truthy (publisherId input)
           && negb (String.eqb (publisherId input) (publisher_id book))
        then
          let oldPublisherBookCount := Sql.count_books_by_publisher db (publisher_id book) in
          if Nat.eqb oldPublisherBookCount 1 then
            match Sql.get_row (publishers db) (publisher_id book) with
            | Some publisher => Some (mkRow (id publisher) (name publisher))
            | None => None
            end
          else None
        else None in
      let orphanedSeries :=
        match series_id book with
        | Some sid =>
            if Js.truthy sid && Js.strict_neq (seriesId input) sid then
              let oldSeriesBookCount := Sql.count_books_by_series db sid in
              if Nat.eqb oldSeriesBookCount 1 then
                match Sql.get_row (series db) sid with
                | Some s => Some (mkRow (id s) (name s))
                | None => None
                end
              else None
            else None
        | None => None
        end in
      mkImpact orphanedAuthors orphanedPublisher orphanedSeries
        (nonempty orphanedAuthors || not_null orphanedPublisher || not_null orphanedSeries)
  end.

(** The clean-up loop shared by the ends of [delete] and [update]. *)
Definition delete_orphans (orphanedAuthors : list NamedRow)
    (orphanedPublisher orphanedSeries : option NamedRow) : Tx unit :=
  for_each orphanedAuthors
    (fun author =>
       Stmt.delete_series_authors_by_author (id author) ;;
       Stmt.delete_authors (id author) ;;
       ret tt) ;;
  match orphanedPublisher with
  | Some p => Stmt.delete_publishers (id p) ;; ret tt
  | None => ret tt
  end ;;
  match orphanedSeries with
  | Some s =>
      Stmt.delete_series_authors_by_series (id s) ;;
      Stmt.delete_series (id s) ;;
      ret tt
  | None => ret tt
  end.

(** [delete(id, options)], with [cleanupOrphans = options?.cleanupOrphans ?? false]. *)
Definition delete (bookId : string) (cleanupOrphans : bool) : Tx unit :=
  transaction (
    found <- query (fun db => Sql.get_book db bookId) ;;
    match found with
    | None => throw (JsError ("Book with id " ++ bookId ++ " not found"))
    | Some book =>
        orphanedAuthors <- query (fun db => Sql.authors_with_only_book db bookId) ;;
        publisherBookCount <-
          query (fun db => Sql.count_books_by_publisher db (publisher_id book)) ;;
        orphanedPublisher <-
          (if Nat.eqb publisherBookCount 1 then
             publisher <- query (fun db => Sql.get_row (publishers db) (publisher_id book)) ;;
             match publisher with
             | Some p => ret (Some (mkRow (id p) (name p)))
             | None => ret None
             end
           else ret None) ;;
        orphanedSeries <-
          match series_id book with
          | Some sid =>
              if Js.truthy sid then
                seriesBookCount <- query (fun db => Sql.count_books_by_series db sid) ;;
                if Nat.eqb seriesBookCount 1 then
                  found_series <- query (fun db => Sql.get_row (series db) sid) ;;
                  match found_series with
                  | Some s => ret (Some (mkRow (id s) (name s)))
                  | None => ret None
                  end
                else ret None
              else ret None
          | None => ret None
          end ;;
        if negb cleanupOrphans
           && (nonempty orphanedAuthors || not_null orphanedPublisher
               || not_null orphanedSeries)
        then
          throw (JsError
                   (blocked_message (problems orphanedAuthors orphanedPublisher orphanedSeries)))
        else
          Stmt.delete_book_authors_by_book bookId ;;
          Stmt.delete_book_genres_by_book bookId ;;
          Stmt.delete_book_topics_by_book bookId ;;
          Stmt.delete_books bookId ;;
          if cleanupOrphans
          then delete_orphans orphanedAuthors orphanedPublisher orphanedSeries
          else ret tt
    end).

(** [update(id, input, options)] *)
Definition update (bookId : string) (input : BookInput) (cleanupOrphans : bool)
    : Tx (option BookRow) :=
  transaction (
    impact <- query (checkUpdateImpact bookId input) ;;
    changes <-
      Stmt.update_books bookId
        (mkBook bookId (bi_title input) (publisherId input) (Js.or_null (seriesId input))
           (categoryId input)) ;;
    if Nat.eqb changes 0
    then throw (JsError ("Book with id " ++ bookId ++ " not found"))
    else
      Stmt.delete_book_authors_by_book bookId ;;
      for_each (authorIds input) (fun authorId => Stmt.insert_book_authors (bookId, authorId)) ;;
      Stmt.delete_book_genres_by_book bookId ;;
      for_each (genreIds input) (fun genreId => Stmt.insert_book_genres (bookId, genreId)) ;;
      Stmt.delete_book_topics_by_book bookId ;;
      for_each (topicIds input) (fun topicId => Stmt.insert_book_topics (bookId, topicId)) ;;
      (if cleanupOrphans && hasImpact impact
       then delete_orphans (orphanedAuthors impact) (orphanedPublisher impact)
              (orphanedSeries impact)
       else ret tt) ;;
      query (fun db => Sql.get_book db bookId)).

(** [findById(id)] *)
Definition findById (bookId : string) (db : Database) : option BookRow :=
  Sql.get_book db bookId.

(** [BookWithRelations] as the repository builds it: the columns of the
    book, the rows of its publisher, series and category when they are
    found, and the rows of its authors, genres and topics. *)
Record BookView : Type := mkBookView {
  view_id : string;
  view_title : string;
  view_publisherId : string;
  view_seriesId : option string;
  view_categoryId : string;
  view_publisher : option NamedRow;
  view_series : option NamedRow;
  view_category : option NamedRow;
  view_authors : list NamedRow;
  view_genres : list NamedRow;
  view_topics : list NamedRow
}.

(** [enrichBookWithRelations(row)], with [mapRowToBook(row)] spread in. *)
Definition enrichBookWithRelations (row : BookRow) (db : Database) : BookView :=
  let publisherRow := Sql.get_row (publishers db) (publisher_id row) in
  let series :=
    match series_id row with
    | Some sid =>
        if Js.truthy sid then
          match Sql.get_row (series db) sid with
          | Some seriesRow => Some (mkRow (id seriesRow) (name seriesRow))
          | None => None
          end
        else None
    | None => None
    end in
  let categoryRow := Sql.get_row (categories db) (category_id row) in
  mkBookView (book_id row) (title row) (publisher_id row) (Js.or_null (series_id row))
    (category_id row) publisherRow series categoryRow
    (Sql.authors_of_book db (book_id row))
    (Sql.genres_of_book db (book_id row))
    (Sql.topics_of_book db (book_id row)).

(** [findByIdWithRelations(id)] *)
Definition findByIdWithRelations (bookId : string) (db : Database) : option BookView :=
  match Sql.get_book db bookId with
  | None => None
  | Some bookRow => Some (enrichBookWithRelations bookRow db)
  end.

(** [findAll()]: [SELECT * FROM books ORDER BY created_at DESC].  The
    column [created_at] is not kept, so the order is a parameter. *)
Definition findAll (created_at_desc : list BookRow -> list BookRow) (db : Database)
    : list BookView :=
  map (fun row => enrichBookWithRelations row db) (created_at_desc (books db)).

(** A value bound to a placeholder of a prepared statement. *)
Inductive SqlValue : Type :=
| Text (s : string)
| Number (n : Z).

(** [BookSearchParams]; every field may be absent. *)
Record BookSearchParams : Type := mkSearch {
  sp_query : option string;
  sp_authorId : option string;
  sp_genreId : option string;
  sp_publisherId : option string;
  sp_seriesId : option string;
  sp_categoryId : option string;
  sp_topicId : option string;
  sp_readingStatus : option string;
  sp_yearFrom : option Z;
  sp_yearTo : option Z;
  sp_sortBy : option string;
  sp_sortOrder : option string;
  sp_limit : option Z;
  sp_offset : option Z
}.

(** [getSortColumn(sortBy)] *)
Definition getSortColumn (sortBy : string) : string :=
  if String.eqb sortBy "title" then "b.title"
  else if String.eqb sortBy "year" then "b.publication_year"
  else if String.eqb sortBy "createdAt" then "b.created_at"
  else if String.eqb sortBy "updatedAt" then "b.updated_at"
  else "b.created_at".

(** What [search(params)] hands to the database: the text of the count
    statement and the values bound to it, the text of the page statement
    and the values bound to it. *)
Record SearchStatements : Type := mkStatements {
  countQuery : string;
  countValues : list SqlValue;
  pageQuery : string;
  pageValues : list SqlValue
}.

(** [search(params)], up to the two prepared statements.  The arrays
    [joins], [conditions] and [queryParams] are given by what each [if]
    pushes, in the order of the pushes. *)
Definition search_statements (params : BookSearchParams) : SearchStatements :=
  let text (v : option string) : string :=
    match v with Some s => s | None => EmptyString end in
  let number (v : option Z) : Z :=
    match v with Some n => n | None => 0%Z end in
  let joins : list string :=
    (if Js.truthy_opt (sp_authorId params)
     then ["JOIN book_authors ba ON b.id = ba.book_id"] else [])
    ++ (if Js.truthy_opt (sp_genreId params)
        then ["JOIN book_genres bg ON b.id = bg.book_id"] else [])
    ++ (if Js.truthy_opt (sp_topicId params)
        then ["JOIN book_topics bt ON b.id = bt.book_id"] else [])
    ++ (if Js.truthy_opt (sp_query params)
        then
          (if negb (Js.truthy_opt (sp_authorId params))
           then ["LEFT JOIN book_authors ba_search ON b.id = ba_search.book_id";
                 "LEFT JOIN authors a_search ON ba_search.author_id = a_search.id"]
           else ["LEFT JOIN authors a_search ON ba.author_id = a_search.id"])
          ++ (if negb (Js.truthy_opt (sp_genreId params))
              then ["LEFT JOIN book_genres bg_search ON b.id = bg_search.book_id";
                    "LEFT JOIN genres g_search ON bg_search.genre_id = g_search.id"]
              else ["LEFT JOIN genres g_search ON bg.genre_id = g_search.id"])
        else []) in
  let conditions : list string :=
    (if Js.truthy_opt (sp_authorId params) then ["ba.author_id = ?"] else [])
    ++ (if Js.truthy_opt (sp_genreId params) then ["bg.genre_id = ?"] else [])
    ++ (if Js.truthy_opt (sp_topicId params) then ["bt.topic_id = ?"] else [])
    ++ (if Js.truthy_opt (sp_query params)
        then ["(b.title LIKE ? OR b.isbn LIKE ? OR b.description LIKE ? OR a_search.name LIKE ? OR g_search.name LIKE ? OR CAST(b.publication_year AS TEXT) LIKE ?)"]
        else [])
    ++ (if Js.truthy_opt (sp_publisherId params) then ["b.publisher_id = ?"] else [])
    ++ (if Js.truthy_opt (sp_seriesId params) then ["b.series_id = ?"] else [])
    ++ (if Js.truthy_opt (sp_categoryId params) then ["b.category_id = ?"] else [])
    ++ (if Js.truthy_opt (sp_readingStatus params) then ["b.reading_status = ?"] else [])
    ++ (if Js.truthy_num (sp_yearFrom params) then ["b.publication_year >= ?"] else [])
    ++ (if Js.truthy_num (sp_yearTo params) then ["b.publication_year <= ?"] else []) in
  let searchTerm := ("%" ++ text (sp_query params) ++ "%")%string in
  let queryParams : list SqlValue :=
    (if Js.truthy_opt (sp_authorId params) then [Text (text (sp_authorId params))] else [])
    ++ (if Js.truthy_opt (sp_genreId params) then [Text (text (sp_genreId params))] else [])
    ++ (if Js.truthy_opt (sp_topicId params) then [Text (text (sp_topicId params))] else [])
    ++ (if Js.truthy_opt (sp_query params)
        then [Text searchTerm; Text searchTerm; Text searchTerm; Text searchTerm;
              Text searchTerm; Text searchTerm]
        else [])
    ++ (if Js.truthy_opt (sp_publisherId params)
        then [Text (text (sp_publisherId params))] else [])
    ++ (if Js.truthy_opt (sp_seriesId params)
        then [Text (text (sp_seriesId params))] else [])
    ++ (if Js.truthy_opt (sp_categoryId params)
        then [Text (text (sp_categoryId params))] else [])
    ++ (if Js.truthy_opt (sp_readingStatus params)
        then [Text (text (sp_readingStatus params))] else [])
    ++ (if Js.truthy_num (sp_yearFrom params)
        then [Number (number (sp_yearFrom params))] else [])
    ++ (if Js.truthy_num (sp_yearTo params)
        then [Number (number (sp_yearTo params))] else []) in
  let joined :=
    (if nonempty joins then " " ++ Js.join " " joins else EmptyString)%string in
  let filtered :=
    (if nonempty conditions then " WHERE " ++ Js.join " AND " conditions
     else EmptyString)%string in
  let sortColumn :=
    getSortColumn (if Js.truthy_opt (sp_sortBy params) then text (sp_sortBy params)
                   else "createdAt") in
  let sortOrder :=
    match sp_sortOrder params with
    | Some o => if String.eqb o "asc" then "ASC" else "DESC"
    | None => "DESC"
    end in
  let limit := Js.num_or (sp_limit params) 50 in
  let offset := Js.num_or (sp_offset params) 0 in
  mkStatements
    ("SELECT COUNT(DISTINCT b.id) as total FROM books b" ++ joined ++ filtered)%string
    queryParams
    ("SELECT DISTINCT b.* FROM books b" ++ joined ++ filtered
     ++ " ORDER BY " ++ sortColumn ++ " " ++ sortOrder ++ " LIMIT ? OFFSET ?")%string
    (queryParams ++ [Number limit; Number offset]).

End BookRepository.

(* ------------------------------------------------------------------ *)
(** ** AuthorRepository, PublisherRepository, SeriesRepository and the
       tag repositories *)

Module AuthorRepository.

(** [create(input)] *)
Definition create (uuidv4 : Database -> string) (input : NamedInput) : Tx (option NamedRow) :=
  i <- mint uuidv4 (ni_id input) ;;
  Stmt.insert_authors (mkRow i (ni_name input)) ;;
  query (fun db => Sql.get_row (authors db) i).

(** [delete(id)]: no transaction is opened here. *)
Definition delete (authorId : string) : Tx unit :=
  bookCount <- query (fun db => Sql.count_book_authors_by_author db authorId) ;;
  if Nat.ltb 0 bookCount then
    throw (JsError ("Cannot delete author: they have " ++ Js.of_nat bookCount
                    ++ " book(s) associated. Remove the author from all books first, or delete those books."))
  else
    Stmt.delete_series_authors_by_author authorId ;;
    changes <- Stmt.delete_authors authorId ;;
    if Nat.eqb changes 0
    then throw (JsError ("Author with id " ++ authorId ++ " not found"))
    else ret tt.

(** [findById(id)] *)
Definition findById (authorId : string) (db : Database) : option NamedRow :=
  Sql.get_row (authors db) authorId.

(** [findAll()]: one row for each row of [authors] ([GROUP BY] its primary
    key), [ORDER BY name ASC]; the order is a parameter, and the counts
    that come with each row are left out. *)
Definition findAll (name_asc : list NamedRow -> list NamedRow) (db : Database)
    : list NamedRow :=
  name_asc (authors db).

End AuthorRepository.

Module PublisherRepository.

(** [create(input)] *)
Definition create (uuidv4 : Database -> string) (input : NamedInput) : Tx (option NamedRow) :=
  i <- mint uuidv4 (ni_id input) ;;
  Stmt.insert_publishers (mkRow i (ni_name input)) ;;
  query (fun db => Sql.get_row (publishers db) i).

(** [delete(id)] *)
Definition delete (publisherId : string) : Tx unit :=
  bookCount <- query (fun db => Sql.count_books_by_publisher db publisherId) ;;
  if Nat.ltb 0 bookCount then
    throw (JsError ("Cannot delete publisher: it has " ++ Js.of_nat bookCount
                    ++ " book(s) associated with it"))
  else
    changes <- Stmt.delete_publishers publisherId ;;
    if Nat.eqb changes 0
    then throw (JsError ("Publisher with id " ++ publisherId ++ " not found"))
    else ret tt.

(** [findById(id)] *)
Definition findById (publisherId : string) (db : Database) : option NamedRow :=
  Sql.get_row (publishers db) publisherId.

(** [findAll()]: one row for each row of [publishers] ([GROUP BY] its primary
    key), [ORDER BY name ASC]; the order is a parameter, and the counts
    that come with each row are left out. *)
Definition findAll (name_asc : list NamedRow -> list NamedRow) (db : Database)
    : list NamedRow :=
  name_asc (publishers db).

End PublisherRepository.

Module SeriesRepository.

(** [create(input)] *)
Definition create (uuidv4 : Database -> string) (input : SeriesInput) : Tx (option NamedRow) :=
  i <- mint uuidv4 (si_id input) ;;
  transaction (
    Stmt.insert_series (mkRow i (si_name input)) ;;
    for_each (si_authorIds input) (fun authorId => Stmt.insert_series_authors (i, authorId)) ;;
    query (fun db => Sql.get_row (series db) i)).

(** [delete(id)]: the count is read before the transaction opens. *)
Definition delete (seriesId : string) : Tx unit :=
  bookCount <- query (fun db => Sql.count_books_by_series db seriesId) ;;
  if Nat.ltb 0 bookCount then
    throw (JsError ("Cannot delete series: it has " ++ Js.of_nat bookCount
                    ++ " book(s) associated with it"))
  else
    transaction (
      Stmt.delete_series_authors_by_series seriesId ;;
      changes <- Stmt.delete_series seriesId ;;
      if Nat.eqb changes 0
      then throw (JsError ("Series with id " ++ seriesId ++ " not found"))
      else ret tt).

(** [update(id, input)] *)
Definition update (seriesId : string) (input : SeriesInput) : Tx (option NamedRow) :=
  transaction (
    changes <- Stmt.update_series seriesId (si_name input) ;;
    if Nat.eqb changes 0
    then throw (JsError ("Series with id " ++ seriesId ++ " not found"))
    else
      Stmt.delete_series_authors_by_series seriesId ;;
      for_each (si_authorIds input)
        (fun authorId => Stmt.insert_series_authors (seriesId, authorId)) ;;
      query (fun db => Sql.get_row (series db) seriesId)).

(** [findById(id)] *)
Definition findById (seriesId : string) (db : Database) : option NamedRow :=
  Sql.get_row (series db) seriesId.

(** [findAll()]: one row for each row of [series], [ORDER BY name ASC],
    each with the rows of its authors; the order is a parameter, and the
    book count that comes with each row is left out. *)
Definition findAll (name_asc : list NamedRow -> list NamedRow) (db : Database)
    : list (NamedRow * list NamedRow) :=
  map (fun seriesRow => (seriesRow, Sql.authors_of_series db (id seriesRow)))
    (name_asc (series db)).

End SeriesRepository.

Module GenreRepository.

(** [create(input)] *)
Definition create (uuidv4 : Database -> string) (input : NamedInput) : Tx (option NamedRow) :=
  i <- mint uuidv4 (ni_id input) ;;
  Stmt.insert_genres (mkRow i (ni_name input)) ;;
  query (fun db => Sql.get_row (genres db) i).

(** [findById(id)] *)
Definition findById (genreId : string) (db : Database) : option NamedRow :=
  Sql.get_row (genres db) genreId.

(** [delete(id)]: no count is read first. *)
Definition delete (genreId : string) : Tx unit :=
  changes <- Stmt.delete_genres genreId ;;
  if Nat.eqb changes 0
  then throw (JsError ("Genre with id " ++ genreId ++ " not found"))
  else ret tt.

(** [findAll()]: one row for each row of [genres] ([GROUP BY] its primary
    key), [ORDER BY name ASC]; the order is a parameter, and the counts
    that come with each row are left out. *)
Definition findAll (name_asc : list NamedRow -> list NamedRow) (db : Database)
    : list NamedRow :=
  name_asc (genres db).

End GenreRepository.

Module TopicRepository.

(** [create(input)] *)
Definition create (uuidv4 : Database -> string) (input : NamedInput) : Tx (option NamedRow) :=
  i <- mint uuidv4 (ni_id input) ;;
  Stmt.insert_topics (mkRow i (ni_name input)) ;;
  query (fun db => Sql.get_row (topics db) i).

(** [findById(id)] *)
Definition findById (topicId : string) (db : Database) : option NamedRow :=
  Sql.get_row (topics db) topicId.

(** [delete(id)]: no count is read first. *)
Definition delete (topicId : string) : Tx unit :=
  changes <- Stmt.delete_topics topicId ;;
  if Nat.eqb changes 0
  then throw (JsError ("Topic with id " ++ topicId ++ " not found"))
  else ret tt.

(** [findAll()]: one row for each row of [topics] ([GROUP BY] its primary
    key), [ORDER BY name ASC]; the order is a parameter, and the counts
    that come with each row are left out. *)
Definition findAll (name_asc : list NamedRow -> list NamedRow) (db : Database)
    : list NamedRow :=
  name_asc (topics db).

End TopicRepository.

Module CategoryRepository.

(** [create(input)] *)
Definition create (uuidv4 : Database -> string) (input : NamedInput) : Tx (option NamedRow) :=
  i <- mint uuidv4 (ni_id input) ;;
  Stmt.insert_categories (mkRow i (ni_name input)) ;;
  query (fun db => Sql.get_row (categories db) i).

(** [findById(id)] *)
Definition findById (categoryId : string) (db : Database) : option NamedRow :=
  Sql.get_row (categories db) categoryId.

(** [delete(id)]: the book count is read first, then the default
    category is refused. *)
Definition delete (categoryId : string) : Tx unit :=
  bookCount <- query (fun db => Sql.count_books_by_category db categoryId) ;;
  if Nat.ltb 0 bookCount then
    throw (JsError ("Cannot delete category: it has " ++ Js.of_nat bookCount
                    ++ " book(s) associated with it"))
  else if String.eqb categoryId "default-category" then
    throw (JsError "Cannot delete the default category")
  else
    changes <- Stmt.delete_categories categoryId ;;
    if Nat.eqb changes 0
    then throw (JsError ("Category with id " ++ categoryId ++ " not found"))
    else ret tt.

(** [findAll()]: one row for each row of [categories] ([GROUP BY] its primary
    key), [ORDER BY name ASC]; the order is a parameter, and the counts
    that come with each row are left out. *)
Definition findAll (name_asc : list NamedRow -> list NamedRow) (db : Database)
    : list NamedRow :=
  name_asc (categories db).

End CategoryRepository.

(* ------------------------------------------------------------------ *)
(** ** DomainService *)

Module DomainService.

(** The [type] tag of an [IntegrityViolation]. *)
Inductive ViolationType : Type :=
| orphan_author
| orphan_publisher
| orphan_series
| series_no_authors
| book_no_publisher
| book_no_category.

Record IntegrityViolation : Type := mkViolation {
  vtype : ViolationType;
  entityType : string;
  entityId : string;
  entityName : string;
  vmessage : string
}.

Record Summary : Type := mkSummary {
  orphanAuthors : nat;
  orphanPublishers : nat;
  orphanSeries : nat;
  seriesWithNoAuthors : nat;
  booksWithNoPublisher : nat;
  booksWithNoCategory : nat
}.

Record IntegrityCheckResult : Type := mkCheck {
  isValid : bool;
  violations : list IntegrityViolation;
  summary : Summary
}.

(** [integrityCheck()] *)
Definition integrityCheck (db : Database) : IntegrityCheckResult :=
  let orphanAuthors := Sql.orphan_authors db in
  let orphanPublishers := Sql.orphan_publishers db in
  let orphanSeries := Sql.orphan_series db in
  let seriesNoAuthors := Sql.series_no_authors db in
  let booksNoPublisher := Sql.books_no_publisher db in
  let booksNoCategory := Sql.books_no_category db in
  let violations :=
    map (fun author =>
           mkViolation orphan_author "Author" (id author) (name author)
             ("Author " ++ Js.dq ++ name author ++ Js.dq
              ++ " has no books (violates: each author must have at least 1 book)"))
      orphanAuthors
    ++ map (fun publisher =>
              mkViolation orphan_publisher "Publisher" (id publisher) (name publisher)
                ("Publisher " ++ Js.dq ++ name publisher ++ Js.dq
                 ++ " has no books (violates: each publisher must have at least 1 book)"))
         orphanPublishers
    ++ map (fun s =>
              mkViolation orphan_series "Series" (id s) (name s)
                ("Series " ++ Js.dq ++ name s ++ Js.dq
                 ++ " has no books (violates: each series must have at least 1 book)"))
         orphanSeries
    ++ map (fun s =>
              mkViolation series_no_authors "Series" (id s) (name s)
                ("Series " ++ Js.dq ++ name s ++ Js.dq
                 ++ " has no authors (violates: each series must have at least 1 author)"))
         seriesNoAuthors
    ++ map (fun book =>
              mkViolation book_no_publisher "Book" (id book) (name book)
                ("Book " ++ Js.dq ++ name book ++ Js.dq ++ " has no valid publisher"))
         booksNoPublisher
    ++ map (fun book =>
              mkViolation book_no_category "Book" (id book) (name book)
                ("Book " ++ Js.dq ++ name book ++ Js.dq ++ " has no valid category"))
         booksNoCategory in
  mkCheck (Nat.eqb (length violations) 0) violations
    (mkSummary (length orphanAuthors) (length orphanPublishers) (length orphanSeries)
       (length seriesNoAuthors) (length booksNoPublisher) (length booksNoCategory)).

(** The report of [checkBookDeletionImpact]. *)
Record DeletionImpact : Type := mkDeletionImpact {
  canDelete : bool;
  d_orphanedAuthors : list NamedRow;
  d_orphanedPublisher : option NamedRow;
  d_orphanedSeries : option NamedRow;
  d_message : option string
}.

(** [checkBookDeletionImpact(bookId)] *)
Definition checkBookDeletionImpact (bookId : string) (db : Database) : DeletionImpact :=
  match Sql.get_book db bookId with
  | None => mkDeletionImpact false [] None None (Some "Book not found")
  | Some book =>
      let orphanedAuthors := Sql.authors_with_only_book db bookId in
      let publisherBookCount := Sql.count_books_by_publisher db (publisher_id book) in
      let orphanedPublisher :=
        if Nat.eqb publisherBookCount 1 then
          match Sql.get_row (publishers db) (publisher_id book) with
          | Some publisher => Some (mkRow (id publisher) (name publisher))
          | None => None
          end
        else None in
      let orphanedSeries :=
        if Js.truthy_opt (series_id book) then
          match series_id book with
          | Some sid =>
              let seriesBookCount := Sql.count_books_by_series db sid in
              if Nat.eqb seriesBookCount 1 then
                match Sql.get_row (series db) sid with
                | Some s => Some (mkRow (id s) (name s))
                | None => None
                end
              else None
          | None => None
          end
        else None in
      let problems : list string :=
        (if nonempty orphanedAuthors
         then [(Js.of_nat (length orphanedAuthors) ++ " author(s) would have no books: "
                ++ Js.join ", " (map name orphanedAuthors))%string]
         else [])
        ++ (if not_null orphanedPublisher
            then match orphanedPublisher with
                 | Some p => [("Publisher " ++ Js.dq ++ name p ++ Js.dq
                               ++ " would have no books")%string]
                 | None => []
                 end
            else [])
        ++ (if not_null orphanedSeries
            then match orphanedSeries with
                 | Some s => [("Series " ++ Js.dq ++ name s ++ Js.dq
                               ++ " would have no books")%string]
                 | None => []
                 end
            else []) in
      let canDelete := Nat.eqb (length problems) 0 in
      mkDeletionImpact canDelete orphanedAuthors orphanedPublisher orphanedSeries
        (if canDelete then None
         else Some ("Cannot delete book: " ++ Js.join "; " problems
                    ++ ". Please reassign or delete these entities first.")%string)
  end.

(** [AuthorDeleteImpact] of [src/shared/types.ts]. *)
Record AuthorDeleteImpact : Type := mkAuthorImpact {
  a_hasImpact : bool;
  a_seriesWithNoAuthors : list NamedRow
}.

(** [checkAuthorDeleteImpact(authorId)] *)
Definition checkAuthorDeleteImpact (authorId : string) (db : Database) : AuthorDeleteImpact :=
  let seriesWithNoAuthors := Sql.series_with_only_author db authorId in
  mkAuthorImpact (nonempty seriesWithNoAuthors) seriesWithNoAuthors.

(** [CleanupResult] of [src/shared/types.ts]: the names of what was removed. *)
Record CleanupResult : Type := mkCleanup {
  deletedAuthors : list string;
  deletedPublishers : list string;
  deletedSeries : list string
}.

(** [cleanupOrphans()] *)
Definition cleanupOrphans : Tx CleanupResult :=
  transaction (
    orphanAuthors <- query Sql.orphan_authors ;;
    for_each orphanAuthors
      (fun author =>
         Stmt.delete_series_authors_by_author (id author) ;;
         Stmt.delete_authors (id author) ;;
         ret tt) ;;
    orphanPublishers <- query Sql.orphan_publishers ;;
    for_each orphanPublishers
      (fun publisher => Stmt.delete_publishers (id publisher) ;; ret tt) ;;
    orphanSeries <- query Sql.orphan_series ;;
    for_each orphanSeries
      (fun s =>
         Stmt.delete_series_authors_by_series (id s) ;;
         Stmt.delete_series (id s) ;;
         ret tt) ;;
    ret (mkCleanup (map name orphanAuthors) (map name orphanPublishers)
           (map name orphanSeries))).

(** What [deleteBookWithCascade] returns. *)
Record CascadeResult : Type := mkCascadeResult {
  r_success : bool;
  r_message : string;
  r_deletedEntities : list string
}.

(** The lines pushed on [deletedEntities] by a cascade that completes. *)
Definition deleted_entities (bookTitle : string) (cleanupOrphans : bool)
    (impact : DeletionImpact) : list string :=
  [("Book: " ++ bookTitle)%string]
  ++ (if cleanupOrphans
      then map (fun author => ("Author: " ++ name author)%string) (d_orphanedAuthors impact)
           ++ match d_orphanedPublisher impact with
              | Some p => [("Publisher: " ++ name p)%string]
              | None => []
              end
           ++ match d_orphanedSeries impact with
              | Some s => [("Series: " ++ name s)%string]
              | None => []
              end
      else []).

(** [deleteBookWithCascade(bookId, cleanupOrphans)].  The impact is read
    before the transaction opens; [deletedEntities] is read only when the
    transaction completes. *)
Definition deleteBookWithCascade (bookId : string) (cleanupOrphans : bool)
    : Tx CascadeResult :=
  impact <- query (checkBookDeletionImpact bookId) ;;
  if negb (canDelete impact) && negb cleanupOrphans then
    ret (mkCascadeResult false
           (match d_message impact with
            | Some m => if Js.truthy m then m
                        else "Cannot delete book due to business rule violations"
            | None => "Cannot delete book due to business rule violations"
            end)
           [])
  else
    transaction (
      found <- query (fun db => Sql.get_book db bookId) ;;
      match found with
      | None => throw (JsError "Book not found")
      | Some book =>
          Stmt.delete_book_authors_by_book bookId ;;
          Stmt.delete_book_genres_by_book bookId ;;
          Stmt.delete_book_topics_by_book bookId ;;
          Stmt.delete_books bookId ;;
          (if cleanupOrphans then
             for_each (d_orphanedAuthors impact)
               (fun author =>
                  Stmt.delete_series_authors_by_author (id author) ;;
                  Stmt.delete_authors (id author) ;;
                  ret tt) ;;
             match d_orphanedPublisher impact with
             | Some p => Stmt.delete_publishers (id p) ;; ret tt
             | None => ret tt
             end ;;
             match d_orphanedSeries impact with
             | Some s =>
                 Stmt.delete_series_authors_by_series (id s) ;;
                 Stmt.delete_series (id s) ;;
                 ret tt
             | None => ret tt
             end
           else ret tt) ;;
          let deletedEntities := deleted_entities (title book) cleanupOrphans impact in
          ret (mkCascadeResult true
                 ("Successfully deleted: " ++ Js.join ", " deletedEntities)
                 deletedEntities)
      end).

(** [getAuthorBookCount(authorId)] *)
Definition getAuthorBookCount (authorId : string) (db : Database) : nat :=
  Sql.count_book_authors_by_author db authorId.

(** [getPublisherBookCount(publisherId)] *)
Definition getPublisherBookCount (publisherId : string) (db : Database) : nat :=
  Sql.count_books_by_publisher db publisherId.

(** [getSeriesBookCount(seriesId)] *)
Definition getSeriesBookCount (seriesId : string) (db : Database) : nat :=
  Sql.count_books_by_series db seriesId.

(** What the three [canDelete...] checks return. *)
Record DeleteVerdict : Type := mkVerdict {
  v_canDelete : bool;
  v_message : option string;
  v_bookCount : nat
}.

(** [canDeleteAuthor(authorId)] *)
Definition canDeleteAuthor (authorId : string) (db : Database) : DeleteVerdict :=
  let bookCount := getAuthorBookCount authorId db in
  if Nat.ltb 0 bookCount then
    mkVerdict false
      (Some ("Cannot delete author: they have " ++ Js.of_nat bookCount
             ++ " book(s). Remove the author from all books first.")%string)
      bookCount
  else mkVerdict true None 0.

(** [canDeletePublisher(publisherId)] *)
Definition canDeletePublisher (publisherId : string) (db : Database) : DeleteVerdict :=
  let bookCount := getPublisherBookCount publisherId db in
  if Nat.ltb 0 bookCount then
    mkVerdict false
      (Some ("Cannot delete publisher: they have " ++ Js.of_nat bookCount
             ++ " book(s). Reassign books to another publisher first.")%string)
      bookCount
  else mkVerdict true None 0.

(** [canDeleteSeries(seriesId)] *)
Definition canDeleteSeries (seriesId : string) (db : Database) : DeleteVerdict :=
  let bookCount := getSeriesBookCount seriesId db in
  if Nat.ltb 0 bookCount then
    mkVerdict false
      (Some ("Cannot delete series: it has " ++ Js.of_nat bookCount
             ++ " book(s). Remove books from the series first.")%string)
      bookCount
  else mkVerdict true None 0.

End DomainService.

(* ------------------------------------------------------------------ *)
(** ** ImportExportService *)

Module ImportExportService.

(** [SeriesWithAuthors], as found in an export file. *)
Record SeriesWithAuthors : Type := mkSeriesRecord {
  s_id : string;
  s_name : string;
  s_authors : list NamedRow
}.

(** [BookWithRelations], as found in an export file. *)
Record BookWithRelations : Type := mkBookRecord {
  b_id : string;
  b_title : string;
  b_publisherId : string;
  b_seriesId : option string;
  b_categoryId : string;
  b_authors : list NamedRow;
  b_genres : list NamedRow;
  b_topics : list NamedRow
}.

(** [ExportData]: the parsed file, when it has the shape that
    [exportToJson] writes.  Every group is a list of records that carry the
    fields read below; a group that is missing from the file is the empty
    list ([data.categories || []]).  The scalar fields of a book record
    go with the columns that are left out; the reading status and the
    rating of a record are taken to pass the two CHECK constraints of
    [books], as those of every exported record do.  A file of another shape
    (a group that is not an array, a record that is [null]) makes the loops
    throw outside the per-record handlers and is not covered by this
    type. *)
Record ExportData : Type := mkExport {
  version : string;
  data_books : list BookWithRelations;
  data_authors : list NamedRow;
  data_publishers : list NamedRow;
  data_series : list SeriesWithAuthors;
  data_genres : list NamedRow;
  data_topics : list NamedRow;
  data_categories : list NamedRow
}.

Record ImportResult : Type := mkResult {
  success : bool;
  booksImported : nat;
  authorsImported : nat;
  publishersImported : nat;
  seriesImported : nat;
  genresImported : nat;
  topicsImported : nat;
  categoriesImported : nat;
  errors : list string
}.

(** The store together with the [result] object that [importFromJson]
    mutates; a rollback restores the store and leaves [result] as it is. *)
Record Heap : Type := mkHeap {
  store : Database;
  result : ImportResult
}.

Definition lift {A : Type} (m : Tx A) : M Heap A :=
  fun h =>
    match m (store h) with
    | (db', r) => (mkHeap db' (result h), r)
    end.

(** [transaction(fn)] around a body that also writes to [result]. *)
Definition transaction_heap {A : Type} (fn : M Heap A) : M Heap A :=
  fun h =>
    match fn h with
    | (h', inr a) => (h', inr a)
    | (h', inl e) => (mkHeap (store h) (result h'), inl e)
    end.

Definition on_result (f : ImportResult -> ImportResult) : M Heap unit :=
  modify (fun h => mkHeap (store h) (f (result h))).

(** [result.errors.push(msg)] *)
Definition push_error (msg : string) : M Heap unit :=
  on_result (fun r =>
    mkResult (success r) (booksImported r) (authorsImported r) (publishersImported r)
      (seriesImported r) (genresImported r) (topicsImported r) (categoriesImported r)
      (errors r ++ [msg])).

Definition incr_books : M Heap unit :=
  on_result (fun r =>
    mkResult (success r) (S (booksImported r)) (authorsImported r) (publishersImported r)
      (seriesImported r) (genresImported r) (topicsImported r) (categoriesImported r)
      (errors r)).

Definition incr_authors : M Heap unit :=
  on_result (fun r =>
    mkResult (success r) (booksImported r) (S (authorsImported r)) (publishersImported r)
      (seriesImported r) (genresImported r) (topicsImported r) (categoriesImported r)
      (errors r)).

Definition incr_publishers : M Heap unit :=
  on_result (fun r =>
    mkResult (success r) (booksImported r) (authorsImported r) (S (publishersImported r))
      (seriesImported r) (genresImported r) (topicsImported r) (categoriesImported r)
      (errors r)).

Definition incr_series : M Heap unit :=
  on_result (fun r =>
    mkResult (success r) (booksImported r) (authorsImported r) (publishersImported r)
      (S (seriesImported r)) (genresImported r) (topicsImported r) (categoriesImported r)
      (errors r)).

Definition incr_genres : M Heap unit :=
  on_result (fun r =>
    mkResult (success r) (booksImported r) (authorsImported r) (publishersImported r)
      (seriesImported r) (S (genresImported r)) (topicsImported r) (categoriesImported r)
      (errors r)).

Definition incr_topics : M Heap unit :=
  on_result (fun r =>
    mkResult (success r) (booksImported r) (authorsImported r) (publishersImported r)
      (seriesImported r) (genresImported r) (S (topicsImported r)) (categoriesImported r)
      (errors r)).

Definition incr_categories : M Heap unit :=
  on_result (fun r =>
    mkResult (success r) (booksImported r) (authorsImported r) (publishersImported r)
      (seriesImported r) (genresImported r) (topicsImported r) (S (categoriesImported r))
      (errors r)).

(** [result.success = result.errors.length === 0] *)
Definition set_success : M Heap unit :=
  on_result (fun r =>
    mkResult (Nat.eqb (length (errors r)) 0) (booksImported r) (authorsImported r)
      (publishersImported r) (seriesImported r) (genresImported r) (topicsImported r)
      (categoriesImported r) (errors r)).

Definition initial_result : ImportResult :=
  mkResult false 0 0 0 0 0 0 0 [].

(** The message pushed when a record fails. *)
Definition failed_message (kind recordName : string) (e : Error) : string :=
  "Failed to import " ++ kind ++ " " ++ Js.dq ++ recordName ++ Js.dq ++ ": " ++ message e.

Section Merge.

Variable uuidv4 : Database -> string.

Definition import_category (category : NamedRow) : M Heap unit :=
  try_catch
    (existing <- lift (query (CategoryRepository.findById (id category))) ;;
     match existing with
     | Some _ => ret tt
     | None =>
         lift (CategoryRepository.create uuidv4
                 (mkNamedInput (Some (id category)) (name category))) ;;
         incr_categories
     end)
    (fun error => push_error (failed_message "category" (name category) error)).

Definition import_author (author : NamedRow) : M Heap unit :=
  try_catch
    (existing <- lift (query (AuthorRepository.findById (id author))) ;;
     match existing with
     | Some _ => ret tt
     | None =>
         lift (AuthorRepository.create uuidv4
                 (mkNamedInput (Some (id author)) (name author))) ;;
         incr_authors
     end)
    (fun error => push_error (failed_message "author" (name author) error)).

Definition import_publisher (publisher : NamedRow) : M Heap unit :=
  try_catch
    (existing <- lift (query (PublisherRepository.findById (id publisher))) ;;
     match existing with
     | Some _ => ret tt
     | None =>
         lift (PublisherRepository.create uuidv4
                 (mkNamedInput (Some (id publisher)) (name publisher))) ;;
         incr_publishers
     end)
    (fun error => push_error (failed_message "publisher" (name publisher) error)).

Definition import_genre (genre : NamedRow) : M Heap unit :=
  try_catch
    (existing <- lift (query (GenreRepository.findById (id genre))) ;;
     match existing with
     | Some _ => ret tt
     | None =>
         lift (GenreRepository.create uuidv4
                 (mkNamedInput (Some (id genre)) (name genre))) ;;
         incr_genres
     end)
    (fun error => push_error (failed_message "genre" (name genre) error)).

Definition import_topic (topic : NamedRow) : M Heap unit :=
  try_catch
    (existing <- lift (query (TopicRepository.findById (id topic))) ;;
     match existing with
     | Some _ => ret tt
     | None =>
         lift (TopicRepository.create uuidv4
                 (mkNamedInput (Some (id topic)) (name topic))) ;;
         incr_topics
     end)
    (fun error => push_error (failed_message "topic" (name topic) error)).

Definition import_series (s : SeriesWithAuthors) : M Heap unit :=
  try_catch
    (existing <- lift (query (SeriesRepository.findById (s_id s))) ;;
     match existing with
     | Some _ => ret tt
     | None =>
         let authorIds := map id (s_authors s) in
         if nonempty authorIds then
           lift (SeriesRepository.create uuidv4
                   (mkSeriesInput (Some (s_id s)) (s_name s) authorIds)) ;;
           incr_series
         else ret tt
     end)
    (fun error => push_error (failed_message "series" (s_name s) error)).

Definition import_book (book : BookWithRelations) : M Heap unit :=
  try_catch
    (existing <- lift (query (BookRepository.findById (b_id book))) ;;
     match existing with
     | Some _ => ret tt
     | None =>
         lift (BookRepository.create uuidv4
                 (mkBookInput (Some (b_id book)) (b_title book) (b_publisherId book)
                    (b_seriesId book) (b_categoryId book)
                    (map id (b_authors book)) (map id (b_genres book))
                    (map id (b_topics book)))) ;;
         incr_books
     end)
    (fun error => push_error (failed_message "book" (b_title book) error)).

(** The clean-up pass that closes the import transaction. *)
Definition import_cleanup : M Heap unit :=
  cleanup <- lift DomainService.cleanupOrphans ;;
  (if nonempty (DomainService.deletedAuthors cleanup)
   then push_error ("Cleaned up " ++ Js.of_nat (length (DomainService.deletedAuthors cleanup))
                    ++ " orphan author(s) without books")
   else ret tt) ;;
  (if nonempty (DomainService.deletedPublishers cleanup)
   then push_error ("Cleaned up "
                    ++ Js.of_nat (length (DomainService.deletedPublishers cleanup))
                    ++ " orphan publisher(s) without books")
   else ret tt) ;;
  (if nonempty (DomainService.deletedSeries cleanup)
   then push_error ("Cleaned up " ++ Js.of_nat (length (DomainService.deletedSeries cleanup))
                    ++ " orphan series without books")
   else ret tt).

(** The body handed to [transaction] by [importFromJson]. *)
Definition import_groups (data : ExportData) : M Heap unit :=
  for_each (data_categories data) import_category ;;
  for_each (data_authors data) import_author ;;
  for_each (data_publishers data) import_publisher ;;
  for_each (data_genres data) import_genre ;;
  for_each (data_topics data) import_topic ;;
  for_each (data_series data) import_series ;;
  for_each (data_books data) import_book ;;
  import_cleanup.

(** [importFromJson(filePath)], from the point where the file has been read
    and parsed into [data]. *)
Definition importFromJson (data : ExportData) (db : Database) : Database * ImportResult :=
  let run : M Heap unit :=
    try_catch
      (if negb (Js.truthy (version data))
       then push_error "Invalid export file: missing version"
       else
         transaction_heap (import_groups data) ;;
         set_success)
      (fun error => push_error ("Failed to parse import file: " ++ message error)) in
  match run (mkHeap db initial_result) with
  | (h, _) => (store h, result h)
  end.

End Merge.

(** [exportToJson(filePath)], up to the data handed to [JSON.stringify]:
    of each record, the fields that [importFromJson] reads back.  The two
    orders of the [findAll] queries are parameters. *)
Definition exportToJson (created_at_desc : list BookRow -> list BookRow)
    (name_asc : list NamedRow -> list NamedRow) (db : Database) : ExportData :=
  let books := BookRepository.findAll created_at_desc db in
  let authors := AuthorRepository.findAll name_asc db in
  let publishers := PublisherRepository.findAll name_asc db in
  let series := SeriesRepository.findAll name_asc db in
  let genres := GenreRepository.findAll name_asc db in
  let topics := TopicRepository.findAll name_asc db in
  let categories := CategoryRepository.findAll name_asc db in
  mkExport "1.0.0"
    (map (fun v =>
            mkBookRecord (BookRepository.view_id v) (BookRepository.view_title v)
              (BookRepository.view_publisherId v) (BookRepository.view_seriesId v)
              (BookRepository.view_categoryId v) (BookRepository.view_authors v)
              (BookRepository.view_genres v) (BookRepository.view_topics v))
       books)
    authors publishers
    (map (fun s => mkSeriesRecord (id (fst s)) (name (fst s)) (snd s)) series)
    genres topics categories.

(** [escapeCsvField(value)] *)
Definition escapeCsvField (value : string) : string :=
  if Js.has_char "," value || Js.has_char (ascii_of_nat 34) value
     || Js.has_char (ascii_of_nat 10) value
  then Js.dq ++ Js.replace_char (ascii_of_nat 34) (Js.dq ++ Js.dq) value ++ Js.dq
  else value.

End ImportExportService.

(* ------------------------------------------------------------------ *)
(** ** The IPC handlers of [electron/ipc/handlers.ts] *)

Module Handlers.

(** [handleError(error)]: throws a new [Error] with the same message. *)
Definition handleError {A : Type} (error : Error) : Tx A :=
  throw (JsError (message error)).

Definition BOOK_DELETE (bookId : string) (cleanupOrphans : bool) : Tx unit :=
  try_catch (BookRepository.delete bookId cleanupOrphans) handleError.

(** [BookSchema.parse(input)].  The Zod schema of [shared/types.ts] is a
    parameter, [parse]: it gives the validated input, or the [ZodError]
    that it throws on an input it rejects. *)
Definition BookSchema_parse (parse : BookInput -> Error + BookInput) (input : BookInput)
    : Tx BookInput :=
  fun db => (db, parse input).

Definition BOOK_UPDATE (parse : BookInput -> Error + BookInput) (bookId : string)
    (input : BookInput) (cleanupOrphans : bool) : Tx (option BookRow) :=
  try_catch
    (validated <- BookSchema_parse parse input ;;
     BookRepository.update bookId validated cleanupOrphans)
    handleError.

Definition BOOK_CHECK_DELETE_IMPACT (bookId : string) : Tx BookDeleteImpact :=
  try_catch (query (BookRepository.checkDeleteImpact bookId)) handleError.

Definition BOOK_CHECK_UPDATE_IMPACT (parse : BookInput -> Error + BookInput)
    (bookId : string) (input : BookInput) : Tx BookDeleteImpact :=
  try_catch
    (validated <- BookSchema_parse parse input ;;
     query (BookRepository.checkUpdateImpact bookId validated))
    handleError.

Definition AUTHOR_DELETE (authorId : string) : Tx unit :=
  try_catch (AuthorRepository.delete authorId) handleError.

Definition AUTHOR_CHECK_DELETE_IMPACT (authorId : string) : Tx DomainService.AuthorDeleteImpact :=
  try_catch (query (DomainService.checkAuthorDeleteImpact authorId)) handleError.

Definition PUBLISHER_DELETE (publisherId : string) : Tx unit :=
  try_catch (PublisherRepository.delete publisherId) handleError.

Definition SERIES_DELETE (seriesId : string) : Tx unit :=
  try_catch (SeriesRepository.delete seriesId) handleError.

Definition LIBRARY_INTEGRITY_CHECK : Tx DomainService.IntegrityCheckResult :=
  try_catch (query DomainService.integrityCheck) handleError.

Definition LIBRARY_CLEANUP_ORPHANS : Tx DomainService.CleanupResult :=
  try_catch DomainService.cleanupOrphans handleError.

End Handlers.

(* ------------------------------------------------------------------ *)
(** ** The authors page *)

Module AuthorsPage.

(** [AuthorWithStats], as the page holds it in its list. *)
Record AuthorWithStats : Type := mkListed {
  listed_id : string;
  listed_name : string;
  listed_bookCount : nat
}.

(** [handleDelete(author)].  The state is the store behind the two
    handlers; the alerts shown are returned.  [confirm] is the answer of
    the user to the question asked, and [rejected] is the message of the
    error that the renderer catches when a handler throws.  The closing
    [loadAuthors()] only reads and is left out. *)
Definition handleDelete (rejected : Error -> string) (confirm : string -> bool)
    (author : AuthorWithStats) (db : Database) : Database * list string :=
  if Nat.ltb 0 (listed_bookCount author) then
    (db,
     [("Cannot delete " ++ Js.dq ++ listed_name author ++ Js.dq ++ " because they have "
       ++ Js.of_nat (listed_bookCount author) ++ " book(s)." ++ Js.nl ++ Js.nl
       ++ "To delete this author, first remove them from all their books, or delete those books.")%string])
  else
    match Handlers.AUTHOR_CHECK_DELETE_IMPACT (listed_id author) db with
    | (db1, inl err) => (db1, [("Failed to check deletion impact: " ++ rejected err)%string])
    | (db1, inr impact) =>
        if DomainService.a_hasImpact impact then
          (db1,
           [("Cannot delete " ++ Js.dq ++ listed_name author ++ Js.dq
             ++ " because they are the only author of the following series:" ++ Js.nl ++ Js.nl
             ++ Js.join ", " (map name (DomainService.a_seriesWithNoAuthors impact))
             ++ Js.nl ++ Js.nl
             ++ "To delete this author, first add another author to these series, or delete the series.")%string])
        else if negb (confirm ("Are you sure you want to delete " ++ Js.dq
                               ++ listed_name author ++ Js.dq ++ "?")%string)
        then (db1, [])
        else
          match Handlers.AUTHOR_DELETE (listed_id author) db1 with
          | (db2, inl err) => (db2, [("Failed to delete author: " ++ rejected err)%string])
          | (db2, inr _) => (db2, [])
          end
    end.

End AuthorsPage.

(* ------------------------------------------------------------------ *)
(** * Properties *)

(** ** Well-formed stores *)

(** The foreign keys declared by the schema, as SQLite enforces them. *)
Definition foreign_keys_ok (db : Database) : bool :=
  forallb (Stmt.book_fks_ok db) (books db)
  && forallb (fun l => Sql.has_book db (fst l) && Sql.has_row (authors db) (snd l))
       (book_authors db)
  && forallb (fun l => Sql.has_book db (fst l) && Sql.has_row (genres db) (snd l))
       (book_genres db)
  && forallb (fun l => Sql.has_book db (fst l) && Sql.has_row (topics db) (snd l))
       (book_topics db)
  && forallb (fun l => Sql.has_row (series db) (fst l) && Sql.has_row (authors db) (snd l))
       (series_authors db).

(** A small library used by the examples: two authors, one publisher, one
    series.  Ann wrote the stand-alone book [b1]; Bob wrote [b2], the one
    book of the saga, whose registered author is Ann. *)
Definition library : Database :=
  mkDb [mkRow "A" "Ann"; mkRow "B" "Bob"]
       [mkRow "P" "Pub"]
       [mkRow "S" "Saga"]
       [] []
       [mkRow "C" "General"]
       [mkBook "b1" "One" "P" None "C"; mkBook "b2" "Two" "P" (Some "S") "C"]
       [("b1", "A"); ("b2", "B")]
       [] []
       [("S", "A")].

(** The scenario of the specification: book [X] is the only book of author
    [A1], of publisher [P1] and of series [S1]. *)
Definition single_shelf : Database :=
  mkDb [mkRow "A1" "Ada"]
       [mkRow "P1" "Press"]
       [mkRow "S1" "Cycle"]
       [mkRow "G" "Fiction"] []
       [mkRow "C" "General"]
       [mkBook "X" "The Book" "P1" (Some "S1") "C"]
       [("X", "A1")]
       [("X", "G")] []
       [("S1", "A1")].

(** The library after Ann's book is gone but Ann is still registered: she
    has no book and is the only author of the saga. *)
Definition ann_without_books : Database :=
  mkDb [mkRow "A" "Ann"; mkRow "B" "Bob"]
       [mkRow "P" "Pub"]
       [mkRow "S" "Saga"]
       [] []
       [mkRow "C" "General"]
       [mkBook "b2" "Two" "P" (Some "S") "C"]
       [("b2", "B")]
       [] []
       [("S", "A")].

(** A generator for the examples; it is never consulted there. *)
Definition fixed_uuid (db : Database) : string := "00000000-0000-4000-8000-000000000000".

(** An export file with one author and no book. *)
Definition lone_author_batch : ImportExportService.ExportData :=
  ImportExportService.mkExport "1.0.0" [] [mkRow "X" "Xavier"] [] [] [] [] [].

(** An export file whose only record is a series without authors. *)
Definition authorless_series_batch : ImportExportService.ExportData :=
  ImportExportService.mkExport "1.0.0" []
    [] [] [ImportExportService.mkSeriesRecord "S2" "Sequel" []] [] [] [].

(** [same_rows E D]: the entity tables of [D] are those of [E]; only link
    rows may differ. *)
Definition same_rows (E D : Database) : Prop :=
  authors D = authors E /\ publishers D = publishers E /\ series D = series E
  /\ genres D = genres E /\ topics D = topics E /\ categories D = categories E
  /\ books D = books E.

(** [grows E D]: every row of [E] is a row of the same table of [D]. *)
Definition grows (E D : Database) : Prop :=
  incl (authors E) (authors D) /\ incl (publishers E) (publishers D)
  /\ incl (series E) (series D) /\ incl (genres E) (genres D)
  /\ incl (topics E) (topics D) /\ incl (categories E) (categories D)
  /\ incl (books E) (books D) /\ incl (book_authors E) (book_authors D)
  /\ incl (book_genres E) (book_genres D) /\ incl (book_topics E) (book_topics D)
  /\ incl (series_authors E) (series_authors D).

(** What the series group and the book group do to the store: rows are
    added and the authors table is left alone. *)
Definition series_phase (E D : Database) : Prop :=
  grows E D /\ authors D = authors E.

(** What the book group does to the store: rows are added and the six
    tables a book refers to are left alone. *)
Definition books_phase (E D : Database) : Prop :=
  grows E D /\ authors D = authors E /\ publishers D = publishers E
  /\ series D = series E /\ genres D = genres E /\ topics D = topics E
  /\ categories D = categories E.

(** The result with more error lines and nothing else changed. *)
Definition with_errors (r : ImportExportService.ImportResult) (es : list string)
    : ImportExportService.ImportResult :=
  ImportExportService.mkResult
    (ImportExportService.success r) (ImportExportService.booksImported r)
    (ImportExportService.authorsImported r) (ImportExportService.publishersImported r)
    (ImportExportService.seriesImported r) (ImportExportService.genresImported r)
    (ImportExportService.topicsImported r) (ImportExportService.categoriesImported r)
    (ImportExportService.errors r ++ es).

(** A step is inert on store [D] when, started there, it neither throws
    nor writes nor counts: at most it adds error lines. *)
Definition inert (step : M ImportExportService.Heap unit) (D : Database) : Prop :=
  forall r, exists es,
    step (ImportExportService.mkHeap D r)
    = (ImportExportService.mkHeap D (with_errors r es), inr tt).

(** A statement or call completes, rather than throws, on store [db]. *)
Definition succeeds {A : Type} (m : Tx A) (db : Database) : bool :=
  match snd (m db) with
  | inr _ => true
  | inl _ => false
  end.

(** Every record of the batch carries a non-empty identifier. *)
Definition ids_nonempty (data : ImportExportService.ExportData) : bool :=
  forallb (fun r => Js.truthy (id r)) (ImportExportService.data_categories data)
  && forallb (fun r => Js.truthy (id r)) (ImportExportService.data_authors data)
  && forallb (fun r => Js.truthy (id r)) (ImportExportService.data_publishers data)
  && forallb (fun r => Js.truthy (id r)) (ImportExportService.data_genres data)
  && forallb (fun r => Js.truthy (id r)) (ImportExportService.data_topics data)
  && forallb (fun r => Js.truthy (ImportExportService.s_id r))
       (ImportExportService.data_series data)
  && forallb (fun r => Js.truthy (ImportExportService.b_id r))
       (ImportExportService.data_books data).

(** The store has no orphan author, publisher or series. *)
Definition no_orphans (db : Database) : bool :=
  negb (nonempty (Sql.orphan_authors db))
  && negb (nonempty (Sql.orphan_publishers db))
  && negb (nonempty (Sql.orphan_series db)).

(** An export of the single shelf, every record in the order of the
    file, with one more book whose publisher is in no file and in no
    store. *)
Definition stray_book_batch : ImportExportService.ExportData :=
  ImportExportService.mkExport "1.0.0"
    [ImportExportService.mkBookRecord "X" "The Book" "P1" (Some "S1") "C"
       [mkRow "A1" "Ada"] [mkRow "G" "Fiction"] [];
     ImportExportService.mkBookRecord "Y" "Stray" "P9" None "C" [] [] []]
    [mkRow "A1" "Ada"]
    [mkRow "P1" "Press"]
    [ImportExportService.mkSeriesRecord "S1" "Cycle" [mkRow "A1" "Ada"]]
    [mkRow "G" "Fiction"]
    []
    [mkRow "C" "General"].

(** The single shelf export with the identifier of its book left empty. *)
Definition unnamed_book_batch : ImportExportService.ExportData :=
  ImportExportService.mkExport "1.0.0"
    [ImportExportService.mkBookRecord EmptyString "The Book" "P1" (Some "S1") "C"
       [mkRow "A1" "Ada"] [mkRow "G" "Fiction"] []]
    [mkRow "A1" "Ada"]
    [mkRow "P1" "Press"]
    [ImportExportService.mkSeriesRecord "S1" "Cycle" [mkRow "A1" "Ada"]]
    [mkRow "G" "Fiction"]
    []
    [mkRow "C" "General"].

(** A generator that never gives the same book identifier twice. *)
Definition counting_uuid (db : Database) : string :=
  "book-" ++ Js.of_nat (length (books db)).

(** The shape shared by the seven groups of [importFromJson]: look the
    record up, create and count it when it is not there, and turn an
    exception into an error line. *)
Definition record_step {R C : Type} (find : Database -> option R) (create : Tx C)
    (count : ImportExportService.ImportResult -> ImportExportService.ImportResult)
    (describe : Error -> string) : M ImportExportService.Heap unit :=
  try_catch
    (existing <- ImportExportService.lift (query find) ;;
     match existing with
     | Some _ => ret tt
     | None => ImportExportService.lift create ;; ImportExportService.on_result count
     end)
    (fun error => ImportExportService.push_error (describe error)).

(** The keys the delete paths count on: book ids are unique, no
    [book_authors] row is repeated (both are primary keys), and series ids
    are non-empty, as [create] mints them. *)
Definition keys_ok (db : Database) : Prop :=
  NoDup (map book_id (books db))
  /\ NoDup (book_authors db)
  /\ forallb (fun s => Js.truthy (id s)) (series db) = true.

(** An edit of book [b1] that gives it to Bob. *)
Definition b1_to_bob : BookInput :=
  mkBookInput None "One" "P" None "C" ["B"] [] [].

(** An export file with a new author, a series of that author, and a
    book of the series that lists no author. *)
Definition sequel_batch : ImportExportService.ExportData :=
  ImportExportService.mkExport "1.0.0"
    [ImportExportService.mkBookRecord "b3" "Three" "P" (Some "S2") "C" [] [] []]
    [mkRow "A2" "Al"]
    []
    [ImportExportService.mkSeriesRecord "S2" "Sequel" [mkRow "A2" "Al"]]
    [] [] [].

(** The store once book [b] and its link rows are gone. *)
Definition remove_book (b : string) (db : Database) : Database :=
  mkDb (authors db) (publishers db) (series db) (genres db) (topics db) (categories db)
    (filter (fun r => negb (String.eqb (book_id r) b)) (books db))
    (Stmt.without_left (book_authors db) b)
    (Stmt.without_left (book_genres db) b)
    (Stmt.without_left (book_topics db) b)
    (series_authors db).

(** The store without its orphans: the authors, publishers and series
    that have a book, and the series links between authors and series that
    are both kept. *)
Definition without_orphans (db : Database) : Database :=
  mkDb (filter (fun a => existsb (fun ba => String.eqb (id a) (snd ba)) (book_authors db))
          (authors db))
       (filter (fun p => existsb (fun b => String.eqb (id p) (publisher_id b)) (books db))
          (publishers db))
       (filter (fun s => existsb (fun b => Sql.series_is b (id s)) (books db)) (series db))
       (genres db) (topics db) (categories db)
       (books db) (book_authors db) (book_genres db) (book_topics db)
       (filter (fun x => negb (Sql.has_row (Sql.orphan_series db) (fst x)))
          (filter (fun x => negb (Sql.has_row (Sql.orphan_authors db) (snd x)))
             (series_authors db))).

(** Every record of the batch is in the store already, under its id. *)
Definition all_present (data : ImportExportService.ExportData) (db : Database) : bool :=
  forallb (fun r => Sql.has_row (categories db) (id r))
    (ImportExportService.data_categories data)
  && forallb (fun r => Sql.has_row (authors db) (id r)) (ImportExportService.data_authors data)
  && forallb (fun r => Sql.has_row (publishers db) (id r))
       (ImportExportService.data_publishers data)
  && forallb (fun r => Sql.has_row (genres db) (id r)) (ImportExportService.data_genres data)
  && forallb (fun r => Sql.has_row (topics db) (id r)) (ImportExportService.data_topics data)
  && forallb (fun r => Sql.has_row (series db) (ImportExportService.s_id r))
       (ImportExportService.data_series data)
  && forallb (fun r => Sql.has_book db (ImportExportService.b_id r))
       (ImportExportService.data_books data).

(** An export file with one author, under the id of the author of the
    single shelf but under another name. *)
Definition renamed_author_batch : ImportExportService.ExportData :=
  ImportExportService.mkExport "1.0.0" [] [mkRow "A1" "Countess of Lovelace"] [] [] [] [] [].

(** No string is listed twice. *)
Fixpoint distinct (l : list string) : bool :=
  match l with
  | [] => true
  | x :: rest => negb (Js.includes rest x) && distinct rest
  end.

(** The rows [(i, x)], for [x] in [ids], can be inserted in [links] one
    after the other: none is there, no [x] is listed twice and every [x] is
    the id of a row of [t]. *)
Definition linkable (links : list Link) (t : list NamedRow) (i : string) (ids : list string)
    : bool :=
  forallb (fun x => negb (Stmt.has_link links (i, x)) && Sql.has_row t x) ids
  && distinct ids.

(** The id under which a [create] writes: [input.id || uuidv4()]. *)
Definition minted (uuidv4 : Database -> string) (i : option string) (db : Database) : string :=
  match i with
  | Some s => if Js.truthy s then s else uuidv4 db
  | None => uuidv4 db
  end.

(** The row that [BookRepository.create] writes under id [i]. *)
Definition book_row_of (i : string) (input : BookInput) : BookRow :=
  mkBook i (bi_title input) (publisherId input) (Js.or_null (seriesId input))
    (categoryId input).

(** What [BookRepository.create] needs of the store to write a book under
    id [i]: the id is free, the publisher, the category and the series are
    there, and the authors, genres and topics can be linked. *)
Definition book_creatable (i : string) (input : BookInput) (db : Database) : bool :=
  negb (Sql.has_book db i)
  && Stmt.book_fks_ok db (book_row_of i input)
  && linkable (book_authors db) (authors db) i (authorIds input)
  && linkable (book_genres db) (genres db) i (genreIds input)
  && linkable (book_topics db) (topics db) i (topicIds input).

(** The store after a book was written under id [i]. *)
Definition with_book (i : string) (input : BookInput) (db : Database) : Database :=
  mkDb (authors db) (publishers db) (series db) (genres db) (topics db) (categories db)
    (books db ++ [book_row_of i input])
    (book_authors db ++ map (fun x => (i, x)) (authorIds input))
    (book_genres db ++ map (fun x => (i, x)) (genreIds input))
    (book_topics db ++ map (fun x => (i, x)) (topicIds input))
    (series_authors db).

(** What [SeriesRepository.create] needs of the store to write a series
    under id [i], and the store it leaves. *)
Definition series_creatable (i : string) (input : SeriesInput) (db : Database) : bool :=
  negb (Sql.has_row (series db) i)
  && linkable (series_authors db) (authors db) i (si_authorIds input).

Definition with_series (i : string) (input : SeriesInput) (db : Database) : Database :=
  mkDb (authors db) (publishers db) (series db ++ [mkRow i (si_name input)]) (genres db)
    (topics db) (categories db) (books db) (book_authors db) (book_genres db)
    (book_topics db)
    (series_authors db ++ map (fun x => (i, x)) (si_authorIds input)).

(** A second book for the single shelf, by its author, in its series. *)
Definition second_book : BookInput :=
  mkBookInput (Some "Y") "The Sequel" "P1" (Some "S1") "C" ["A1"] ["G"] [].

(** What [BookRepository.update] needs of the store to rewrite book
    [bookId]: the book is there, the publisher, the category and the series
    of the input are there, and the authors, genres and topics of the input
    can be linked once the old links are gone. *)
Definition book_updatable (bookId : string) (input : BookInput) (db : Database) : bool :=
  Sql.has_book db bookId
  && Stmt.book_fks_ok db (book_row_of bookId input)
  && linkable [] (authors db) bookId (authorIds input)
  && linkable [] (genres db) bookId (genreIds input)
  && linkable [] (topics db) bookId (topicIds input).

(** The store after book [bookId] was rewritten. *)
Definition with_book_updated (bookId : string) (input : BookInput) (db : Database)
    : Database :=
  mkDb (authors db) (publishers db) (series db) (genres db) (topics db) (categories db)
    (map (fun r => if String.eqb (book_id r) bookId then book_row_of bookId input else r)
       (books db))
    (Stmt.without_left (book_authors db) bookId
     ++ map (fun x => (bookId, x)) (authorIds input))
    (Stmt.without_left (book_genres db) bookId
     ++ map (fun x => (bookId, x)) (genreIds input))
    (Stmt.without_left (book_topics db) bookId
     ++ map (fun x => (bookId, x)) (topicIds input))
    (series_authors db).

(** The book of the single shelf under a new title and without its
    genre. *)
Definition retitled_book : BookInput :=
  mkBookInput None "The Book, revised" "P1" (Some "S1") "C" ["A1"] [] [].

(** No link is listed twice. *)
Fixpoint no_repeat (l : list Link) : bool :=
  match l with
  | [] => true
  | x :: rest => negb (Stmt.has_link rest x) && no_repeat rest
  end.

(** The keys the schema declares: every PRIMARY KEY and every UNIQUE
    name. *)
Definition keys_unique (db : Database) : bool :=
  distinct (map id (authors db)) && distinct (map id (publishers db))
  && distinct (map id (series db)) && distinct (map id (genres db))
  && distinct (map id (topics db)) && distinct (map id (categories db))
  && distinct (map book_id (books db))
  && distinct (map name (genres db)) && distinct (map name (topics db))
  && distinct (map name (categories db))
  && no_repeat (book_authors db) && no_repeat (book_genres db)
  && no_repeat (book_topics db) && no_repeat (series_authors db).

(** No row of the store has the empty string as its id. *)
Definition ids_truthy (db : Database) : bool :=
  forallb (fun r => Js.truthy (id r)) (authors db)
  && forallb (fun r => Js.truthy (id r)) (publishers db)
  && forallb (fun r => Js.truthy (id r)) (series db)
  && forallb (fun r => Js.truthy (id r)) (genres db)
  && forallb (fun r => Js.truthy (id r)) (topics db)
  && forallb (fun r => Js.truthy (id r)) (categories db)
  && forallb (fun b => Js.truthy (book_id b)) (books db).

Definition same_row (r r' : NamedRow) : bool :=
  String.eqb (id r) (id r') && String.eqb (name r) (name r').

(** The rows of [t] are rows of [D], each once. *)
Definition rows_of (t D : list NamedRow) : bool :=
  forallb (fun r => existsb (same_row r) D) t && distinct (map id t).

(** A store as a new installation has it: no author, publisher, series
    or book, and as genres, topics and categories only rows that [db] has
    too. *)
Definition holds_only_tags_of (t db : Database) : bool :=
  negb (nonempty (authors t)) && negb (nonempty (publishers t))
  && negb (nonempty (series t)) && negb (nonempty (books t))
  && negb (nonempty (book_authors t)) && negb (nonempty (book_genres t))
  && negb (nonempty (book_topics t)) && negb (nonempty (series_authors t))
  && rows_of (genres t) (genres db) && rows_of (topics t) (topics db)
  && rows_of (categories t) (categories db).

(** The rows of [l] whose id is not the id of a row of [T]. *)
Definition missing (T : list NamedRow) (l : list NamedRow) : list NamedRow :=
  filter (fun r => negb (Sql.has_row T (id r))) l.

(** The store an import of an export of [db] builds on a new
    installation that holds the genres [G0], the topics [T0] and the
    categories [C0]: every table in the order of the export. *)
Definition restored (created_at_desc : list BookRow -> list BookRow)
    (name_asc : list NamedRow -> list NamedRow) (db : Database)
    (G0 T0 C0 : list NamedRow) : Database :=
  mkDb (name_asc (authors db)) (name_asc (publishers db)) (name_asc (series db))
    (G0 ++ missing G0 (name_asc (genres db)))
    (T0 ++ missing T0 (name_asc (topics db)))
    (C0 ++ missing C0 (name_asc (categories db)))
    (created_at_desc (books db))
    (flat_map
       (fun b => map (fun x => (book_id b, x)) (map id (Sql.authors_of_book db (book_id b))))
       (created_at_desc (books db)))
    (flat_map
       (fun b => map (fun x => (book_id b, x)) (map id (Sql.genres_of_book db (book_id b))))
       (created_at_desc (books db)))
    (flat_map
       (fun b => map (fun x => (book_id b, x)) (map id (Sql.topics_of_book db (book_id b))))
       (created_at_desc (books db)))
    (flat_map
       (fun s => map (fun x => (id s, x)) (map id (Sql.authors_of_series db (id s))))
       (name_asc (series db))).

(** A new installation for the single shelf: its category and its genre
    are seeded. *)
Definition seeded_store : Database :=
  mkDb [] [] [] [mkRow "G" "Fiction"] [] [mkRow "C" "General"] [] [] [] [] [].

(** The number of placeholders [?] in the text of a statement. *)
Fixpoint placeholders (s : string) : nat :=
  match s with
  | EmptyString => 0
  | String c rest =>
      (if Ascii.eqb c "?"%char then 1 else 0) + placeholders rest
  end.

(** Two searches set the same filters and ask for the same order: they
    may differ in every value they filter by, and in the page. *)
Definition same_filters (p q : BookRepository.BookSearchParams) : bool :=
  Bool.eqb (Js.truthy_opt (BookRepository.sp_query p))
    (Js.truthy_opt (BookRepository.sp_query q))
  && Bool.eqb (Js.truthy_opt (BookRepository.sp_authorId p))
       (Js.truthy_opt (BookRepository.sp_authorId q))
  && Bool.eqb (Js.truthy_opt (BookRepository.sp_genreId p))
       (Js.truthy_opt (BookRepository.sp_genreId q))
  && Bool.eqb (Js.truthy_opt (BookRepository.sp_topicId p))
       (Js.truthy_opt (BookRepository.sp_topicId q))
  && Bool.eqb (Js.truthy_opt (BookRepository.sp_publisherId p))
       (Js.truthy_opt (BookRepository.sp_publisherId q))
  && Bool.eqb (Js.truthy_opt (BookRepository.sp_seriesId p))
       (Js.truthy_opt (BookRepository.sp_seriesId q))
  && Bool.eqb (Js.truthy_opt (BookRepository.sp_categoryId p))
       (Js.truthy_opt (BookRepository.sp_categoryId q))
  && Bool.eqb (Js.truthy_opt (BookRepository.sp_readingStatus p))
       (Js.truthy_opt (BookRepository.sp_readingStatus q))
  && Bool.eqb (Js.truthy_num (BookRepository.sp_yearFrom p))
       (Js.truthy_num (BookRepository.sp_yearFrom q))
  && Bool.eqb (Js.truthy_num (BookRepository.sp_yearTo p))
       (Js.truthy_num (BookRepository.sp_yearTo q))
  && match BookRepository.sp_sortBy p, BookRepository.sp_sortBy q with
     | Some a, Some b => String.eqb a b
     | None, None => true
     | _, _ => false
     end
  && match BookRepository.sp_sortOrder p, BookRepository.sp_sortOrder q with
     | Some a, Some b => String.eqb a b
     | None, None => true
     | _, _ => false
     end.

(** Two searches for the books of an author, by different authors and on
    different pages. *)
Definition search_by_ada : BookRepository.BookSearchParams :=
  BookRepository.mkSearch (Some "cycle") (Some "A1") None None None None None None None None
    (Some "title") (Some "asc") None None.

Definition search_by_bob : BookRepository.BookSearchParams :=
  BookRepository.mkSearch (Some "x' OR 1=1 --") (Some "B") None None None None None None
    None None (Some "title") (Some "asc") (Some 10%Z) (Some 20%Z).

(** A library in which Ann has no book left and wrote the saga together
    with Bob. *)
Definition coauthored_saga : Database :=
  mkDb [mkRow "A" "Ann"; mkRow "B" "Bob"]
       [mkRow "P" "Pub"]
       [mkRow "S" "Saga"]
       [] []
       [mkRow "C" "General"]
       [mkBook "b2" "Two" "P" (Some "S") "C"]
       [("b2", "B")]
       [] []
       [("S", "A"); ("S", "B")].

(** What [SeriesRepository.update] needs of the store to rewrite series
    [seriesId], and the store it leaves. *)
Definition series_updatable (seriesId : string) (input : SeriesInput) (db : Database)
    : bool :=
  Sql.has_row (series db) seriesId
  && linkable [] (authors db) seriesId (si_authorIds input).

Definition with_series_updated (seriesId : string) (input : SeriesInput) (db : Database)
    : Database :=
  mkDb (authors db) (publishers db)
    (map (fun r => if String.eqb (id r) seriesId then mkRow seriesId (si_name input) else r)
       (series db))
    (genres db) (topics db) (categories db) (books db) (book_authors db) (book_genres db)
    (book_topics db)
    (Stmt.without_left (series_authors db) seriesId
     ++ map (fun x => (seriesId, x)) (si_authorIds input)).

(** A validation that returns its input as it is, as [BookSchema] does on
    an input with a title, with UUIDs for the publisher, the category and
    the series, and with its three lists given. *)
Definition accepted (input : BookInput) : Error + BookInput := inr input.

(** An edit that passes [BookSchema]. *)
Definition valid_edit : BookInput :=
  mkBookInput None "Title"
    "3f2b8c1e-5d4a-4b6c-9e7f-1a2b3c4d5e6f" None
    "7c9e6679-7425-40de-944b-e07fc1f90ae7" [] [] [].

(** [s] occurs in [t]. *)
Definition occurs (s t : string) : Prop :=
  exists before after : string, t = (before ++ s ++ after)%string.

(** What the blocking error has to enumerate for a report, in the words
    of the specification: which entities would be orphaned and by what
    rule.  One line for each kind of entity that the report lists: the
    authors, by their names; the publisher; the series. *)
Definition enumeration (report : BookDeleteImpact) : list string :=
  match orphanedAuthors report with
  | [] => []
  | a :: others =>
      [("Author(s) " ++ Js.dq ++ name a
        ++ String.concat "" (map (fun b => ", " ++ name b) others)
        ++ Js.dq ++ " would have no books")%string]
  end
  ++ match orphanedPublisher report with
     | Some p => [("Publisher " ++ Js.dq ++ name p ++ Js.dq ++ " would have no books")%string]
     | None => []
     end
  ++ match orphanedSeries report with
     | Some s => [("Series " ++ Js.dq ++ name s ++ Js.dq ++ " would have no books")%string]
     | None => []
     end.

(** The text of the blocking error for a report: a heading, the lines of
    the enumeration, one bullet each, and the advice. *)
Definition blocking_text (report : BookDeleteImpact) : string :=
  ("Cannot delete this book because it would violate business rules:"
   ++ String.concat "" (map (fun line => Js.nl ++ Js.bullet ++ " " ++ line) (enumeration report))
   ++ Js.nl ++ Js.nl
   ++ "Please reassign these entities to other books first, or delete the book with the "
   ++ Js.dq ++ "Also delete orphaned entities" ++ Js.dq ++ " option.")%string.

(** *** A second import of the same batch *)

(** The inputs that [importFromJson] hands to [SeriesRepository.create]
    and to [BookRepository.create]. *)
Definition series_input_of (s : ImportExportService.SeriesWithAuthors) : SeriesInput :=
  mkSeriesInput (Some (ImportExportService.s_id s)) (ImportExportService.s_name s)
    (map id (ImportExportService.s_authors s)).

Definition book_input_of (b : ImportExportService.BookWithRelations) : BookInput :=
  mkBookInput (Some (ImportExportService.b_id b)) (ImportExportService.b_title b)
    (ImportExportService.b_publisherId b) (ImportExportService.b_seriesId b)
    (ImportExportService.b_categoryId b)
    (map id (ImportExportService.b_authors b)) (map id (ImportExportService.b_genres b))
    (map id (ImportExportService.b_topics b)).

(** The seven groups of [importFromJson], without the clean-up pass that
    follows them. *)
Definition import_records (uuidv4 : Database -> string)
    (data : ImportExportService.ExportData) : M ImportExportService.Heap unit :=
  for_each (ImportExportService.data_categories data)
    (ImportExportService.import_category uuidv4) ;;
  for_each (ImportExportService.data_authors data)
    (ImportExportService.import_author uuidv4) ;;
  for_each (ImportExportService.data_publishers data)
    (ImportExportService.import_publisher uuidv4) ;;
  for_each (ImportExportService.data_genres data)
    (ImportExportService.import_genre uuidv4) ;;
  for_each (ImportExportService.data_topics data)
    (ImportExportService.import_topic uuidv4) ;;
  for_each (ImportExportService.data_series data)
    (ImportExportService.import_series uuidv4) ;;
  for_each (ImportExportService.data_books data)
    (ImportExportService.import_book uuidv4).

(** The store that the seven groups of an import that starts on [db] hand
    to its clean-up pass. *)
Definition before_cleanup (uuidv4 : Database -> string)
    (data : ImportExportService.ExportData) (db : Database) : Database :=
  ImportExportService.store
    (fst (import_records uuidv4 data
            (ImportExportService.mkHeap db ImportExportService.initial_result))).

(** The clean-up pass, run on [handed], removes no author of the batch;
    no publisher of the batch; no series of the batch. *)
Definition spares_authors (data : ImportExportService.ExportData) (handed : Database) : bool :=
  forallb (fun a => negb (Sql.has_row (Sql.orphan_authors handed) (id a)))
    (ImportExportService.data_authors data).

Definition spares_publishers (data : ImportExportService.ExportData) (handed : Database)
    : bool :=
  forallb (fun p => negb (Sql.has_row (Sql.orphan_publishers handed) (id p)))
    (ImportExportService.data_publishers data).

Definition spares_series (data : ImportExportService.ExportData) (handed : Database) : bool :=
  forallb (fun s => negb (Sql.has_row (Sql.orphan_series handed) (ImportExportService.s_id s)))
    (ImportExportService.data_series data).

(** The ids [ids] can be linked to a new owner: each is the id of a row of
    [t] and none is listed twice. *)
Definition listable (t : list NamedRow) (ids : list string) : bool :=
  forallb (Sql.has_row t) ids && distinct ids.

(** A record of one of the five named groups has nothing left to do on
    table [t]: its id is there or, where names are unique, its name is
    taken. *)
Definition settled_row (unique_names : bool) (t : list NamedRow) (r : NamedRow) : bool :=
  Sql.has_row t (id r) || (unique_names && Stmt.has_name t (name r)).

(** A series record has nothing left to do: it lists no author, or its id
    is there, or its authors cannot be linked. *)
Definition settled_series (db : Database) (s : ImportExportService.SeriesWithAuthors) : bool :=
  negb (nonempty (map id (ImportExportService.s_authors s)))
  || Sql.has_row (series db) (ImportExportService.s_id s)
  || negb (listable (authors db) (map id (ImportExportService.s_authors s))).

(** A book record can be written but for its id. *)
Definition placeable (db : Database) (b : ImportExportService.BookWithRelations) : bool :=
  Stmt.book_fks_ok db (book_row_of (ImportExportService.b_id b) (book_input_of b))
  && listable (authors db) (map id (ImportExportService.b_authors b))
  && listable (genres db) (map id (ImportExportService.b_genres b))
  && listable (topics db) (map id (ImportExportService.b_topics b)).

(** A book record has nothing left to do: its id is there, or it cannot
    be written. *)
Definition settled_book (db : Database) (b : ImportExportService.BookWithRelations) : bool :=
  Sql.has_book db (ImportExportService.b_id b) || negb (placeable db b).

(** Every record of the batch has nothing left to do on [db]. *)
Definition settled (data : ImportExportService.ExportData) (db : Database) : bool :=
  forallb (settled_row true (categories db)) (ImportExportService.data_categories data)
  && forallb (settled_row false (authors db)) (ImportExportService.data_authors data)
  && forallb (settled_row false (publishers db)) (ImportExportService.data_publishers data)
  && forallb (settled_row true (genres db)) (ImportExportService.data_genres data)
  && forallb (settled_row true (topics db)) (ImportExportService.data_topics data)
  && forallb (settled_series db) (ImportExportService.data_series data)
  && forallb (settled_book db) (ImportExportService.data_books data).

(** Table [T] is table [E] followed by rows whose ids are in [G] and not
    in [E]. *)
Definition re_added (E G T : list NamedRow) : Prop :=
  exists more,
    T = E ++ more
    /\ forall r, In r more -> Sql.has_row G (id r) = true /\ Sql.has_row E (id r) = false.

(** What a store [S] is while the batch is imported again, in terms of
    the store [G] that the groups of the first import handed to the
    clean-up pass: the books, their links, the genres, the topics and the
    categories of [G]; of the authors, publishers and series of [G], those
    that the clean-up kept, followed by some that it removed; and the
    series links that it kept, followed by links of re-added series. *)
Definition replays (G S : Database) : Prop :=
  genres S = genres G /\ topics S = topics G /\ categories S = categories G
  /\ books S = books G /\ book_authors S = book_authors G
  /\ book_genres S = book_genres G /\ book_topics S = book_topics G
  /\ re_added (authors (without_orphans G)) (authors G) (authors S)
  /\ re_added (publishers (without_orphans G)) (publishers G) (publishers S)
  /\ re_added (series (without_orphans G)) (series G) (series S)
  /\ exists links,
       series_authors S = series_authors (without_orphans G) ++ links
       /\ forall l, In l links ->
                    Sql.has_row (series S) (fst l) = true
                    /\ Sql.has_row (series (without_orphans G)) (fst l) = false.

(** The counts of [r'] are those of [r]: always for books, genres, topics
    and categories, and under a condition each for authors, publishers and
    series. *)
Definition tally (ka kp ks : Prop)
    (r r' : ImportExportService.ImportResult) : Prop :=
  ImportExportService.booksImported r' = ImportExportService.booksImported r
  /\ ImportExportService.genresImported r' = ImportExportService.genresImported r
  /\ ImportExportService.topicsImported r' = ImportExportService.topicsImported r
  /\ ImportExportService.categoriesImported r' = ImportExportService.categoriesImported r
  /\ (ka -> ImportExportService.authorsImported r'
            = ImportExportService.authorsImported r)
  /\ (kp -> ImportExportService.publishersImported r'
            = ImportExportService.publishersImported r)
  /\ (ks -> ImportExportService.seriesImported r'
            = ImportExportService.seriesImported r).

(** From heap [h] to heap [h'], every author, publisher and series that
    was counted is a row that was added to its table. *)
Definition counted_rows (h h' : ImportExportService.Heap) : Prop :=
  ImportExportService.authorsImported (ImportExportService.result h')
  + length (authors (ImportExportService.store h))
  = ImportExportService.authorsImported (ImportExportService.result h)
    + length (authors (ImportExportService.store h'))
  /\ ImportExportService.publishersImported (ImportExportService.result h')
     + length (publishers (ImportExportService.store h))
     = ImportExportService.publishersImported (ImportExportService.result h)
       + length (publishers (ImportExportService.store h'))
  /\ ImportExportService.seriesImported (ImportExportService.result h')
     + length (series (ImportExportService.store h))
     = ImportExportService.seriesImported (ImportExportService.result h)
       + length (series (ImportExportService.store h')).

(** A store with a row of [series_authors] that refers to no series: no
    store that SQLite maintains is like this. *)
Definition dangling_link_store : Database :=
  mkDb [] [] [] [] [] [] [] [] [] [] [("S1", "A1")].

(** The export of the single shelf. *)
Definition shelf_batch : ImportExportService.ExportData :=
  ImportExportService.mkExport "1.0.0"
    [ImportExportService.mkBookRecord "X" "The Book" "P1" (Some "S1") "C"
       [mkRow "A1" "Ada"] [mkRow "G" "Fiction"] []]
    [mkRow "A1" "Ada"]
    [mkRow "P1" "Press"]
    [ImportExportService.mkSeriesRecord "S1" "Cycle" [mkRow "A1" "Ada"]]
    [mkRow "G" "Fiction"]
    []
    [mkRow "C" "General"].

(** A store whose only row is an author without a book. *)
Definition stray_author_store : Database :=
  mkDb [mkRow "Z" "Zed"] [] [] [] [] [] [] [] [] [] [].

(** Author [i] has a book; publisher [i] has a book; series [i] has a
    book. *)
Definition author_linked (db : Database) (i : string) : bool :=
  existsb (fun ba : Link => String.eqb i (snd ba)) (book_authors db).

Definition publisher_used (db : Database) (i : string) : bool :=
  existsb (fun b => String.eqb i (publisher_id b)) (books db).

Definition series_used (db : Database) (i : string) : bool :=
  existsb (fun b => Sql.series_is b i) (books db).

(** Two violations are of the same kind. *)
Definition same_kind (k k' : DomainService.ViolationType) : bool :=
  match k, k' with
  | DomainService.orphan_author, DomainService.orphan_author
  | DomainService.orphan_publisher, DomainService.orphan_publisher
  | DomainService.orphan_series, DomainService.orphan_series
  | DomainService.series_no_authors, DomainService.series_no_authors
  | DomainService.book_no_publisher, DomainService.book_no_publisher
  | DomainService.book_no_category, DomainService.book_no_category => true
  | _, _ => false
  end.

(** How many violations of kind [k] a report lists. *)
Definition count_kind (k : DomainService.ViolationType)
    (r : DomainService.IntegrityCheckResult) : nat :=
  length (filter (fun v => same_kind (DomainService.vtype v) k) (DomainService.violations r)).

(** A reader of CSV text, one character at a time: a double quote opens
    or closes a quoted stretch.  [bare_separator inside s] tells whether
    [s], entered inside or outside a quoted stretch, shows a comma or a
    line feed outside one. *)
Fixpoint bare_separator (inside : bool) (s : string) : bool :=
  match s with
  | EmptyString => false
  | String c rest =>
      if Ascii.eqb c (ascii_of_nat 34) then bare_separator (negb inside) rest
      else if (Ascii.eqb c "," || Ascii.eqb c (ascii_of_nat 10)) && negb inside then true
      else bare_separator inside rest
  end.

(** Whether the reader is inside a quoted stretch when [s] ends. *)
Fixpoint ends_inside (inside : bool) (s : string) : bool :=
  match s with
  | EmptyString => inside
  | String c rest =>
      ends_inside (if Ascii.eqb c (ascii_of_nat 34) then negb inside else inside) rest
  end.

(** ** Lists and lookups *)

Lemma get_row_some (t : list NamedRow) (i : string) (r : NamedRow) :
  Sql.get_row t i = Some r -> In r t /\ id r = i.
Proof.
  unfold Sql.get_row. intros H.
  apply find_some in H. destruct H as [Hin Heq].
  apply String.eqb_eq in Heq. auto.
Qed.

Lemma get_row_none (t : list NamedRow) (i : string) :
  Sql.get_row t i = None <-> Sql.has_row t i = false.
Proof.
  unfold Sql.get_row, Sql.has_row. induction t as [|r t IH]; simpl.
  - tauto.
  - destruct (String.eqb (id r) i); simpl.
    + split; discriminate.
    + exact IH.
Qed.

Lemma has_row_get (t : list NamedRow) (i : string) :
  Sql.has_row t i = true -> exists r, Sql.get_row t i = Some r.
Proof.
  intros H. destruct (Sql.get_row t i) as [r|] eqn:E.
  - now exists r.
  - apply get_row_none in E. congruence.
Qed.

Lemma get_row_has (t : list NamedRow) (i : string) (r : NamedRow) :
  Sql.get_row t i = Some r -> Sql.has_row t i = true.
Proof.
  intros H. destruct (Sql.has_row t i) eqn:E; [reflexivity|].
  apply get_row_none in E. congruence.
Qed.

Lemma in_has_row (t : list NamedRow) (r : NamedRow) :
  In r t -> Sql.has_row t (id r) = true.
Proof.
  intros H. unfold Sql.has_row. apply existsb_exists.
  exists r. split; [exact H|apply String.eqb_refl].
Qed.

Lemma get_book_some (db : Database) (i : string) (b : BookRow) :
  Sql.get_book db i = Some b -> In b (books db) /\ book_id b = i.
Proof.
  unfold Sql.get_book. intros H.
  apply find_some in H. destruct H as [Hin Heq].
  apply String.eqb_eq in Heq. auto.
Qed.

Lemma row_eta (r : NamedRow) : mkRow (id r) (name r) = r.
Proof. now destruct r. Qed.

Lemma nonempty_false {A : Type} (l : list A) : nonempty l = false <-> l = [].
Proof. destruct l; simpl; split; congruence. Qed.

Lemma not_null_false {A : Type} (v : option A) : not_null v = false <-> v = None.
Proof. destruct v; simpl; split; congruence. Qed.

Lemma book_fk_of_store (db : Database) (b : BookRow) :
  foreign_keys_ok db = true -> In b (books db) -> Stmt.book_fks_ok db b = true.
Proof.
  unfold foreign_keys_ok. intros H Hin.
  repeat (apply andb_prop in H; destruct H as [H ?]).
  rewrite forallb_forall in H. auto.
Qed.

Lemma in_authors_with_only_book (db : Database) (b : string) (a : NamedRow) :
  In a (Sql.authors_with_only_book db b) <->
  exists row, In row (authors db) /\ a = mkRow (id row) (name row)
              /\ In (b, id row) (book_authors db)
              /\ Sql.count_book_authors_by_author db (id row) = 1.
Proof.
  unfold Sql.authors_with_only_book. rewrite in_flat_map. split.
  - intros (row & Hrow & Hin). exists row.
    apply in_map_iff in Hin. destruct Hin as (ba & Ha & Hba).
    apply filter_In in Hba. destruct Hba as [Hba Hc].
    apply andb_prop in Hc. destruct Hc as [Hc Hn].
    apply andb_prop in Hc. destruct Hc as [H1 H2].
    apply String.eqb_eq in H1. apply String.eqb_eq in H2. apply Nat.eqb_eq in Hn.
    destruct ba as [x y]. simpl in *. subst. auto.
  - intros (row & Hrow & Ha & Hba & Hn). exists row. split; [exact Hrow|].
    apply in_map_iff. exists (b, id row). split; [now symmetry|].
    apply filter_In. split; [exact Hba|]. simpl.
    rewrite !String.eqb_refl, Hn. reflexivity.
Qed.

(** ** The impact analyzer *)

(** C4.  On a store that satisfies its foreign keys, the report of
    [checkDeleteImpact] for an existing book lists exactly the linked
    authors whose book-link count, the book included, is 1; names the
    book's publisher exactly when that publisher has 1 book; names the
    book's series, when it has one, exactly when that series has 1 book;
    and [hasImpact] is the disjunction of the three findings. *)
Theorem checkDeleteImpact_exact_threshold :
  forall (db : Database) (bookId : string) (book : BookRow),
    foreign_keys_ok db = true ->
    Sql.get_book db bookId = Some book ->
    let r := BookRepository.checkDeleteImpact bookId db in
    (forall a,
        In a (orphanedAuthors r) <->
        exists row, In row (authors db) /\ a = mkRow (id row) (name row)
                    /\ In (bookId, id row) (book_authors db)
                    /\ Sql.count_book_authors_by_author db (id row) = 1)
    /\ (not_null (orphanedPublisher r)
        = Nat.eqb (Sql.count_books_by_publisher db (publisher_id book)) 1
        /\ forall p, orphanedPublisher r = Some p ->
                     In p (publishers db) /\ id p = publisher_id book)
    /\ (forall sid,
          series_id book = Some sid -> Js.truthy sid = true ->
          not_null (orphanedSeries r) = Nat.eqb (Sql.count_books_by_series db sid) 1
          /\ forall s, orphanedSeries r = Some s -> In s (series db) /\ id s = sid)
    /\ (Js.truthy_opt (series_id book) = false -> orphanedSeries r = None)
    /\ hasImpact r
       = (nonempty (orphanedAuthors r) || not_null (orphanedPublisher r)
          || not_null (orphanedSeries r)).
Proof.
  intros db bookId book Hfk Hbook r.
  assert (Hfks : Stmt.book_fks_ok db book = true).
  { apply book_fk_of_store; [exact Hfk|]. now apply get_book_some in Hbook. }
  unfold Stmt.book_fks_ok in Hfks.
  apply andb_prop in Hfks. destruct Hfks as [Hfks Hser].
  apply andb_prop in Hfks. destruct Hfks as [Hpub _].
  apply has_row_get in Hpub. destruct Hpub as [p Hp].
  subst r. unfold BookRepository.checkDeleteImpact. rewrite Hbook. cbn [orphanedAuthors orphanedPublisher orphanedSeries hasImpact].
  split; [|split; [|split; [|split]]].
  - intros a. apply in_authors_with_only_book.
  - rewrite Hp. destruct (Nat.eqb (Sql.count_books_by_publisher db (publisher_id book)) 1).
    + split; [reflexivity|]. intros p' Hp'. inversion Hp'; subst.
      rewrite row_eta. now apply get_row_some.
    + split; [reflexivity|]. discriminate.
  - intros sid Hsid Ht. rewrite Hsid in *. rewrite Ht.
    apply has_row_get in Hser. destruct Hser as [s Hs]. rewrite Hs.
    destruct (Nat.eqb (Sql.count_books_by_series db sid) 1).
    + split; [reflexivity|]. intros s' Hs'. inversion Hs'; subst.
      rewrite row_eta. now apply get_row_some.
    + split; [reflexivity|]. discriminate.
  - intros Hf. destruct (series_id book) as [sid|]; [|reflexivity].
    simpl in Hf. now rewrite Hf.
  - reflexivity.
Qed.

Lemma checkDeleteImpact_exact_threshold_witness :
  foreign_keys_ok single_shelf = true
  /\ Sql.get_book single_shelf "X" = Some (mkBook "X" "The Book" "P1" (Some "S1") "C")
  /\ hasImpact (BookRepository.checkDeleteImpact "X" single_shelf)
     = (nonempty (orphanedAuthors (BookRepository.checkDeleteImpact "X" single_shelf))
        || not_null (orphanedPublisher (BookRepository.checkDeleteImpact "X" single_shelf))
        || not_null (orphanedSeries (BookRepository.checkDeleteImpact "X" single_shelf))).
Proof.
  split; [reflexivity|]. split; [reflexivity|].
  exact (proj2 (proj2 (proj2 (proj2
    (checkDeleteImpact_exact_threshold single_shelf "X" eq_refl eq_refl))))).
Defined.

(** C10.  For an existing book the two implementations of the
    delete-impact computation, [DomainService.checkBookDeletionImpact] and
    [BookRepository.checkDeleteImpact], return the same orphaned authors,
    the same orphaned publisher and the same orphaned series on the same
    store, and [canDelete] is true exactly when [hasImpact] is false. *)
Theorem deletion_impact_implementations_agree :
  forall (db : Database) (bookId : string) (book : BookRow),
    Sql.get_book db bookId = Some book ->
    let d := DomainService.checkBookDeletionImpact bookId db in
    let r := BookRepository.checkDeleteImpact bookId db in
    DomainService.d_orphanedAuthors d = orphanedAuthors r
    /\ DomainService.d_orphanedPublisher d = orphanedPublisher r
    /\ DomainService.d_orphanedSeries d = orphanedSeries r
    /\ DomainService.canDelete d = negb (hasImpact r).
Proof.
  intros db bookId book Hbook d r. subst d r.
  unfold DomainService.checkBookDeletionImpact, BookRepository.checkDeleteImpact.
  rewrite Hbook.
  cbn [DomainService.d_orphanedAuthors DomainService.d_orphanedPublisher
       DomainService.d_orphanedSeries DomainService.canDelete
       orphanedAuthors orphanedPublisher orphanedSeries hasImpact].
  assert (Hseries :
    (if Js.truthy_opt (series_id book)
     then match series_id book with
          | Some sid =>
              if Nat.eqb (Sql.count_books_by_series db sid) 1
              then match Sql.get_row (series db) sid with
                   | Some s => Some (mkRow (id s) (name s))
                   | None => None
                   end
              else None
          | None => None
          end
     else None)
    = match series_id book with
      | Some sid =>
          if Js.truthy sid
          then if Nat.eqb (Sql.count_books_by_series db sid) 1
               then match Sql.get_row (series db) sid with
                    | Some s => Some (mkRow (id s) (name s))
                    | None => None
                    end
               else None
          else None
      | None => None
      end).
  { destruct (series_id book) as [sid|]; simpl; [|reflexivity].
    destruct (Js.truthy sid); reflexivity. }
  rewrite Hseries. clear Hseries.
  set (oa := Sql.authors_with_only_book db bookId).
  set (op := if Nat.eqb (Sql.count_books_by_publisher db (publisher_id book)) 1
             then match Sql.get_row (publishers db) (publisher_id book) with
                  | Some publisher => Some (mkRow (id publisher) (name publisher))
                  | None => None
                  end
             else None).
  set (os := match series_id book with
             | Some sid =>
                 if Js.truthy sid
                 then if Nat.eqb (Sql.count_books_by_series db sid) 1
                      then match Sql.get_row (series db) sid with
                           | Some s => Some (mkRow (id s) (name s))
                           | None => None
                           end
                      else None
                 else None
             | None => None
             end).
  repeat split.
  destruct oa as [|a l]; destruct op as [p|]; destruct os as [s|]; reflexivity.
Qed.

Lemma deletion_impact_implementations_agree_witness :
  Sql.get_book library "b1" = Some (mkBook "b1" "One" "P" None "C")
  /\ DomainService.canDelete (DomainService.checkBookDeletionImpact "b1" library)
     = negb (hasImpact (BookRepository.checkDeleteImpact "b1" library)).
Proof.
  split; [reflexivity|].
  exact (proj2 (proj2 (proj2
    (deletion_impact_implementations_agree library "b1" eq_refl)))).
Defined.

Lemma in_author_ids_of_book (db : Database) (b a : string) :
  In a (Sql.author_ids_of_book db b) <-> In (b, a) (book_authors db).
Proof.
  unfold Sql.author_ids_of_book. rewrite in_map_iff. split.
  - intros ([x y] & Hy & Hin). apply filter_In in Hin. destruct Hin as [Hin Hx].
    simpl in *. apply String.eqb_eq in Hx. now subst.
  - intros Hin. exists (b, a). split; [reflexivity|].
    apply filter_In. split; [exact Hin|]. simpl. apply String.eqb_refl.
Qed.

Lemma includes_in (arr : list string) (x : string) :
  Js.includes arr x = true <-> In x arr.
Proof.
  unfold Js.includes. rewrite existsb_exists. split.
  - intros (y & Hy & He). apply String.eqb_eq in He. now subst.
  - intros H. exists x. split; [exact H|apply String.eqb_refl].
Qed.

(** C5.  For an existing book, [checkUpdateImpact] reports a risk only for
    what the update removes: every reported author is linked to the book
    now and is absent from the proposed author list; a publisher is
    reported only when the proposed publisher id differs from the current
    one, and a series only when the proposed series id differs from the
    current one.  An unchanged publisher or series is never reported,
    whatever its book count. *)
Theorem checkUpdateImpact_only_removed :
  forall (db : Database) (bookId : string) (book : BookRow) (input : BookInput),
    Sql.get_book db bookId = Some book ->
    let r := BookRepository.checkUpdateImpact bookId input db in
    (forall a, In a (orphanedAuthors r) ->
               In (bookId, id a) (book_authors db) /\ ~ In (id a) (authorIds input))
    /\ (publisherId input = publisher_id book -> orphanedPublisher r = None)
    /\ (forall p, orphanedPublisher r = Some p ->
                  publisherId input <> publisher_id book /\ id p = publisher_id book)
    /\ (seriesId input = series_id book -> orphanedSeries r = None)
    /\ (forall s, orphanedSeries r = Some s ->
                  seriesId input <> series_id book /\ series_id book = Some (id s)).
Proof.
  intros db bookId book input Hbook r. subst r.
  unfold BookRepository.checkUpdateImpact. rewrite Hbook.
  cbn [orphanedAuthors orphanedPublisher orphanedSeries hasImpact].
  split; [|split; [|split; [|split]]].
  - intros a Ha. apply in_flat_map in Ha. destruct Ha as (aid & Haid & Ha).
    apply filter_In in Haid. destruct Haid as [Hcur Hrem].
    destruct (Nat.eqb (Sql.count_book_authors_by_author db aid) 1); [|contradiction].
    destruct (Sql.get_row (authors db) aid) as [author|] eqn:Hg; [|contradiction].
    destruct Ha as [Ha|[]]. subst a. simpl.
    apply get_row_some in Hg. destruct Hg as [_ Hid]. rewrite Hid.
    split.
    + now apply in_author_ids_of_book.
    + intros Hin. apply includes_in in Hin. rewrite Hin in Hrem. discriminate.
  - intros Heq. rewrite Heq, String.eqb_refl, andb_false_r. reflexivity.
  - intros p Hp.
    destruct (Js.truthy (publisherId input)
              && negb (String.eqb (publisherId input) (publisher_id book))) eqn:Hc;
      [|discriminate].
    apply andb_prop in Hc. destruct Hc as [_ Hne].
    apply negb_true_iff in Hne. apply String.eqb_neq in Hne.
    split; [exact Hne|].
    destruct (Nat.eqb (Sql.count_books_by_publisher db (publisher_id book)) 1);
      [|discriminate].
    destruct (Sql.get_row (publishers db) (publisher_id book)) as [q|] eqn:Hq;
      [|discriminate].
    inversion Hp; subst. simpl. now apply get_row_some in Hq.
  - intros Heq. destruct (series_id book) as [sid|]; [|reflexivity].
    rewrite Heq. simpl. rewrite String.eqb_refl. simpl.
    rewrite andb_false_r. reflexivity.
  - intros s Hs. destruct (series_id book) as [sid|]; [|discriminate].
    destruct (Js.truthy sid && Js.strict_neq (seriesId input) sid) eqn:Hc;
      [|discriminate].
    apply andb_prop in Hc. destruct Hc as [_ Hne].
    split.
    + intros Heq. rewrite Heq in Hne. simpl in Hne.
      rewrite String.eqb_refl in Hne. discriminate.
    + destruct (Nat.eqb (Sql.count_books_by_series db sid) 1); [|discriminate].
      destruct (Sql.get_row (series db) sid) as [q|] eqn:Hq; [|discriminate].
      inversion Hs; subst. simpl. apply get_row_some in Hq. now destruct Hq as [_ ->].
Qed.

(** On the single shelf every link count of book [X] is 1, and an update
    that keeps publisher, series and author reports nothing. *)
Lemma checkUpdateImpact_only_removed_witness :
  Sql.get_book single_shelf "X" = Some (mkBook "X" "The Book" "P1" (Some "S1") "C")
  /\ Sql.count_books_by_publisher single_shelf "P1" = 1
  /\ orphanedPublisher
       (BookRepository.checkUpdateImpact "X"
          (mkBookInput None "Renamed" "P1" (Some "S1") "C" ["A1"] [] []) single_shelf)
     = None.
Proof.
  split; [reflexivity|]. split; [reflexivity|].
  exact (proj1 (proj2
    (checkUpdateImpact_only_removed single_shelf "X"
       (mkBookInput None "Renamed" "P1" (Some "S1") "C" ["A1"] [] []) eq_refl))
    eq_refl).
Defined.

(** C9, as the code has it.  [checkDeleteImpact] and [checkUpdateImpact]
    return a report on every id and never write; for an id that is not the
    id of a book the report is the empty one (no orphans, [hasImpact]
    false) and no error is raised.  The handler of the first returns that
    report and leaves the store as it was.  The handler of the second
    validates the new state first: when [BookSchema] accepts it the handler
    returns the report for the validated state, otherwise it throws the
    message of the validation error; in both cases the store is left as it
    was. *)
Theorem impact_checks_return_reports :
  forall (parse : BookInput -> Error + BookInput) (db : Database) (bookId : string)
         (input : BookInput),
    Handlers.BOOK_CHECK_DELETE_IMPACT bookId db
    = (db, inr (BookRepository.checkDeleteImpact bookId db))
    /\ Handlers.BOOK_CHECK_UPDATE_IMPACT parse bookId input db
       = (db,
          match parse input with
          | inr validated => inr (BookRepository.checkUpdateImpact bookId validated db)
          | inl rejected => inl (JsError (message rejected))
          end)
    /\ (Sql.get_book db bookId = None ->
        BookRepository.checkDeleteImpact bookId db = no_impact
        /\ BookRepository.checkUpdateImpact bookId input db = no_impact
        /\ Handlers.BOOK_CHECK_DELETE_IMPACT bookId db = (db, inr no_impact)
        /\ forall validated,
             parse input = inr validated ->
             Handlers.BOOK_CHECK_UPDATE_IMPACT parse bookId input db = (db, inr no_impact)).
Proof.
  intros parse db bookId input.
  assert (Hupdate : Handlers.BOOK_CHECK_UPDATE_IMPACT parse bookId input db
                    = (db,
                       match parse input with
                       | inr validated =>
                           inr (BookRepository.checkUpdateImpact bookId validated db)
                       | inl rejected => inl (JsError (message rejected))
                       end)).
  { unfold Handlers.BOOK_CHECK_UPDATE_IMPACT, Handlers.BookSchema_parse, try_catch, bind,
      query, Handlers.handleError, throw.
    now destruct (parse input). }
  split; [reflexivity|]. split; [exact Hupdate|].
  intros Hnone.
  assert (Hempty : forall s, BookRepository.checkUpdateImpact bookId s db = no_impact).
  { intros s. unfold BookRepository.checkUpdateImpact. now rewrite Hnone. }
  assert (Hdelete : BookRepository.checkDeleteImpact bookId db = no_impact).
  { unfold BookRepository.checkDeleteImpact. now rewrite Hnone. }
  split; [exact Hdelete|]. split; [apply Hempty|].
  split.
  - unfold Handlers.BOOK_CHECK_DELETE_IMPACT, try_catch, query. now rewrite Hdelete.
  - intros validated Hvalid. rewrite Hupdate, Hvalid, Hempty. reflexivity.
Qed.

Lemma impact_checks_return_reports_witness :
  Sql.get_book library "ghost" = None
  /\ BookRepository.checkDeleteImpact "ghost" library = no_impact
  /\ Handlers.BOOK_CHECK_UPDATE_IMPACT accepted "ghost" valid_edit library
     = (library, inr no_impact).
Proof.
  split; [reflexivity|].
  destruct (proj2 (proj2 (impact_checks_return_reports accepted library "ghost" valid_edit))
              eq_refl) as (H1 & _ & _ & H4).
  split; [exact H1|]. exact (H4 valid_edit eq_refl).
Defined.

(** C9 as stated fails: asked about an id that names no book, both checks
    return the empty report instead of signalling an error, and so do their
    handlers, the second on a new state that passes the validation. *)
Lemma impact_checks_missing_book_no_error :
  Sql.get_book library "ghost" = None
  /\ BookRepository.checkDeleteImpact "ghost" library = mkImpact [] None None false
  /\ BookRepository.checkUpdateImpact "ghost" valid_edit library = mkImpact [] None None false
  /\ Handlers.BOOK_CHECK_DELETE_IMPACT "ghost" library
     = (library, inr (mkImpact [] None None false))
  /\ Handlers.BOOK_CHECK_UPDATE_IMPACT accepted "ghost" valid_edit library
     = (library, inr (mkImpact [] None None false)).
Proof. repeat split. Qed.

(** The handler of an update validates the new state as well, and throws
    the message of whatever the validation or the update throws. *)
Lemma book_update_handler_run (parse : BookInput -> Error + BookInput) (bookId : string)
    (input : BookInput) (cleanupOrphans : bool) (db : Database) :
  Handlers.BOOK_UPDATE parse bookId input cleanupOrphans db
  = match parse input with
    | inr validated =>
        match BookRepository.update bookId validated cleanupOrphans db with
        | (db', inr row) => (db', inr row)
        | (db', inl e) => (db', inl (JsError (message e)))
        end
    | inl rejected => (db, inl (JsError (message rejected)))
    end.
Proof.
  unfold Handlers.BOOK_UPDATE, Handlers.BookSchema_parse, try_catch, bind,
    Handlers.handleError, throw.
  destruct (parse input) as [e|validated]; [reflexivity|].
  now destruct (BookRepository.update bookId validated cleanupOrphans db) as [db' [e|row]].
Qed.

(** ** Deleting a book *)

(** What [delete] does on an existing book, in terms of the report of
    [checkDeleteImpact]: it throws the blocking error built from the report
    when there is an impact and no cascade was asked for, and otherwise runs
    the delete statements, followed by the cascade when asked for. *)
Lemma delete_run (db : Database) (bookId : string) (book : BookRow) (cleanupOrphans : bool) :
  Sql.get_book db bookId = Some book ->
  let r := BookRepository.checkDeleteImpact bookId db in
  BookRepository.delete bookId cleanupOrphans db
  = if negb cleanupOrphans && hasImpact r
    then (db, inl (JsError (BookRepository.blocked_message
                              (BookRepository.problems (orphanedAuthors r)
                                 (orphanedPublisher r) (orphanedSeries r)))))
    else transaction
           (Stmt.delete_book_authors_by_book bookId ;;
            Stmt.delete_book_genres_by_book bookId ;;
            Stmt.delete_book_topics_by_book bookId ;;
            Stmt.delete_books bookId ;;
            if cleanupOrphans
            then BookRepository.delete_orphans (orphanedAuthors r) (orphanedPublisher r)
                   (orphanedSeries r)
            else ret tt) db.
Proof.
  intros Hbook r. subst r.
  unfold BookRepository.delete, BookRepository.checkDeleteImpact.
  unfold transaction, bind, query, throw, ret.
  rewrite Hbook.
  cbn [orphanedAuthors orphanedPublisher orphanedSeries hasImpact].
  destruct (Nat.eqb (Sql.count_books_by_publisher db (publisher_id book)) 1);
    [destruct (Sql.get_row (publishers db) (publisher_id book)) as [p|]|];
    (destruct (series_id book) as [sid|];
     [destruct (Js.truthy sid);
      [destruct (Nat.eqb (Sql.count_books_by_series db sid) 1);
       [destruct (Sql.get_row (series db) sid) as [s|]|]|]|]);
    destruct (Sql.authors_with_only_book db bookId) as [|a l];
    destruct cleanupOrphans; reflexivity.
Qed.

Lemma filter_twice {A : Type} (f : A -> bool) (l : list A) :
  filter f (filter f l) = filter f l.
Proof.
  induction l as [|x l IH]; simpl; [reflexivity|].
  destruct (f x) eqn:E; simpl; [rewrite E, IH|]; auto.
Qed.

Lemma has_book_count (db : Database) (b : string) :
  Sql.has_book db b = true ->
  Nat.eqb (length (filter (fun r => String.eqb (book_id r) b) (books db))) 0 = false.
Proof.
  unfold Sql.has_book. induction (books db) as [|x l IH]; simpl; [discriminate|].
  destruct (String.eqb (book_id x) b); simpl; auto.
Qed.

Lemma get_book_has (db : Database) (b : string) (book : BookRow) :
  Sql.get_book db b = Some book -> Sql.has_book db b = true.
Proof.
  unfold Sql.get_book, Sql.has_book. induction (books db) as [|x l IH]; simpl; [discriminate|].
  destruct (String.eqb (book_id x) b); simpl; auto.
Qed.

Lemma has_row_matching (t : list NamedRow) (i : string) :
  Sql.has_row t i = true -> Nat.eqb (Stmt.matching t i) 0 = false.
Proof.
  unfold Sql.has_row, Stmt.matching. induction t as [|x l IH]; simpl; [discriminate|].
  destruct (String.eqb (id x) i); simpl; auto.
Qed.

(** The plain delete of an existing book: its row and its link rows go,
    nothing else changes. *)
Lemma delete_statements_run (db : Database) (bookId : string) :
  Sql.has_book db bookId = true ->
  (Stmt.delete_book_authors_by_book bookId ;;
   Stmt.delete_book_genres_by_book bookId ;;
   Stmt.delete_book_topics_by_book bookId ;;
   Stmt.delete_books bookId) db
  = (remove_book bookId db,
     inr (length (filter (fun r => String.eqb (book_id r) bookId) (books db)))).
Proof.
  intros Hb.
  unfold bind, Stmt.delete_book_authors_by_book, Stmt.delete_book_genres_by_book,
    Stmt.delete_book_topics_by_book, modify, Stmt.delete_books.
  cbn [Stmt.set_book_authors Stmt.set_book_genres Stmt.set_book_topics
       authors publishers series genres topics categories books
       book_authors book_genres book_topics series_authors].
  rewrite (has_book_count _ _ Hb).
  unfold remove_book, Stmt.without_left. rewrite !filter_twice. reflexivity.
Qed.

Lemma append_nil_r (s : string) : (s ++ "")%string = s.
Proof. induction s as [|c s IH]; simpl; [reflexivity|now rewrite IH]. Qed.

Lemma append_assoc (a b c : string) : ((a ++ b) ++ c)%string = (a ++ b ++ c)%string.
Proof. induction a as [|x a IH]; simpl; [reflexivity|now rewrite IH]. Qed.

Lemma occurs_same (s : string) : occurs s s.
Proof. exists "", "". now rewrite append_nil_r. Qed.

Lemma occurs_left (s t after : string) : occurs s t -> occurs s (t ++ after).
Proof.
  intros (b & a & ->). exists b, (a ++ after)%string. now rewrite !append_assoc.
Qed.

Lemma occurs_right (s t before : string) : occurs s t -> occurs s (before ++ t).
Proof.
  intros (b & a & ->). exists (before ++ b)%string, a. now rewrite !append_assoc.
Qed.

Lemma occurs_inside (s t before after : string) :
  occurs s t -> occurs s (before ++ t ++ after).
Proof. intros H. now apply occurs_right, occurs_left. Qed.

Lemma concat_cons {A : Type} (f : A -> string) (l : A) (lines : list A) :
  String.concat "" (map f (l :: lines)) = (f l ++ String.concat "" (map f lines))%string.
Proof.
  cbn [map String.concat]. destruct (map f lines); [now rewrite append_nil_r|reflexivity].
Qed.

Lemma occurs_in_line {A : Type} (f : A -> string) (lines : list A) (s : string) (line : A) :
  In line lines -> occurs s (f line) -> occurs s (String.concat "" (map f lines)).
Proof.
  induction lines as [|l lines IH]; intros Hin Hs; [contradiction|].
  rewrite concat_cons. destruct Hin as [<-|Hin].
  - now apply occurs_left.
  - apply occurs_right. now apply IH.
Qed.

(** [join] writes the first element and then, before each of the others,
    the separator. *)
Lemma join_first (sep first : string) (others : list string) :
  Js.join sep (first :: others)
  = (first ++ String.concat "" (map (fun x => sep ++ x) others))%string.
Proof.
  unfold Js.join. revert first.
  induction others as [|x others IH]; intros first.
  - cbn. now rewrite append_nil_r.
  - change (String.concat sep (first :: x :: others))
      with (first ++ sep ++ String.concat sep (x :: others))%string.
    rewrite IH, (concat_cons (fun y => (sep ++ y)%string) x others), append_assoc.
    reflexivity.
Qed.

(** The lines that [delete] pushes on [problems] are the enumeration of
    the report, and its message is the blocking text. *)
Lemma problems_enumerate (r : BookDeleteImpact) :
  BookRepository.problems (orphanedAuthors r) (orphanedPublisher r) (orphanedSeries r)
  = enumeration r.
Proof.
  unfold BookRepository.problems, enumeration.
  destruct (orphanedAuthors r) as [|a others]; [reflexivity|].
  cbn [nonempty map]. rewrite join_first, map_map, append_assoc. reflexivity.
Qed.

Lemma blocked_message_text (r : BookDeleteImpact) :
  hasImpact r = nonempty (orphanedAuthors r) || not_null (orphanedPublisher r)
                || not_null (orphanedSeries r) ->
  hasImpact r = true ->
  BookRepository.blocked_message
    (BookRepository.problems (orphanedAuthors r) (orphanedPublisher r) (orphanedSeries r))
  = blocking_text r.
Proof.
  intros Hdef Himpact. rewrite problems_enumerate.
  unfold BookRepository.blocked_message, blocking_text.
  assert (Hne : enumeration r <> []).
  { unfold enumeration. rewrite Hdef in Himpact.
    destruct (orphanedAuthors r), (orphanedPublisher r), (orphanedSeries r);
      cbn in Himpact |- *; congruence. }
  destruct (enumeration r) as [|line lines]; [congruence|].
  rewrite (join_first (Js.nl ++ Js.bullet ++ " ") line lines).
  f_equal.
  rewrite concat_cons, !append_assoc.
  assert (M : map (fun x => ((Js.nl ++ Js.bullet ++ " ") ++ x)%string) lines
              = map (fun l => (Js.nl ++ Js.bullet ++ " " ++ l)%string) lines).
  { apply map_ext. intros x. now rewrite !append_assoc. }
  now rewrite M.
Qed.

Lemma hasImpact_of_report (db : Database) (bookId : string) :
  let r := BookRepository.checkDeleteImpact bookId db in
  hasImpact r = nonempty (orphanedAuthors r) || not_null (orphanedPublisher r)
                || not_null (orphanedSeries r).
Proof.
  cbv zeta. unfold BookRepository.checkDeleteImpact.
  destruct (Sql.get_book db bookId); reflexivity.
Qed.

(** C2.  For an existing book, [delete] without cascade succeeds when
    [checkDeleteImpact] reports no impact, leaving the store without the
    book and its link rows.  When an impact is reported it throws and
    leaves the store as it was.  The message of the error is the blocking
    text for that report: under its heading it has one line for each kind
    of entity that the report lists and no other line.  The line of the
    authors quotes the names of [orphanedAuthors], in order and separated
    by commas; the line of the publisher and the line of the series quote
    the name of the publisher and the name of the series of the report. *)
Theorem delete_agrees_with_checkDeleteImpact :
  forall (db : Database) (bookId : string) (book : BookRow),
    Sql.get_book db bookId = Some book ->
    let r := BookRepository.checkDeleteImpact bookId db in
    (hasImpact r = false ->
     BookRepository.delete bookId false db = (remove_book bookId db, inr tt))
    /\ (hasImpact r = true ->
        BookRepository.delete bookId false db
        = (db, inl (JsError (BookRepository.blocked_message
                               (BookRepository.problems (orphanedAuthors r)
                                  (orphanedPublisher r) (orphanedSeries r))))))
    /\ (hasImpact r = true ->
        exists msg : string,
          BookRepository.delete bookId false db = (db, inl (JsError msg))
          /\ msg = blocking_text r
          /\ (orphanedAuthors r <> [] ->
              occurs ("Author(s) " ++ Js.dq
                      ++ String.concat ", " (map name (orphanedAuthors r))
                      ++ Js.dq ++ " would have no books") msg)
          /\ (forall a, In a (orphanedAuthors r) ->
                        exists line, In line (enumeration r)
                                     /\ String.prefix "Author(s) " line = true
                                     /\ occurs (name a) line
                                     /\ occurs line msg)
          /\ (forall p, orphanedPublisher r = Some p ->
                        occurs ("Publisher " ++ Js.dq ++ name p ++ Js.dq ++ " would have no books")
                          msg)
          /\ (forall s, orphanedSeries r = Some s ->
                        occurs ("Series " ++ Js.dq ++ name s ++ Js.dq ++ " would have no books")
                          msg)
          /\ (forall line, In line (enumeration r) ->
                           (String.prefix "Author(s) " line = true
                            /\ orphanedAuthors r <> [])
                           \/ (exists p, orphanedPublisher r = Some p
                                         /\ line = ("Publisher " ++ Js.dq ++ name p ++ Js.dq
                                                    ++ " would have no books")%string)
                           \/ (exists s, orphanedSeries r = Some s
                                         /\ line = ("Series " ++ Js.dq ++ name s ++ Js.dq
                                                    ++ " would have no books")%string))
          /\ length (enumeration r)
             = (if nonempty (orphanedAuthors r) then 1 else 0)
               + (if not_null (orphanedPublisher r) then 1 else 0)
               + (if not_null (orphanedSeries r) then 1 else 0)).
Proof.
  intros db bookId book Hbook r.
  pose proof (delete_run db bookId false Hbook) as Hrun. cbv zeta in Hrun. fold r in Hrun.
  split; [|split]; intros Himpact; rewrite Hrun, Himpact; cbn [negb andb]; [|reflexivity|].
  - unfold transaction.
    change ((Stmt.delete_book_authors_by_book bookId ;;
             Stmt.delete_book_genres_by_book bookId ;;
             Stmt.delete_book_topics_by_book bookId ;;
             Stmt.delete_books bookId ;; ret tt) db)
      with (match (Stmt.delete_book_authors_by_book bookId ;;
                   Stmt.delete_book_genres_by_book bookId ;;
                   Stmt.delete_book_topics_by_book bookId ;;
                   Stmt.delete_books bookId) db with
            | (s', inr _) => (s', inr tt)
            | (s', inl e) => (s', inl e)
            end).
    rewrite (delete_statements_run db bookId (get_book_has db bookId Hbook)). reflexivity.
  - exists (blocking_text r).
    rewrite (blocked_message_text r (hasImpact_of_report db bookId) Himpact).
    split; [reflexivity|]. split; [reflexivity|].
    assert (Hline : forall line, In line (enumeration r) -> occurs line (blocking_text r)).
    { intros line Hin. unfold blocking_text. apply occurs_inside with (before := "Cannot delete this book because it would violate business rules:").
      apply (@occurs_in_line _ (fun l => (Js.nl ++ Js.bullet ++ " " ++ l)%string) _ line line
               Hin).
      exists (Js.nl ++ Js.bullet ++ " ")%string, "". now rewrite !append_assoc, append_nil_r. }
    split; [|split; [|split; [|split; [|split]]]].
    + intros Hsome. apply Hline.
      rewrite <- problems_enumerate. unfold BookRepository.problems.
      destruct (orphanedAuthors r) as [|a0 others]; [congruence|]. now left.
    + intros a Ha.
      destruct (orphanedAuthors r) as [|a0 others] eqn:Eauthors; [contradiction|].
      assert (Hin : In ("Author(s) " ++ Js.dq ++ name a0
                        ++ String.concat "" (map (fun b => ", " ++ name b) others)
                        ++ Js.dq ++ " would have no books")%string (enumeration r)).
      { unfold enumeration. rewrite Eauthors. now left. }
      eexists. split; [exact Hin|]. split; [reflexivity|]. split; [|now apply Hline].
      apply occurs_right, occurs_right. destruct Ha as [<-|Ha].
      * apply occurs_left, occurs_same.
      * apply occurs_right, occurs_left.
        apply (@occurs_in_line _ (fun b => (", " ++ name b)%string) others (name a) a Ha).
        apply occurs_right, occurs_same.
    + intros p Hp. apply Hline. unfold enumeration. rewrite Hp.
      apply in_or_app. right. apply in_or_app. left. now left.
    + intros s Hs. apply Hline. unfold enumeration. rewrite Hs.
      apply in_or_app. right. apply in_or_app. right. now left.
    + intros line Hin. unfold enumeration in Hin.
      apply in_app_or in Hin. destruct Hin as [Hin|Hin].
      * left. destruct (orphanedAuthors r) as [|a0 others]; [contradiction|].
        destruct Hin as [<-|[]]. split; [reflexivity|discriminate].
      * right. apply in_app_or in Hin. destruct Hin as [Hin|Hin].
        -- left. destruct (orphanedPublisher r) as [p|]; [|contradiction].
           destruct Hin as [<-|[]]. now exists p.
        -- right. destruct (orphanedSeries r) as [s|]; [|contradiction].
           destruct Hin as [<-|[]]. now exists s.
    + unfold enumeration.
      destruct (orphanedAuthors r), (orphanedPublisher r), (orphanedSeries r); reflexivity.
Qed.

Lemma delete_agrees_with_checkDeleteImpact_witness :
  Sql.get_book single_shelf "X" = Some (mkBook "X" "The Book" "P1" (Some "S1") "C")
  /\ hasImpact (BookRepository.checkDeleteImpact "X" single_shelf) = true
  /\ BookRepository.delete "X" false single_shelf
     = (single_shelf,
        inl (JsError (BookRepository.blocked_message
                        (BookRepository.problems [mkRow "A1" "Ada"]
                           (Some (mkRow "P1" "Press")) (Some (mkRow "S1" "Cycle"))))))
  /\ exists msg : string,
       BookRepository.delete "X" false single_shelf = (single_shelf, inl (JsError msg))
       /\ occurs ("Publisher " ++ Js.dq ++ "Press" ++ Js.dq ++ " would have no books") msg
       /\ occurs ("Series " ++ Js.dq ++ "Cycle" ++ Js.dq ++ " would have no books") msg.
Proof.
  split; [reflexivity|]. split; [reflexivity|].
  split;
    [exact (proj1 (proj2 (delete_agrees_with_checkDeleteImpact single_shelf "X" eq_refl))
              eq_refl)|].
  destruct (proj2 (proj2 (delete_agrees_with_checkDeleteImpact single_shelf "X" eq_refl))
              eq_refl) as (msg & Hrun & _ & _ & _ & Hp & Hs & _).
  exists msg. split; [exact Hrun|].
  split; [exact (Hp (mkRow "P1" "Press") eq_refl)|exact (Hs (mkRow "S1" "Cycle") eq_refl)].
Defined.

Lemma filter_none {A : Type} (f : A -> bool) (l : list A) :
  (forall x, In x l -> f x = false) -> filter f l = [].
Proof.
  induction l as [|x l IH]; simpl; intros H; [reflexivity|].
  rewrite (H x (or_introl eq_refl)). apply IH. intros y Hy. apply H. now right.
Qed.


Lemma map_unchanged {A : Type} (f : A -> A) (l : list A) :
  (forall x, In x l -> f x = x) -> map f l = l.
Proof.
  induction l as [|x l IH]; simpl; intros H; [reflexivity|].
  rewrite (H x (or_introl eq_refl)). f_equal. apply IH. intros y Hy. apply H. now right.
Qed.








(** ** Deleting an author *)

(** [delete] of [AuthorRepository] looks at the book count only: an author
    with a book is refused and nothing is written. *)
Lemma deleteAuthor_blocked_by_books (db : Database) (authorId : string) :
  0 < Sql.count_book_authors_by_author db authorId ->
  exists msg, Handlers.AUTHOR_DELETE authorId db = (db, inl (JsError msg)).
Proof.
  intros Hpos. unfold Handlers.AUTHOR_DELETE, AuthorRepository.delete, try_catch, bind, query.
  apply Nat.ltb_lt in Hpos. rewrite Hpos. eexists. reflexivity.
Qed.

(** C3, at the failing input.  Ann has no book and is the only author of
    the saga: [checkAuthorDeleteImpact] reports the saga, yet the delete
    handler succeeds, Ann's row and her series link are removed, and the
    saga is left in the store with no author. *)
Theorem deleteAuthor_ignores_sole_series_author :
  foreign_keys_ok ann_without_books = true
  /\ Sql.count_book_authors_by_author ann_without_books "A" = 0
  /\ DomainService.checkAuthorDeleteImpact "A" ann_without_books
     = DomainService.mkAuthorImpact true [mkRow "S" "Saga"]
  /\ exists db',
       Handlers.AUTHOR_DELETE "A" ann_without_books = (db', inr tt)
       /\ authors db' = [mkRow "B" "Bob"]
       /\ series db' = [mkRow "S" "Saga"]
       /\ Sql.count_series_authors_by_series db' "S" = 0
       /\ Sql.series_no_authors db' = [mkRow "S" "Saga"].
Proof.
  split; [reflexivity|]. split; [reflexivity|]. split; [reflexivity|].
  exists (fst (Handlers.AUTHOR_DELETE "A" ann_without_books)).
  repeat split; vm_compute; reflexivity.
Qed.

(** ** Integrity across operations *)

(** C1, at the failing input.  The library passes [integrityCheck] and
    satisfies its foreign keys.  Deleting Ann's only book with the cascade
    completes without error; the cascade deletes Ann together with her
    series link, and the resulting store fails [integrityCheck]: the saga
    has no author. *)
Theorem cascade_delete_breaks_integrity :
  DomainService.isValid (DomainService.integrityCheck library) = true
  /\ foreign_keys_ok library = true
  /\ exists db',
       Handlers.BOOK_DELETE "b1" true library = (db', inr tt)
       /\ DomainService.isValid (DomainService.integrityCheck db') = false
       /\ map DomainService.vtype (DomainService.violations (DomainService.integrityCheck db'))
          = [DomainService.series_no_authors].
Proof.
  split; [reflexivity|]. split; [reflexivity|].
  exists (fst (Handlers.BOOK_DELETE "b1" true library)).
  repeat split; vm_compute; reflexivity.
Qed.

(** The same two statements close [update] with cascade and the clean-up
    pass of the import, with the same effect on the saga. *)
Lemma update_cascade_breaks_integrity :
  exists db' row,
    BookRepository.update "b1" b1_to_bob true library = (db', inr row)
    /\ map DomainService.vtype (DomainService.violations (DomainService.integrityCheck db'))
       = [DomainService.series_no_authors].
Proof.
  exists (fst (BookRepository.update "b1" b1_to_bob true library)).
  exists (Some (mkBook "b1" "One" "P" None "C")).
  split; vm_compute; reflexivity.
Qed.

Lemma import_cleanup_breaks_integrity :
  map DomainService.vtype
    (DomainService.violations
       (DomainService.integrityCheck
          (fst (ImportExportService.importFromJson fixed_uuid sequel_batch library))))
  = [DomainService.series_no_authors].
Proof. vm_compute. reflexivity. Qed.

(** [update] without cascade never blocks: Ann is left without a book. *)
Lemma update_without_cascade_leaves_orphan :
  exists db' row,
    BookRepository.update "b1" b1_to_bob false library = (db', inr row)
    /\ map DomainService.vtype (DomainService.violations (DomainService.integrityCheck db'))
       = [DomainService.orphan_author].
Proof.
  exists (fst (BookRepository.update "b1" b1_to_bob false library)).
  exists (Some (mkBook "b1" "One" "P" None "C")).
  split; vm_compute; reflexivity.
Qed.

(** *** What the blocking delete does preserve *)

Lemma filter_nil_all {A : Type} (f : A -> bool) (l : list A) :
  filter f l = [] -> forall x, In x l -> f x = false.
Proof.
  intros H x Hx. destruct (f x) eqn:E; [|reflexivity].
  assert (Hin : In x (filter f l)) by (apply filter_In; auto).
  rewrite H in Hin. contradiction.
Qed.

Lemma map_nil_inv {A B : Type} (f : A -> B) (l : list A) : map f l = [] -> l = [].
Proof. destruct l; simpl; [reflexivity|discriminate]. Qed.

(** In a list without repetition, an element that passes a test passed by
    a number of elements other than one is not the only one to pass it. *)
Lemma another_one {A : Type} (f : A -> bool) (l : list A) (x : A) :
  NoDup l -> In x l -> f x = true -> length (filter f l) <> 1 ->
  exists y, In y l /\ f y = true /\ y <> x.
Proof.
  intros Hnd Hx Hfx Hlen.
  assert (Hnd' : NoDup (filter f l)) by (now apply NoDup_filter).
  assert (Hx' : In x (filter f l)) by (apply filter_In; auto).
  assert (Hsub : forall y, In y (filter f l) -> In y l /\ f y = true)
    by (intros y Hy; now apply filter_In in Hy).
  destruct (filter f l) as [|a [|b t]].
  - contradiction.
  - simpl in Hlen. congruence.
  - inversion Hnd' as [|? ? Hnotin _]; subst.
    destruct Hx' as [<-|Hx'].
    + exists b. destruct (Hsub b (or_intror (or_introl eq_refl))) as [Hb Hfb].
      repeat split; auto. intros ->. apply Hnotin. now left.
    + exists a. destruct (Hsub a (or_introl eq_refl)) as [Ha Hfa].
      repeat split; auto. intros ->. contradiction.
Qed.

Lemma unique_key {A : Type} (f : A -> string) (l : list A) (x y : A) :
  NoDup (map f l) -> In x l -> In y l -> f x = f y -> x = y.
Proof.
  induction l as [|a l IH]; simpl; intros Hnd Hx Hy Hf; [contradiction|].
  inversion Hnd as [|? ? Hnotin Hnd']; subst.
  destruct Hx as [<-|Hx], Hy as [<-|Hy]; auto.
  - exfalso. apply Hnotin. rewrite Hf. now apply in_map.
  - exfalso. apply Hnotin. rewrite <- Hf. now apply in_map.
Qed.

Lemma integrity_lists (db : Database) :
  DomainService.isValid (DomainService.integrityCheck db) = true <->
  Sql.orphan_authors db = [] /\ Sql.orphan_publishers db = []
  /\ Sql.orphan_series db = [] /\ Sql.series_no_authors db = []
  /\ Sql.books_no_publisher db = [] /\ Sql.books_no_category db = [].
Proof.
  unfold DomainService.integrityCheck. cbn [DomainService.isValid].
  rewrite Nat.eqb_eq, !length_app, !length_map.
  split.
  - intros H.
    repeat split; apply length_zero_iff_nil; lia.
  - intros (H1 & H2 & H3 & H4 & H5 & H6).
    rewrite H1, H2, H3, H4, H5, H6. reflexivity.
Qed.

(** What a report without impact says. *)
Lemma no_impact_fields (db : Database) (bookId : string) (book : BookRow) :
  Sql.get_book db bookId = Some book ->
  hasImpact (BookRepository.checkDeleteImpact bookId db) = false ->
  Sql.authors_with_only_book db bookId = []
  /\ (Sql.has_row (publishers db) (publisher_id book) = true ->
      Sql.count_books_by_publisher db (publisher_id book) <> 1)
  /\ (forall sid, series_id book = Some sid -> Js.truthy sid = true ->
                  Sql.has_row (series db) sid = true ->
                  Sql.count_books_by_series db sid <> 1).
Proof.
  intros Hbook. unfold BookRepository.checkDeleteImpact. rewrite Hbook.
  cbn [hasImpact]. intros H.
  apply orb_false_elim in H. destruct H as [H Hs].
  apply orb_false_elim in H. destruct H as [Ha Hp].
  apply nonempty_false in Ha. apply not_null_false in Hp. apply not_null_false in Hs.
  split; [exact Ha|]. split.
  - intros Hrow Hc. apply Nat.eqb_eq in Hc. rewrite Hc in Hp.
    apply has_row_get in Hrow. destruct Hrow as [p Hrow]. rewrite Hrow in Hp. discriminate.
  - intros sid Hsid Ht Hrow Hc. rewrite Hsid, Ht in Hs.
    apply Nat.eqb_eq in Hc. rewrite Hc in Hs.
    apply has_row_get in Hrow. destruct Hrow as [r Hrow]. rewrite Hrow in Hs. discriminate.
Qed.

(** Removing a book whose report shows no impact keeps a store with sound
    keys valid: every author, publisher and series of the book has
    another book. *)
Lemma remove_book_keeps_integrity (db : Database) (bookId : string) (book : BookRow) :
  keys_ok db ->
  DomainService.isValid (DomainService.integrityCheck db) = true ->
  Sql.get_book db bookId = Some book ->
  hasImpact (BookRepository.checkDeleteImpact bookId db) = false ->
  DomainService.isValid (DomainService.integrityCheck (remove_book bookId db)) = true.
Proof.
  intros (Hkb & Hkl & Hks) Hvalid Hbook Hno.
  apply integrity_lists in Hvalid.
  destruct Hvalid as (Va & Vp & Vs & Vsa & Vbp & Vbc).
  destruct (no_impact_fields db bookId Hbook Hno) as (Ia & Ip & Is).
  pose proof (get_book_some db bookId Hbook) as [Hin Hid].
  assert (Hother : forall y, In y (books db) -> y <> book ->
                             negb (String.eqb (book_id y) bookId) = true).
  { intros y Hy Hne. apply negb_true_iff. apply String.eqb_neq. intros Heq.
    apply Hne. apply (@unique_key BookRow book_id (books db)); auto. congruence. }
  apply integrity_lists. unfold remove_book.
  unfold Sql.orphan_authors, Sql.orphan_publishers, Sql.orphan_series,
    Sql.series_no_authors, Sql.books_no_publisher, Sql.books_no_category in *.
  cbn [authors publishers series genres topics categories books
       book_authors book_genres book_topics series_authors].
  apply map_nil_inv in Va, Vp, Vs, Vbp, Vbc.
  split; [|split; [|split; [|split; [|split]]]].
  - (* authors *)
    rewrite filter_none; [reflexivity|]. intros a Ha.
    apply negb_false_iff. apply existsb_exists.
    pose proof (filter_nil_all _ _ Va a Ha) as Hlink.
    apply negb_false_iff in Hlink. apply existsb_exists in Hlink.
    destruct Hlink as (l0 & Hl0 & Hmatch). apply String.eqb_eq in Hmatch.
    destruct (String.eqb (fst l0) bookId) eqn:Hfst.
    + apply String.eqb_eq in Hfst.
      assert (Hl0' : l0 = (bookId, id a)) by (destruct l0; simpl in *; congruence).
      subst l0.
      assert (Hcount : Sql.count_book_authors_by_author db (id a) <> 1).
      { intros Hc.
        assert (Hor : In (mkRow (id a) (name a)) (Sql.authors_with_only_book db bookId)).
        { apply in_authors_with_only_book. exists a. auto. }
        rewrite Ia in Hor. contradiction. }
      destruct (@another_one Link (fun l : Link => String.eqb (snd l) (id a)) (book_authors db)
                  (bookId, id a) Hkl Hl0 (String.eqb_refl _) Hcount)
        as (y & Hy & Hfy & Hne).
      exists y. split.
      * unfold Stmt.without_left. apply filter_In. split; [exact Hy|].
        apply negb_true_iff. apply String.eqb_neq. intros Heq.
        apply Hne. apply String.eqb_eq in Hfy. destruct y; simpl in *; congruence.
      * apply String.eqb_eq in Hfy. rewrite Hfy. apply String.eqb_refl.
    + exists l0. split.
      * unfold Stmt.without_left. apply filter_In. split; [exact Hl0|].
        now rewrite Hfst.
      * rewrite Hmatch. apply String.eqb_refl.
  - (* publishers *)
    rewrite filter_none; [reflexivity|]. intros p Hp.
    apply negb_false_iff. apply existsb_exists.
    pose proof (filter_nil_all _ _ Vp p Hp) as Hbk.
    apply negb_false_iff in Hbk. apply existsb_exists in Hbk.
    destruct Hbk as (bk & Hbk & Hmatch). apply String.eqb_eq in Hmatch.
    destruct (String.eqb (book_id bk) bookId) eqn:Hbid.
    + apply String.eqb_eq in Hbid.
      assert (bk = book) by (apply (@unique_key BookRow book_id (books db)); auto; congruence).
      subst bk.
      assert (Hcount : Sql.count_books_by_publisher db (publisher_id book) <> 1).
      { apply Ip. rewrite <- Hmatch. now apply in_has_row. }
      destruct (@another_one BookRow (fun b => String.eqb (publisher_id b) (publisher_id book))
                  (books db) book (NoDup_map_inv _ _ Hkb) Hin (String.eqb_refl _) Hcount)
        as (y & Hy & Hfy & Hne).
      exists y. split.
      * apply filter_In. split; [exact Hy|]. now apply Hother.
      * apply String.eqb_eq in Hfy. rewrite Hmatch, Hfy. apply String.eqb_refl.
    + exists bk. split.
      * apply filter_In. split; [exact Hbk|]. now rewrite Hbid.
      * rewrite Hmatch. apply String.eqb_refl.
  - (* series with books *)
    rewrite filter_none; [reflexivity|]. intros s Hs.
    apply negb_false_iff. apply existsb_exists.
    pose proof (filter_nil_all _ _ Vs s Hs) as Hbk.
    apply negb_false_iff in Hbk. apply existsb_exists in Hbk.
    destruct Hbk as (bk & Hbk & Hmatch).
    destruct (String.eqb (book_id bk) bookId) eqn:Hbid.
    + apply String.eqb_eq in Hbid.
      assert (bk = book) by (apply (@unique_key BookRow book_id (books db)); auto; congruence).
      subst bk.
      assert (Hsid : series_id book = Some (id s)).
      { unfold Sql.series_is in Hmatch. destruct (series_id book) as [sid|]; [|discriminate].
        apply String.eqb_eq in Hmatch. now subst. }
      assert (Hcount : Sql.count_books_by_series db (id s) <> 1).
      { apply Is; auto.
        - rewrite forallb_forall in Hks. now apply Hks.
        - now apply in_has_row. }
      destruct (@another_one BookRow (fun b => Sql.series_is b (id s))
                  (books db) book (NoDup_map_inv _ _ Hkb) Hin Hmatch Hcount)
        as (y & Hy & Hfy & Hne).
      exists y. split; [|exact Hfy].
      apply filter_In. split; [exact Hy|]. now apply Hother.
    + exists bk. split; [|exact Hmatch].
      apply filter_In. split; [exact Hbk|]. now rewrite Hbid.
  - (* series with authors: untouched *)
    exact Vsa.
  - (* publisher of the remaining books *)
    rewrite filter_none; [reflexivity|]. intros y Hy. apply filter_In in Hy.
    apply (filter_nil_all _ _ Vbp). tauto.
  - (* category of the remaining books *)
    rewrite filter_none; [reflexivity|]. intros y Hy. apply filter_In in Hy.
    apply (filter_nil_all _ _ Vbc). tauto.
Qed.

(** Every [delete] without cascade that completes on a valid store with
    sound keys leaves a valid store: the defect shown above is confined
    to the cascade. *)
Lemma plain_delete_keeps_integrity (db db' : Database) (bookId : string) :
  keys_ok db ->
  DomainService.isValid (DomainService.integrityCheck db) = true ->
  BookRepository.delete bookId false db = (db', inr tt) ->
  DomainService.isValid (DomainService.integrityCheck db') = true.
Proof.
  intros Hkeys Hvalid Hrun.
  destruct (Sql.get_book db bookId) as [book|] eqn:Hbook.
  - rewrite (delete_run db bookId false Hbook) in Hrun. cbn [negb andb] in Hrun.
    destruct (hasImpact (BookRepository.checkDeleteImpact bookId db)) eqn:Himpact;
      [discriminate|].
    unfold transaction in Hrun.
    change ((Stmt.delete_book_authors_by_book bookId ;;
             Stmt.delete_book_genres_by_book bookId ;;
             Stmt.delete_book_topics_by_book bookId ;;
             Stmt.delete_books bookId ;; ret tt) db)
      with (match (Stmt.delete_book_authors_by_book bookId ;;
                   Stmt.delete_book_genres_by_book bookId ;;
                   Stmt.delete_book_topics_by_book bookId ;;
                   Stmt.delete_books bookId) db with
            | (s', inr _) => (s', inr tt)
            | (s', inl e) => (s', inl e)
            end) in Hrun.
    rewrite (delete_statements_run db bookId (get_book_has db bookId Hbook)) in Hrun.
    injection Hrun as <-. now apply remove_book_keeps_integrity with (book := book).
  - unfold BookRepository.delete, transaction, bind, query, throw in Hrun.
    rewrite Hbook in Hrun. discriminate.
Qed.

(** ** Importing a batch *)

(** C8 as stated fails: a series record without authors is skipped and
    nothing is reported; the import even ends with [success]. *)
Lemma import_authorless_series_unreported :
  ImportExportService.importFromJson fixed_uuid authorless_series_batch empty_db
  = (empty_db, ImportExportService.mkResult true 0 0 0 0 0 0 0 []).
Proof. reflexivity. Qed.

(** C7 as stated fails: an author imported without a book is counted,
    removed again by the clean-up pass, and counted again by a second
    import of the same batch. *)
Lemma import_twice_counts_again :
  ImportExportService.importFromJson fixed_uuid lone_author_batch empty_db
  = (empty_db,
     ImportExportService.mkResult false 0 1 0 0 0 0 0
       ["Cleaned up 1 orphan author(s) without books"])
  /\ ImportExportService.authorsImported
       (snd (ImportExportService.importFromJson fixed_uuid lone_author_batch
               (fst (ImportExportService.importFromJson fixed_uuid lone_author_batch
                       empty_db))))
     = 1.
Proof. split; reflexivity. Qed.

(** The identifier does matter: a book record with an empty identifier is
    created under a minted one, is not found by the second import, and is
    created and counted again, although the first import ended with an
    empty error list; the store ends with two books. *)
Lemma import_unnamed_book_twice :
  snd (ImportExportService.importFromJson counting_uuid unnamed_book_batch empty_db)
  = ImportExportService.mkResult true 1 1 1 1 1 0 1 []
  /\ snd (ImportExportService.importFromJson counting_uuid unnamed_book_batch
            (fst (ImportExportService.importFromJson counting_uuid unnamed_book_batch
                    empty_db)))
     = ImportExportService.mkResult true 1 0 0 0 0 0 0 []
  /\ map book_id
       (books (fst (ImportExportService.importFromJson counting_uuid unnamed_book_batch
                      empty_db)))
     = ["book-0"]
  /\ map book_id
       (books (fst (ImportExportService.importFromJson counting_uuid unnamed_book_batch
                      (fst (ImportExportService.importFromJson counting_uuid
                              unnamed_book_batch empty_db)))))
     = ["book-0"; "book-1"].
Proof. repeat split; vm_compute; reflexivity. Qed.

Lemma mint_given (uuidv4 : Database -> string) (i : string) (db : Database) :
  Js.truthy i = true -> mint uuidv4 (Some i) db = (db, inr i).
Proof. intros H. unfold mint, query. simpl. now rewrite H. Qed.

Lemma has_link_app (t : list Link) (l l' : Link) :
  Stmt.has_link (t ++ [l']) l
  = Stmt.has_link t l || (String.eqb (fst l') (fst l) && String.eqb (snd l') (snd l)).
Proof.
  unfold Stmt.has_link. rewrite existsb_app. simpl. now rewrite orb_false_r.
Qed.

(** Linking a new series to distinct, existing authors succeeds and
    appends one row per author. *)
Lemma insert_series_authors_all (sid : string) (ids : list string) :
  forall db : Database,
    Sql.has_row (series db) sid = true ->
    (forall a, In a ids -> Sql.has_row (authors db) a = true) ->
    NoDup ids ->
    (forall a, In a ids -> Stmt.has_link (series_authors db) (sid, a) = false) ->
    for_each ids (fun authorId => Stmt.insert_series_authors (sid, authorId)) db
    = (Stmt.set_series_authors db (series_authors db ++ map (fun a => (sid, a)) ids), inr tt).
Proof.
  induction ids as [|a ids IH]; intros db Hs Ha Hnd Hl.
  - simpl. unfold ret. rewrite app_nil_r. now destruct db.
  - cbn [for_each]. unfold bind. unfold Stmt.insert_series_authors at 1.
    rewrite (Hl a (or_introl eq_refl)). cbn [fst snd].
    rewrite Hs, (Ha a (or_introl eq_refl)). cbn [andb negb].
    inversion Hnd as [|x l Hnotin Hnd']; subst.
    rewrite IH.
    + cbn [Stmt.set_series_authors authors publishers series genres topics categories
           books book_authors book_genres book_topics series_authors map].
      rewrite <- app_assoc. reflexivity.
    + exact Hs.
    + intros b Hb. apply Ha. now right.
    + exact Hnd'.
    + intros b Hb. cbn [Stmt.set_series_authors series_authors].
      rewrite has_link_app. rewrite (Hl b (or_intror Hb)). cbn [fst snd orb].
      rewrite String.eqb_refl. cbn [andb].
      apply String.eqb_neq. intros ->. contradiction.
Qed.

(** On a store that satisfies its foreign keys, a series that is not
    there has no author link. *)
Lemma no_link_of_missing_series (db : Database) (sid a : string) :
  foreign_keys_ok db = true ->
  Sql.has_row (series db) sid = false ->
  Stmt.has_link (series_authors db) (sid, a) = false.
Proof.
  intros Hfk Hs. destruct (Stmt.has_link (series_authors db) (sid, a)) eqn:E; [|reflexivity].
  unfold Stmt.has_link in E. apply existsb_exists in E. destruct E as (l & Hl & He).
  cbn [fst snd] in He. apply andb_prop in He. destruct He as [He _].
  apply String.eqb_eq in He.
  unfold foreign_keys_ok in Hfk. apply andb_prop in Hfk. destruct Hfk as [_ Hfk].
  rewrite forallb_forall in Hfk. apply Hfk in Hl. apply andb_prop in Hl.
  destruct Hl as [Hl _]. rewrite He in Hl. congruence.
Qed.

(** C8, as the code has it.  In the series group of the import, a record
    whose author list is empty is skipped without a trace: store, counters
    and error list are left as they were.  A record with a non-empty list
    of distinct authors that all exist, and with a non-empty id that is
    not yet the id of a series, is inserted with one link row per author
    and [seriesImported] is incremented. *)
Theorem import_series_step :
  forall (uuidv4 : Database -> string) (s : ImportExportService.SeriesWithAuthors)
         (h : ImportExportService.Heap),
    (ImportExportService.s_authors s = [] ->
     ImportExportService.import_series uuidv4 s h = (h, inr tt))
    /\ (ImportExportService.s_authors s <> [] ->
        Js.truthy (ImportExportService.s_id s) = true ->
        foreign_keys_ok (ImportExportService.store h) = true ->
        Sql.has_row (series (ImportExportService.store h)) (ImportExportService.s_id s) = false ->
        NoDup (map id (ImportExportService.s_authors s)) ->
        (forall a, In a (ImportExportService.s_authors s) ->
                   Sql.has_row (authors (ImportExportService.store h)) (id a) = true) ->
        let db := ImportExportService.store h in
        let r := ImportExportService.result h in
        ImportExportService.import_series uuidv4 s h
        = (ImportExportService.mkHeap
             (mkDb (authors db) (publishers db)
                (series db ++ [mkRow (ImportExportService.s_id s) (ImportExportService.s_name s)])
                (genres db) (topics db) (categories db) (books db)
                (book_authors db) (book_genres db) (book_topics db)
                (series_authors db
                 ++ map (fun a => (ImportExportService.s_id s, id a))
                      (ImportExportService.s_authors s)))
             (ImportExportService.mkResult
                (ImportExportService.success r) (ImportExportService.booksImported r)
                (ImportExportService.authorsImported r)
                (ImportExportService.publishersImported r)
                (S (ImportExportService.seriesImported r))
                (ImportExportService.genresImported r) (ImportExportService.topicsImported r)
                (ImportExportService.categoriesImported r) (ImportExportService.errors r)),
           inr tt)).
Proof.
  intros uuidv4 s h. destruct h as [db r]. split.
  - intros Hempty.
    unfold ImportExportService.import_series, try_catch, bind, ImportExportService.lift,
      query, SeriesRepository.findById.
    cbn [ImportExportService.store ImportExportService.result].
    rewrite Hempty. cbn [map nonempty].
    destruct (Sql.get_row (series db) (ImportExportService.s_id s)); reflexivity.
  - intros Hne Hid Hfk Hnew Hnd Hex. cbn [ImportExportService.store ImportExportService.result] in *.
    cbv zeta.
    unfold ImportExportService.import_series, try_catch, bind, ImportExportService.lift,
      query, SeriesRepository.findById.
    cbn [ImportExportService.store ImportExportService.result].
    rewrite (proj2 (get_row_none _ _) Hnew).
    assert (Hnonempty : nonempty (map id (ImportExportService.s_authors s)) = true).
    { destruct (ImportExportService.s_authors s); [congruence|reflexivity]. }
    rewrite Hnonempty.
    unfold SeriesRepository.create, bind.
    cbn [si_id si_name si_authorIds ImportExportService.store ImportExportService.result].
    rewrite (mint_given uuidv4 _ db Hid).
    unfold transaction. unfold Stmt.insert_series at 1. cbn [id]. rewrite Hnew.
    rewrite insert_series_authors_all.
    + unfold query, ImportExportService.incr_series, ImportExportService.on_result, modify.
      cbn [Stmt.set_series Stmt.set_series_authors authors publishers series genres topics
           categories books book_authors book_genres book_topics series_authors
           ImportExportService.store ImportExportService.result].
      rewrite map_map. reflexivity.
    + cbn [Stmt.set_series series]. unfold Sql.has_row. rewrite existsb_app. simpl.
      rewrite String.eqb_refl. apply orb_true_r.
    + intros a Ha. cbn [Stmt.set_series authors]. apply in_map_iff in Ha.
      destruct Ha as (row & <- & Hrow). now apply Hex.
    + exact Hnd.
    + intros a _. cbn [Stmt.set_series series_authors].
      now apply no_link_of_missing_series.
Qed.

(** Bob is registered as author of a second saga. *)
Lemma import_series_step_witness :
  ImportExportService.import_series fixed_uuid
    (ImportExportService.mkSeriesRecord "S2" "Sequel" [mkRow "B" "Bob"])
    (ImportExportService.mkHeap library ImportExportService.initial_result)
  = (ImportExportService.mkHeap
       (mkDb [mkRow "A" "Ann"; mkRow "B" "Bob"] [mkRow "P" "Pub"]
          [mkRow "S" "Saga"; mkRow "S2" "Sequel"] [] [] [mkRow "C" "General"]
          [mkBook "b1" "One" "P" None "C"; mkBook "b2" "Two" "P" (Some "S") "C"]
          [("b1", "A"); ("b2", "B")] [] [] [("S", "A"); ("S2", "B")])
       (ImportExportService.mkResult false 0 0 0 1 0 0 0 []),
     inr tt).
Proof.
  refine (proj2 (import_series_step fixed_uuid
                   (ImportExportService.mkSeriesRecord "S2" "Sequel" [mkRow "B" "Bob"])
                   (ImportExportService.mkHeap library ImportExportService.initial_result))
            _ eq_refl eq_refl eq_refl _ _).
  - discriminate.
  - repeat constructor. simpl. tauto.
  - intros a [<-|[]]. reflexivity.
Defined.

(** *** Stores only grow while records are processed *)

Lemma grows_refl (db : Database) : grows db db.
Proof. unfold grows. repeat split; apply incl_refl. Qed.

Lemma grows_trans (a b c : Database) : grows a b -> grows b c -> grows a c.
Proof.
  unfold grows.
  intros (A1 & A2 & A3 & A4 & A5 & A6 & A7 & A8 & A9 & A10 & A11)
         (B1 & B2 & B3 & B4 & B5 & B6 & B7 & B8 & B9 & B10 & B11).
  repeat split; eapply incl_tran; eassumption.
Qed.

Lemma same_rows_refl (db : Database) : same_rows db db.
Proof. unfold same_rows. repeat split. Qed.

Lemma same_rows_trans (a b c : Database) : same_rows a b -> same_rows b c -> same_rows a c.
Proof.
  unfold same_rows.
  intros (A1 & A2 & A3 & A4 & A5 & A6 & A7) (B1 & B2 & B3 & B4 & B5 & B6 & B7).
  repeat split; congruence.
Qed.

Lemma series_phase_refl (db : Database) : series_phase db db.
Proof. split; [apply grows_refl|reflexivity]. Qed.

Lemma series_phase_trans (a b c : Database) :
  series_phase a b -> series_phase b c -> series_phase a c.
Proof.
  intros [G1 E1] [G2 E2]. split; [eapply grows_trans; eauto|congruence].
Qed.

Lemma books_phase_refl (db : Database) : books_phase db db.
Proof. split; [apply grows_refl|repeat split]. Qed.

Lemma books_phase_trans (a b c : Database) :
  books_phase a b -> books_phase b c -> books_phase a c.
Proof.
  intros (G1 & A1 & A2 & A3 & A4 & A5 & A6) (G2 & B1 & B2 & B3 & B4 & B5 & B6).
  split; [eapply grows_trans; eauto|repeat split; congruence].
Qed.

Lemma books_phase_series (a b : Database) : books_phase a b -> series_phase a b.
Proof. intros (G & A1 & _). split; assumption. Qed.

Lemma has_row_incl (t t' : list NamedRow) (i : string) :
  incl t t' -> Sql.has_row t i = true -> Sql.has_row t' i = true.
Proof.
  unfold Sql.has_row. intros Hincl H. apply existsb_exists in H.
  destruct H as (r & Hr & He). apply existsb_exists. exists r. auto.
Qed.

Lemma has_name_incl (t t' : list NamedRow) (n : string) :
  incl t t' -> Stmt.has_name t n = true -> Stmt.has_name t' n = true.
Proof.
  unfold Stmt.has_name. intros Hincl H. apply existsb_exists in H.
  destruct H as (r & Hr & He). apply existsb_exists. exists r. auto.
Qed.

Lemma has_book_grows (E D : Database) (i : string) :
  grows E D -> Sql.has_book E i = true -> Sql.has_book D i = true.
Proof.
  unfold Sql.has_book. intros (_ & _ & _ & _ & _ & _ & Hincl & _) H.
  apply existsb_exists in H. destruct H as (r & Hr & He).
  apply existsb_exists. exists r. auto.
Qed.

Lemma has_row_app (t : list NamedRow) (r : NamedRow) (i : string) :
  Sql.has_row (t ++ [r]) i = Sql.has_row t i || String.eqb (id r) i.
Proof. unfold Sql.has_row. rewrite existsb_app. simpl. now rewrite orb_false_r. Qed.

Lemma has_row_app_new (t : list NamedRow) (i n : string) :
  Sql.has_row (t ++ [mkRow i n]) i = true.
Proof. rewrite has_row_app. simpl. rewrite String.eqb_refl. apply orb_true_r. Qed.

(** A loop keeps every relation on stores that is reflexive, transitive
    and kept by its body, whether or not an iteration throws. *)
Lemma for_each_preserves {A : Type} (R : Database -> Database -> Prop)
    (body : A -> Tx unit) :
  (forall s, R s s) ->
  (forall a b c, R a b -> R b c -> R a c) ->
  (forall x s, R s (fst (body x s))) ->
  forall l s, R s (fst (for_each l body s)).
Proof.
  intros Hrefl Htrans Hbody. induction l as [|x l IH]; intros s.
  - simpl. apply Hrefl.
  - cbn [for_each]. unfold bind. pose proof (Hbody x s) as Hx.
    destruct (body x s) as [s1 [e|[]]]; cbn [fst] in *.
    + exact Hx.
    + eapply Htrans; [exact Hx|apply IH].
Qed.

Ltac table_grows :=
  unfold grows;
  cbn [Stmt.set_authors Stmt.set_publishers Stmt.set_series Stmt.set_genres Stmt.set_topics
       Stmt.set_categories Stmt.set_books Stmt.set_book_authors Stmt.set_book_genres
       Stmt.set_book_topics Stmt.set_series_authors
       authors publishers series genres topics categories books
       book_authors book_genres book_topics series_authors];
  repeat split; auto using incl_refl, incl_appl.

Lemma insert_link_frame (db : Database) :
  (forall l, same_rows db (fst (Stmt.insert_book_authors l db))
             /\ grows db (fst (Stmt.insert_book_authors l db)))
  /\ (forall l, same_rows db (fst (Stmt.insert_book_genres l db))
                /\ grows db (fst (Stmt.insert_book_genres l db)))
  /\ (forall l, same_rows db (fst (Stmt.insert_book_topics l db))
                /\ grows db (fst (Stmt.insert_book_topics l db)))
  /\ (forall l, same_rows db (fst (Stmt.insert_series_authors l db))
                /\ grows db (fst (Stmt.insert_series_authors l db))).
Proof.
  unfold Stmt.insert_book_authors, Stmt.insert_book_genres, Stmt.insert_book_topics,
    Stmt.insert_series_authors.
  split; [|split; [|split]]; intros l;
    (destruct (Stmt.has_link _ l);
     [cbn [fst]; split; [apply same_rows_refl|apply grows_refl]|]);
    (destruct (negb _);
     [cbn [fst]; split; [apply same_rows_refl|apply grows_refl]|]);
    (cbn [fst]; split; [repeat split|table_grows]).
Qed.

(** The link rows of a new record are added without touching any entity
    table, whether or not the loop completes. *)
Lemma link_loop_frame (db : Database) (i : string) (ids : list string) :
  (same_rows db (fst (for_each ids (fun x => Stmt.insert_series_authors (i, x)) db))
   /\ grows db (fst (for_each ids (fun x => Stmt.insert_series_authors (i, x)) db)))
  /\ (same_rows db (fst (for_each ids (fun x => Stmt.insert_book_authors (i, x)) db))
      /\ grows db (fst (for_each ids (fun x => Stmt.insert_book_authors (i, x)) db)))
  /\ (same_rows db (fst (for_each ids (fun x => Stmt.insert_book_genres (i, x)) db))
      /\ grows db (fst (for_each ids (fun x => Stmt.insert_book_genres (i, x)) db)))
  /\ (same_rows db (fst (for_each ids (fun x => Stmt.insert_book_topics (i, x)) db))
      /\ grows db (fst (for_each ids (fun x => Stmt.insert_book_topics (i, x)) db))).
Proof.
  split; [|split; [|split]]; split;
    (apply for_each_preserves;
     [first [exact same_rows_refl | exact grows_refl]
     | first [exact same_rows_trans | exact grows_trans]
     | intros x s; apply insert_link_frame]).
Qed.

(** *** Error lines and lookups *)

Lemma with_errors_nil (r : ImportExportService.ImportResult) : with_errors r [] = r.
Proof. destruct r. unfold with_errors. cbn. now rewrite app_nil_r. Qed.

Lemma has_row_not_null (t : list NamedRow) (i : string) :
  Sql.has_row t i = not_null (Sql.get_row t i).
Proof.
  destruct (Sql.get_row t i) as [r|] eqn:E; simpl.
  - exact (get_row_has _ _ E).
  - now apply get_row_none.
Qed.

Lemma has_book_not_null (db : Database) (i : string) :
  Sql.has_book db i = not_null (Sql.get_book db i).
Proof.
  unfold Sql.has_book, Sql.get_book. induction (books db) as [|b l IH]; simpl; [reflexivity|].
  destruct (String.eqb (book_id b) i); simpl; auto.
Qed.

(** *** The series group *)

Section Groups.

Import ImportExportService.

Variable uuidv4 : Database -> string.

(** A series record without authors is passed over, whatever the store. *)
Lemma import_series_skips_empty (s : SeriesWithAuthors) (h : Heap) :
  nonempty (map id (s_authors s)) = false -> import_series uuidv4 s h = (h, inr tt).
Proof.
  intros Hempty.
  unfold import_series, try_catch, bind, lift, query, SeriesRepository.findById.
  rewrite Hempty. destruct h as [db r]. cbn [store result].
  destruct (Sql.get_row (series db) (s_id s)); reflexivity.
Qed.

(** With authors, a series record is processed like any other record. *)
Lemma import_series_shape (s : SeriesWithAuthors) :
  nonempty (map id (s_authors s)) = true ->
  import_series uuidv4 s
  = record_step (SeriesRepository.findById (s_id s))
      (SeriesRepository.create uuidv4
         (mkSeriesInput (Some (s_id s)) (s_name s) (map id (s_authors s))))
      (fun r =>
         mkResult (success r) (booksImported r) (authorsImported r) (publishersImported r)
           (S (seriesImported r)) (genresImported r) (topicsImported r)
           (categoriesImported r) (errors r))
      (failed_message "series" (s_name s)).
Proof.
  intros Hne. unfold import_series, record_step. rewrite Hne. reflexivity.
Qed.

End Groups.

(** *** The clean-up pass *)

Lemma no_orphans_lists (db : Database) :
  no_orphans db = true <->
  Sql.orphan_authors db = [] /\ Sql.orphan_publishers db = [] /\ Sql.orphan_series db = [].
Proof.
  unfold no_orphans.
  destruct (Sql.orphan_authors db), (Sql.orphan_publishers db), (Sql.orphan_series db);
    simpl; split; try discriminate; try tauto; intros (H1 & H2 & H3); discriminate.
Qed.

(** On a store without orphans the clean-up removes nothing. *)
Lemma cleanup_noop (db : Database) :
  no_orphans db = true ->
  DomainService.cleanupOrphans db = (db, inr (DomainService.mkCleanup [] [] [])).
Proof.
  intros H. apply no_orphans_lists in H. destruct H as (Ha & Hp & Hs).
  unfold DomainService.cleanupOrphans, transaction, bind, query.
  rewrite Ha. cbn [for_each]. unfold ret at 1. rewrite Hp. cbn [for_each]. unfold ret at 1.
  rewrite Hs. reflexivity.
Qed.

Lemma import_cleanup_noop (h : ImportExportService.Heap) :
  no_orphans (ImportExportService.store h) = true ->
  ImportExportService.import_cleanup h = (h, inr tt).
Proof.
  intros H. unfold ImportExportService.import_cleanup, bind, ImportExportService.lift.
  rewrite (cleanup_noop _ H). destruct h. reflexivity.
Qed.

(** *** The phases of an import *)

Lemma series_phase_grows (E D : Database) : series_phase E D -> grows E D.
Proof. now intros [H _]. Qed.

Lemma books_phase_grows (E D : Database) : books_phase E D -> grows E D.
Proof. now intros [H _]. Qed.

(* ------------------------------------------------------------------ *)
(** * Further properties of the code *)

(** ** Fields of the CSV export *)

Lemma length_append (a b : string) :
  String.length (a ++ b) = String.length a + String.length b.
Proof. induction a as [|x a IH]; simpl; [reflexivity|now rewrite IH]. Qed.

Lemma append_cancel_r (a b t : string) : (a ++ t)%string = (b ++ t)%string -> a = b.
Proof.
  revert b. induction a as [|x a IH]; intros [|y b] H; simpl in H.
  - reflexivity.
  - exfalso. apply (f_equal String.length) in H. simpl in H.
    rewrite length_append in H. lia.
  - exfalso. apply (f_equal String.length) in H. simpl in H.
    rewrite length_append in H. lia.
  - injection H as -> H. f_equal. now apply IH.
Qed.

(** Doubling the quotes loses nothing. *)
Lemma replace_quotes_injective (a b : string) :
  Js.replace_char (ascii_of_nat 34) (Js.dq ++ Js.dq) a
  = Js.replace_char (ascii_of_nat 34) (Js.dq ++ Js.dq) b ->
  a = b.
Proof.
  revert b. induction a as [|x a IH]; intros [|y b]; cbn [Js.replace_char].
  - reflexivity.
  - destruct (Ascii.eqb y (ascii_of_nat 34)); discriminate.
  - destruct (Ascii.eqb x (ascii_of_nat 34)); discriminate.
  - destruct (Ascii.eqb_spec x (ascii_of_nat 34)) as [Hx|Hx],
             (Ascii.eqb_spec y (ascii_of_nat 34)) as [Hy|Hy];
      unfold Js.dq; simpl; intros H.
    + injection H as H. subst. f_equal. now apply IH.
    + injection H as H1 H2. congruence.
    + injection H as H1 H2. congruence.
    + injection H as -> H. f_equal. now apply IH.
Qed.

(** Text without comma, quote or line feed is read from end to end
    without entering a quoted stretch and without meeting a separator. *)
Lemma plain_text_read (v : string) :
  Js.has_char "," v = false ->
  Js.has_char (ascii_of_nat 34) v = false ->
  Js.has_char (ascii_of_nat 10) v = false ->
  bare_separator false v = false /\ ends_inside false v = false.
Proof.
  induction v as [|c v IH]; cbn [Js.has_char bare_separator ends_inside]; [auto|].
  intros Hc Hq Hn.
  apply orb_false_iff in Hc, Hq, Hn. destruct Hc as [Hc Hc'], Hq as [Hq Hq'], Hn as [Hn Hn'].
  rewrite Hq, Hc, Hn. cbn [orb andb]. now apply IH.
Qed.

(** Inside a quoted stretch, text whose quotes are doubled is read to
    its end without leaving the stretch. *)
Lemma doubled_text_read (v rest : string) :
  bare_separator true
    (Js.replace_char (ascii_of_nat 34) (Js.dq ++ Js.dq) v ++ rest)
  = bare_separator true rest
  /\ ends_inside true
       (Js.replace_char (ascii_of_nat 34) (Js.dq ++ Js.dq) v ++ rest)
     = ends_inside true rest.
Proof.
  induction v as [|c v IH]; cbn [Js.replace_char]; [simpl; auto|].
  destruct (Ascii.eqb c (ascii_of_nat 34)) eqn:Hq.
  - unfold Js.dq. simpl. exact IH.
  - simpl. rewrite Hq. rewrite andb_false_r. exact IH.
Qed.

Lemma opening_quote_read (s : string) :
  bare_separator false (Js.dq ++ s) = bare_separator true s
  /\ ends_inside false (Js.dq ++ s) = ends_inside true s.
Proof. split; reflexivity. Qed.

(** [escapeCsvField] returns a field that a CSV reader takes as one
    field: no comma and no line feed shows outside quotes, and every
    quoted stretch is closed at the end of the field. *)
Theorem escapeCsvField_is_one_field :
  forall value : string,
    bare_separator false (ImportExportService.escapeCsvField value) = false
    /\ ends_inside false (ImportExportService.escapeCsvField value) = false.
Proof.
  intros value. unfold ImportExportService.escapeCsvField.
  destruct (Js.has_char "," value) eqn:Hc; cbn [orb].
  2: destruct (Js.has_char (ascii_of_nat 34) value) eqn:Hq; cbn [orb].
  3: destruct (Js.has_char (ascii_of_nat 10) value) eqn:Hn.
  4: now apply plain_text_read.
  all: rewrite (proj1 (opening_quote_read _)), (proj2 (opening_quote_read _));
    destruct (doubled_text_read value Js.dq) as [H1 H2]; rewrite H1, H2; split; reflexivity.
Qed.

(** [escapeCsvField] never maps two different values to the same field:
    the value can be told from the field. *)
Theorem escapeCsvField_injective :
  forall a b : string,
    ImportExportService.escapeCsvField a = ImportExportService.escapeCsvField b -> a = b.
Proof.
  assert (Hplain : forall v rest,
            Js.has_char (ascii_of_nat 34) v = false ->
            v <> (Js.dq ++ rest)%string).
  { intros v rest Hq ->. unfold Js.dq in Hq. simpl in Hq. discriminate. }
  intros a b. unfold ImportExportService.escapeCsvField.
  destruct (Js.has_char "," a || Js.has_char (ascii_of_nat 34) a
            || Js.has_char (ascii_of_nat 10) a) eqn:Ha,
           (Js.has_char "," b || Js.has_char (ascii_of_nat 34) b
            || Js.has_char (ascii_of_nat 10) b) eqn:Hb.
  - unfold Js.dq at 1 4. simpl. intros H. injection H as H.
    apply append_cancel_r in H. now apply replace_quotes_injective.
  - intros H. exfalso. symmetry in H. revert H. apply Hplain.
    apply orb_false_iff in Hb. destruct Hb as [Hb _].
    apply orb_false_iff in Hb. tauto.
  - intros H. exfalso. revert H. apply Hplain.
    apply orb_false_iff in Ha. destruct Ha as [Ha _].
    apply orb_false_iff in Ha. tauto.
  - auto.
Qed.

Lemma escapeCsvField_injective_witness :
  ImportExportService.escapeCsvField "Tolkien, J. R. R."
  = ImportExportService.escapeCsvField "Tolkien, J. R. R."
  /\ "Tolkien, J. R. R." = "Tolkien, J. R. R.".
Proof.
  split; [reflexivity|].
  apply (escapeCsvField_injective "Tolkien, J. R. R." "Tolkien, J. R. R."). reflexivity.
Defined.

(** ** Deleting a publisher, a series, an author, a category *)

Lemma filter_all {A : Type} (f : A -> bool) (l : list A) :
  (forall x, In x l -> f x = true) -> filter f l = l.
Proof.
  induction l as [|x l IH]; intros H; simpl; [reflexivity|].
  rewrite (H x (or_introl eq_refl)). f_equal. apply IH. intros y Hy. apply H. now right.
Qed.

Lemma filter_count_zero {A : Type} (f : A -> bool) (l : list A) :
  length (filter f l) = 0 -> filter (fun x => negb (f x)) l = l.
Proof.
  intros H. apply length_zero_iff_nil in H. apply filter_all.
  intros x Hx. now rewrite (filter_nil_all _ _ H x Hx).
Qed.

Lemma matching_zero (t : list NamedRow) (i : string) :
  Nat.eqb (Stmt.matching t i) 0 = true -> Sql.has_row t i = false /\ Stmt.without t i = t.
Proof.
  intros H. apply Nat.eqb_eq in H. unfold Stmt.matching in H. split.
  - destruct (Sql.has_row t i) eqn:E; [|reflexivity].
    apply has_row_matching in E. unfold Stmt.matching in E. rewrite H in E. discriminate.
  - unfold Stmt.without. now apply filter_count_zero.
Qed.

Lemma matching_has_row (t : list NamedRow) (i : string) :
  Nat.eqb (Stmt.matching t i) 0 = negb (Sql.has_row t i).
Proof.
  unfold Sql.has_row, Stmt.matching. induction t as [|x l IH]; simpl; [reflexivity|].
  destruct (String.eqb (id x) i); simpl; auto.
Qed.

Lemma ltb_zero_false (n : nat) : Nat.ltb 0 n = false -> n = 0.
Proof. destruct n; [reflexivity|discriminate]. Qed.

Lemma database_eta (db : Database) :
  mkDb (authors db) (publishers db) (series db) (genres db) (topics db) (categories db)
    (books db) (book_authors db) (book_genres db) (book_topics db) (series_authors db)
  = db.
Proof. now destruct db. Qed.

(** [PublisherRepository.delete] completes exactly when
    [canDeletePublisher] allows it and the publisher is there; it then
    removes the publisher row and nothing else.  When it throws, the error
    is one of its own (never a constraint failure of SQLite) and the store
    is as it was. *)
Theorem publisher_delete_outcomes :
  forall (db : Database) (publisherId : string),
    succeeds (PublisherRepository.delete publisherId) db
    = DomainService.v_canDelete (DomainService.canDeletePublisher publisherId db)
      && Sql.has_row (publishers db) publisherId
    /\ (forall db' e,
          PublisherRepository.delete publisherId db = (db', inl e) ->
          db' = db /\ exists msg, e = JsError msg)
    /\ (forall db',
          PublisherRepository.delete publisherId db = (db', inr tt) ->
          db' = Stmt.set_publishers db (Stmt.without (publishers db) publisherId)).
Proof.
  intros db publisherId.
  unfold succeeds, PublisherRepository.delete, DomainService.canDeletePublisher,
    DomainService.getPublisherBookCount, bind, query, throw, ret.
  destruct (Nat.ltb 0 (Sql.count_books_by_publisher db publisherId)) eqn:Hcount;
    cbn [DomainService.v_canDelete andb snd].
  - split; [reflexivity|]. split.
    + intros db' e H. injection H as <- <-. eauto.
    + intros db' H. discriminate H.
  - apply ltb_zero_false in Hcount. unfold Stmt.delete_publishers. rewrite Hcount.
    cbn [Nat.eqb negb].
    destruct (Nat.eqb (Stmt.matching (publishers db) publisherId) 0) eqn:Hm.
    + destruct (matching_zero _ _ Hm) as [Hrow _]. rewrite Hrow. cbn [Nat.eqb snd].
      split; [reflexivity|]. split.
      * intros db' e H. injection H as <- <-. eauto.
      * intros db' H. discriminate H.
    + rewrite Hm. cbn [snd].
      rewrite matching_has_row in Hm. apply negb_false_iff in Hm. rename Hm into Hrow.
      rewrite Hrow. split; [reflexivity|]. split.
      * intros db' e H. discriminate H.
      * intros db' H. now injection H as <-.
Qed.

(** [SeriesRepository.delete] completes exactly when [canDeleteSeries]
    allows it and the series is there; it then removes the series row and
    its author links, and no book is touched.  When it throws, the error
    is one of its own and the store is as it was. *)
Theorem series_delete_outcomes :
  forall (db : Database) (seriesId : string),
    succeeds (SeriesRepository.delete seriesId) db
    = DomainService.v_canDelete (DomainService.canDeleteSeries seriesId db)
      && Sql.has_row (series db) seriesId
    /\ (forall db' e,
          SeriesRepository.delete seriesId db = (db', inl e) ->
          db' = db /\ exists msg, e = JsError msg)
    /\ (forall db',
          SeriesRepository.delete seriesId db = (db', inr tt) ->
          db' = Stmt.set_series_authors
                  (Stmt.set_series db (Stmt.without (series db) seriesId))
                  (Stmt.without_left (series_authors db) seriesId)).
Proof.
  intros db seriesId.
  unfold succeeds, SeriesRepository.delete, DomainService.canDeleteSeries,
    DomainService.getSeriesBookCount, transaction, bind, query, throw, ret.
  destruct (Nat.ltb 0 (Sql.count_books_by_series db seriesId)) eqn:Hcount;
    cbn [DomainService.v_canDelete andb snd].
  - split; [reflexivity|]. split.
    + intros db' e H. injection H as <- <-. eauto.
    + intros db' H. discriminate H.
  - apply ltb_zero_false in Hcount.
    unfold Stmt.delete_series_authors_by_series, modify, Stmt.delete_series.
    cbn [Stmt.set_series_authors series series_authors authors publishers genres topics
         categories books book_authors book_genres book_topics].
    rewrite matching_has_row.
    destruct (Sql.has_row (series db) seriesId) eqn:Hrow; cbn [negb].
    + rewrite matching_has_row, Hrow. cbn [negb snd].
      split; [reflexivity|]. split.
      * intros db' e H. discriminate H.
      * intros db' H. injection H as <-.
        unfold Stmt.set_series_authors, Stmt.set_series.
        cbn [series series_authors authors publishers genres topics
             categories books book_authors book_genres book_topics].
        unfold Stmt.without_left. rewrite filter_twice. f_equal.
        apply map_unchanged. intros b Hb.
        assert (Hs : Sql.series_is b seriesId = false).
        { unfold Sql.count_books_by_series in Hcount.
          apply length_zero_iff_nil in Hcount. exact (filter_nil_all _ _ Hcount b Hb). }
        now rewrite Hs.
    + cbn [Nat.eqb snd]. split; [reflexivity|]. split.
      * intros db' e H. injection H as <- <-. eauto.
      * intros db' H. discriminate H.
Qed.

(** [AuthorRepository.delete] completes exactly when [canDeleteAuthor]
    allows it and the author is there; it then removes the author row and
    the author's series links, and no book and no book link is touched.
    When it throws, the error is one of its own; the author's series links
    are deleted before the row is looked for, outside any transaction, so
    the store is as it was only as far as its foreign keys hold. *)
Theorem author_delete_outcomes :
  forall (db : Database) (authorId : string),
    succeeds (AuthorRepository.delete authorId) db
    = DomainService.v_canDelete (DomainService.canDeleteAuthor authorId db)
      && Sql.has_row (authors db) authorId
    /\ (forall db' e,
          AuthorRepository.delete authorId db = (db', inl e) ->
          (exists msg, e = JsError msg)
          /\ db' = Stmt.set_series_authors db
                     (if DomainService.v_canDelete (DomainService.canDeleteAuthor authorId db)
                      then Stmt.without_right (series_authors db) authorId
                      else series_authors db)
          /\ (foreign_keys_ok db = true -> db' = db))
    /\ (forall db',
          AuthorRepository.delete authorId db = (db', inr tt) ->
          db' = Stmt.set_series_authors
                  (Stmt.set_authors db (Stmt.without (authors db) authorId))
                  (Stmt.without_right (series_authors db) authorId)).
Proof.
  intros db authorId.
  unfold succeeds, AuthorRepository.delete, DomainService.canDeleteAuthor,
    DomainService.getAuthorBookCount, bind, query, throw, ret.
  destruct (Nat.ltb 0 (Sql.count_book_authors_by_author db authorId)) eqn:Hcount;
    cbn [DomainService.v_canDelete andb snd].
  - split; [reflexivity|]. split.
    + intros db' e H. injection H as <- <-. split; [eauto|].
      split; [|reflexivity]. unfold Stmt.set_series_authors. symmetry. apply database_eta.
    + intros db' H. discriminate H.
  - apply ltb_zero_false in Hcount.
    unfold Stmt.delete_series_authors_by_author, modify, Stmt.delete_authors.
    cbn [Stmt.set_series_authors series series_authors authors publishers genres topics
         categories books book_authors book_genres book_topics].
    rewrite matching_has_row.
    destruct (Sql.has_row (authors db) authorId) eqn:Hrow; cbn [negb].
    + rewrite matching_has_row, Hrow. cbn [negb snd]. split; [reflexivity|]. split.
      * intros db' e H. discriminate H.
      * intros db' H. injection H as <-.
        unfold Stmt.set_series_authors, Stmt.set_authors.
        cbn [series series_authors authors publishers genres topics
             categories books book_authors book_genres book_topics].
        unfold Stmt.without_right. rewrite filter_twice. f_equal.
        apply filter_count_zero. exact Hcount.
    + cbn [Nat.eqb snd]. split; [reflexivity|]. split.
      * intros db' e H. injection H as <- <-. split; [eauto|]. split; [reflexivity|].
        intros Hfk. unfold Stmt.set_series_authors.
        rewrite <- (database_eta db) at 12. f_equal.
        unfold Stmt.without_right. apply filter_all. intros l Hl.
        unfold foreign_keys_ok in Hfk. apply andb_prop in Hfk. destruct Hfk as [_ Hsa].
        rewrite forallb_forall in Hsa. specialize (Hsa l Hl).
        apply andb_prop in Hsa. destruct Hsa as [_ Ha].
        destruct (String.eqb (snd l) authorId) eqn:E; [|reflexivity].
        apply String.eqb_eq in E. rewrite E in Ha. congruence.
      * intros db' H. discriminate H.
Qed.

(** [CategoryRepository.delete] completes exactly when no book is filed
    under the category, its id is not [default-category] and the category
    is there; it then removes the category row and nothing else.  When it
    throws, the error is one of its own and the store is as it was. *)
Theorem category_delete_outcomes :
  forall (db : Database) (categoryId : string),
    succeeds (CategoryRepository.delete categoryId) db
    = Nat.eqb (Sql.count_books_by_category db categoryId) 0
      && negb (String.eqb categoryId "default-category")
      && Sql.has_row (categories db) categoryId
    /\ (forall db' e,
          CategoryRepository.delete categoryId db = (db', inl e) ->
          db' = db /\ exists msg, e = JsError msg)
    /\ (forall db',
          CategoryRepository.delete categoryId db = (db', inr tt) ->
          db' = Stmt.set_categories db (Stmt.without (categories db) categoryId)).
Proof.
  intros db categoryId.
  unfold succeeds, CategoryRepository.delete, bind, query, throw, ret.
  destruct (Nat.ltb 0 (Sql.count_books_by_category db categoryId)) eqn:Hcount.
  - assert (Hz : Nat.eqb (Sql.count_books_by_category db categoryId) 0 = false).
    { apply Nat.ltb_lt in Hcount. apply Nat.eqb_neq. lia. }
    rewrite Hz. cbn [andb snd]. split; [reflexivity|]. split.
    + intros db' e H. injection H as <- <-. eauto.
    + intros db' H. discriminate H.
  - apply ltb_zero_false in Hcount. rewrite Hcount. cbn [Nat.eqb andb].
    destruct (String.eqb categoryId "default-category"); cbn [negb andb snd].
    + split; [reflexivity|]. split.
      * intros db' e H. injection H as <- <-. eauto.
      * intros db' H. discriminate H.
    + unfold Stmt.delete_categories. rewrite Hcount. cbn [Nat.eqb negb].
      rewrite matching_has_row.
      destruct (Sql.has_row (categories db) categoryId) eqn:Hrow; cbn [negb].
      * rewrite matching_has_row, Hrow. cbn [negb snd]. split; [reflexivity|]. split.
        -- intros db' e H. discriminate H.
        -- intros db' H. now injection H as <-.
      * cbn [Nat.eqb snd]. split; [reflexivity|]. split.
        -- intros db' e H. injection H as <- <-. eauto.
        -- intros db' H. discriminate H.
Qed.

(** [GenreRepository.delete] asks for no book count: it completes exactly
    when the genre is there, and then removes the genre row and the links
    of books to it; the books themselves stay, and so does every table
    that [integrityCheck] reads.  When it throws, the store is as it
    was. *)
Theorem genre_delete_outcomes :
  forall (db : Database) (genreId : string),
    succeeds (GenreRepository.delete genreId) db = Sql.has_row (genres db) genreId
    /\ (forall db' e,
          GenreRepository.delete genreId db = (db', inl e) ->
          db' = db /\ e = JsError ("Genre with id " ++ genreId ++ " not found"))
    /\ (forall db',
          GenreRepository.delete genreId db = (db', inr tt) ->
          db' = Stmt.set_book_genres
                  (Stmt.set_genres db (Stmt.without (genres db) genreId))
                  (Stmt.without_right (book_genres db) genreId))
    /\ DomainService.integrityCheck (fst (GenreRepository.delete genreId db))
       = DomainService.integrityCheck db.
Proof.
  intros db genreId.
  unfold succeeds, GenreRepository.delete, bind, throw, ret, Stmt.delete_genres.
  rewrite matching_has_row.
  destruct (Sql.has_row (genres db) genreId) eqn:Hrow; cbn [negb].
  - rewrite matching_has_row, Hrow. cbn [negb snd fst]. split; [reflexivity|]. split; [|split].
    + intros db' e H. discriminate H.
    + intros db' H. now injection H as <-.
    + reflexivity.
  - cbn [Nat.eqb snd fst]. split; [reflexivity|]. split; [|split].
    + intros db' e H. injection H as <- <-. auto.
    + intros db' H. discriminate H.
    + reflexivity.
Qed.

(** [TopicRepository.delete] behaves in the same way on topics. *)
Theorem topic_delete_outcomes :
  forall (db : Database) (topicId : string),
    succeeds (TopicRepository.delete topicId) db = Sql.has_row (topics db) topicId
    /\ (forall db' e,
          TopicRepository.delete topicId db = (db', inl e) ->
          db' = db /\ e = JsError ("Topic with id " ++ topicId ++ " not found"))
    /\ (forall db',
          TopicRepository.delete topicId db = (db', inr tt) ->
          db' = Stmt.set_book_topics
                  (Stmt.set_topics db (Stmt.without (topics db) topicId))
                  (Stmt.without_right (book_topics db) topicId))
    /\ DomainService.integrityCheck (fst (TopicRepository.delete topicId db))
       = DomainService.integrityCheck db.
Proof.
  intros db topicId.
  unfold succeeds, TopicRepository.delete, bind, throw, ret, Stmt.delete_topics.
  rewrite matching_has_row.
  destruct (Sql.has_row (topics db) topicId) eqn:Hrow; cbn [negb].
  - rewrite matching_has_row, Hrow. cbn [negb snd fst]. split; [reflexivity|]. split; [|split].
    + intros db' e H. discriminate H.
    + intros db' H. now injection H as <-.
    + reflexivity.
  - cbn [Nat.eqb snd fst]. split; [reflexivity|]. split; [|split].
    + intros db' e H. injection H as <- <-. auto.
    + intros db' H. discriminate H.
    + reflexivity.
Qed.

(** ** The clean-up of orphans *)

Lemma filter_filter {A : Type} (f g : A -> bool) (l : list A) :
  filter f (filter g l) = filter (fun x => g x && f x) l.
Proof.
  induction l as [|x l IH]; simpl; [reflexivity|].
  destruct (g x); simpl; [destruct (f x); simpl; now rewrite IH|exact IH].
Qed.

Lemma has_row_cons (r : NamedRow) (t : list NamedRow) (i : string) :
  Sql.has_row (r :: t) i = String.eqb (id r) i || Sql.has_row t i.
Proof. reflexivity. Qed.

(** One turn of the loop that deletes authors, for an author without a
    book link. *)
Lemma delete_author_step (db : Database) (a : string) :
  (forall x, In x (book_authors db) -> String.eqb (snd x) a = false) ->
  (Stmt.delete_series_authors_by_author a ;; Stmt.delete_authors a ;; ret tt) db
  = (mkDb (Stmt.without (authors db) a)
       (publishers db) (series db) (genres db) (topics db) (categories db) (books db)
       (book_authors db) (book_genres db) (book_topics db)
       (Stmt.without_right (series_authors db) a),
     inr tt).
Proof.
  intros Hfree.
  unfold bind, Stmt.delete_series_authors_by_author, modify, Stmt.delete_authors, ret.
  cbn [Stmt.set_series_authors series series_authors authors publishers genres topics
       categories books book_authors book_genres book_topics].
  destruct (Nat.eqb (Stmt.matching (authors db) a) 0) eqn:Hm.
  - destruct (matching_zero _ _ Hm) as [_ Hsame]. now rewrite Hsame.
  - f_equal. f_equal.
    + unfold Stmt.without_right. apply filter_all. intros x Hx. now rewrite (Hfree x Hx).
    + unfold Stmt.without_right. apply filter_twice.
Qed.

Lemma delete_publisher_step (db : Database) (p : string) :
  Sql.count_books_by_publisher db p = 0 ->
  (Stmt.delete_publishers p ;; ret tt) db
  = (Stmt.set_publishers db (Stmt.without (publishers db) p), inr tt).
Proof.
  intros Hfree. unfold bind, Stmt.delete_publishers, ret. rewrite Hfree. cbn [Nat.eqb negb].
  destruct (Nat.eqb (Stmt.matching (publishers db) p) 0) eqn:Hm; [|reflexivity].
  destruct (matching_zero _ _ Hm) as [_ Hsame]. rewrite Hsame.
  unfold Stmt.set_publishers. now rewrite database_eta.
Qed.

Lemma delete_series_step (db : Database) (s : string) :
  (forall b, In b (books db) -> Sql.series_is b s = false) ->
  (Stmt.delete_series_authors_by_series s ;; Stmt.delete_series s ;; ret tt) db
  = (mkDb (authors db) (publishers db) (Stmt.without (series db) s)
       (genres db) (topics db) (categories db) (books db)
       (book_authors db) (book_genres db) (book_topics db)
       (Stmt.without_left (series_authors db) s),
     inr tt).
Proof.
  intros Hfree.
  unfold bind, Stmt.delete_series_authors_by_series, modify, Stmt.delete_series, ret.
  cbn [Stmt.set_series_authors series series_authors authors publishers genres topics
       categories books book_authors book_genres book_topics].
  destruct (Nat.eqb (Stmt.matching (series db) s) 0) eqn:Hm.
  - destruct (matching_zero _ _ Hm) as [_ Hsame]. now rewrite Hsame.
  - f_equal. f_equal.
    + apply map_unchanged. intros b Hb. now rewrite (Hfree b Hb).
    + unfold Stmt.without_left. apply filter_twice.
Qed.

Lemma without_then_drop (l : list NamedRow) (a : NamedRow) (t : list NamedRow) :
  filter (fun r => negb (Sql.has_row l (id r))) (Stmt.without t (id a))
  = filter (fun r => negb (Sql.has_row (a :: l) (id r))) t.
Proof.
  unfold Stmt.without. rewrite filter_filter. apply filter_ext. intros r.
  rewrite has_row_cons, negb_orb. now rewrite (String.eqb_sym (id a) (id r)).
Qed.

Lemma without_right_then_drop (l : list NamedRow) (a : NamedRow) (t : list Link) :
  filter (fun x => negb (Sql.has_row l (snd x))) (Stmt.without_right t (id a))
  = filter (fun x => negb (Sql.has_row (a :: l) (snd x))) t.
Proof.
  unfold Stmt.without_right. rewrite filter_filter. apply filter_ext. intros x.
  rewrite has_row_cons, negb_orb. now rewrite (String.eqb_sym (id a) (snd x)).
Qed.

Lemma without_left_then_drop (l : list NamedRow) (a : NamedRow) (t : list Link) :
  filter (fun x => negb (Sql.has_row l (fst x))) (Stmt.without_left t (id a))
  = filter (fun x => negb (Sql.has_row (a :: l) (fst x))) t.
Proof.
  unfold Stmt.without_left. rewrite filter_filter. apply filter_ext. intros x.
  rewrite has_row_cons, negb_orb. now rewrite (String.eqb_sym (id a) (fst x)).
Qed.

(** The loop that deletes authors, when none of them has a book link. *)
Lemma delete_authors_loop (l : list NamedRow) :
  forall db,
    (forall a x, In a l -> In x (book_authors db) -> String.eqb (snd x) (id a) = false) ->
    for_each l
      (fun author =>
         Stmt.delete_series_authors_by_author (id author) ;;
         Stmt.delete_authors (id author) ;;
         ret tt) db
    = (mkDb (filter (fun r => negb (Sql.has_row l (id r))) (authors db))
         (publishers db) (series db) (genres db) (topics db) (categories db) (books db)
         (book_authors db) (book_genres db) (book_topics db)
         (filter (fun x => negb (Sql.has_row l (snd x))) (series_authors db)),
       inr tt).
Proof.
  induction l as [|a l IH]; intros db Hfree.
  - cbn [for_each]. unfold ret. f_equal.
    rewrite !filter_all by (intros; reflexivity). symmetry. apply database_eta.
  - cbn [for_each]. unfold bind at 1.
    rewrite delete_author_step by (intros x Hx; apply (Hfree a x); [now left|exact Hx]).
    rewrite IH by (intros b x Hb Hx; apply (Hfree b x); [now right|exact Hx]).
    cbn [series series_authors authors publishers genres topics
         categories books book_authors book_genres book_topics].
    now rewrite without_then_drop, without_right_then_drop.
Qed.

(** The loop that deletes publishers, when none of them has a book. *)
Lemma delete_publishers_loop (l : list NamedRow) :
  forall db,
    (forall p, In p l -> Sql.count_books_by_publisher db (id p) = 0) ->
    for_each l (fun publisher => Stmt.delete_publishers (id publisher) ;; ret tt) db
    = (Stmt.set_publishers db
         (filter (fun r => negb (Sql.has_row l (id r))) (publishers db)),
       inr tt).
Proof.
  induction l as [|p l IH]; intros db Hfree.
  - cbn [for_each]. unfold ret, Stmt.set_publishers. f_equal.
    rewrite filter_all by (intros; reflexivity). symmetry. apply database_eta.
  - cbn [for_each]. unfold bind at 1.
    rewrite delete_publisher_step by (apply Hfree; now left).
    rewrite IH by (intros q Hq; apply (Hfree q); now right).
    unfold Stmt.set_publishers.
    cbn [series series_authors authors publishers genres topics
         categories books book_authors book_genres book_topics].
    now rewrite without_then_drop.
Qed.

(** The loop that deletes series, when none of them has a book. *)
Lemma delete_series_loop (l : list NamedRow) :
  forall db,
    (forall s b, In s l -> In b (books db) -> Sql.series_is b (id s) = false) ->
    for_each l
      (fun s =>
         Stmt.delete_series_authors_by_series (id s) ;;
         Stmt.delete_series (id s) ;;
         ret tt) db
    = (mkDb (authors db) (publishers db)
         (filter (fun r => negb (Sql.has_row l (id r))) (series db))
         (genres db) (topics db) (categories db) (books db)
         (book_authors db) (book_genres db) (book_topics db)
         (filter (fun x => negb (Sql.has_row l (fst x))) (series_authors db)),
       inr tt).
Proof.
  induction l as [|s l IH]; intros db Hfree.
  - cbn [for_each]. unfold ret. f_equal.
    rewrite !filter_all by (intros; reflexivity). symmetry. apply database_eta.
  - cbn [for_each]. unfold bind at 1.
    rewrite delete_series_step by (intros b Hb; apply (Hfree s b); [now left|exact Hb]).
    rewrite IH by (intros t b Ht Hb; apply (Hfree t b); [now right|exact Hb]).
    cbn [series series_authors authors publishers genres topics
         categories books book_authors book_genres book_topics].
    now rewrite without_then_drop, without_left_then_drop.
Qed.

Lemma existsb_false_all {A : Type} (f : A -> bool) (l : list A) (x : A) :
  existsb f l = false -> In x l -> f x = false.
Proof.
  intros H Hx. destruct (f x) eqn:E; [|reflexivity].
  assert (existsb f l = true) by (apply existsb_exists; eauto). congruence.
Qed.

(** Among the rows of a table, those listed by an orphan query are the
    rows the query's test selects, when the test looks at the id only. *)
Lemma listed_iff_selected (f : NamedRow -> bool) (t : list NamedRow) (r : NamedRow) :
  (forall x y, id x = id y -> f x = f y) ->
  In r t ->
  Sql.has_row (map (fun a => mkRow (id a) (name a)) (filter f t)) (id r) = f r.
Proof.
  intros Hid Hr. destruct (f r) eqn:E.
  - apply (in_has_row _ (mkRow (id r) (name r))). apply in_map_iff. exists r.
    split; [reflexivity|]. apply filter_In. auto.
  - destruct (Sql.has_row _ (id r)) eqn:H; [|reflexivity].
    unfold Sql.has_row in H. apply existsb_exists in H. destruct H as (x & Hx & Hi).
    apply in_map_iff in Hx. destruct Hx as (y & <- & Hy). apply filter_In in Hy.
    simpl in Hi. apply String.eqb_eq in Hi. rewrite (Hid r y) in E by auto.
    destruct Hy. congruence.
Qed.

Lemma filter_opposite {A : Type} (f : A -> bool) (l : list A) :
  filter (fun x => negb (f x)) (filter f l) = [].
Proof.
  apply filter_none. intros x Hx. apply filter_In in Hx. destruct Hx as [_ ->]. reflexivity.
Qed.

(** The store without its orphans has no orphan. *)
Lemma without_orphans_clean (db : Database) : no_orphans (without_orphans db) = true.
Proof.
  apply no_orphans_lists.
  unfold Sql.orphan_authors, Sql.orphan_publishers, Sql.orphan_series, without_orphans.
  cbn [authors publishers series books book_authors].
  set (linked := fun a : NamedRow =>
                   existsb (fun ba : Link => String.eqb (id a) (snd ba)) (book_authors db)).
  set (published := fun p : NamedRow =>
                      existsb (fun b => String.eqb (id p) (publisher_id b)) (books db)).
  set (shelved := fun s : NamedRow => existsb (fun b => Sql.series_is b (id s)) (books db)).
  change (fun a : NamedRow =>
            negb (existsb (fun ba : Link => String.eqb (id a) (snd ba)) (book_authors db)))
    with (fun a => negb (linked a)).
  change (fun p : NamedRow =>
            negb (existsb (fun b => String.eqb (id p) (publisher_id b)) (books db)))
    with (fun p => negb (published p)).
  change (fun s : NamedRow => negb (existsb (fun b => Sql.series_is b (id s)) (books db)))
    with (fun s => negb (shelved s)).
  now rewrite !filter_opposite.
Qed.

(** What [cleanupOrphans] does, on every store. *)
Lemma cleanup_run (db : Database) :
  DomainService.cleanupOrphans db
  = (without_orphans db,
     inr (DomainService.mkCleanup (map name (Sql.orphan_authors db))
            (map name (Sql.orphan_publishers db)) (map name (Sql.orphan_series db)))).
Proof.
  unfold DomainService.cleanupOrphans, transaction.
  unfold bind at 1. unfold query at 1. unfold bind at 1.
  rewrite delete_authors_loop.
  2:{ intros a x Ha Hx. unfold Sql.orphan_authors in Ha. apply in_map_iff in Ha.
      destruct Ha as (r & <- & Hr). apply filter_In in Hr. destruct Hr as [_ Hr].
      apply negb_true_iff in Hr. cbn [id].
      rewrite String.eqb_sym. exact (existsb_false_all _ _ x Hr Hx). }
  unfold bind at 1. unfold query at 1.
  match goal with
  | |- context [Sql.orphan_publishers ?d] =>
      change (Sql.orphan_publishers d) with (Sql.orphan_publishers db)
  end.
  unfold bind at 1.
  rewrite delete_publishers_loop.
  2:{ intros p Hp. unfold Sql.orphan_publishers in Hp. apply in_map_iff in Hp.
      destruct Hp as (r & <- & Hr). apply filter_In in Hr. destruct Hr as [_ Hr].
      apply negb_true_iff in Hr. cbn [id].
      unfold Sql.count_books_by_publisher. cbn [books].
      apply length_zero_iff_nil, filter_none. intros b Hb.
      rewrite String.eqb_sym. exact (existsb_false_all _ _ b Hr Hb). }
  unfold bind at 1. unfold query at 1.
  match goal with
  | |- context [Sql.orphan_series ?d] =>
      change (Sql.orphan_series d) with (Sql.orphan_series db)
  end.
  unfold bind at 1.
  rewrite delete_series_loop.
  2:{ intros s b Hs Hb. unfold Sql.orphan_series in Hs. apply in_map_iff in Hs.
      destruct Hs as (r & <- & Hr). apply filter_In in Hr. destruct Hr as [_ Hr].
      apply negb_true_iff in Hr. cbn [id].
      unfold Stmt.set_publishers in Hb. cbn [books] in Hb.
      exact (existsb_false_all _ _ b Hr Hb). }
  unfold ret. f_equal. unfold Stmt.set_publishers, without_orphans.
  cbn [series series_authors authors publishers genres topics
       categories books book_authors book_genres book_topics].
  f_equal.
  - apply filter_ext_in. intros r Hr. unfold Sql.orphan_authors.
    rewrite (listed_iff_selected
               (fun a => negb (existsb (fun ba : Link => String.eqb (id a) (snd ba))
                                 (book_authors db))));
      [apply negb_involutive|intros x y E; now rewrite E|exact Hr].
  - apply filter_ext_in. intros r Hr. unfold Sql.orphan_publishers.
    rewrite (listed_iff_selected
               (fun p => negb (existsb (fun b => String.eqb (id p) (publisher_id b))
                                 (books db))));
      [apply negb_involutive|intros x y E; now rewrite E|exact Hr].
  - apply filter_ext_in. intros r Hr. unfold Sql.orphan_series.
    rewrite (listed_iff_selected
               (fun s => negb (existsb (fun b => Sql.series_is b (id s)) (books db))));
      [apply negb_involutive|intros x y E; now rewrite E|exact Hr].
Qed.

(** [cleanupOrphans] never throws.  It returns the names of the authors,
    publishers and series that had no book, and leaves a store in which
    every author, publisher and series has a book: exactly the rows with
    a book are kept, no book, book link, genre, topic or category is
    touched, and only series links of a removed author or series are
    dropped.  Run again, it finds nothing to remove. *)
Theorem cleanupOrphans_removes_every_orphan :
  forall db : Database,
    exists db',
      DomainService.cleanupOrphans db
      = (db', inr (DomainService.mkCleanup (map name (Sql.orphan_authors db))
                     (map name (Sql.orphan_publishers db))
                     (map name (Sql.orphan_series db))))
      /\ no_orphans db' = true
      /\ authors db'
         = filter (fun a => existsb (fun ba => String.eqb (id a) (snd ba)) (book_authors db))
             (authors db)
      /\ publishers db'
         = filter (fun p => existsb (fun b => String.eqb (id p) (publisher_id b)) (books db))
             (publishers db)
      /\ series db'
         = filter (fun s => existsb (fun b => Sql.series_is b (id s)) (books db)) (series db)
      /\ books db' = books db
      /\ book_authors db' = book_authors db
      /\ book_genres db' = book_genres db
      /\ book_topics db' = book_topics db
      /\ genres db' = genres db
      /\ topics db' = topics db
      /\ categories db' = categories db
      /\ (forall x, In x (series_authors db') <->
                    In x (series_authors db)
                    /\ Sql.has_row (Sql.orphan_authors db) (snd x) = false
                    /\ Sql.has_row (Sql.orphan_series db) (fst x) = false)
      /\ DomainService.cleanupOrphans db'
         = (db', inr (DomainService.mkCleanup [] [] [])).
Proof.
  intros db. exists (without_orphans db).
  split; [apply cleanup_run|]. split; [apply without_orphans_clean|].
  unfold without_orphans at 1 2 3 4 5 6 7 8 9 10 11.
  cbn [series series_authors authors publishers genres topics
       categories books book_authors book_genres book_topics].
  repeat (split; [reflexivity|]). split.
  - intros x. rewrite !filter_In, !negb_true_iff. tauto.
  - apply cleanup_noop, without_orphans_clean.
Qed.

(** ** What the integrity check checks *)

Lemma filter_map_nil {A B : Type} (f : A -> bool) (g : A -> B) (l : list A) :
  map g (filter f l) = [] <-> forall x, In x l -> f x = false.
Proof.
  split.
  - intros H. apply map_nil_inv in H. now apply filter_nil_all.
  - intros H. now rewrite filter_none.
Qed.

(** [integrityCheck] reports a valid store exactly when every author has
    a book link, every publisher has a book, every series has a book and
    an author link, and every book has its publisher and its category in
    the store. *)
Theorem integrityCheck_valid_iff_rules :
  forall db : Database,
    DomainService.isValid (DomainService.integrityCheck db) = true <->
    (forall a, In a (authors db) -> exists b, In (b, id a) (book_authors db))
    /\ (forall p, In p (publishers db) ->
                  exists b, In b (books db) /\ publisher_id b = id p)
    /\ (forall s, In s (series db) ->
                  (exists b, In b (books db) /\ series_id b = Some (id s))
                  /\ exists a, In (id s, a) (series_authors db))
    /\ (forall b, In b (books db) ->
                  (exists p, In p (publishers db) /\ id p = publisher_id b)
                  /\ exists c, In c (categories db) /\ id c = category_id b).
Proof.
  intros db. rewrite integrity_lists.
  unfold Sql.orphan_authors, Sql.orphan_publishers, Sql.orphan_series, Sql.series_no_authors,
    Sql.books_no_publisher, Sql.books_no_category.
  rewrite !filter_map_nil.
  assert (Hrow : forall t i, Sql.has_row t i = true <-> exists r, In r t /\ id r = i).
  { intros t i. unfold Sql.has_row. rewrite existsb_exists.
    split; intros (r & Hr & E); exists r; (split; [exact Hr|]);
      now apply String.eqb_eq. }
  split.
  - intros (Ha & Hp & Hs & Hsa & Hbp & Hbc). split; [|split; [|split]].
    + intros a Hin. specialize (Ha a Hin). apply negb_false_iff, existsb_exists in Ha.
      destruct Ha as ([b x] & Hx & E). apply String.eqb_eq in E. simpl in E. subst x.
      now exists b.
    + intros p Hin. specialize (Hp p Hin). apply negb_false_iff, existsb_exists in Hp.
      destruct Hp as (b & Hb & E). apply String.eqb_eq in E. eauto.
    + intros s Hin. split.
      * specialize (Hs s Hin). apply negb_false_iff, existsb_exists in Hs.
        destruct Hs as (b & Hb & E). exists b. split; [exact Hb|].
        unfold Sql.series_is in E. destruct (series_id b) as [s'|]; [|discriminate].
        apply String.eqb_eq in E. now subst s'.
      * specialize (Hsa s Hin). apply negb_false_iff, existsb_exists in Hsa.
        destruct Hsa as ([x a] & Hx & E). apply String.eqb_eq in E. simpl in E. subst x.
        now exists a.
    + intros b Hin. split.
      * specialize (Hbp b Hin). apply negb_false_iff in Hbp. now apply Hrow.
      * specialize (Hbc b Hin). apply negb_false_iff in Hbc. now apply Hrow.
  - intros (Ha & Hp & Hs & Hb). repeat split.
    + intros a Hin. destruct (Ha a Hin) as (b & Hl). apply negb_false_iff, existsb_exists.
      exists (b, id a). split; [exact Hl|]. apply String.eqb_refl.
    + intros p Hin. destruct (Hp p Hin) as (b & Hl & E). apply negb_false_iff, existsb_exists.
      exists b. split; [exact Hl|]. rewrite E. apply String.eqb_refl.
    + intros s Hin. destruct (Hs s Hin) as ((b & Hl & E) & _).
      apply negb_false_iff, existsb_exists. exists b. split; [exact Hl|].
      unfold Sql.series_is. rewrite E. apply String.eqb_refl.
    + intros s Hin. destruct (Hs s Hin) as (_ & (a & Hl)).
      apply negb_false_iff, existsb_exists. exists (id s, a). split; [exact Hl|].
      apply String.eqb_refl.
    + intros b Hin. apply negb_false_iff, Hrow. apply (Hb b Hin).
    + intros b Hin. apply negb_false_iff, Hrow. apply (Hb b Hin).
Qed.

(** The summary of [integrityCheck] counts the violations it lists: for
    each kind of violation, the number of violations of that kind in the
    list is the number given in the summary, and the six numbers add up to
    the length of the list. *)
Theorem integrityCheck_summary_counts_violations :
  forall db : Database,
    let r := DomainService.integrityCheck db in
    let s := DomainService.summary r in
    count_kind DomainService.orphan_author r = DomainService.orphanAuthors s
    /\ count_kind DomainService.orphan_publisher r = DomainService.orphanPublishers s
    /\ count_kind DomainService.orphan_series r = DomainService.orphanSeries s
    /\ count_kind DomainService.series_no_authors r = DomainService.seriesWithNoAuthors s
    /\ count_kind DomainService.book_no_publisher r = DomainService.booksWithNoPublisher s
    /\ count_kind DomainService.book_no_category r = DomainService.booksWithNoCategory s
    /\ length (DomainService.violations r)
       = DomainService.orphanAuthors s + DomainService.orphanPublishers s
         + DomainService.orphanSeries s + DomainService.seriesWithNoAuthors s
         + DomainService.booksWithNoPublisher s + DomainService.booksWithNoCategory s.
Proof.
  intros db r s. subst s r. unfold count_kind, DomainService.integrityCheck.
  cbn [DomainService.violations DomainService.summary DomainService.orphanAuthors
       DomainService.orphanPublishers DomainService.orphanSeries
       DomainService.seriesWithNoAuthors DomainService.booksWithNoPublisher
       DomainService.booksWithNoCategory].
  repeat split.
  all: rewrite ?filter_app, ?length_app, ?length_map.
  all: repeat match goal with
       | |- context [filter ?f (map ?g ?l)] =>
           first [ rewrite (filter_all f (map g l))
                     by (intros x Hx; apply in_map_iff in Hx; destruct Hx as (y & <- & _);
                         reflexivity)
                 | rewrite (filter_none f (map g l))
                     by (intros x Hx; apply in_map_iff in Hx; destruct Hx as (y & <- & _);
                         reflexivity) ]
       end.
  all: rewrite ?length_map; simpl; lia.
Qed.

(** ** The second delete path of books *)

(** For a book that is there, the report of [checkBookDeletionImpact] has
    the fields of the report of [checkDeleteImpact], and carries a
    non-empty message exactly when the delete is not allowed. *)
Lemma deletion_report_fields (db : Database) (bookId : string) (book : BookRow) :
  Sql.get_book db bookId = Some book ->
  let d := DomainService.checkBookDeletionImpact bookId db in
  let r := BookRepository.checkDeleteImpact bookId db in
  DomainService.d_orphanedAuthors d = orphanedAuthors r
  /\ DomainService.d_orphanedPublisher d = orphanedPublisher r
  /\ DomainService.d_orphanedSeries d = orphanedSeries r
  /\ DomainService.canDelete d = negb (hasImpact r)
  /\ (hasImpact r = true ->
      exists m, DomainService.d_message d = Some m /\ Js.truthy m = true).
Proof.
  intros Hbook d r. subst d r.
  unfold DomainService.checkBookDeletionImpact, BookRepository.checkDeleteImpact.
  rewrite Hbook.
  cbn [DomainService.d_orphanedAuthors DomainService.d_orphanedPublisher
       DomainService.d_orphanedSeries DomainService.canDelete DomainService.d_message
       orphanedAuthors orphanedPublisher orphanedSeries hasImpact].
  destruct (Sql.authors_with_only_book db bookId) as [|a l];
    (destruct (Nat.eqb (Sql.count_books_by_publisher db (publisher_id book)) 1);
     [destruct (Sql.get_row (publishers db) (publisher_id book)) as [p|]|]);
    (destruct (series_id book) as [sid|];
     [cbn [Js.truthy_opt]; destruct (Js.truthy sid);
      [destruct (Nat.eqb (Sql.count_books_by_series db sid) 1);
       [destruct (Sql.get_row (series db) sid) as [s|]|]|]|]);
    cbn [nonempty not_null orb negb app length Nat.eqb Js.truthy_opt];
    repeat split; try discriminate; intros _; eexists; split; reflexivity.
Qed.

(** For a book that is there, [deleteBookWithCascade] either returns a
    refusal, or does what [BookRepository.delete] does and wraps the
    outcome. *)
Lemma cascade_run (db : Database) (bookId : string) (book : BookRow) (c : bool) :
  Sql.get_book db bookId = Some book ->
  let d := DomainService.checkBookDeletionImpact bookId db in
  DomainService.deleteBookWithCascade bookId c db
  = if hasImpact (BookRepository.checkDeleteImpact bookId db) && negb c
    then (db, inr (DomainService.mkCascadeResult false
                     (match DomainService.d_message d with
                      | Some m => if Js.truthy m then m
                                  else "Cannot delete book due to business rule violations"
                      | None => "Cannot delete book due to business rule violations"
                      end) []))
    else match BookRepository.delete bookId c db with
         | (db', inr _) =>
             (db', inr (DomainService.mkCascadeResult true
                          ("Successfully deleted: "
                           ++ Js.join ", " (DomainService.deleted_entities (title book) c d))
                          (DomainService.deleted_entities (title book) c d)))
         | (db', inl e) => (db', inl e)
         end.
Proof.
  intros Hbook d.
  rewrite (delete_run db bookId c Hbook).
  destruct (deletion_report_fields db bookId Hbook) as (E1 & E2 & E3 & E4 & _).
  unfold DomainService.deleteBookWithCascade.
  unfold bind at 1. unfold query at 1. fold d. fold d in E1, E2, E3, E4.
  rewrite E4, negb_involutive, (andb_comm (negb c)).
  destruct (hasImpact (BookRepository.checkDeleteImpact bookId db) && negb c) eqn:Hblock;
    [reflexivity|].
  unfold transaction. unfold bind at 1. unfold query at 1. rewrite Hbook.
  rewrite E1, E2, E3.
  unfold BookRepository.delete_orphans.
  set (tail := if c then _ else ret tt).
  unfold bind, ret, Stmt.delete_book_authors_by_book, Stmt.delete_book_genres_by_book,
    Stmt.delete_book_topics_by_book, modify.
  match goal with
  | |- context [Stmt.delete_books bookId ?s] =>
      destruct (Stmt.delete_books bookId s) as [s4 [e|n]]
  end; [reflexivity|].
  destruct (tail s4) as [s5 [e|[]]]; reflexivity.
Qed.

(** [deleteBookWithCascade] and [BookRepository.delete] run the same
    statements: whatever the book and the option, they leave the same
    store, and the service reports success exactly when the repository
    completes.  They differ in how a refusal is told: without the cascade
    option the service never throws, it returns a result without success,
    where the repository throws. *)
Theorem deleteBookWithCascade_agrees_with_delete :
  forall (db : Database) (bookId : string) (cleanupOrphans : bool),
    let viaService := DomainService.deleteBookWithCascade bookId cleanupOrphans db in
    let viaRepository := BookRepository.delete bookId cleanupOrphans db in
    fst viaService = fst viaRepository
    /\ (snd viaRepository = inr tt <->
        exists r, snd viaService = inr r /\ DomainService.r_success r = true)
    /\ (cleanupOrphans = false -> exists r, snd viaService = inr r).
Proof.
  intros db bookId c viaService viaRepository. subst viaService viaRepository.
  destruct (Sql.get_book db bookId) as [book|] eqn:Hbook.
  - rewrite (cascade_run db bookId c Hbook).
    destruct (hasImpact (BookRepository.checkDeleteImpact bookId db) && negb c) eqn:Hblock.
    + apply andb_prop in Hblock. destruct Hblock as [Himpact Hc].
      apply negb_true_iff in Hc. subst c.
      rewrite (delete_run db bookId false Hbook), Himpact. cbn [negb andb fst snd].
      split; [reflexivity|]. split.
      * split; [discriminate|]. intros (r & Hr & Hs). injection Hr as <-. discriminate Hs.
      * eauto.
    + destruct (BookRepository.delete bookId c db) as [db' [e|[]]] eqn:Hrun; cbn [fst snd].
      * split; [reflexivity|]. split.
        -- split; [discriminate|]. intros (r & Hr & _). discriminate Hr.
        -- intros ->. rewrite (delete_run db bookId false Hbook) in Hrun.
           rewrite andb_true_r in Hblock. rewrite Hblock in Hrun. cbn [negb andb] in Hrun.
           unfold transaction in Hrun.
           change ((Stmt.delete_book_authors_by_book bookId ;;
                    Stmt.delete_book_genres_by_book bookId ;;
                    Stmt.delete_book_topics_by_book bookId ;;
                    Stmt.delete_books bookId ;; ret tt) db)
             with (((Stmt.delete_book_authors_by_book bookId ;;
                     Stmt.delete_book_genres_by_book bookId ;;
                     Stmt.delete_book_topics_by_book bookId ;;
                     Stmt.delete_books bookId) ;; ret tt) db) in Hrun.
           unfold bind at 1 in Hrun.
           rewrite (delete_statements_run db bookId (get_book_has _ _ Hbook)) in Hrun.
           discriminate Hrun.
      * split; [reflexivity|]. split; [|eauto]. split; [eauto|reflexivity].
  - unfold DomainService.deleteBookWithCascade, BookRepository.delete,
      DomainService.checkBookDeletionImpact, transaction, bind, query, throw, ret.
    cbv beta. rewrite Hbook. cbn [DomainService.canDelete negb andb DomainService.d_message].
    destruct c; cbn [negb andb]; cbv beta; rewrite ?Hbook; cbn [fst snd Js.truthy].
    + split; [reflexivity|]. split; [|discriminate].
      split; [discriminate|]. intros (r & Hr & _). discriminate Hr.
    + split; [reflexivity|]. split; [|eauto].
      split; [discriminate|]. intros (r & Hr & Hs). injection Hr as <-. discriminate Hs.
Qed.

(** ** What an import keeps and what it leaves *)

(** A [create], whatever its input and whether or not it throws, only
    adds rows. *)
Lemma named_create_grows (uuidv4 : Database -> string) (input : NamedInput) (db : Database) :
  grows db (fst (CategoryRepository.create uuidv4 input db))
  /\ grows db (fst (AuthorRepository.create uuidv4 input db))
  /\ grows db (fst (PublisherRepository.create uuidv4 input db))
  /\ grows db (fst (GenreRepository.create uuidv4 input db))
  /\ grows db (fst (TopicRepository.create uuidv4 input db)).
Proof.
  unfold CategoryRepository.create, AuthorRepository.create, PublisherRepository.create,
    GenreRepository.create, TopicRepository.create, bind, mint, query.
  unfold Stmt.insert_categories, Stmt.insert_authors, Stmt.insert_publishers,
    Stmt.insert_genres, Stmt.insert_topics.
  cbn [id name].
  repeat split;
    repeat match goal with
           | |- context [if ?c then (_, inl _) else _] => destruct c
           end;
    cbn [fst]; first [apply grows_refl | table_grows].
Qed.

Lemma series_create_grows (uuidv4 : Database -> string) (input : SeriesInput)
    (db : Database) :
  series_phase db (fst (SeriesRepository.create uuidv4 input db)).
Proof.
  unfold SeriesRepository.create, bind, mint, query, transaction.
  set (i := if Js.truthy_opt (si_id input) then _ else _).
  unfold Stmt.insert_series at 1. cbn [id name].
  destruct (Sql.has_row (series db) i); [apply series_phase_refl|].
  pose proof (proj1 (link_loop_frame
                       (Stmt.set_series db (series db ++ [mkRow i (si_name input)]))
                       i (si_authorIds input))) as Hloop.
  destruct (for_each (si_authorIds input)
              (fun authorId => Stmt.insert_series_authors (i, authorId))
              (Stmt.set_series db (series db ++ [mkRow i (si_name input)])))
    as [db2 [e|[]]]; [apply series_phase_refl|].
  cbn [fst] in *. destruct Hloop as [(H1 & _) Hg]. split.
  - eapply grows_trans; [|exact Hg]. table_grows.
  - exact H1.
Qed.

Lemma book_create_grows (uuidv4 : Database -> string) (input : BookInput) (db : Database) :
  books_phase db (fst (BookRepository.create uuidv4 input db)).
Proof.
  unfold BookRepository.create, bind, mint, query, transaction.
  set (i := if Js.truthy_opt (bi_id input) then _ else _).
  unfold Stmt.insert_books at 1. cbn [book_id].
  destruct (Sql.has_book db i); [apply books_phase_refl|].
  match goal with
  | |- context [if negb ?c then _ else _] => destruct c
  end; [|apply books_phase_refl].
  cbn [negb].
  set (row := mkBook i (bi_title input) (publisherId input) (Js.or_null (seriesId input))
                (categoryId input)).
  set (db1 := Stmt.set_books db (books db ++ [row])).
  pose proof (proj1 (proj2 (link_loop_frame db1 i (authorIds input)))) as Ha.
  destruct (for_each (authorIds input) (fun authorId => Stmt.insert_book_authors (i, authorId))
              db1) as [db2 [e|[]]]; [apply books_phase_refl|].
  cbn [fst] in Ha.
  pose proof (proj1 (proj2 (proj2 (link_loop_frame db2 i (genreIds input))))) as Hg.
  destruct (for_each (genreIds input) (fun genreId => Stmt.insert_book_genres (i, genreId))
              db2) as [db3 [e|[]]]; [apply books_phase_refl|].
  cbn [fst] in Hg.
  pose proof (proj2 (proj2 (proj2 (link_loop_frame db3 i (topicIds input))))) as Ht.
  destruct (for_each (topicIds input) (fun topicId => Stmt.insert_book_topics (i, topicId))
              db3) as [db4 [e|[]]]; [apply books_phase_refl|].
  cbn [fst] in *.
  destruct Ha as [Ha Ga], Hg as [Hg Gg], Ht as [Ht Gt].
  pose proof (same_rows_trans Ha (same_rows_trans Hg Ht)) as H14.
  pose proof (grows_trans Ga (grows_trans Gg Gt)) as G14.
  destruct H14 as (H1 & H2 & H3 & H4 & H5 & H6 & H7).
  assert (G01 : grows db db1) by (subst db1; table_grows).
  subst db1. cbn [Stmt.set_books authors publishers series genres topics categories books] in *.
  split; [eapply grows_trans; eassumption|repeat split; assumption].
Qed.

(** A record is processed without throwing, and the store only grows. *)
Lemma record_step_runs {R C : Type} (find : Database -> option R) (create : Tx C)
    (count : ImportExportService.ImportResult -> ImportExportService.ImportResult)
    (describe : Error -> string) (h : ImportExportService.Heap) :
  (forall db, grows db (fst (create db))) ->
  exists h',
    record_step find create count describe h = (h', inr tt)
    /\ grows (ImportExportService.store h) (ImportExportService.store h').
Proof.
  intros Hcreate.
  unfold record_step, try_catch, bind, ImportExportService.lift, query.
  cbn [ImportExportService.store ImportExportService.result].
  destruct (find (ImportExportService.store h)).
  - exists h. split; [now destruct h|apply grows_refl].
  - cbn [ImportExportService.store ImportExportService.result].
    pose proof (Hcreate (ImportExportService.store h)) as Hg.
    destruct (create (ImportExportService.store h)) as [db' [e|c]]; cbn [fst] in Hg;
      eexists; (split; [reflexivity|exact Hg]).
Qed.

(** A loop of steps that never throw and keep a relation on heaps runs to
    its end and keeps the relation. *)
Lemma for_each_runs {X : Type} (R : ImportExportService.Heap -> ImportExportService.Heap -> Prop)
    (step : X -> M ImportExportService.Heap unit) :
  (forall h, R h h) ->
  (forall a b c, R a b -> R b c -> R a c) ->
  (forall x h, exists h', step x h = (h', inr tt) /\ R h h') ->
  forall l h, exists h', for_each l step h = (h', inr tt) /\ R h h'.
Proof.
  intros Hrefl Htrans Hstep. induction l as [|x l IH]; intros h.
  - exists h. split; [reflexivity|apply Hrefl].
  - destruct (Hstep x h) as (h1 & H1 & R1). destruct (IH h1) as (h2 & H2 & R2).
    exists h2. cbn [for_each]. unfold bind. rewrite H1. split; [exact H2|eauto].
Qed.

Section Import_runs.

Import ImportExportService.

Variable uuidv4 : Database -> string.

Let grown (h h' : Heap) : Prop := grows (store h) (store h').

Lemma import_steps_run :
  (forall c h, exists h', import_category uuidv4 c h = (h', inr tt) /\ grown h h')
  /\ (forall a h, exists h', import_author uuidv4 a h = (h', inr tt) /\ grown h h')
  /\ (forall p h, exists h', import_publisher uuidv4 p h = (h', inr tt) /\ grown h h')
  /\ (forall g h, exists h', import_genre uuidv4 g h = (h', inr tt) /\ grown h h')
  /\ (forall t h, exists h', import_topic uuidv4 t h = (h', inr tt) /\ grown h h')
  /\ (forall s h, exists h', import_series uuidv4 s h = (h', inr tt) /\ grown h h')
  /\ (forall b h, exists h', import_book uuidv4 b h = (h', inr tt) /\ grown h h').
Proof.
  unfold grown.
  split; [|split; [|split; [|split; [|split; [|split]]]]].
  - intros c h.
    apply (@record_step_runs _ _ (CategoryRepository.findById (id c))
             (CategoryRepository.create uuidv4 (mkNamedInput (Some (id c)) (name c)))).
    intros db. apply named_create_grows.
  - intros a h.
    apply (@record_step_runs _ _ (AuthorRepository.findById (id a))
             (AuthorRepository.create uuidv4 (mkNamedInput (Some (id a)) (name a)))).
    intros db. apply named_create_grows.
  - intros p h.
    apply (@record_step_runs _ _ (PublisherRepository.findById (id p))
             (PublisherRepository.create uuidv4 (mkNamedInput (Some (id p)) (name p)))).
    intros db. apply named_create_grows.
  - intros g h.
    apply (@record_step_runs _ _ (GenreRepository.findById (id g))
             (GenreRepository.create uuidv4 (mkNamedInput (Some (id g)) (name g)))).
    intros db. apply named_create_grows.
  - intros t h.
    apply (@record_step_runs _ _ (TopicRepository.findById (id t))
             (TopicRepository.create uuidv4 (mkNamedInput (Some (id t)) (name t)))).
    intros db. apply named_create_grows.
  - intros s h. destruct (nonempty (map id (s_authors s))) eqn:Hne.
    + rewrite (import_series_shape uuidv4 s Hne).
      apply record_step_runs. intros db. apply series_phase_grows, series_create_grows.
    + exists h. split; [now apply import_series_skips_empty|apply grows_refl].
  - intros b h.
    apply (@record_step_runs _ _ (BookRepository.findById (b_id b))
             (BookRepository.create uuidv4
                (mkBookInput (Some (b_id b)) (b_title b) (b_publisherId b)
                   (b_seriesId b) (b_categoryId b)
                   (map id (b_authors b)) (map id (b_genres b)) (map id (b_topics b))))).
    intros db. apply books_phase_grows, book_create_grows.
Qed.

(** The seven groups run to their end on every batch, and the store only
    grows until the clean-up pass. *)
Lemma import_groups_run (data : ExportData) (h0 : Heap) :
  exists h7,
    import_groups uuidv4 data h0 = import_cleanup h7 /\ grows (store h0) (store h7).
Proof.
  destruct import_steps_run as (S1 & S2 & S3 & S4 & S5 & S6 & S7).
  assert (Hrefl : forall h, grown h h) by (intros h; apply grows_refl).
  assert (Htrans : forall a b c, grown a b -> grown b c -> grown a c)
    by (intros a b c; apply grows_trans).
  destruct (for_each_runs grown _ Hrefl Htrans S1 (data_categories data) h0) as (h1 & R1 & G1).
  destruct (for_each_runs grown _ Hrefl Htrans S2 (data_authors data) h1) as (h2 & R2 & G2).
  destruct (for_each_runs grown _ Hrefl Htrans S3 (data_publishers data) h2) as (h3 & R3 & G3).
  destruct (for_each_runs grown _ Hrefl Htrans S4 (data_genres data) h3) as (h4 & R4 & G4).
  destruct (for_each_runs grown _ Hrefl Htrans S5 (data_topics data) h4) as (h5 & R5 & G5).
  destruct (for_each_runs grown _ Hrefl Htrans S6 (data_series data) h5) as (h6 & R6 & G6).
  destruct (for_each_runs grown _ Hrefl Htrans S7 (data_books data) h6) as (h7 & R7 & G7).
  exists h7. split.
  - unfold import_groups, bind. rewrite R1, R2, R3, R4, R5, R6, R7. reflexivity.
  - unfold grown in *. eauto 10 using grows_trans.
Qed.

(** The clean-up pass never throws and leaves the store without its
    orphans. *)
Lemma import_cleanup_run (h : Heap) :
  exists r',
    import_cleanup h = (mkHeap (without_orphans (store h)) r', inr tt)
    /\ booksImported r' = booksImported (result h)
    /\ authorsImported r' = authorsImported (result h)
    /\ publishersImported r' = publishersImported (result h)
    /\ seriesImported r' = seriesImported (result h)
    /\ genresImported r' = genresImported (result h)
    /\ topicsImported r' = topicsImported (result h)
    /\ categoriesImported r' = categoriesImported (result h).
Proof.
  unfold import_cleanup, bind, lift. rewrite cleanup_run.
  cbn [DomainService.deletedAuthors DomainService.deletedPublishers
       DomainService.deletedSeries].
  unfold push_error, on_result, modify, ret.
  destruct (nonempty (map name (Sql.orphan_authors (store h))));
    destruct (nonempty (map name (Sql.orphan_publishers (store h))));
    destruct (nonempty (map name (Sql.orphan_series (store h))));
    cbn [store result]; eexists; (split; [reflexivity|]); repeat split.
Qed.

(** An import that found a version in the file runs to its end: the
    store it leaves is the store the seven groups built, which contains
    the store it started from, without its orphans. *)
Lemma import_run (data : ExportData) (db : Database) :
  Js.truthy (version data) = true ->
  exists grown_store r,
    importFromJson uuidv4 data db = (without_orphans grown_store, r)
    /\ grows db grown_store
    /\ success r = Nat.eqb (length (errors r)) 0.
Proof.
  intros Hv.
  destruct (import_groups_run data (mkHeap db initial_result)) as (h7 & Hg & Hgrows).
  destruct (import_cleanup_run h7) as (r' & Hc & _).
  exists (store h7). eexists.
  unfold importFromJson, try_catch, bind, transaction_heap.
  rewrite Hv. cbn [negb]. rewrite Hg, Hc.
  unfold set_success, on_result, modify. cbn [store result].
  split; [reflexivity|]. split; [exact Hgrows|reflexivity].
Qed.

End Import_runs.

(** The import of a well-formed export file (a version, and in every
    group a list of records of the exported shape) ends with a store in
    which [integrityCheck] finds no orphan author, no orphan publisher and
    no orphan series, whichever records of the file failed on the way. *)
Theorem import_leaves_no_orphans :
  forall (uuidv4 : Database -> string) (data : ImportExportService.ExportData)
         (db : Database),
    Js.truthy (ImportExportService.version data) = true ->
    let report :=
      DomainService.summary
        (DomainService.integrityCheck
           (fst (ImportExportService.importFromJson uuidv4 data db))) in
    DomainService.orphanAuthors report = 0
    /\ DomainService.orphanPublishers report = 0
    /\ DomainService.orphanSeries report = 0.
Proof.
  intros uuidv4 data db Hv report. subst report.
  destruct (import_run uuidv4 data db Hv) as (g & r & Hrun & _). rewrite Hrun. cbn [fst].
  pose proof (without_orphans_clean g) as Hno. apply no_orphans_lists in Hno.
  destruct Hno as (Ha & Hp & Hs).
  unfold DomainService.integrityCheck.
  cbn [DomainService.summary DomainService.orphanAuthors DomainService.orphanPublishers
       DomainService.orphanSeries].
  now rewrite Ha, Hp, Hs.
Qed.

Lemma import_leaves_no_orphans_witness :
  Js.truthy (ImportExportService.version lone_author_batch) = true
  /\ DomainService.orphanAuthors
       (DomainService.summary
          (DomainService.integrityCheck
             (fst (ImportExportService.importFromJson fixed_uuid lone_author_batch
                     ann_without_books)))) = 0.
Proof.
  split; [reflexivity|].
  exact (proj1 (import_leaves_no_orphans fixed_uuid lone_author_batch ann_without_books
                  eq_refl)).
Defined.

(** An import never removes a book, a link of a book, a genre, a topic or
    a category, and never removes an author, a publisher or a series that
    has a book: such rows are in the store after the import, unchanged. *)
Theorem import_keeps_what_has_a_book :
  forall (uuidv4 : Database -> string) (data : ImportExportService.ExportData)
         (db : Database),
    let db' := fst (ImportExportService.importFromJson uuidv4 data db) in
    incl (books db) (books db')
    /\ incl (book_authors db) (book_authors db')
    /\ incl (book_genres db) (book_genres db')
    /\ incl (book_topics db) (book_topics db')
    /\ incl (genres db) (genres db')
    /\ incl (topics db) (topics db')
    /\ incl (categories db) (categories db')
    /\ (forall a, In a (authors db) ->
                  (exists b, In (b, id a) (book_authors db)) -> In a (authors db'))
    /\ (forall p, In p (publishers db) ->
                  (exists b, In b (books db) /\ publisher_id b = id p) ->
                  In p (publishers db'))
    /\ (forall s, In s (series db) ->
                  (exists b, In b (books db) /\ series_id b = Some (id s)) ->
                  In s (series db')).
Proof.
  intros uuidv4 data db db'. subst db'.
  destruct (Js.truthy (ImportExportService.version data)) eqn:Hv.
  - destruct (import_run uuidv4 data db Hv) as (g & r & Hrun & Hg & _). rewrite Hrun.
    destruct Hg as (Ga & Gp & Gs & Gg & Gt & Gc & Gb & Gba & Gbg & Gbt & _).
    unfold without_orphans.
    cbn [fst series series_authors authors publishers genres topics
         categories books book_authors book_genres book_topics].
    repeat (split; [assumption|]). split; [|split].
    + intros a Ha (b & Hb). apply filter_In. split; [now apply Ga|].
      apply existsb_exists. exists (b, id a). split; [now apply Gba|apply String.eqb_refl].
    + intros p Hp (b & Hb & E). apply filter_In. split; [now apply Gp|].
      apply existsb_exists. exists b. split; [now apply Gb|].
      rewrite E. apply String.eqb_refl.
    + intros s Hs (b & Hb & E). apply filter_In. split; [now apply Gs|].
      apply existsb_exists. exists b. split; [now apply Gb|].
      unfold Sql.series_is. rewrite E. apply String.eqb_refl.
  - unfold ImportExportService.importFromJson, try_catch,
      ImportExportService.push_error, ImportExportService.on_result, modify.
    rewrite Hv. cbn [negb fst ImportExportService.store].
    repeat (split; [apply incl_refl|]). repeat split; auto.
Qed.

(** ** Records that are in the store already *)

Lemma for_each_skips {X : Type} (step : X -> M ImportExportService.Heap unit)
    (l : list X) (h : ImportExportService.Heap) :
  (forall x, In x l -> step x h = (h, inr tt)) -> for_each l step h = (h, inr tt).
Proof.
  induction l as [|x l IH]; intros H; [reflexivity|].
  cbn [for_each]. unfold bind. rewrite (H x (or_introl eq_refl)).
  apply IH. intros y Hy. apply H. now right.
Qed.

(** When every record of the batch is in the store, the seven groups do
    nothing at all, and only the clean-up pass is left. *)
Lemma import_groups_skip (uuidv4 : Database -> string)
    (data : ImportExportService.ExportData) (h : ImportExportService.Heap) :
  all_present data (ImportExportService.store h) = true ->
  ImportExportService.import_groups uuidv4 data h = ImportExportService.import_cleanup h.
Proof.
  unfold all_present. rewrite !andb_true_iff, !forallb_forall.
  intros ((((((Hc & Ha) & Hp) & Hg) & Ht) & Hs) & Hb).
  assert (Skip : forall (find : option NamedRow) (body : M ImportExportService.Heap unit),
             not_null find = true ->
             match find with
             | Some _ => (h, @inr Error unit tt)
             | None => body h
             end = (h, inr tt))
    by (intros [r|] body E; [reflexivity|discriminate]).
  unfold ImportExportService.import_groups, bind.
  rewrite (for_each_skips (ImportExportService.import_category uuidv4)).
  2:{ intros c Hin. specialize (Hc c Hin). rewrite has_row_not_null in Hc.
      unfold ImportExportService.import_category, try_catch, bind, ImportExportService.lift,
        query, CategoryRepository.findById.
      destruct (Sql.get_row _ _); [now destruct h|discriminate]. }
  rewrite (for_each_skips (ImportExportService.import_author uuidv4)).
  2:{ intros c Hin. specialize (Ha c Hin). rewrite has_row_not_null in Ha.
      unfold ImportExportService.import_author, try_catch, bind, ImportExportService.lift,
        query, AuthorRepository.findById.
      destruct (Sql.get_row _ _); [now destruct h|discriminate]. }
  rewrite (for_each_skips (ImportExportService.import_publisher uuidv4)).
  2:{ intros c Hin. specialize (Hp c Hin). rewrite has_row_not_null in Hp.
      unfold ImportExportService.import_publisher, try_catch, bind, ImportExportService.lift,
        query, PublisherRepository.findById.
      destruct (Sql.get_row _ _); [now destruct h|discriminate]. }
  rewrite (for_each_skips (ImportExportService.import_genre uuidv4)).
  2:{ intros c Hin. specialize (Hg c Hin). rewrite has_row_not_null in Hg.
      unfold ImportExportService.import_genre, try_catch, bind, ImportExportService.lift,
        query, GenreRepository.findById.
      destruct (Sql.get_row _ _); [now destruct h|discriminate]. }
  rewrite (for_each_skips (ImportExportService.import_topic uuidv4)).
  2:{ intros c Hin. specialize (Ht c Hin). rewrite has_row_not_null in Ht.
      unfold ImportExportService.import_topic, try_catch, bind, ImportExportService.lift,
        query, TopicRepository.findById.
      destruct (Sql.get_row _ _); [now destruct h|discriminate]. }
  rewrite (for_each_skips (ImportExportService.import_series uuidv4)).
  2:{ intros c Hin. specialize (Hs c Hin). rewrite has_row_not_null in Hs.
      unfold ImportExportService.import_series, try_catch, bind, ImportExportService.lift,
        query, SeriesRepository.findById.
      destruct (Sql.get_row _ _); [now destruct h|discriminate]. }
  rewrite (for_each_skips (ImportExportService.import_book uuidv4)).
  2:{ intros c Hin. specialize (Hb c Hin). rewrite has_book_not_null in Hb.
      unfold ImportExportService.import_book, try_catch, bind, ImportExportService.lift,
        query, BookRepository.findById.
      destruct (Sql.get_book _ _); [now destruct h|discriminate]. }
  reflexivity.
Qed.

(** What an import does with a batch whose records are all in the store:
    the store it leaves and the counts it reports. *)
Lemma import_present_run (uuidv4 : Database -> string)
    (data : ImportExportService.ExportData) (db : Database) :
  Js.truthy (ImportExportService.version data) = true ->
  all_present data db = true ->
  let run := ImportExportService.importFromJson uuidv4 data db in
  fst run = fst (DomainService.cleanupOrphans db)
  /\ ImportExportService.booksImported (snd run) = 0
  /\ ImportExportService.authorsImported (snd run) = 0
  /\ ImportExportService.publishersImported (snd run) = 0
  /\ ImportExportService.seriesImported (snd run) = 0
  /\ ImportExportService.genresImported (snd run) = 0
  /\ ImportExportService.topicsImported (snd run) = 0
  /\ ImportExportService.categoriesImported (snd run) = 0
  /\ (no_orphans db = true ->
      run = (db, ImportExportService.mkResult true 0 0 0 0 0 0 0 [])).
Proof.
  intros Hv Hall run. subst run.
  unfold ImportExportService.importFromJson, try_catch, bind,
    ImportExportService.transaction_heap.
  rewrite Hv. cbn [negb].
  rewrite (@import_groups_skip uuidv4 data
             (ImportExportService.mkHeap db ImportExportService.initial_result) Hall).
  split; [|split; [|split; [|split; [|split; [|split; [|split; [|split]]]]]]].
  9:{ intros Hno.
      rewrite (@import_cleanup_noop
                 (ImportExportService.mkHeap db ImportExportService.initial_result) Hno).
      reflexivity. }
  all: destruct (import_cleanup_run
                   (ImportExportService.mkHeap db ImportExportService.initial_result))
         as (r' & Hc & Hb & Ha & Hp & Hs & Hg & Ht & Hcat);
       rewrite Hc;
       unfold ImportExportService.set_success, ImportExportService.on_result, modify;
       cbn [fst snd ImportExportService.store ImportExportService.result
            ImportExportService.booksImported ImportExportService.authorsImported
            ImportExportService.publishersImported ImportExportService.seriesImported
            ImportExportService.genresImported ImportExportService.topicsImported
            ImportExportService.categoriesImported];
       cbn [ImportExportService.store ImportExportService.result] in *.
  - now rewrite cleanup_run.
  - exact Hb.
  - exact Ha.
  - exact Hp.
  - exact Hs.
  - exact Hg.
  - exact Ht.
  - exact Hcat.
Qed.

(** An import of a file whose records are all in the store already, each
    under its id, adds nothing, changes no row and counts nothing, even
    where the file gives another name: the store it leaves is the one the
    clean-up pass alone would leave.  When the store has no orphan, the
    store is left as it was and the import reports success without a line. *)
Theorem import_skips_records_already_there :
  forall (uuidv4 : Database -> string) (data : ImportExportService.ExportData)
         (db : Database),
    Js.truthy (ImportExportService.version data) = true ->
    all_present data db = true ->
    let run := ImportExportService.importFromJson uuidv4 data db in
    fst run = fst (DomainService.cleanupOrphans db)
    /\ ImportExportService.booksImported (snd run) = 0
    /\ ImportExportService.authorsImported (snd run) = 0
    /\ ImportExportService.publishersImported (snd run) = 0
    /\ ImportExportService.seriesImported (snd run) = 0
    /\ ImportExportService.genresImported (snd run) = 0
    /\ ImportExportService.topicsImported (snd run) = 0
    /\ ImportExportService.categoriesImported (snd run) = 0
    /\ (no_orphans db = true ->
        run = (db, ImportExportService.mkResult true 0 0 0 0 0 0 0 [])).
Proof.
  intros uuidv4 data db Hv Hall. exact (import_present_run uuidv4 data db Hv Hall).
Qed.

Lemma import_skips_records_already_there_witness :
  Js.truthy (ImportExportService.version renamed_author_batch) = true
  /\ all_present renamed_author_batch single_shelf = true
  /\ ImportExportService.importFromJson fixed_uuid renamed_author_batch single_shelf
     = (single_shelf, ImportExportService.mkResult true 0 0 0 0 0 0 0 []).
Proof.
  split; [reflexivity|]. split; [reflexivity|].
  exact (proj2 (proj2 (proj2 (proj2 (proj2 (proj2 (proj2 (proj2
           (import_skips_records_already_there fixed_uuid renamed_author_batch
              single_shelf eq_refl eq_refl)))))))) eq_refl).
Defined.

(** ** An export read back *)

(** Every record of an export of the store is in the store. *)
Lemma export_is_present (created_at_desc : list BookRow -> list BookRow)
    (name_asc : list NamedRow -> list NamedRow) (db : Database) :
  (forall l, incl (created_at_desc l) l) ->
  (forall l, incl (name_asc l) l) ->
  all_present (ImportExportService.exportToJson created_at_desc name_asc db) db = true.
Proof.
  intros Hbooks Hrows.
  assert (Hin : forall t, forallb (fun r => Sql.has_row t (id r)) (name_asc t) = true).
  { intros t. apply forallb_forall. intros r Hr. apply in_has_row. now apply Hrows. }
  unfold all_present, ImportExportService.exportToJson.
  cbn [ImportExportService.data_categories ImportExportService.data_authors
       ImportExportService.data_publishers ImportExportService.data_genres
       ImportExportService.data_topics ImportExportService.data_series
       ImportExportService.data_books].
  unfold CategoryRepository.findAll, AuthorRepository.findAll, PublisherRepository.findAll,
    GenreRepository.findAll, TopicRepository.findAll, SeriesRepository.findAll,
    BookRepository.findAll.
  rewrite !Hin. cbn [andb].
  apply andb_true_iff. split.
  - apply forallb_forall. intros r Hr.
    apply in_map_iff in Hr. destruct Hr as (p & <- & Hp).
    apply in_map_iff in Hp. destruct Hp as (s & <- & Hs).
    cbn [ImportExportService.s_id fst]. apply in_has_row. now apply Hrows.
  - apply forallb_forall. intros r Hr.
    apply in_map_iff in Hr. destruct Hr as (v & <- & Hv).
    apply in_map_iff in Hv. destruct Hv as (b & <- & Hb).
    cbn [ImportExportService.b_id BookRepository.view_id
         BookRepository.enrichBookWithRelations].
    apply existsb_exists. exists b. split; [now apply Hbooks|apply String.eqb_refl].
Qed.

(** An export of the store, read back into the same store, is skipped
    record by record, in whatever order the queries list the rows: nothing
    is imported twice.  When the store has no orphan the import leaves it
    exactly as it was and reports success, no count and no line. *)
Theorem import_of_own_export :
  forall (uuidv4 : Database -> string) (created_at_desc : list BookRow -> list BookRow)
         (name_asc : list NamedRow -> list NamedRow) (db : Database),
    (forall l, incl (created_at_desc l) l) ->
    (forall l, incl (name_asc l) l) ->
    let data := ImportExportService.exportToJson created_at_desc name_asc db in
    let run := ImportExportService.importFromJson uuidv4 data db in
    fst run = fst (DomainService.cleanupOrphans db)
    /\ ImportExportService.booksImported (snd run) = 0
    /\ ImportExportService.authorsImported (snd run) = 0
    /\ ImportExportService.publishersImported (snd run) = 0
    /\ ImportExportService.seriesImported (snd run) = 0
    /\ ImportExportService.genresImported (snd run) = 0
    /\ ImportExportService.topicsImported (snd run) = 0
    /\ ImportExportService.categoriesImported (snd run) = 0
    /\ (no_orphans db = true ->
        run = (db, ImportExportService.mkResult true 0 0 0 0 0 0 0 [])).
Proof.
  intros uuidv4 created_at_desc name_asc db Hbooks Hrows data run. subst run data.
  apply import_present_run; [reflexivity|].
  now apply export_is_present.
Qed.

Lemma import_of_own_export_witness :
  (forall l : list BookRow, incl (@rev BookRow l) l)
  /\ (forall l : list NamedRow, incl (@rev NamedRow l) l)
  /\ ImportExportService.importFromJson fixed_uuid
       (ImportExportService.exportToJson (@rev BookRow) (@rev NamedRow) single_shelf)
       single_shelf
     = (single_shelf, ImportExportService.mkResult true 0 0 0 0 0 0 0 []).
Proof.
  assert (Hrev : forall (A : Type) (l : list A), incl (rev l) l)
    by (intros A l x Hx; now apply in_rev).
  split; [apply Hrev|]. split; [apply Hrev|].
  exact (proj2 (proj2 (proj2 (proj2 (proj2 (proj2 (proj2 (proj2
           (import_of_own_export fixed_uuid (@rev BookRow) (@rev NamedRow) single_shelf
              (Hrev BookRow) (Hrev NamedRow))))))))) eq_refl).
Defined.

(** ** Creating a book or a series *)

Lemma mint_minted (uuidv4 : Database -> string) (i : option string) (db : Database) :
  mint uuidv4 i db = (db, inr (minted uuidv4 i db)).
Proof.
  unfold mint, query, minted, Js.truthy_opt. destruct i as [s|]; [|reflexivity].
  now destruct (Js.truthy s).
Qed.

Lemma linkable_cons (links : list Link) (t : list NamedRow) (i x : string)
    (ids : list string) :
  linkable links t i (x :: ids)
  = negb (Stmt.has_link links (i, x)) && Sql.has_row t x
    && linkable (links ++ [(i, x)]) t i ids.
Proof.
  unfold linkable. cbn [forallb distinct].
  assert (H : forallb (fun y => negb (Stmt.has_link (links ++ [(i, x)]) (i, y))
                                && Sql.has_row t y) ids
              = forallb (fun y => negb (Stmt.has_link links (i, y)) && Sql.has_row t y) ids
                && negb (Js.includes ids x)).
  { unfold Js.includes. induction ids as [|y ids IH]; [reflexivity|].
    cbn [forallb existsb]. rewrite IH, has_link_app. cbn [fst snd].
    rewrite String.eqb_refl. cbn [andb].
    destruct (Stmt.has_link links (i, y)), (Sql.has_row t y), (String.eqb x y);
      cbn [negb andb orb];
      repeat match goal with
             | |- context [forallb ?f ids] => destruct (forallb f ids)
             | |- context [existsb ?f ids] => destruct (existsb f ids)
             end; reflexivity. }
  rewrite H.
  destruct (Stmt.has_link links (i, x)), (Sql.has_row t x), (Js.includes ids x),
    (distinct ids); cbn [negb andb];
    repeat match goal with
           | |- context [forallb ?f ids] => destruct (forallb f ids)
           end; reflexivity.
Qed.

(** A loop of [INSERT]s in a junction table, for one owner [i]: it
    completes exactly when the rows can be linked, and then it has added
    them in order. *)
Section Link_loop.

Variable tbl : Database -> list Link.
Variable set : Database -> list Link -> Database.
Variable target : Database -> list NamedRow.
Variable owner : Database -> string -> bool.
Variable insert : Link -> Tx unit.
Variable columns : string.

Hypothesis insert_eq : forall l db,
  insert l db
  = if Stmt.has_link (tbl db) l then (db, inl (Stmt.unique_failed columns))
    else if negb (owner db (fst l) && Sql.has_row (target db) (snd l))
         then (db, inl Stmt.fk_failed)
         else (set db (tbl db ++ [l]), inr tt).
Hypothesis tbl_set : forall db t, tbl (set db t) = t.
Hypothesis target_set : forall db t, target (set db t) = target db.
Hypothesis owner_set : forall db t i, owner (set db t) i = owner db i.
Hypothesis set_set : forall db t t', set (set db t) t' = set db t'.
Hypothesis set_same : forall db, set db (tbl db) = db.

Lemma link_loop_outcome (i : string) (ids : list string) :
  forall db : Database,
    owner db i = true ->
    match for_each ids (fun x => insert (i, x)) db with
    | (db', inr _) =>
        linkable (tbl db) (target db) i ids = true
        /\ db' = set db (tbl db ++ map (fun x => (i, x)) ids)
    | (_, inl _) => linkable (tbl db) (target db) i ids = false
    end.
Proof.
  induction ids as [|x ids IH]; intros db Hown.
  - cbn [for_each map]. unfold ret. split; [reflexivity|].
    now rewrite app_nil_r, set_same.
  - cbn [for_each]. unfold bind. rewrite insert_eq, linkable_cons. cbn [fst snd].
    rewrite Hown. cbn [andb].
    destruct (Stmt.has_link (tbl db) (i, x)); [reflexivity|].
    destruct (Sql.has_row (target db) x); [|reflexivity].
    cbn [negb andb].
    specialize (IH (set db (tbl db ++ [(i, x)]))).
    rewrite owner_set, tbl_set, target_set in IH. specialize (IH Hown).
    revert IH. unfold Link.
    match goal with
    | |- context [for_each ids ?f ?d] => destruct (for_each ids f d) as [db' [e|[]]]
    end; intros IH; [exact IH|].
    destruct IH as [Hl ->]. split; [exact Hl|].
    rewrite set_set, <- app_assoc. reflexivity.
Qed.

End Link_loop.

Lemma book_authors_loop (i : string) (ids : list string) (db : Database) :
  Sql.has_book db i = true ->
  match for_each ids (fun x => Stmt.insert_book_authors (i, x)) db with
  | (db', inr _) =>
      linkable (book_authors db) (authors db) i ids = true
      /\ db' = Stmt.set_book_authors db (book_authors db ++ map (fun x => (i, x)) ids)
  | (_, inl _) => linkable (book_authors db) (authors db) i ids = false
  end.
Proof.
  apply (@link_loop_outcome book_authors Stmt.set_book_authors authors Sql.has_book
           Stmt.insert_book_authors "book_authors.book_id, book_authors.author_id");
    try reflexivity.
  intros d. now destruct d.
Qed.

Lemma book_genres_loop (i : string) (ids : list string) (db : Database) :
  Sql.has_book db i = true ->
  match for_each ids (fun x => Stmt.insert_book_genres (i, x)) db with
  | (db', inr _) =>
      linkable (book_genres db) (genres db) i ids = true
      /\ db' = Stmt.set_book_genres db (book_genres db ++ map (fun x => (i, x)) ids)
  | (_, inl _) => linkable (book_genres db) (genres db) i ids = false
  end.
Proof.
  apply (@link_loop_outcome book_genres Stmt.set_book_genres genres Sql.has_book
           Stmt.insert_book_genres "book_genres.book_id, book_genres.genre_id");
    try reflexivity.
  intros d. now destruct d.
Qed.

Lemma book_topics_loop (i : string) (ids : list string) (db : Database) :
  Sql.has_book db i = true ->
  match for_each ids (fun x => Stmt.insert_book_topics (i, x)) db with
  | (db', inr _) =>
      linkable (book_topics db) (topics db) i ids = true
      /\ db' = Stmt.set_book_topics db (book_topics db ++ map (fun x => (i, x)) ids)
  | (_, inl _) => linkable (book_topics db) (topics db) i ids = false
  end.
Proof.
  apply (@link_loop_outcome book_topics Stmt.set_book_topics topics Sql.has_book
           Stmt.insert_book_topics "book_topics.book_id, book_topics.topic_id");
    try reflexivity.
  intros d. now destruct d.
Qed.

Lemma series_authors_loop (i : string) (ids : list string) (db : Database) :
  Sql.has_row (series db) i = true ->
  match for_each ids (fun x => Stmt.insert_series_authors (i, x)) db with
  | (db', inr _) =>
      linkable (series_authors db) (authors db) i ids = true
      /\ db' = Stmt.set_series_authors db (series_authors db ++ map (fun x => (i, x)) ids)
  | (_, inl _) => linkable (series_authors db) (authors db) i ids = false
  end.
Proof.
  apply (@link_loop_outcome series_authors Stmt.set_series_authors authors
           (fun d => Sql.has_row (series d)) Stmt.insert_series_authors
           "series_authors.series_id, series_authors.author_id");
    try reflexivity.
  intros d. now destruct d.
Qed.

Lemma find_app_new {A : Type} (f : A -> bool) (l : list A) (x : A) :
  existsb f l = false -> f x = true -> find f (l ++ [x]) = Some x.
Proof.
  induction l as [|y l IH]; simpl; intros Hl Hx; [now rewrite Hx|].
  apply orb_false_iff in Hl. destruct Hl as [-> Hl]. now apply IH.
Qed.

(** [BookRepository.create] either writes the book and all its links or
    leaves the store as it was, and which of the two is decided by
    [book_creatable]. *)
Lemma book_create_run (uuidv4 : Database -> string) (input : BookInput) (db : Database) :
  match BookRepository.create uuidv4 input db with
  | (db', inr r) =>
      book_creatable (minted uuidv4 (bi_id input) db) input db = true
      /\ r = Some (book_row_of (minted uuidv4 (bi_id input) db) input)
      /\ db' = with_book (minted uuidv4 (bi_id input) db) input db
  | (db', inl _) =>
      book_creatable (minted uuidv4 (bi_id input) db) input db = false /\ db' = db
  end.
Proof.
  unfold BookRepository.create, bind. rewrite mint_minted.
  set (i := minted uuidv4 (bi_id input) db).
  unfold transaction, book_creatable. fold (book_row_of i input).
  unfold Stmt.insert_books at 1. replace (book_id (book_row_of i input)) with i by reflexivity.
  destruct (Sql.has_book db i) eqn:Hfree; [now split|].
  destruct (Stmt.book_fks_ok db (book_row_of i input)) eqn:Hfk; [|now split].
  cbn [negb andb].
  set (db1 := Stmt.set_books db (books db ++ [book_row_of i input])).
  assert (H1 : Sql.has_book db1 i = true).
  { unfold Sql.has_book, db1. cbn [Stmt.set_books books]. rewrite existsb_app.
    cbn [existsb book_row_of book_id]. rewrite String.eqb_refl. apply orb_true_r. }
  pose proof (book_authors_loop i (authorIds input) db1 H1) as Ha.
  destruct (for_each (authorIds input) _ db1) as [db2 [e|[]]];
    [cbn [book_authors authors db1 Stmt.set_books] in Ha; rewrite Ha; now split|].
  destruct Ha as [Ha ->].
  cbn [book_authors authors db1 Stmt.set_books] in Ha. rewrite Ha. cbn [andb].
  set (db2 := Stmt.set_book_authors db1 _).
  assert (H2 : Sql.has_book db2 i = true) by exact H1.
  pose proof (book_genres_loop i (genreIds input) db2 H2) as Hg.
  destruct (for_each (genreIds input) _ db2) as [db3 [e|[]]];
    [cbn [book_genres genres db2 db1 Stmt.set_books Stmt.set_book_authors] in Hg;
     rewrite Hg; now split|].
  destruct Hg as [Hg ->].
  cbn [book_genres genres db2 db1 Stmt.set_books Stmt.set_book_authors] in Hg.
  rewrite Hg. cbn [andb].
  set (db3 := Stmt.set_book_genres db2 _).
  assert (H3 : Sql.has_book db3 i = true) by exact H1.
  pose proof (book_topics_loop i (topicIds input) db3 H3) as Ht.
  destruct (for_each (topicIds input) _ db3) as [db4 [e|[]]];
    [cbn [book_topics topics db3 db2 db1 Stmt.set_books Stmt.set_book_authors
          Stmt.set_book_genres] in Ht;
     rewrite Ht; now split|].
  destruct Ht as [Ht ->].
  cbn [book_topics topics db3 db2 db1 Stmt.set_books Stmt.set_book_authors
       Stmt.set_book_genres] in Ht.
  rewrite Ht. unfold query. split; [reflexivity|]. split; [|reflexivity].
  unfold Sql.get_book. cbn [books Stmt.set_book_topics db3 Stmt.set_book_genres db2
                            Stmt.set_book_authors db1 Stmt.set_books].
  rewrite find_app_new; [reflexivity|exact Hfree|].
  cbn [book_row_of book_id]. apply String.eqb_refl.
Qed.

(** The same for [SeriesRepository.create]. *)
Lemma series_create_run (uuidv4 : Database -> string) (input : SeriesInput) (db : Database) :
  match SeriesRepository.create uuidv4 input db with
  | (db', inr r) =>
      series_creatable (minted uuidv4 (si_id input) db) input db = true
      /\ r = Some (mkRow (minted uuidv4 (si_id input) db) (si_name input))
      /\ db' = with_series (minted uuidv4 (si_id input) db) input db
  | (db', inl _) =>
      series_creatable (minted uuidv4 (si_id input) db) input db = false /\ db' = db
  end.
Proof.
  unfold SeriesRepository.create, bind. rewrite mint_minted.
  set (i := minted uuidv4 (si_id input) db).
  unfold transaction, series_creatable.
  unfold Stmt.insert_series at 1. cbn [id].
  destruct (Sql.has_row (series db) i) eqn:Hfree; [now split|].
  cbn [negb andb].
  set (db1 := Stmt.set_series db (series db ++ [mkRow i (si_name input)])).
  assert (H1 : Sql.has_row (series db1) i = true).
  { unfold Sql.has_row, db1. cbn [Stmt.set_series series]. rewrite existsb_app.
    cbn [existsb id]. rewrite String.eqb_refl. apply orb_true_r. }
  pose proof (series_authors_loop i (si_authorIds input) db1 H1) as Ha.
  destruct (for_each (si_authorIds input) _ db1) as [db2 [e|[]]];
    [cbn [series_authors authors db1 Stmt.set_series] in Ha; rewrite Ha; now split|].
  destruct Ha as [Ha ->].
  cbn [series_authors authors db1 Stmt.set_series] in Ha. rewrite Ha.
  unfold query. split; [reflexivity|]. split; [|reflexivity].
  unfold Sql.get_row. cbn [series Stmt.set_series_authors db1 Stmt.set_series].
  rewrite find_app_new; [reflexivity|exact Hfree|].
  cbn [id]. apply String.eqb_refl.
Qed.


(** [SeriesRepository.create] completes exactly when the id it writes
    under is free and every listed author is in the store, is listed once
    and is not linked to that id yet; an empty list of authors is accepted.
    When it completes, the store has one more series row and one link row
    for each listed author; when it throws, the store is as it was. *)
Theorem series_create_outcomes :
  forall (uuidv4 : Database -> string) (input : SeriesInput) (db : Database),
    let i := minted uuidv4 (si_id input) db in
    let run := SeriesRepository.create uuidv4 input db in
    succeeds (SeriesRepository.create uuidv4 input) db = series_creatable i input db
    /\ (si_authorIds input = [] ->
        succeeds (SeriesRepository.create uuidv4 input) db
        = negb (Sql.has_row (series db) i))
    /\ (forall e, snd run = inl e -> fst run = db)
    /\ (forall r, snd run = inr r ->
                  r = Some (mkRow i (si_name input)) /\ fst run = with_series i input db).
Proof.
  intros uuidv4 input db i run. subst i run. unfold succeeds.
  pose proof (series_create_run uuidv4 input db) as H.
  assert (Hempty : si_authorIds input = [] ->
                   series_creatable (minted uuidv4 (si_id input) db) input db
                   = negb (Sql.has_row (series db) (minted uuidv4 (si_id input) db))).
  { intros E. unfold series_creatable. rewrite E. apply andb_true_r. }
  destruct (SeriesRepository.create uuidv4 input db) as [db' [e|r]]; cbn [fst snd].
  - destruct H as [Hc ->]. split; [now rewrite Hc|].
    split; [intros E; now rewrite <- (Hempty E), Hc|].
    split; [reflexivity|discriminate].
  - destruct H as (Hc & -> & ->). split; [now rewrite Hc|].
    split; [intros E; now rewrite <- (Hempty E), Hc|].
    split; [discriminate|].
    intros r' E. injection E as <-. now split.
Qed.

Lemma or_null_twice (v : option string) : Js.or_null (Js.or_null v) = Js.or_null v.
Proof.
  unfold Js.or_null. destruct (Js.truthy_opt v) eqn:E; [now rewrite E|reflexivity].
Qed.

(** A row is in a join of a table with a junction table, for one owner,
    exactly when it is in the table and linked to the owner. *)
Lemma in_join (rows : list NamedRow) (links : list Link) (b : string) (a : NamedRow) :
  In a (flat_map
          (fun r =>
             map (fun _ => r)
               (filter (fun l => String.eqb (id r) (snd l) && String.eqb (fst l) b) links))
          rows)
  <-> In a rows /\ In (b, id a) links.
Proof.
  rewrite in_flat_map. split.
  - intros (r & Hr & Hin). apply in_map_iff in Hin. destruct Hin as (l & <- & Hl).
    apply filter_In in Hl. destruct Hl as [Hl E]. apply andb_prop in E.
    destruct E as [E1 E2]. apply String.eqb_eq in E1, E2.
    split; [exact Hr|]. destruct l as [x y]. cbn [fst snd] in *. now subst.
  - intros [Ha Hl]. exists a. split; [exact Ha|].
    apply in_map_iff. exists (b, id a). split; [reflexivity|].
    apply filter_In. split; [exact Hl|]. cbn [fst snd]. now rewrite !String.eqb_refl.
Qed.

(** The same when the links of the owner are all new. *)
Lemma in_join_new (rows : list NamedRow) (links : list Link) (i : string)
    (ids : list string) (a : NamedRow) :
  (forall x, ~ In (i, x) links) ->
  In a (flat_map
          (fun r =>
             map (fun _ => r)
               (filter (fun l => String.eqb (id r) (snd l) && String.eqb (fst l) i)
                  (links ++ map (fun x => (i, x)) ids)))
          rows)
  <-> In a rows /\ In (id a) ids.
Proof.
  intros Hnone. rewrite in_join, in_app_iff, in_map_iff. split.
  - intros [Ha [Hl|(x & E & Hx)]]; [now apply Hnone in Hl|].
    injection E as <-. now split.
  - intros [Ha Hx]. split; [exact Ha|]. right. now exists (id a).
Qed.

(** On a store that satisfies its foreign keys, a book that is not there
    has no link. *)
Lemma no_link_of_missing_book (db : Database) (b x : string) :
  foreign_keys_ok db = true ->
  Sql.has_book db b = false ->
  ~ In (b, x) (book_authors db) /\ ~ In (b, x) (book_genres db)
  /\ ~ In (b, x) (book_topics db).
Proof.
  unfold foreign_keys_ok. intros H Hb.
  repeat (apply andb_prop in H; destruct H as [H ?]).
  repeat match goal with
         | F : forallb _ _ = true |- _ => rewrite forallb_forall in F
         end.
  repeat split; intros Hin;
    match goal with
    | F : forall l, In l ?t -> _, Hin : In _ ?t |- _ => apply F in Hin
    end;
    cbn [fst snd] in Hin; rewrite Hb in Hin; discriminate.
Qed.

(** A book that [BookRepository.create] has written on a store that
    satisfied its foreign keys reads back as it was given: the columns of
    the input, the publisher, category and series rows they name, which
    are found, and as authors, genres and topics exactly the rows whose id
    the input lists. *)
Theorem created_book_reads_back :
  forall (uuidv4 : Database -> string) (input : BookInput) (db : Database)
         (r : option BookRow),
    foreign_keys_ok db = true ->
    snd (BookRepository.create uuidv4 input db) = inr r ->
    let i := minted uuidv4 (bi_id input) db in
    exists v,
      BookRepository.findByIdWithRelations i (fst (BookRepository.create uuidv4 input db))
      = Some v
      /\ BookRepository.view_id v = i
      /\ BookRepository.view_title v = bi_title input
      /\ BookRepository.view_publisherId v = publisherId input
      /\ BookRepository.view_seriesId v = Js.or_null (seriesId input)
      /\ BookRepository.view_categoryId v = categoryId input
      /\ BookRepository.view_publisher v = Sql.get_row (publishers db) (publisherId input)
      /\ BookRepository.view_publisher v <> None
      /\ BookRepository.view_category v = Sql.get_row (categories db) (categoryId input)
      /\ BookRepository.view_category v <> None
      /\ match Js.or_null (seriesId input) with
         | Some s =>
             BookRepository.view_series v = Sql.get_row (series db) s
             /\ BookRepository.view_series v <> None
         | None => BookRepository.view_series v = None
         end
      /\ (forall a, In a (BookRepository.view_authors v)
                    <-> In a (authors db) /\ In (id a) (authorIds input))
      /\ (forall g, In g (BookRepository.view_genres v)
                    <-> In g (genres db) /\ In (id g) (genreIds input))
      /\ (forall t, In t (BookRepository.view_topics v)
                    <-> In t (topics db) /\ In (id t) (topicIds input)).
Proof.
  intros uuidv4 input db r Hfk Hrun i.
  pose proof (book_create_run uuidv4 input db) as H. fold i in H.
  destruct (BookRepository.create uuidv4 input db) as [db' [e|r']]; [discriminate|].
  cbn [fst snd] in *. destruct H as (Hc & _ & ->).
  unfold book_creatable in Hc.
  repeat (apply andb_prop in Hc; destruct Hc as [Hc ?]).
  apply negb_true_iff in Hc.
  match goal with
  | F : Stmt.book_fks_ok _ _ = true |- _ =>
      unfold Stmt.book_fks_ok in F; cbn [book_row_of publisher_id category_id series_id] in F;
      apply andb_prop in F; destruct F as [F Hs]; apply andb_prop in F;
      destruct F as [Hp Hcat]
  end.
  pose proof (fun x => no_link_of_missing_book db i x Hfk Hc) as Nl.
  unfold BookRepository.findByIdWithRelations, Sql.get_book, with_book. cbn [books].
  rewrite find_app_new;
    [|exact Hc|cbn [book_row_of book_id]; apply String.eqb_refl].
  eexists. split; [reflexivity|].
  unfold BookRepository.enrichBookWithRelations.
  cbn [book_row_of book_id title publisher_id series_id category_id
       BookRepository.view_id BookRepository.view_title BookRepository.view_publisherId
       BookRepository.view_seriesId BookRepository.view_categoryId
       BookRepository.view_publisher BookRepository.view_series
       BookRepository.view_category BookRepository.view_authors
       BookRepository.view_genres BookRepository.view_topics
       publishers series categories].
  assert (Hfound : forall t x, Sql.has_row t x = true -> Sql.get_row t x <> None).
  { intros t x E. rewrite has_row_not_null in E. now destruct (Sql.get_row t x). }
  do 9 (split; [first [reflexivity | now apply Hfound | apply or_null_twice]|]).
  split; [|split; [|split]].
  - destruct (Js.or_null (seriesId input)) as [s|] eqn:Es; [|reflexivity].
    assert (Ht : Js.truthy s = true).
    { unfold Js.or_null in Es. destruct (Js.truthy_opt (seriesId input)) eqn:E; [|discriminate].
      rewrite Es in E. exact E. }
    rewrite Ht. pose proof (Hfound _ _ Hs) as Hne.
    destruct (Sql.get_row (series db) s) as [row|]; [|contradiction].
    rewrite row_eta. split; [reflexivity|discriminate].
  - intros a. apply in_join_new. intros x. apply Nl.
  - intros g. apply in_join_new. intros x. apply Nl.
  - intros t. apply in_join_new. intros x. apply Nl.
Qed.

Lemma created_book_reads_back_witness :
  foreign_keys_ok single_shelf = true
  /\ snd (BookRepository.create fixed_uuid second_book single_shelf)
     = inr (Some (mkBook "Y" "The Sequel" "P1" (Some "S1") "C"))
  /\ exists v,
       BookRepository.findByIdWithRelations "Y"
         (fst (BookRepository.create fixed_uuid second_book single_shelf)) = Some v
       /\ BookRepository.view_publisher v = Some (mkRow "P1" "Press").
Proof.
  split; [reflexivity|]. split; [reflexivity|].
  destruct (created_book_reads_back fixed_uuid second_book single_shelf eq_refl eq_refl)
    as (v & Hv & _ & _ & _ & _ & _ & Hp & _).
  exists v. split; [exact Hv|exact Hp].
Defined.

(** ** Rewriting a book *)

Lemma linkable_ext (links links' : list Link) (t : list NamedRow) (i : string)
    (ids : list string) :
  (forall x, Stmt.has_link links (i, x) = Stmt.has_link links' (i, x)) ->
  linkable links t i ids = linkable links' t i ids.
Proof.
  intros H. unfold linkable. f_equal.
  induction ids as [|x ids IH]; [reflexivity|]. cbn [forallb]. now rewrite IH, H.
Qed.

Lemma no_book_count (db : Database) (b : string) :
  Sql.has_book db b = false ->
  Nat.eqb (length (filter (fun r => String.eqb (book_id r) b) (books db))) 0 = true.
Proof.
  unfold Sql.has_book. induction (books db) as [|x l IH]; simpl; [reflexivity|].
  destruct (String.eqb (book_id x) b); simpl; [discriminate|exact IH].
Qed.

Lemma no_link_left (links : list Link) (i x : string) :
  Stmt.has_link (Stmt.without_left links i) (i, x) = false.
Proof.
  unfold Stmt.has_link, Stmt.without_left.
  induction links as [|l links IH]; [reflexivity|]. cbn [filter fst snd] in *.
  destruct (String.eqb (fst l) i) eqn:E; cbn [negb]; [exact IH|].
  cbn [existsb]. now rewrite E, IH.
Qed.

Lemma has_book_rewritten (l : list BookRow) (b : string) (row : BookRow) (i : string) :
  book_id row = b ->
  existsb (fun r => String.eqb (book_id r) i)
    (map (fun r => if String.eqb (book_id r) b then row else r) l)
  = existsb (fun r => String.eqb (book_id r) i) l.
Proof.
  intros Hrow. induction l as [|r l IH]; [reflexivity|]. cbn [map existsb]. rewrite IH.
  destruct (String.eqb (book_id r) b) eqn:E; [|reflexivity].
  apply String.eqb_eq in E. now rewrite Hrow, E.
Qed.

Lemma rewritten_rows (l : list BookRow) (b : string) (row : BookRow) :
  book_id row = b ->
  map (fun r => if String.eqb (book_id r) b
                then mkBook (book_id r) (title row) (publisher_id row) (series_id row)
                       (category_id row)
                else r) l
  = map (fun r => if String.eqb (book_id r) b then row else r) l.
Proof.
  intros Hrow. apply map_ext. intros r.
  destruct (String.eqb (book_id r) b) eqn:E; [|reflexivity].
  apply String.eqb_eq in E. rewrite E, <- Hrow. now destruct row.
Qed.

Lemma find_rewritten (l : list BookRow) (b : string) (row : BookRow) :
  book_id row = b ->
  existsb (fun r => String.eqb (book_id r) b) l = true ->
  find (fun r => String.eqb (book_id r) b)
    (map (fun r => if String.eqb (book_id r) b then row else r) l)
  = Some row.
Proof.
  intros Hrow. induction l as [|r l IH]; [discriminate|]. cbn [existsb map find].
  destruct (String.eqb (book_id r) b) eqn:E.
  - intros _. now rewrite Hrow, String.eqb_refl.
  - rewrite E. exact IH.
Qed.

(** [BookRepository.update], when no clean-up of orphans takes place,
    either rewrites the row and replaces the links of the book or leaves
    the store as it was, and which of the two is decided by
    [book_updatable]. *)
Lemma book_update_run (bookId : string) (input : BookInput) (cleanupOrphans : bool)
    (db : Database) :
  cleanupOrphans && hasImpact (BookRepository.checkUpdateImpact bookId input db) = false ->
  match BookRepository.update bookId input cleanupOrphans db with
  | (db', inr r) =>
      book_updatable bookId input db = true
      /\ r = Some (book_row_of bookId input)
      /\ db' = with_book_updated bookId input db
  | (db', inl _) => book_updatable bookId input db = false /\ db' = db
  end.
Proof.
  intros Hquiet.
  unfold BookRepository.update, transaction, bind, query. rewrite Hquiet.
  unfold book_updatable. fold (book_row_of bookId input).
  unfold Stmt.update_books at 1.
  destruct (Sql.has_book db bookId) eqn:Hbook;
    [rewrite (has_book_count _ _ Hbook)|rewrite (no_book_count _ _ Hbook); now split].
  destruct (Stmt.book_fks_ok db (book_row_of bookId input)) eqn:Hfk; [|now split].
  cbn [negb andb].
  rewrite (has_book_count _ _ Hbook). cbn [Nat.eqb].
  rewrite (@rewritten_rows (books db) bookId (book_row_of bookId input) eq_refl).
  set (db1 := Stmt.set_books db _).
  unfold Stmt.delete_book_authors_by_book, Stmt.delete_book_genres_by_book,
    Stmt.delete_book_topics_by_book, modify, ret.
  assert (H1 : Sql.has_book db1 bookId = true).
  { unfold Sql.has_book, db1. cbn [Stmt.set_books books].
    rewrite has_book_rewritten; [exact Hbook|reflexivity]. }
  set (db2 := Stmt.set_book_authors db1 _).
  pose proof (@book_authors_loop bookId (authorIds input) db2 H1) as Ha.
  rewrite (@linkable_ext (book_authors db2) [] (authors db2) bookId (authorIds input)) in Ha
    by (intros x; apply no_link_left).
  destruct (for_each (authorIds input) _ db2) as [db3 [e|[]]];
    [cbn [authors db2 db1 Stmt.set_books Stmt.set_book_authors] in Ha;
     rewrite Ha; now split|].
  destruct Ha as [Ha ->].
  cbn [authors db2 db1 Stmt.set_books Stmt.set_book_authors] in Ha. rewrite Ha.
  cbn [andb].
  set (db3 := Stmt.set_book_authors db2 _).
  set (db4 := Stmt.set_book_genres db3 _).
  pose proof (@book_genres_loop bookId (genreIds input) db4 H1) as Hg.
  rewrite (@linkable_ext (book_genres db4) [] (genres db4) bookId (genreIds input)) in Hg
    by (intros x; apply no_link_left).
  destruct (for_each (genreIds input) _ db4) as [db5 [e|[]]];
    [cbn [genres db4 db3 db2 db1 Stmt.set_books Stmt.set_book_authors
          Stmt.set_book_genres] in Hg;
     rewrite Hg; now split|].
  destruct Hg as [Hg ->].
  cbn [genres db4 db3 db2 db1 Stmt.set_books Stmt.set_book_authors
       Stmt.set_book_genres] in Hg.
  rewrite Hg. cbn [andb].
  set (db5 := Stmt.set_book_genres db4 _).
  set (db6 := Stmt.set_book_topics db5 _).
  pose proof (@book_topics_loop bookId (topicIds input) db6 H1) as Ht.
  rewrite (@linkable_ext (book_topics db6) [] (topics db6) bookId (topicIds input)) in Ht
    by (intros x; apply no_link_left).
  destruct (for_each (topicIds input) _ db6) as [db7 [e|[]]];
    [cbn [topics db6 db5 db4 db3 db2 db1 Stmt.set_books Stmt.set_book_authors
          Stmt.set_book_genres Stmt.set_book_topics] in Ht;
     rewrite Ht; now split|].
  destruct Ht as [Ht ->].
  cbn [topics db6 db5 db4 db3 db2 db1 Stmt.set_books Stmt.set_book_authors
       Stmt.set_book_genres Stmt.set_book_topics] in Ht.
  rewrite Ht. split; [reflexivity|]. split; [|reflexivity].
  unfold Sql.get_book.
  cbn [books db6 db5 db4 db3 db2 db1 Stmt.set_books Stmt.set_book_authors
       Stmt.set_book_genres Stmt.set_book_topics].
  apply find_rewritten; [reflexivity|exact Hbook].
Qed.



Lemma not_in_without_left (links : list Link) (i x : string) :
  ~ In (i, x) (Stmt.without_left links i).
Proof.
  unfold Stmt.without_left. intros H. apply filter_In in H. destruct H as [_ H].
  cbn [fst] in H. now rewrite String.eqb_refl in H.
Qed.

(** A book that [BookRepository.update] has rewritten without cleaning up
    orphans reads back as it was given: the columns of the input, the
    publisher, category and series rows they name, which are found, and as
    authors, genres and topics exactly the rows whose id the input lists,
    whatever the book was linked to before. *)
Theorem updated_book_reads_back :
  forall (bookId : string) (input : BookInput) (cleanupOrphans : bool) (db : Database)
         (r : option BookRow),
    cleanupOrphans && hasImpact (BookRepository.checkUpdateImpact bookId input db) = false ->
    snd (BookRepository.update bookId input cleanupOrphans db) = inr r ->
    exists v,
      BookRepository.findByIdWithRelations bookId
        (fst (BookRepository.update bookId input cleanupOrphans db)) = Some v
      /\ BookRepository.view_id v = bookId
      /\ BookRepository.view_title v = bi_title input
      /\ BookRepository.view_publisherId v = publisherId input
      /\ BookRepository.view_seriesId v = Js.or_null (seriesId input)
      /\ BookRepository.view_categoryId v = categoryId input
      /\ BookRepository.view_publisher v = Sql.get_row (publishers db) (publisherId input)
      /\ BookRepository.view_publisher v <> None
      /\ BookRepository.view_category v = Sql.get_row (categories db) (categoryId input)
      /\ BookRepository.view_category v <> None
      /\ match Js.or_null (seriesId input) with
         | Some s =>
             BookRepository.view_series v = Sql.get_row (series db) s
             /\ BookRepository.view_series v <> None
         | None => BookRepository.view_series v = None
         end
      /\ (forall a, In a (BookRepository.view_authors v)
                    <-> In a (authors db) /\ In (id a) (authorIds input))
      /\ (forall g, In g (BookRepository.view_genres v)
                    <-> In g (genres db) /\ In (id g) (genreIds input))
      /\ (forall t, In t (BookRepository.view_topics v)
                    <-> In t (topics db) /\ In (id t) (topicIds input)).
Proof.
  intros bookId input cleanupOrphans db r Hquiet Hrun.
  pose proof (book_update_run bookId input cleanupOrphans db Hquiet) as H.
  destruct (BookRepository.update bookId input cleanupOrphans db) as [db' [e|r']];
    [discriminate|].
  cbn [fst snd] in *. destruct H as (Hc & _ & ->).
  unfold book_updatable in Hc.
  repeat (apply andb_prop in Hc; destruct Hc as [Hc ?]).
  match goal with
  | F : Stmt.book_fks_ok _ _ = true |- _ =>
      unfold Stmt.book_fks_ok in F; cbn [book_row_of publisher_id category_id series_id] in F;
      apply andb_prop in F; destruct F as [F Hs]; apply andb_prop in F;
      destruct F as [Hp Hcat]
  end.
  unfold BookRepository.findByIdWithRelations, Sql.get_book, with_book_updated. cbn [books].
  rewrite find_rewritten; [|reflexivity|exact Hc].
  eexists. split; [reflexivity|].
  unfold BookRepository.enrichBookWithRelations.
  cbn [book_row_of book_id title publisher_id series_id category_id
       BookRepository.view_id BookRepository.view_title BookRepository.view_publisherId
       BookRepository.view_seriesId BookRepository.view_categoryId
       BookRepository.view_publisher BookRepository.view_series
       BookRepository.view_category BookRepository.view_authors
       BookRepository.view_genres BookRepository.view_topics
       publishers series categories].
  assert (Hfound : forall t x, Sql.has_row t x = true -> Sql.get_row t x <> None).
  { intros t x E. rewrite has_row_not_null in E. now destruct (Sql.get_row t x). }
  do 9 (split; [first [reflexivity | now apply Hfound | apply or_null_twice]|]).
  split; [|split; [|split]].
  - destruct (Js.or_null (seriesId input)) as [s|] eqn:Es; [|reflexivity].
    assert (Ht : Js.truthy s = true).
    { unfold Js.or_null in Es. destruct (Js.truthy_opt (seriesId input)) eqn:E; [|discriminate].
      rewrite Es in E. exact E. }
    rewrite Ht. pose proof (Hfound _ _ Hs) as Hne.
    destruct (Sql.get_row (series db) s) as [row|]; [|contradiction].
    rewrite row_eta. split; [reflexivity|discriminate].
  - intros a. apply in_join_new. intros x. apply not_in_without_left.
  - intros g. apply in_join_new. intros x. apply not_in_without_left.
  - intros t. apply in_join_new. intros x. apply not_in_without_left.
Qed.

Lemma updated_book_reads_back_witness :
  true && hasImpact (BookRepository.checkUpdateImpact "X" retitled_book single_shelf) = false
  /\ snd (BookRepository.update "X" retitled_book true single_shelf)
     = inr (Some (mkBook "X" "The Book, revised" "P1" (Some "S1") "C"))
  /\ exists v,
       BookRepository.findByIdWithRelations "X"
         (fst (BookRepository.update "X" retitled_book true single_shelf)) = Some v
       /\ BookRepository.view_title v = "The Book, revised".
Proof.
  split; [reflexivity|]. split; [reflexivity|].
  destruct (updated_book_reads_back "X" retitled_book true single_shelf eq_refl eq_refl)
    as (v & Hv & _ & Ht & _).
  exists v. split; [exact Hv|exact Ht].
Defined.

(** ** An export read into a new installation *)

Lemma includes_In (l : list string) (x : string) : Js.includes l x = true <-> In x l.
Proof.
  unfold Js.includes. rewrite existsb_exists. split.
  - intros (y & Hy & E). apply String.eqb_eq in E. now subst.
  - intros H. exists x. split; [exact H|apply String.eqb_refl].
Qed.

Lemma distinct_NoDup (l : list string) : distinct l = true -> NoDup l.
Proof.
  induction l as [|x l IH]; cbn [distinct]; intros H; [constructor|].
  apply andb_prop in H. destruct H as [H1 H2]. constructor; [|now apply IH].
  intros Hin. apply includes_In in Hin. now rewrite Hin in H1.
Qed.

Lemma has_link_In (l : list Link) (x : Link) : Stmt.has_link l x = true <-> In x l.
Proof.
  unfold Stmt.has_link. rewrite existsb_exists. split.
  - intros (y & Hy & E). apply andb_prop in E. destruct E as [E1 E2].
    apply String.eqb_eq in E1, E2. destruct x, y. cbn [fst snd] in *. now subst.
  - intros H. exists x. split; [exact H|]. now rewrite !String.eqb_refl.
Qed.

Lemma no_repeat_NoDup (l : list Link) : no_repeat l = true -> NoDup l.
Proof.
  induction l as [|x l IH]; cbn [no_repeat]; intros H; [constructor|].
  apply andb_prop in H. destruct H as [H1 H2]. constructor; [|now apply IH].
  intros Hin. apply has_link_In in Hin. now rewrite Hin in H1.
Qed.

Lemma has_row_In (t : list NamedRow) (i : string) :
  Sql.has_row t i = true <-> exists r, In r t /\ id r = i.
Proof.
  unfold Sql.has_row. rewrite existsb_exists. split.
  - intros (r & Hr & E). apply String.eqb_eq in E. now exists r.
  - intros (r & Hr & E). exists r. split; [exact Hr|]. now apply String.eqb_eq.
Qed.

Lemma has_name_In (t : list NamedRow) (n : string) :
  Stmt.has_name t n = true <-> exists r, In r t /\ name r = n.
Proof.
  unfold Stmt.has_name. rewrite existsb_exists. split.
  - intros (r & Hr & E). apply String.eqb_eq in E. now exists r.
  - intros (r & Hr & E). exists r. split; [exact Hr|]. now apply String.eqb_eq.
Qed.

(** One of the five groups of named records: on a batch of distinct rows
    of a table [D] whose ids, and whose names where the table wants them
    so, are unique, started on a table that holds rows of [D] only, the
    group adds the rows that are not there and counts them. *)
Section Named_group.

Import ImportExportService.

Variable tbl : Database -> list NamedRow.
Variable set : Database -> list NamedRow -> Database.
Variable step : NamedRow -> M Heap unit.
Variable count : ImportResult -> ImportResult.
Variable unique_names : bool.

Hypothesis step_old : forall r h,
  Sql.has_row (tbl (store h)) (id r) = true -> step r h = (h, inr tt).
Hypothesis step_new : forall r h,
  Js.truthy (id r) = true ->
  Sql.has_row (tbl (store h)) (id r) = false ->
  (unique_names = true -> Stmt.has_name (tbl (store h)) (name r) = false) ->
  step r h = (mkHeap (set (store h) (tbl (store h) ++ [r])) (count (result h)), inr tt).
Hypothesis tbl_set : forall db t, tbl (set db t) = t.
Hypothesis set_set : forall db t t', set (set db t) t' = set db t'.
Hypothesis set_same : forall db, set db (tbl db) = db.

Variable D : list NamedRow.
Hypothesis ids_unique : NoDup (map id D).
Hypothesis names_unique : unique_names = true -> NoDup (map name D).
Hypothesis ids_given : forall r, In r D -> Js.truthy (id r) = true.

Lemma named_group_run (l : list NamedRow) :
  forall h,
    incl (tbl (store h)) D -> incl l D -> NoDup l ->
    for_each l step h
    = (mkHeap (set (store h) (tbl (store h) ++ missing (tbl (store h)) l))
         (Nat.iter (length (missing (tbl (store h)) l)) count (result h)),
       inr tt).
Proof.
  induction l as [|x l IH]; intros h HT Hl Hnd.
  - cbn [for_each missing filter length Nat.iter]. unfold ret.
    rewrite app_nil_r, set_same. now destruct h.
  - inversion Hnd as [|? ? Hx Hnd']; subst.
    assert (HxD : In x D) by (apply Hl; now left).
    assert (HlD : incl l D) by (intros y Hy; apply Hl; now right).
    cbn [for_each]. unfold bind. unfold missing. cbn [filter].
    destruct (Sql.has_row (tbl (store h)) (id x)) eqn:Hold; cbn [negb].
    + rewrite (step_old x h Hold). now apply IH.
    + rewrite step_new; [|now apply ids_given|exact Hold|].
      2:{ intros Hu. destruct (Stmt.has_name (tbl (store h)) (name x)) eqn:E; [|reflexivity].
          apply has_name_In in E. destruct E as (y & Hy & E).
          assert (y = x) by (apply (unique_key name D); auto). subst y.
          assert (Sql.has_row (tbl (store h)) (id x) = true)
            by (apply has_row_In; now exists x).
          congruence. }
      rewrite IH; cbn [store result]; rewrite ?tbl_set.
      * rewrite set_set, <- app_assoc. cbn [app length].
        assert (E : missing (tbl (store h) ++ [x]) l = missing (tbl (store h)) l).
        { unfold missing. apply filter_ext_in. intros y Hy.
          rewrite has_row_app. cbn [id].
          destruct (String.eqb (id x) (id y)) eqn:E; [|now rewrite orb_false_r].
          apply String.eqb_eq in E.
          assert (x = y) by (apply (unique_key id D); auto). subst y. contradiction. }
        fold (missing (tbl (store h) ++ [x]) l). rewrite E.
        fold (missing (tbl (store h)) l). rewrite <- Nat.iter_succ_r. reflexivity.
      * intros y Hy. apply in_app_or in Hy. destruct Hy as [Hy|[<-|[]]]; auto.
      * exact HlD.
      * exact Hnd'.
Qed.

(** With a batch that lists every row of [D], the table ends as a
    rearrangement of [D]. *)
Lemma named_group_restores (T l : list NamedRow) :
  incl T D -> NoDup T -> Permutation l D ->
  Permutation (T ++ missing T l) D
  /\ length (missing T l) = length D - length T.
Proof.
  intros HT HndT Hl.
  assert (HndD : NoDup D) by (eapply NoDup_map_inv; exact ids_unique).
  assert (Hndl : NoDup l) by (eapply Permutation_NoDup; [symmetry; exact Hl|exact HndD]).
  assert (P : Permutation (T ++ missing T l) D).
  { apply NoDup_Permutation; [|exact HndD|].
    - apply NoDup_app; [exact HndT|now apply NoDup_filter|].
      intros a Ha Hm. unfold missing in Hm. apply filter_In in Hm. destruct Hm as [_ Hm].
      assert (Sql.has_row T (id a) = true) by (apply has_row_In; now exists a).
      now rewrite H in Hm.
    - intros x. rewrite in_app_iff. unfold missing. rewrite filter_In. split.
      + intros [Hx|[Hx _]]; [now apply HT|]. eapply Permutation_in; eauto.
      + intros Hx. destruct (Sql.has_row T (id x)) eqn:E.
        * left. apply has_row_In in E. destruct E as (y & Hy & E).
          assert (y = x) by (apply (unique_key id D); auto). now subst y.
        * right. split; [|reflexivity]. eapply Permutation_in; [symmetry; exact Hl|exact Hx]. }
  split; [exact P|]. apply Permutation_length in P. rewrite length_app in P. lia.
Qed.

End Named_group.

Section Named_steps.

Import ImportExportService.

Variable uuidv4 : Database -> string.

Lemma import_category_old (r : NamedRow) (h : Heap) :
  Sql.has_row (categories (store h)) (id r) = true -> import_category uuidv4 r h = (h, inr tt).
Proof.
  intros H. rewrite has_row_not_null in H.
  unfold import_category, try_catch, bind, lift, query, CategoryRepository.findById.
  destruct (Sql.get_row _ _); [now destruct h|discriminate].
Qed.

Lemma import_category_new (r : NamedRow) (h : Heap) :
  Js.truthy (id r) = true ->
  Sql.has_row (categories (store h)) (id r) = false ->
  (true = true -> Stmt.has_name (categories (store h)) (name r) = false) ->
  import_category uuidv4 r h
  = (mkHeap (Stmt.set_categories (store h) (categories (store h) ++ [r]))
       ((fun r => mkResult (success r) (booksImported r) (authorsImported r) (publishersImported r) (seriesImported r) (genresImported r) (topicsImported r) (S (categoriesImported r)) (errors r)) (result h)),
     inr tt).
Proof.
  intros Hid Hrow Hname. pose proof Hrow as Hnone. rewrite has_row_not_null in Hnone.
  unfold import_category, try_catch, bind, lift, query, CategoryRepository.findById.
  destruct (Sql.get_row (categories (store h)) (id r)); [discriminate|].
  cbn [store result].
  unfold CategoryRepository.create, bind. cbn [ni_id ni_name].
  rewrite (mint_given uuidv4 (id r) _ Hid). unfold Stmt.insert_categories. cbn [id name].
  rewrite Hrow, (Hname eq_refl). unfold query, incr_categories, on_result, modify.
  cbn [store result]. now rewrite row_eta.
Qed.

Lemma import_author_old (r : NamedRow) (h : Heap) :
  Sql.has_row (authors (store h)) (id r) = true -> import_author uuidv4 r h = (h, inr tt).
Proof.
  intros H. rewrite has_row_not_null in H.
  unfold import_author, try_catch, bind, lift, query, AuthorRepository.findById.
  destruct (Sql.get_row _ _); [now destruct h|discriminate].
Qed.

Lemma import_author_new (r : NamedRow) (h : Heap) :
  Js.truthy (id r) = true ->
  Sql.has_row (authors (store h)) (id r) = false ->
  (false = true -> Stmt.has_name (authors (store h)) (name r) = false) ->
  import_author uuidv4 r h
  = (mkHeap (Stmt.set_authors (store h) (authors (store h) ++ [r]))
       ((fun r => mkResult (success r) (booksImported r) (S (authorsImported r)) (publishersImported r) (seriesImported r) (genresImported r) (topicsImported r) (categoriesImported r) (errors r)) (result h)),
     inr tt).
Proof.
  intros Hid Hrow Hname. pose proof Hrow as Hnone. rewrite has_row_not_null in Hnone.
  unfold import_author, try_catch, bind, lift, query, AuthorRepository.findById.
  destruct (Sql.get_row (authors (store h)) (id r)); [discriminate|].
  cbn [store result].
  unfold AuthorRepository.create, bind. cbn [ni_id ni_name].
  rewrite (mint_given uuidv4 (id r) _ Hid). unfold Stmt.insert_authors. cbn [id name].
  rewrite Hrow. unfold query, incr_authors, on_result, modify.
  cbn [store result]. now rewrite row_eta.
Qed.

Lemma import_publisher_old (r : NamedRow) (h : Heap) :
  Sql.has_row (publishers (store h)) (id r) = true -> import_publisher uuidv4 r h = (h, inr tt).
Proof.
  intros H. rewrite has_row_not_null in H.
  unfold import_publisher, try_catch, bind, lift, query, PublisherRepository.findById.
  destruct (Sql.get_row _ _); [now destruct h|discriminate].
Qed.

Lemma import_publisher_new (r : NamedRow) (h : Heap) :
  Js.truthy (id r) = true ->
  Sql.has_row (publishers (store h)) (id r) = false ->
  (false = true -> Stmt.has_name (publishers (store h)) (name r) = false) ->
  import_publisher uuidv4 r h
  = (mkHeap (Stmt.set_publishers (store h) (publishers (store h) ++ [r]))
       ((fun r => mkResult (success r) (booksImported r) (authorsImported r) (S (publishersImported r)) (seriesImported r) (genresImported r) (topicsImported r) (categoriesImported r) (errors r)) (result h)),
     inr tt).
Proof.
  intros Hid Hrow Hname. pose proof Hrow as Hnone. rewrite has_row_not_null in Hnone.
  unfold import_publisher, try_catch, bind, lift, query, PublisherRepository.findById.
  destruct (Sql.get_row (publishers (store h)) (id r)); [discriminate|].
  cbn [store result].
  unfold PublisherRepository.create, bind. cbn [ni_id ni_name].
  rewrite (mint_given uuidv4 (id r) _ Hid). unfold Stmt.insert_publishers. cbn [id name].
  rewrite Hrow. unfold query, incr_publishers, on_result, modify.
  cbn [store result]. now rewrite row_eta.
Qed.

Lemma import_genre_old (r : NamedRow) (h : Heap) :
  Sql.has_row (genres (store h)) (id r) = true -> import_genre uuidv4 r h = (h, inr tt).
Proof.
  intros H. rewrite has_row_not_null in H.
  unfold import_genre, try_catch, bind, lift, query, GenreRepository.findById.
  destruct (Sql.get_row _ _); [now destruct h|discriminate].
Qed.

Lemma import_genre_new (r : NamedRow) (h : Heap) :
  Js.truthy (id r) = true ->
  Sql.has_row (genres (store h)) (id r) = false ->
  (true = true -> Stmt.has_name (genres (store h)) (name r) = false) ->
  import_genre uuidv4 r h
  = (mkHeap (Stmt.set_genres (store h) (genres (store h) ++ [r]))
       ((fun r => mkResult (success r) (booksImported r) (authorsImported r) (publishersImported r) (seriesImported r) (S (genresImported r)) (topicsImported r) (categoriesImported r) (errors r)) (result h)),
     inr tt).
Proof.
  intros Hid Hrow Hname. pose proof Hrow as Hnone. rewrite has_row_not_null in Hnone.
  unfold import_genre, try_catch, bind, lift, query, GenreRepository.findById.
  destruct (Sql.get_row (genres (store h)) (id r)); [discriminate|].
  cbn [store result].
  unfold GenreRepository.create, bind. cbn [ni_id ni_name].
  rewrite (mint_given uuidv4 (id r) _ Hid). unfold Stmt.insert_genres. cbn [id name].
  rewrite Hrow, (Hname eq_refl). unfold query, incr_genres, on_result, modify.
  cbn [store result]. now rewrite row_eta.
Qed.

Lemma import_topic_old (r : NamedRow) (h : Heap) :
  Sql.has_row (topics (store h)) (id r) = true -> import_topic uuidv4 r h = (h, inr tt).
Proof.
  intros H. rewrite has_row_not_null in H.
  unfold import_topic, try_catch, bind, lift, query, TopicRepository.findById.
  destruct (Sql.get_row _ _); [now destruct h|discriminate].
Qed.

Lemma import_topic_new (r : NamedRow) (h : Heap) :
  Js.truthy (id r) = true ->
  Sql.has_row (topics (store h)) (id r) = false ->
  (true = true -> Stmt.has_name (topics (store h)) (name r) = false) ->
  import_topic uuidv4 r h
  = (mkHeap (Stmt.set_topics (store h) (topics (store h) ++ [r]))
       ((fun r => mkResult (success r) (booksImported r) (authorsImported r) (publishersImported r) (seriesImported r) (genresImported r) (S (topicsImported r)) (categoriesImported r) (errors r)) (result h)),
     inr tt).
Proof.
  intros Hid Hrow Hname. pose proof Hrow as Hnone. rewrite has_row_not_null in Hnone.
  unfold import_topic, try_catch, bind, lift, query, TopicRepository.findById.
  destruct (Sql.get_row (topics (store h)) (id r)); [discriminate|].
  cbn [store result].
  unfold TopicRepository.create, bind. cbn [ni_id ni_name].
  rewrite (mint_given uuidv4 (id r) _ Hid). unfold Stmt.insert_topics. cbn [id name].
  rewrite Hrow, (Hname eq_refl). unfold query, incr_topics, on_result, modify.
  cbn [store result]. now rewrite row_eta.
Qed.

End Named_steps.

Lemma minted_given (uuidv4 : Database -> string) (i : string) (db : Database) :
  Js.truthy i = true -> minted uuidv4 (Some i) db = i.
Proof. intros H. unfold minted. now rewrite H. Qed.

Lemma linkable_intro (links : list Link) (t : list NamedRow) (i : string)
    (ids : list string) :
  (forall x, In x ids -> Stmt.has_link links (i, x) = false) ->
  (forall x, In x ids -> Sql.has_row t x = true) ->
  distinct ids = true ->
  linkable links t i ids = true.
Proof.
  intros Hl Ht Hd. unfold linkable. rewrite Hd, andb_true_r.
  apply forallb_forall. intros x Hx. now rewrite (Hl x Hx), (Ht x Hx).
Qed.

Lemma NoDup_distinct (l : list string) : NoDup l -> distinct l = true.
Proof.
  induction 1 as [|x l Hx Hnd IH]; [reflexivity|]. cbn [distinct]. rewrite IH, andb_true_r.
  destruct (Js.includes l x) eqn:E; [|reflexivity]. apply includes_In in E. contradiction.
Qed.

(** The rows joined to one owner have distinct ids when the table and the
    junction table have their keys. *)
Lemma join_ids_distinct (rows : list NamedRow) (links : list Link) (b : string) :
  NoDup (map id rows) -> NoDup links ->
  NoDup (map id
           (flat_map
              (fun r =>
                 map (fun _ => r)
                   (filter (fun l => String.eqb (id r) (snd l) && String.eqb (fst l) b)
                      links))
              rows)).
Proof.
  intros Hrows Hlinks.
  assert (Hone : forall r,
             length (filter (fun l => String.eqb (id r) (snd l) && String.eqb (fst l) b)
                       links) <= 1).
  { intros r. induction Hlinks as [|x l Hx Hnd IH]; [cbn; lia|]. cbn [filter].
    destruct (String.eqb (id r) (snd x) && String.eqb (fst x) b) eqn:E; [|exact IH].
    apply andb_prop in E. destruct E as [E1 E2]. apply String.eqb_eq in E1, E2.
    assert (Hnil : filter (fun l0 => String.eqb (id r) (snd l0) && String.eqb (fst l0) b) l
                   = []).
    { apply filter_none. intros y Hy.
      destruct (String.eqb (id r) (snd y) && String.eqb (fst y) b) eqn:E'; [|reflexivity].
      apply andb_prop in E'. destruct E' as [E3 E4]. apply String.eqb_eq in E3, E4.
      exfalso. apply Hx. destruct x, y. cbn [fst snd] in *. now subst. }
    rewrite Hnil. cbn. lia. }
  induction rows as [|r rows IH]; [constructor|].
  cbn [flat_map]. cbn [map] in Hrows. inversion Hrows as [|? ? Hr Hnd]; subst.
  rewrite map_app. apply NoDup_app.
  - rewrite map_map. pose proof (Hone r) as H1.
    match type of H1 with
    | length ?f <= 1 => destruct f as [|x [|y l]]
    end; cbn in *; try lia; repeat constructor; auto.
  - now apply IH.
  - intros a Ha Hin. rewrite map_map in Ha. apply in_map_iff in Ha.
    destruct Ha as (l & <- & _). apply Hr. apply in_map_iff in Hin.
    destruct Hin as (r' & E & Hr'). apply in_flat_map in Hr'.
    destruct Hr' as (r2 & Hr2 & Hin2). apply in_map_iff in Hin2.
    destruct Hin2 as (l2 & <- & _). rewrite <- E. now apply in_map.
Qed.

Section Linked_groups.

Import ImportExportService.

Variable uuidv4 : Database -> string.

(** A series record that is new and whose authors can be linked is
    written with its links, and counted. *)
Lemma import_series_new (s : SeriesWithAuthors) (h : Heap) :
  Js.truthy (s_id s) = true ->
  nonempty (map id (s_authors s)) = true ->
  series_creatable (s_id s) (mkSeriesInput (Some (s_id s)) (s_name s) (map id (s_authors s)))
    (store h) = true ->
  import_series uuidv4 s h
  = (mkHeap
       (with_series (s_id s)
          (mkSeriesInput (Some (s_id s)) (s_name s) (map id (s_authors s))) (store h))
       (mkResult (success (result h)) (booksImported (result h))
          (authorsImported (result h)) (publishersImported (result h))
          (S (seriesImported (result h))) (genresImported (result h))
          (topicsImported (result h)) (categoriesImported (result h)) (errors (result h))),
     inr tt).
Proof.
  intros Hid Hne Hc.
  assert (Hrow : Sql.has_row (series (store h)) (s_id s) = false).
  { unfold series_creatable in Hc. apply andb_prop in Hc. destruct Hc as [Hc _].
    now apply negb_true_iff in Hc. }
  rewrite has_row_not_null in Hrow.
  unfold import_series, try_catch, bind, lift, query, SeriesRepository.findById.
  destruct (Sql.get_row (series (store h)) (s_id s)); [discriminate|].
  rewrite Hne. cbn [store result].
  pose proof (series_create_run uuidv4
                (mkSeriesInput (Some (s_id s)) (s_name s) (map id (s_authors s)))
                (store h)) as Hrun.
  cbn [si_id] in Hrun. rewrite (@minted_given uuidv4 _ _ Hid) in Hrun.
  destruct (SeriesRepository.create uuidv4 _ (store h)) as [db' [e|r]].
  - destruct Hrun as [Hrun _]. congruence.
  - destruct Hrun as (_ & _ & ->). reflexivity.
Qed.

(** A book record that is new and can be created is written with its
    links, and counted. *)
Lemma import_book_new (b : BookWithRelations) (h : Heap) :
  Js.truthy (b_id b) = true ->
  book_creatable (b_id b)
    (mkBookInput (Some (b_id b)) (b_title b) (b_publisherId b) (b_seriesId b)
       (b_categoryId b) (map id (b_authors b)) (map id (b_genres b)) (map id (b_topics b)))
    (store h) = true ->
  import_book uuidv4 b h
  = (mkHeap
       (with_book (b_id b)
          (mkBookInput (Some (b_id b)) (b_title b) (b_publisherId b) (b_seriesId b)
             (b_categoryId b) (map id (b_authors b)) (map id (b_genres b))
             (map id (b_topics b)))
          (store h))
       (mkResult (success (result h)) (S (booksImported (result h)))
          (authorsImported (result h)) (publishersImported (result h))
          (seriesImported (result h)) (genresImported (result h))
          (topicsImported (result h)) (categoriesImported (result h)) (errors (result h))),
     inr tt).
Proof.
  intros Hid Hc.
  assert (Hrow : Sql.has_book (store h) (b_id b) = false).
  { unfold book_creatable in Hc. repeat (apply andb_prop in Hc; destruct Hc as [Hc ?]).
    now apply negb_true_iff in Hc. }
  rewrite has_book_not_null in Hrow.
  unfold import_book, try_catch, bind, lift, query, BookRepository.findById.
  destruct (Sql.get_book (store h) (b_id b)); [discriminate|].
  cbn [store result].
  pose proof (book_create_run uuidv4
                (mkBookInput (Some (b_id b)) (b_title b) (b_publisherId b) (b_seriesId b)
                   (b_categoryId b) (map id (b_authors b)) (map id (b_genres b))
                   (map id (b_topics b)))
                (store h)) as Hrun.
  cbn [bi_id] in Hrun. rewrite (@minted_given uuidv4 _ _ Hid) in Hrun.
  destruct (BookRepository.create uuidv4 _ (store h)) as [db' [e|r]].
  - destruct Hrun as [Hrun _]. congruence.
  - destruct Hrun as (_ & _ & ->). reflexivity.
Qed.

Variable authors_of : NamedRow -> list NamedRow.

(** The series group on a batch of new series, each with authors that are
    in the store: every series is written, with its links, and counted. *)
Lemma series_group_run (l : list NamedRow) :
  forall h,
    (forall s, In s l -> Js.truthy (id s) = true) ->
    NoDup (map id l) ->
    (forall s, In s l -> Sql.has_row (series (store h)) (id s) = false) ->
    (forall s, In s l ->
               nonempty (map id (authors_of s)) = true
               /\ distinct (map id (authors_of s)) = true
               /\ forall x, In x (map id (authors_of s)) ->
                            Sql.has_row (authors (store h)) x = true) ->
    (forall s x, In s l -> Stmt.has_link (series_authors (store h)) (id s, x) = false) ->
    for_each (map (fun s => mkSeriesRecord (id s) (name s) (authors_of s)) l)
      (import_series uuidv4) h
    = (mkHeap
         (mkDb (authors (store h)) (publishers (store h)) (series (store h) ++ l)
            (genres (store h)) (topics (store h)) (categories (store h)) (books (store h))
            (book_authors (store h)) (book_genres (store h)) (book_topics (store h))
            (series_authors (store h)
             ++ flat_map (fun s => map (fun x => (id s, x)) (map id (authors_of s))) l))
         (Nat.iter (length l)
            (fun r =>
               mkResult (success r) (booksImported r) (authorsImported r)
                 (publishersImported r) (S (seriesImported r)) (genresImported r)
                 (topicsImported r) (categoriesImported r) (errors r))
            (result h)),
       inr tt).
Proof.
  induction l as [|s l IH]; intros h Hid Hnd Hnew Hauth Hlink.
  - cbn [map for_each flat_map length Nat.iter]. unfold ret. rewrite !app_nil_r.
    destruct h as [[] r]. reflexivity.
  - cbn [map] in Hnd. inversion Hnd as [|? ? Hs Hnd']; subst.
    cbn [map for_each]. unfold bind.
    destruct (Hauth s (or_introl eq_refl)) as (Hne & Hd & Hex).
    rewrite import_series_new; cbn [s_id s_name s_authors].
    2:{ apply Hid. now left. }
    2:{ exact Hne. }
    2:{ unfold series_creatable. cbn [si_authorIds].
        rewrite (Hnew s (or_introl eq_refl)). cbn [negb andb].
        apply linkable_intro; auto. intros x _. apply Hlink. now left. }
    rewrite IH; unfold with_series;
      cbn [store result si_name si_authorIds authors publishers series genres topics
           categories books book_authors book_genres book_topics series_authors].
    + rewrite row_eta, <- !app_assoc. cbn [app flat_map length].
      rewrite Nat.iter_succ_r. reflexivity.
    + intros s' Hs'. apply Hid. now right.
    + exact Hnd'.
    + intros s' Hs'. rewrite has_row_app. cbn [id].
      rewrite (Hnew s' (or_intror Hs')). cbn [orb].
      apply String.eqb_neq. intros E. apply Hs. rewrite E. now apply in_map.
    + intros s' Hs'. apply Hauth. now right.
    + intros s' x Hs'.
      destruct (Stmt.has_link _ (id s', x)) eqn:E; [|reflexivity].
      apply has_link_In in E. apply in_app_or in E. destruct E as [E|E].
      * apply has_link_In in E. rewrite (Hlink s' x (or_intror Hs')) in E. discriminate.
      * apply in_map_iff in E. destruct E as (y & E & _). injection E as E _.
        exfalso. apply Hs. rewrite E. now apply in_map.
Qed.

Variables genres_of topics_of : BookRow -> list NamedRow.
Variable writers_of : BookRow -> list NamedRow.

(** The book group on a batch of new books whose publisher, category,
    series, authors, genres and topics are in the store: every book is
    written, with its links, and counted. *)
Lemma books_group_run (l : list BookRow) :
  forall h,
    (forall b, In b l ->
               Js.truthy (book_id b) = true /\ Js.or_null (series_id b) = series_id b) ->
    NoDup (map book_id l) ->
    (forall b, In b l -> Sql.has_book (store h) (book_id b) = false) ->
    (forall b, In b l -> Stmt.book_fks_ok (store h) b = true) ->
    (forall b, In b l ->
               (distinct (map id (writers_of b)) = true
                /\ forall x, In x (map id (writers_of b)) ->
                             Sql.has_row (authors (store h)) x = true)
               /\ (distinct (map id (genres_of b)) = true
                   /\ forall x, In x (map id (genres_of b)) ->
                                Sql.has_row (genres (store h)) x = true)
               /\ (distinct (map id (topics_of b)) = true
                   /\ forall x, In x (map id (topics_of b)) ->
                                Sql.has_row (topics (store h)) x = true)) ->
    (forall b x, In b l ->
                 Stmt.has_link (book_authors (store h)) (book_id b, x) = false
                 /\ Stmt.has_link (book_genres (store h)) (book_id b, x) = false
                 /\ Stmt.has_link (book_topics (store h)) (book_id b, x) = false) ->
    for_each
      (map (fun b =>
              mkBookRecord (book_id b) (title b) (publisher_id b) (series_id b)
                (category_id b) (writers_of b) (genres_of b) (topics_of b))
         l)
      (import_book uuidv4) h
    = (mkHeap
         (mkDb (authors (store h)) (publishers (store h)) (series (store h))
            (genres (store h)) (topics (store h)) (categories (store h))
            (books (store h) ++ l)
            (book_authors (store h)
             ++ flat_map (fun b => map (fun x => (book_id b, x)) (map id (writers_of b))) l)
            (book_genres (store h)
             ++ flat_map (fun b => map (fun x => (book_id b, x)) (map id (genres_of b))) l)
            (book_topics (store h)
             ++ flat_map (fun b => map (fun x => (book_id b, x)) (map id (topics_of b))) l)
            (series_authors (store h)))
         (Nat.iter (length l)
            (fun r =>
               mkResult (success r) (S (booksImported r)) (authorsImported r)
                 (publishersImported r) (seriesImported r) (genresImported r)
                 (topicsImported r) (categoriesImported r) (errors r))
            (result h)),
       inr tt).
Proof.
  induction l as [|b l IH]; intros h Hid Hnd Hnew Hfk Hrows Hlink.
  - cbn [map for_each flat_map length Nat.iter]. unfold ret. rewrite !app_nil_r.
    destruct h as [[] r]. reflexivity.
  - cbn [map] in Hnd. inversion Hnd as [|? ? Hb Hnd']; subst.
    cbn [map for_each]. unfold bind.
    destruct (Hid b (or_introl eq_refl)) as [Hidb Hsid].
    destruct (Hrows b (or_introl eq_refl)) as ((Da & Ea) & (Dg & Eg) & (Dt & Et)).
    assert (Hrow : book_row_of (book_id b)
                     (mkBookInput (Some (book_id b)) (title b) (publisher_id b)
                        (series_id b) (category_id b) (map id (writers_of b))
                        (map id (genres_of b)) (map id (topics_of b)))
                   = b).
    { unfold book_row_of. cbn [bi_title publisherId seriesId categoryId].
      rewrite Hsid. now destruct b. }
    rewrite import_book_new;
      cbn [b_id b_title b_publisherId b_seriesId b_categoryId b_authors b_genres b_topics].
    2:{ exact Hidb. }
    2:{ unfold book_creatable. rewrite Hrow. cbn [authorIds genreIds topicIds].
        rewrite (Hnew b (or_introl eq_refl)), (Hfk b (or_introl eq_refl)). cbn [negb andb].
        rewrite !linkable_intro; auto; intros x _; apply Hlink; now left. }
    unfold with_book. rewrite Hrow. cbn [authorIds genreIds topicIds].
    rewrite IH;
      cbn [store result authors publishers series genres topics
           categories books book_authors book_genres book_topics series_authors].
    + rewrite <- !app_assoc. cbn [app flat_map length].
      rewrite Nat.iter_succ_r. reflexivity.
    + intros b' Hb'. apply Hid. now right.
    + exact Hnd'.
    + intros b' Hb'. unfold Sql.has_book. cbn [books]. rewrite existsb_app.
      fold (Sql.has_book (store h) (book_id b')). rewrite (Hnew b' (or_intror Hb')).
      cbn [existsb orb]. rewrite orb_false_r.
      apply String.eqb_neq. intros E. apply Hb. rewrite E. now apply in_map.
    + intros b' Hb'. exact (Hfk b' (or_intror Hb')).
    + intros b' Hb'. exact (Hrows b' (or_intror Hb')).
    + intros b' x Hb'.
      assert (Hfresh : forall (links : list Link) (ids : list string),
                 Stmt.has_link links (book_id b', x) = false ->
                 Stmt.has_link (links ++ map (fun y => (book_id b, y)) ids) (book_id b', x)
                 = false).
      { intros links ids Hl.
        destruct (Stmt.has_link (links ++ _) (book_id b', x)) eqn:E; [|reflexivity].
        apply has_link_In in E. apply in_app_or in E. destruct E as [E|E].
        - apply has_link_In in E. congruence.
        - apply in_map_iff in E. destruct E as (y & E & _). injection E as E _.
          exfalso. apply Hb. rewrite E. now apply in_map. }
      destruct (Hlink b' x (or_intror Hb')) as (L1 & L2 & L3).
      repeat split; now apply Hfresh.
Qed.

End Linked_groups.

Lemma missing_nil (l : list NamedRow) : missing [] l = l.
Proof.
  unfold missing. induction l as [|x l IH]; [reflexivity|].
  cbn [filter]. unfold Sql.has_row at 1. cbn [existsb negb]. now f_equal.
Qed.

Lemma NoDup_pairs (k : string) (l : list string) :
  NoDup l -> NoDup (map (fun a => (k, a)) l).
Proof.
  induction 1 as [|x l Hx Hnd IH]; cbn [map]; constructor; [|exact IH].
  intros Hin. apply in_map_iff in Hin. destruct Hin as (y & E & Hy).
  injection E as ->. contradiction.
Qed.

Lemma NoDup_flat_map_keyed {X : Type} (key : X -> string) (f : X -> list Link)
    (l : list X) :
  NoDup (map key l) ->
  (forall x, In x l -> NoDup (f x)) ->
  (forall x p, In x l -> In p (f x) -> fst p = key x) ->
  NoDup (flat_map f l).
Proof.
  induction l as [|x l IH]; intros Hnd Hf Hkey; [constructor|].
  cbn [map] in Hnd. inversion Hnd as [|? ? Hx Hnd']; subst.
  cbn [flat_map]. apply NoDup_app.
  - apply Hf. now left.
  - apply IH; [exact Hnd'| |]; intros; [apply Hf|apply Hkey]; auto; now right.
  - intros p Hp Hin. apply in_flat_map in Hin. destruct Hin as (y & Hy & Hpy).
    apply Hx. rewrite <- (Hkey x p (or_introl eq_refl) Hp).
    rewrite (Hkey y p (or_intror Hy) Hpy). now apply in_map.
Qed.

(** The links written for a batch of owners, one for each row joined to
    the owner, are the links of the junction table, rearranged. *)
Lemma links_restored {X : Type} (key : X -> string) (owners batch : list X)
    (rows : list NamedRow) (links : list Link) :
  Permutation batch owners ->
  NoDup (map key owners) -> NoDup (map id rows) -> NoDup links ->
  (forall o a, In (o, a) links ->
               (exists x, In x owners /\ key x = o) /\ (exists r, In r rows /\ id r = a)) ->
  Permutation
    (flat_map
       (fun x =>
          map (fun a => (key x, a))
            (map id
               (flat_map
                  (fun r =>
                     map (fun _ => r)
                       (filter (fun l => String.eqb (id r) (snd l)
                                         && String.eqb (fst l) (key x))
                          links))
                  rows)))
       batch)
    links.
Proof.
  intros Hperm Hown Hrows Hlinks Hfk.
  apply NoDup_Permutation; [|exact Hlinks|].
  - apply (NoDup_flat_map_keyed key).
    + eapply Permutation_NoDup; [|exact Hown]. apply Permutation_map. now symmetry.
    + intros x _. apply NoDup_pairs. now apply join_ids_distinct.
    + intros x p _ Hp. apply in_map_iff in Hp. destruct Hp as (a & <- & _). reflexivity.
  - intros [o a]. rewrite in_flat_map. split.
    + intros (x & Hx & Hin). apply in_map_iff in Hin. destruct Hin as (a' & E & Ha').
      injection E as <- <-. apply in_map_iff in Ha'. destruct Ha' as (r & <- & Hr).
      apply in_join in Hr. apply Hr.
    + intros Hin. destruct (Hfk o a Hin) as [(x & Hx & <-) (r & Hr & <-)].
      exists x. split; [eapply Permutation_in; [symmetry; exact Hperm|exact Hx]|].
      apply in_map_iff. exists (id r). split; [reflexivity|].
      apply in_map. apply in_join. now split.
Qed.

(** What the counters hold after [n] records of one kind. *)
Lemma counted (n : nat) (r : ImportExportService.ImportResult) :
  Nat.iter n (fun r => ImportExportService.mkResult (ImportExportService.success r) (S (ImportExportService.booksImported r)) (ImportExportService.authorsImported r) (ImportExportService.publishersImported r) (ImportExportService.seriesImported r) (ImportExportService.genresImported r) (ImportExportService.topicsImported r) (ImportExportService.categoriesImported r) (ImportExportService.errors r)) r
     = ImportExportService.mkResult (ImportExportService.success r) (n + ImportExportService.booksImported r) (ImportExportService.authorsImported r) (ImportExportService.publishersImported r) (ImportExportService.seriesImported r) (ImportExportService.genresImported r) (ImportExportService.topicsImported r) (ImportExportService.categoriesImported r) (ImportExportService.errors r)
  /\ Nat.iter n (fun r => ImportExportService.mkResult (ImportExportService.success r) (ImportExportService.booksImported r) (S (ImportExportService.authorsImported r)) (ImportExportService.publishersImported r) (ImportExportService.seriesImported r) (ImportExportService.genresImported r) (ImportExportService.topicsImported r) (ImportExportService.categoriesImported r) (ImportExportService.errors r)) r
     = ImportExportService.mkResult (ImportExportService.success r) (ImportExportService.booksImported r) (n + ImportExportService.authorsImported r) (ImportExportService.publishersImported r) (ImportExportService.seriesImported r) (ImportExportService.genresImported r) (ImportExportService.topicsImported r) (ImportExportService.categoriesImported r) (ImportExportService.errors r)
  /\ Nat.iter n (fun r => ImportExportService.mkResult (ImportExportService.success r) (ImportExportService.booksImported r) (ImportExportService.authorsImported r) (S (ImportExportService.publishersImported r)) (ImportExportService.seriesImported r) (ImportExportService.genresImported r) (ImportExportService.topicsImported r) (ImportExportService.categoriesImported r) (ImportExportService.errors r)) r
     = ImportExportService.mkResult (ImportExportService.success r) (ImportExportService.booksImported r) (ImportExportService.authorsImported r) (n + ImportExportService.publishersImported r) (ImportExportService.seriesImported r) (ImportExportService.genresImported r) (ImportExportService.topicsImported r) (ImportExportService.categoriesImported r) (ImportExportService.errors r)
  /\ Nat.iter n (fun r => ImportExportService.mkResult (ImportExportService.success r) (ImportExportService.booksImported r) (ImportExportService.authorsImported r) (ImportExportService.publishersImported r) (S (ImportExportService.seriesImported r)) (ImportExportService.genresImported r) (ImportExportService.topicsImported r) (ImportExportService.categoriesImported r) (ImportExportService.errors r)) r
     = ImportExportService.mkResult (ImportExportService.success r) (ImportExportService.booksImported r) (ImportExportService.authorsImported r) (ImportExportService.publishersImported r) (n + ImportExportService.seriesImported r) (ImportExportService.genresImported r) (ImportExportService.topicsImported r) (ImportExportService.categoriesImported r) (ImportExportService.errors r)
  /\ Nat.iter n (fun r => ImportExportService.mkResult (ImportExportService.success r) (ImportExportService.booksImported r) (ImportExportService.authorsImported r) (ImportExportService.publishersImported r) (ImportExportService.seriesImported r) (S (ImportExportService.genresImported r)) (ImportExportService.topicsImported r) (ImportExportService.categoriesImported r) (ImportExportService.errors r)) r
     = ImportExportService.mkResult (ImportExportService.success r) (ImportExportService.booksImported r) (ImportExportService.authorsImported r) (ImportExportService.publishersImported r) (ImportExportService.seriesImported r) (n + ImportExportService.genresImported r) (ImportExportService.topicsImported r) (ImportExportService.categoriesImported r) (ImportExportService.errors r)
  /\ Nat.iter n (fun r => ImportExportService.mkResult (ImportExportService.success r) (ImportExportService.booksImported r) (ImportExportService.authorsImported r) (ImportExportService.publishersImported r) (ImportExportService.seriesImported r) (ImportExportService.genresImported r) (S (ImportExportService.topicsImported r)) (ImportExportService.categoriesImported r) (ImportExportService.errors r)) r
     = ImportExportService.mkResult (ImportExportService.success r) (ImportExportService.booksImported r) (ImportExportService.authorsImported r) (ImportExportService.publishersImported r) (ImportExportService.seriesImported r) (ImportExportService.genresImported r) (n + ImportExportService.topicsImported r) (ImportExportService.categoriesImported r) (ImportExportService.errors r)
  /\ Nat.iter n (fun r => ImportExportService.mkResult (ImportExportService.success r) (ImportExportService.booksImported r) (ImportExportService.authorsImported r) (ImportExportService.publishersImported r) (ImportExportService.seriesImported r) (ImportExportService.genresImported r) (ImportExportService.topicsImported r) (S (ImportExportService.categoriesImported r)) (ImportExportService.errors r)) r
     = ImportExportService.mkResult (ImportExportService.success r) (ImportExportService.booksImported r) (ImportExportService.authorsImported r) (ImportExportService.publishersImported r) (ImportExportService.seriesImported r) (ImportExportService.genresImported r) (ImportExportService.topicsImported r) (n + ImportExportService.categoriesImported r) (ImportExportService.errors r).
Proof.
  induction n as [|n IH].
  - destruct r. repeat split.
  - destruct IH as (H1 & H2 & H3 & H4 & H5 & H6 & H7).
    rewrite !Nat.iter_succ, H1, H2, H3, H4, H5, H6, H7. repeat split.
Qed.

Section Named_groups.

Import ImportExportService.

Variable uuidv4 : Database -> string.
Variable D : list NamedRow.
Hypothesis ids_unique : NoDup (map id D).
Hypothesis ids_given : forall r, In r D -> Js.truthy (id r) = true.

Lemma categories_group_run (l : list NamedRow) (h : Heap) :
  NoDup (map name D) ->
  incl (categories (store h)) D -> incl l D -> NoDup l ->
  for_each l (import_category uuidv4) h
  = (mkHeap (Stmt.set_categories (store h) (categories (store h) ++ missing (categories (store h)) l))
       (Nat.iter (length (missing (categories (store h)) l))
          (fun r => mkResult (success r) (booksImported r) (authorsImported r) (publishersImported r) (seriesImported r) (genresImported r) (topicsImported r) (S (categoriesImported r)) (errors r))
          (result h)),
     inr tt).
Proof.
  intros Hnames.
  apply (@named_group_run categories Stmt.set_categories (import_category uuidv4) _ true
           (import_category_old uuidv4) (import_category_new uuidv4)) with (D := D);
    try reflexivity; try assumption.
  - intros d. now destruct d.
  - intros _. exact Hnames.
Qed.

Lemma authors_group_run (l : list NamedRow) (h : Heap) :
  
  incl (authors (store h)) D -> incl l D -> NoDup l ->
  for_each l (import_author uuidv4) h
  = (mkHeap (Stmt.set_authors (store h) (authors (store h) ++ missing (authors (store h)) l))
       (Nat.iter (length (missing (authors (store h)) l))
          (fun r => mkResult (success r) (booksImported r) (S (authorsImported r)) (publishersImported r) (seriesImported r) (genresImported r) (topicsImported r) (categoriesImported r) (errors r))
          (result h)),
     inr tt).
Proof.
  
  apply (@named_group_run authors Stmt.set_authors (import_author uuidv4) _ false
           (import_author_old uuidv4) (import_author_new uuidv4)) with (D := D);
    try reflexivity; try assumption.
  - intros d. now destruct d.
  - discriminate.
Qed.

Lemma publishers_group_run (l : list NamedRow) (h : Heap) :
  
  incl (publishers (store h)) D -> incl l D -> NoDup l ->
  for_each l (import_publisher uuidv4) h
  = (mkHeap (Stmt.set_publishers (store h) (publishers (store h) ++ missing (publishers (store h)) l))
       (Nat.iter (length (missing (publishers (store h)) l))
          (fun r => mkResult (success r) (booksImported r) (authorsImported r) (S (publishersImported r)) (seriesImported r) (genresImported r) (topicsImported r) (categoriesImported r) (errors r))
          (result h)),
     inr tt).
Proof.
  
  apply (@named_group_run publishers Stmt.set_publishers (import_publisher uuidv4) _ false
           (import_publisher_old uuidv4) (import_publisher_new uuidv4)) with (D := D);
    try reflexivity; try assumption.
  - intros d. now destruct d.
  - discriminate.
Qed.

Lemma genres_group_run (l : list NamedRow) (h : Heap) :
  NoDup (map name D) ->
  incl (genres (store h)) D -> incl l D -> NoDup l ->
  for_each l (import_genre uuidv4) h
  = (mkHeap (Stmt.set_genres (store h) (genres (store h) ++ missing (genres (store h)) l))
       (Nat.iter (length (missing (genres (store h)) l))
          (fun r => mkResult (success r) (booksImported r) (authorsImported r) (publishersImported r) (seriesImported r) (S (genresImported r)) (topicsImported r) (categoriesImported r) (errors r))
          (result h)),
     inr tt).
Proof.
  intros Hnames.
  apply (@named_group_run genres Stmt.set_genres (import_genre uuidv4) _ true
           (import_genre_old uuidv4) (import_genre_new uuidv4)) with (D := D);
    try reflexivity; try assumption.
  - intros d. now destruct d.
  - intros _. exact Hnames.
Qed.

Lemma topics_group_run (l : list NamedRow) (h : Heap) :
  NoDup (map name D) ->
  incl (topics (store h)) D -> incl l D -> NoDup l ->
  for_each l (import_topic uuidv4) h
  = (mkHeap (Stmt.set_topics (store h) (topics (store h) ++ missing (topics (store h)) l))
       (Nat.iter (length (missing (topics (store h)) l))
          (fun r => mkResult (success r) (booksImported r) (authorsImported r) (publishersImported r) (seriesImported r) (genresImported r) (S (topicsImported r)) (categoriesImported r) (errors r))
          (result h)),
     inr tt).
Proof.
  intros Hnames.
  apply (@named_group_run topics Stmt.set_topics (import_topic uuidv4) _ true
           (import_topic_old uuidv4) (import_topic_new uuidv4)) with (D := D);
    try reflexivity; try assumption.
  - intros d. now destruct d.
  - intros _. exact Hnames.
Qed.

End Named_groups.

(** *** What the conditions on the two stores say *)

Lemma keys_unique_facts (db : Database) :
  keys_unique db = true ->
  (NoDup (map id (authors db)) /\ NoDup (map id (publishers db))
   /\ NoDup (map id (series db)) /\ NoDup (map id (genres db))
   /\ NoDup (map id (topics db)) /\ NoDup (map id (categories db))
   /\ NoDup (map book_id (books db)))
  /\ (NoDup (map name (genres db)) /\ NoDup (map name (topics db))
      /\ NoDup (map name (categories db)))
  /\ (NoDup (book_authors db) /\ NoDup (book_genres db)
      /\ NoDup (book_topics db) /\ NoDup (series_authors db)).
Proof.
  unfold keys_unique. intros H.
  repeat (apply andb_prop in H; destruct H as [H ?]).
  repeat split; first [now apply distinct_NoDup | now apply no_repeat_NoDup].
Qed.

Lemma ids_truthy_facts (db : Database) :
  ids_truthy db = true ->
  (forall r, In r (authors db) -> Js.truthy (id r) = true)
  /\ (forall r, In r (publishers db) -> Js.truthy (id r) = true)
  /\ (forall r, In r (series db) -> Js.truthy (id r) = true)
  /\ (forall r, In r (genres db) -> Js.truthy (id r) = true)
  /\ (forall r, In r (topics db) -> Js.truthy (id r) = true)
  /\ (forall r, In r (categories db) -> Js.truthy (id r) = true)
  /\ (forall b, In b (books db) -> Js.truthy (book_id b) = true).
Proof.
  unfold ids_truthy. intros H.
  repeat (apply andb_prop in H; destruct H as [H ?]).
  repeat match goal with
         | F : forallb _ _ = true |- _ => rewrite forallb_forall in F
         end.
  repeat split; assumption.
Qed.

Lemma foreign_keys_facts (db : Database) :
  foreign_keys_ok db = true ->
  (forall b, In b (books db) -> Stmt.book_fks_ok db b = true)
  /\ (forall o a, In (o, a) (book_authors db) ->
                  (exists x, In x (books db) /\ book_id x = o)
                  /\ (exists r, In r (authors db) /\ id r = a))
  /\ (forall o a, In (o, a) (book_genres db) ->
                  (exists x, In x (books db) /\ book_id x = o)
                  /\ (exists r, In r (genres db) /\ id r = a))
  /\ (forall o a, In (o, a) (book_topics db) ->
                  (exists x, In x (books db) /\ book_id x = o)
                  /\ (exists r, In r (topics db) /\ id r = a))
  /\ (forall o a, In (o, a) (series_authors db) ->
                  (exists x, In x (series db) /\ id x = o)
                  /\ (exists r, In r (authors db) /\ id r = a)).
Proof.
  unfold foreign_keys_ok. intros H.
  repeat (apply andb_prop in H; destruct H as [H ?]).
  repeat match goal with
         | F : forallb _ _ = true |- _ => rewrite forallb_forall in F
         end.
  assert (Hbook : forall o, Sql.has_book db o = true ->
                            exists x, In x (books db) /\ book_id x = o).
  { intros o E. unfold Sql.has_book in E. apply existsb_exists in E.
    destruct E as (x & Hx & E). apply String.eqb_eq in E. now exists x. }
  split; [assumption|].
  repeat split;
    match goal with
    | F : forall l, In l ?t -> _, Hin : In _ ?t |- _ =>
        apply F in Hin; cbn [fst snd] in Hin; apply andb_prop in Hin;
        destruct Hin as [E1 E2]
    end;
    first [now apply Hbook | now apply has_row_In].
Qed.

Lemma valid_facts (db : Database) :
  DomainService.isValid (DomainService.integrityCheck db) = true ->
  no_orphans db = true
  /\ forall s, In s (series db) -> exists a, In (id s, a) (series_authors db).
Proof.
  intros H. apply integrity_lists in H. destruct H as (H1 & H2 & H3 & H4 & _).
  split; [apply no_orphans_lists; auto|].
  intros s Hs. unfold Sql.series_no_authors in H4. apply map_nil_inv in H4.
  pose proof (filter_nil_all _ _ H4 s Hs) as E. apply negb_false_iff in E.
  apply existsb_exists in E. destruct E as ([o a] & Hl & E). cbn [fst] in E.
  apply String.eqb_eq in E. subst o. now exists a.
Qed.

Lemma rows_of_facts (t D : list NamedRow) :
  rows_of t D = true -> incl t D /\ NoDup t.
Proof.
  unfold rows_of. intros H. apply andb_prop in H. destruct H as [H1 H2]. split.
  - rewrite forallb_forall in H1. intros r Hr. specialize (H1 r Hr).
    apply existsb_exists in H1. destruct H1 as (r' & Hr' & E). unfold same_row in E.
    apply andb_prop in E. destruct E as [E1 E2]. apply String.eqb_eq in E1, E2.
    destruct r, r'. cbn [id name] in *. now subst.
  - eapply NoDup_map_inv. apply distinct_NoDup. exact H2.
Qed.

Lemma holds_only_tags_facts (t db : Database) :
  holds_only_tags_of t db = true ->
  exists G T C,
    t = mkDb [] [] [] G T C [] [] [] [] []
    /\ (incl G (genres db) /\ NoDup G)
    /\ (incl T (topics db) /\ NoDup T)
    /\ (incl C (categories db) /\ NoDup C).
Proof.
  unfold holds_only_tags_of. intros H.
  repeat (apply andb_prop in H; destruct H as [H ?]).
  destruct t as [a p s g tp c b ba bg bt sa].
  cbn [authors publishers series genres topics categories books book_authors book_genres
       book_topics series_authors] in *.
  destruct a, p, s, b, ba, bg, bt, sa; try discriminate.
  exists g, tp, c. split; [reflexivity|].
  split; [|split]; now apply rows_of_facts.
Qed.

(** A store that has no more authors, publishers and series than one
    without orphans, and all its books and book links, has no orphan
    either. *)
Lemma no_orphans_rearranged (a b : Database) :
  incl (authors b) (authors a) -> incl (publishers b) (publishers a) ->
  incl (series b) (series a) ->
  incl (books a) (books b) -> incl (book_authors a) (book_authors b) ->
  no_orphans a = true -> no_orphans b = true.
Proof.
  intros Ha Hp Hs Hb Hba H. apply no_orphans_lists in H. destruct H as (H1 & H2 & H3).
  apply map_nil_inv in H1, H2, H3.
  apply no_orphans_lists.
  unfold Sql.orphan_authors, Sql.orphan_publishers, Sql.orphan_series.
  split; [|split]; (rewrite filter_none; [reflexivity|]); intros x Hx.
  - pose proof (filter_nil_all _ _ H1 x (Ha x Hx)) as E. apply negb_false_iff in E.
    apply negb_false_iff. apply existsb_exists in E. destruct E as (l & Hl & E).
    apply existsb_exists. exists l. split; [now apply Hba|exact E].
  - pose proof (filter_nil_all _ _ H2 x (Hp x Hx)) as E. apply negb_false_iff in E.
    apply negb_false_iff. apply existsb_exists in E. destruct E as (l & Hl & E).
    apply existsb_exists. exists l. split; [now apply Hb|exact E].
  - pose proof (filter_nil_all _ _ H3 x (Hs x Hx)) as E. apply negb_false_iff in E.
    apply negb_false_iff. apply existsb_exists in E. destruct E as (l & Hl & E).
    apply existsb_exists. exists l. split; [now apply Hb|exact E].
Qed.

(** *** The run *)

Section Restore.

Import ImportExportService.

Variable uuidv4 : Database -> string.
Variable created_at_desc : list BookRow -> list BookRow.
Variable name_asc : list NamedRow -> list NamedRow.
Hypothesis created_perm : forall l, Permutation (created_at_desc l) l.
Hypothesis name_perm : forall l, Permutation (name_asc l) l.

Variable db : Database.
Variables G0 T0 C0 : list NamedRow.
Hypothesis Hkeys : keys_unique db = true.
Hypothesis Hids : ids_truthy db = true.
Hypothesis Hfk : foreign_keys_ok db = true.
Hypothesis Hvalid : DomainService.isValid (DomainService.integrityCheck db) = true.
Hypothesis HG : incl G0 (genres db) /\ NoDup G0.
Hypothesis HT : incl T0 (topics db) /\ NoDup T0.
Hypothesis HC : incl C0 (categories db) /\ NoDup C0.

Ltac tables :=
  unfold Stmt.set_authors, Stmt.set_publishers, Stmt.set_series, Stmt.set_genres,
    Stmt.set_topics, Stmt.set_categories, Stmt.set_books, Stmt.set_book_authors,
    Stmt.set_book_genres, Stmt.set_book_topics, Stmt.set_series_authors;
  cbn [store result authors publishers series genres topics categories books
       book_authors book_genres book_topics series_authors].

Lemma listed_rows (l : list NamedRow) :
  NoDup (map id l) -> incl (name_asc l) l /\ NoDup (name_asc l).
Proof.
  intros H. split.
  - intros r Hr. eapply Permutation_in; [apply name_perm|exact Hr].
  - eapply Permutation_NoDup; [symmetry; apply name_perm|]. eapply NoDup_map_inv; eauto.
Qed.

Lemma joined_rows_ok (rows : list NamedRow) (links : list Link) (k : string) :
  NoDup (map id rows) -> NoDup links ->
  distinct
    (map id
       (flat_map
          (fun r =>
             map (fun _ => r)
               (filter (fun l => String.eqb (id r) (snd l) && String.eqb (fst l) k) links))
          rows)) = true
  /\ forall T x,
       Permutation T rows ->
       In x (map id
               (flat_map
                  (fun r =>
                     map (fun _ => r)
                       (filter (fun l => String.eqb (id r) (snd l) && String.eqb (fst l) k)
                          links))
                  rows)) ->
       Sql.has_row T x = true.
Proof.
  intros Hrows Hlinks. split.
  - apply NoDup_distinct. now apply join_ids_distinct.
  - intros T x HT' Hx. apply in_map_iff in Hx. destruct Hx as (r & <- & Hr).
    apply in_join in Hr. destruct Hr as [Hr _].
    apply has_row_In. exists r. split; [|reflexivity].
    eapply Permutation_in; [symmetry; exact HT'|exact Hr].
Qed.

Lemma has_row_perm (T rows : list NamedRow) (x : string) :
  Permutation T rows -> Sql.has_row rows x = true -> Sql.has_row T x = true.
Proof.
  intros HP H. apply has_row_In in H. destruct H as (r & Hr & E).
  apply has_row_In. exists r. split; [|exact E].
  eapply Permutation_in; [symmetry; exact HP|exact Hr].
Qed.

Lemma series_id_kept (b : BookRow) :
  In b (books db) -> Js.or_null (series_id b) = series_id b.
Proof.
  intros Hb. destruct (series_id b) as [s|] eqn:E; [|reflexivity].
  pose proof (book_fk_of_store db b Hfk Hb) as F. unfold Stmt.book_fks_ok in F.
  rewrite E in F. apply andb_prop in F. destruct F as [_ F].
  apply has_row_In in F. destruct F as (r & Hr & <-).
  destruct (ids_truthy_facts db Hids) as (_ & _ & Is & _).
  unfold Js.or_null, Js.truthy_opt. now rewrite (Is r Hr).
Qed.

Lemma restore_groups_run :
  import_groups uuidv4 (exportToJson created_at_desc name_asc db)
    (mkHeap (mkDb [] [] [] G0 T0 C0 [] [] [] [] []) initial_result)
  = import_cleanup
      (mkHeap (restored created_at_desc name_asc db G0 T0 C0)
         (mkResult false (length (books db)) (length (authors db))
            (length (publishers db)) (length (series db))
            (length (genres db) - length G0) (length (topics db) - length T0)
            (length (categories db) - length C0) [])).
Proof.
  destruct (keys_unique_facts db Hkeys)
    as ((Ka & Kp & Ks & Kg & Kt & Kc & Kb) & (Ng & Nt & Nc) & (Lba & Lbg & Lbt & Lsa)).
  destruct (ids_truthy_facts db Hids) as (Ia & Ip & Is & Ig & It & Ic & Ib).
  destruct (foreign_keys_facts db Hfk) as (Fb & Fba & Fbg & Fbt & Fsa).
  destruct (valid_facts db Hvalid) as (Hno & Hsa).
  destruct HG as [HG1 HG2], HT as [HT1 HT2], HC as [HC1 HC2].
  unfold import_groups, exportToJson, bind.
  cbn [data_categories data_authors data_publishers data_genres data_topics data_series
       data_books].
  unfold CategoryRepository.findAll, AuthorRepository.findAll, PublisherRepository.findAll,
    GenreRepository.findAll, TopicRepository.findAll, SeriesRepository.findAll,
    BookRepository.findAll.
  rewrite (@categories_group_run uuidv4 (categories db) Kc Ic (name_asc (categories db)) _ Nc);
    tables;
    [|exact HC1|apply listed_rows; exact Kc|apply listed_rows; exact Kc].
  rewrite (@authors_group_run uuidv4 (authors db) Ka Ia (name_asc (authors db)));
    tables;
    [|intros x []|apply listed_rows; exact Ka|apply listed_rows; exact Ka].
  rewrite (@publishers_group_run uuidv4 (publishers db) Kp Ip (name_asc (publishers db)));
    tables;
    [|intros x []|apply listed_rows; exact Kp|apply listed_rows; exact Kp].
  rewrite (@genres_group_run uuidv4 (genres db) Kg Ig (name_asc (genres db)) _ Ng);
    tables;
    [|exact HG1|apply listed_rows; exact Kg|apply listed_rows; exact Kg].
  rewrite (@topics_group_run uuidv4 (topics db) Kt It (name_asc (topics db)) _ Nt);
    tables;
    [|exact HT1|apply listed_rows; exact Kt|apply listed_rows; exact Kt].
  rewrite !missing_nil. cbn [app]. rewrite !map_map. cbn [fst snd].
  destruct (counted (length (missing C0 (name_asc (categories db)))) initial_result)
    as (_ & _ & _ & _ & _ & _ & ->).
  match goal with
  | |- context [Nat.iter (length (name_asc (authors db))) ?f ?r] =>
      destruct (counted (length (name_asc (authors db))) r) as (_ & -> & _)
  end.
  match goal with
  | |- context [Nat.iter (length (name_asc (publishers db))) ?f ?r] =>
      destruct (counted (length (name_asc (publishers db))) r) as (_ & _ & -> & _)
  end.
  match goal with
  | |- context [Nat.iter (length (missing G0 (name_asc (genres db)))) ?f ?r] =>
      destruct (counted (length (missing G0 (name_asc (genres db)))) r)
        as (_ & _ & _ & _ & -> & _)
  end.
  match goal with
  | |- context [Nat.iter (length (missing T0 (name_asc (topics db)))) ?f ?r] =>
      destruct (counted (length (missing T0 (name_asc (topics db)))) r)
        as (_ & _ & _ & _ & _ & -> & _)
  end.
  cbn [initial_result success booksImported authorsImported publishersImported
       seriesImported genresImported topicsImported categoriesImported errors].
  rewrite (@series_group_run uuidv4 (fun s => Sql.authors_of_series db (id s))
             (name_asc (series db))); tables.
  2:{ intros s Hs. apply Is. eapply Permutation_in; [apply name_perm|exact Hs]. }
  2:{ eapply Permutation_NoDup; [|exact Ks]. apply Permutation_map. symmetry.
      apply name_perm. }
  2:{ reflexivity. }
  2:{ intros s Hs.
      assert (Hs' : In s (series db))
        by (eapply Permutation_in; [apply name_perm|exact Hs]).
      split.
      2:{ destruct (@joined_rows_ok (authors db) (series_authors db) (id s) Ka Lsa)
            as [Hd Hex].
          split; [exact Hd|]. intros x Hx. apply (Hex _ x (name_perm _) Hx). }
      destruct (Hsa s Hs') as (a & Ha). destruct (Fsa _ _ Ha) as [_ (r & Hr & <-)].
      assert (Hin : In (id r) (map id (Sql.authors_of_series db (id s)))).
      { apply in_map. apply in_join. now split. }
      destruct (map id (Sql.authors_of_series db (id s))); [contradiction|reflexivity]. }
  2:{ reflexivity. }
  match goal with
  | |- context [Nat.iter (length (name_asc (series db))) ?f ?r] =>
      destruct (counted (length (name_asc (series db))) r) as (_ & _ & _ & -> & _)
  end.
  cbn [app success booksImported authorsImported publishersImported
       seriesImported genresImported topicsImported categoriesImported errors].
  unfold BookRepository.enrichBookWithRelations.
  cbn [BookRepository.view_id BookRepository.view_title BookRepository.view_publisherId
       BookRepository.view_seriesId BookRepository.view_categoryId
       BookRepository.view_authors BookRepository.view_genres BookRepository.view_topics].
  rewrite (map_ext_in _
             (fun b =>
                mkBookRecord (book_id b) (title b) (publisher_id b) (series_id b)
                  (category_id b) (Sql.authors_of_book db (book_id b))
                  (Sql.genres_of_book db (book_id b)) (Sql.topics_of_book db (book_id b)))
             (created_at_desc (books db))).
  2:{ intros b Hb. rewrite series_id_kept; [reflexivity|].
      eapply Permutation_in; [apply created_perm|exact Hb]. }
  destruct (@named_group_restores (genres db) Kg G0 (name_asc (genres db)) HG1 HG2
              (name_perm _)) as [PG EG].
  destruct (@named_group_restores (topics db) Kt T0 (name_asc (topics db)) HT1 HT2
              (name_perm _)) as [PT ET].
  destruct (@named_group_restores (categories db) Kc C0 (name_asc (categories db)) HC1 HC2
              (name_perm _)) as [PC EC].
  rewrite (@books_group_run uuidv4
             (fun b => Sql.genres_of_book db (book_id b))
             (fun b => Sql.topics_of_book db (book_id b))
             (fun b => Sql.authors_of_book db (book_id b))
             (created_at_desc (books db))); tables.
  2:{ intros b Hb.
      assert (Hb' : In b (books db))
        by (eapply Permutation_in; [apply created_perm|exact Hb]).
      split; [now apply Ib|now apply series_id_kept]. }
  2:{ eapply Permutation_NoDup; [|exact Kb]. apply Permutation_map. symmetry.
      apply created_perm. }
  2:{ reflexivity. }
  2:{ intros b Hb.
      assert (Hb' : In b (books db))
        by (eapply Permutation_in; [apply created_perm|exact Hb]).
      pose proof (Fb b Hb') as F. unfold Stmt.book_fks_ok in *. tables.
      apply andb_prop in F. destruct F as [F F3]. apply andb_prop in F.
      destruct F as [F1 F2].
      rewrite (@has_row_perm _ _ _ (name_perm _) F1), (@has_row_perm _ _ _ PC F2).
      cbn [andb].
      destruct (series_id b) as [s|]; [|reflexivity].
      exact (@has_row_perm _ _ _ (name_perm _) F3). }
  2:{ intros b Hb.
      destruct (@joined_rows_ok (authors db) (book_authors db) (book_id b) Ka Lba)
        as [Da Ea].
      destruct (@joined_rows_ok (genres db) (book_genres db) (book_id b) Kg Lbg)
        as [Dg Eg].
      destruct (@joined_rows_ok (topics db) (book_topics db) (book_id b) Kt Lbt)
        as [Dt Et].
      split; [|split]; (split; [assumption|]); intros x Hx.
      - exact (Ea _ x (name_perm _) Hx).
      - exact (Eg _ x PG Hx).
      - exact (Et _ x PT Hx). }
  2:{ intros b x Hb. repeat split. }
  match goal with
  | |- context [Nat.iter (length (created_at_desc (books db))) ?f ?r] =>
      destruct (counted (length (created_at_desc (books db))) r) as (-> & _)
  end.
  cbn [app success booksImported authorsImported publishersImported
       seriesImported genresImported topicsImported categoriesImported errors].
  rewrite !Nat.add_0_r, EG, ET, EC.
  rewrite !(Permutation_length (name_perm _)), (Permutation_length (created_perm _)).
  reflexivity.
Qed.

(** Every table of the store that was built is the table of the store
    that was exported, rearranged. *)
Lemma restored_rearranges :
  let db' := restored created_at_desc name_asc db G0 T0 C0 in
  Permutation (authors db') (authors db)
  /\ Permutation (publishers db') (publishers db)
  /\ Permutation (series db') (series db)
  /\ Permutation (genres db') (genres db)
  /\ Permutation (topics db') (topics db)
  /\ Permutation (categories db') (categories db)
  /\ Permutation (books db') (books db)
  /\ Permutation (book_authors db') (book_authors db)
  /\ Permutation (book_genres db') (book_genres db)
  /\ Permutation (book_topics db') (book_topics db)
  /\ Permutation (series_authors db') (series_authors db).
Proof.
  destruct (keys_unique_facts db Hkeys)
    as ((Ka & Kp & Ks & Kg & Kt & Kc & Kb) & _ & (Lba & Lbg & Lbt & Lsa)).
  destruct (foreign_keys_facts db Hfk) as (_ & Fba & Fbg & Fbt & Fsa).
  destruct HG as [HG1 HG2], HT as [HT1 HT2], HC as [HC1 HC2].
  unfold restored. tables.
  repeat (split; [first [apply name_perm | apply created_perm | idtac]|]).
  - now apply (@named_group_restores (genres db) Kg).
  - now apply (@named_group_restores (topics db) Kt).
  - now apply (@named_group_restores (categories db) Kc).
  - apply (@links_restored BookRow book_id (books db) _ (authors db) (book_authors db)
             (created_perm _) Kb Ka Lba Fba).
  - apply (@links_restored BookRow book_id (books db) _ (genres db) (book_genres db)
             (created_perm _) Kb Kg Lbg Fbg).
  - apply (@links_restored BookRow book_id (books db) _ (topics db) (book_topics db)
             (created_perm _) Kb Kt Lbt Fbt).
  - apply (@links_restored NamedRow id (series db) _ (authors db) (series_authors db)
             (name_perm _) Ks Ka Lsa Fsa).
Qed.

Lemma restored_no_orphans :
  no_orphans (restored created_at_desc name_asc db G0 T0 C0) = true.
Proof.
  destruct restored_rearranges as (Pa & Pp & Ps & _ & _ & _ & Pb & Pba & _).
  destruct (valid_facts db Hvalid) as (Hno & _).
  apply (@no_orphans_rearranged db); [| | | | |exact Hno]; intros x Hx.
  - exact (Permutation_in x Pa Hx).
  - exact (Permutation_in x Pp Hx).
  - exact (Permutation_in x Ps Hx).
  - exact (Permutation_in x (Permutation_sym Pb) Hx).
  - exact (Permutation_in x (Permutation_sym Pba) Hx).
Qed.

(** The import of the export, on the new installation: the store it
    leaves and what it reports. *)
Lemma restore_run :
  importFromJson uuidv4 (exportToJson created_at_desc name_asc db)
    (mkDb [] [] [] G0 T0 C0 [] [] [] [] [])
  = (restored created_at_desc name_asc db G0 T0 C0,
     mkResult true (length (books db)) (length (authors db))
       (length (publishers db)) (length (series db))
       (length (genres db) - length G0) (length (topics db) - length T0)
       (length (categories db) - length C0) []).
Proof.
  unfold importFromJson, try_catch, bind, transaction_heap.
  replace (Js.truthy (version (exportToJson created_at_desc name_asc db))) with true
    by reflexivity.
  cbn [negb]. rewrite restore_groups_run.
  rewrite import_cleanup_noop by (cbn [store]; exact restored_no_orphans).
  reflexivity.
Qed.

End Restore.

(** An export restores the library on a new installation.  Let [db] be a
    store that satisfies the keys and the foreign keys of the schema, has
    no empty id and passes [integrityCheck], and let [t] hold no author,
    publisher, series or book, and as genres, topics and categories only
    rows of [db].  Then the import into [t] of the export of [db] reports
    success without an error line, counts every row it had to write, and
    leaves in every table the rows of that table of [db], possibly in
    another order: ids, names, titles, references and links are all
    restored. *)
Theorem export_restores_library :
  forall (uuidv4 : Database -> string) (created_at_desc : list BookRow -> list BookRow)
         (name_asc : list NamedRow -> list NamedRow) (db t : Database),
    (forall l, Permutation (created_at_desc l) l) ->
    (forall l, Permutation (name_asc l) l) ->
    keys_unique db = true ->
    ids_truthy db = true ->
    foreign_keys_ok db = true ->
    DomainService.isValid (DomainService.integrityCheck db) = true ->
    holds_only_tags_of t db = true ->
    let run :=
      ImportExportService.importFromJson uuidv4
        (ImportExportService.exportToJson created_at_desc name_asc db) t in
    (Permutation (authors (fst run)) (authors db)
     /\ Permutation (publishers (fst run)) (publishers db)
     /\ Permutation (series (fst run)) (series db)
     /\ Permutation (genres (fst run)) (genres db)
     /\ Permutation (topics (fst run)) (topics db)
     /\ Permutation (categories (fst run)) (categories db)
     /\ Permutation (books (fst run)) (books db)
     /\ Permutation (book_authors (fst run)) (book_authors db)
     /\ Permutation (book_genres (fst run)) (book_genres db)
     /\ Permutation (book_topics (fst run)) (book_topics db)
     /\ Permutation (series_authors (fst run)) (series_authors db))
    /\ snd run
       = ImportExportService.mkResult true (length (books db)) (length (authors db))
           (length (publishers db)) (length (series db))
           (length (genres db) - length (genres t))
           (length (topics db) - length (topics t))
           (length (categories db) - length (categories t)) [].
Proof.
  intros uuidv4 created_at_desc name_asc db t Hcreated Hname Hkeys Hids Hfk Hvalid Hnew run.
  subst run.
  destruct (holds_only_tags_facts t db Hnew) as (G0 & T0 & C0 & -> & HG & HT & HC).
  rewrite (@restore_run uuidv4 created_at_desc name_asc Hcreated Hname db G0 T0 C0
             Hkeys Hids Hfk Hvalid HG HT HC).
  cbn [fst snd genres topics categories]. split; [|reflexivity].
  exact (@restored_rearranges created_at_desc name_asc Hcreated Hname db G0 T0 C0
           Hkeys Hfk HG HT HC).
Qed.

Lemma export_restores_library_witness :
  (forall l : list BookRow, Permutation (rev l) l)
  /\ (forall l : list NamedRow, Permutation (rev l) l)
  /\ keys_unique single_shelf = true
  /\ ids_truthy single_shelf = true
  /\ foreign_keys_ok single_shelf = true
  /\ DomainService.isValid (DomainService.integrityCheck single_shelf) = true
  /\ holds_only_tags_of seeded_store single_shelf = true
  /\ snd (ImportExportService.importFromJson fixed_uuid
            (ImportExportService.exportToJson (@rev BookRow) (@rev NamedRow) single_shelf)
            seeded_store)
     = ImportExportService.mkResult true 1 1 1 1 0 0 0 [].
Proof.
  assert (Hrev : forall (A : Type) (l : list A), Permutation (rev l) l)
    by (intros A l; symmetry; apply Permutation_rev).
  split; [apply Hrev|]. split; [apply Hrev|].
  repeat (split; [reflexivity|]).
  exact (proj2 (export_restores_library fixed_uuid (@rev BookRow) (@rev NamedRow)
                  single_shelf seeded_store (Hrev BookRow) (Hrev NamedRow)
                  eq_refl eq_refl eq_refl eq_refl eq_refl)).
Defined.


(** ** The statements of a search *)

Lemma placeholders_app (a b : string) :
  placeholders (a ++ b) = placeholders a + placeholders b.
Proof.
  induction a as [|c a IH]; [reflexivity|]. cbn [String.append placeholders].
  rewrite IH. destruct (Ascii.eqb c "?"); lia.
Qed.

Lemma placeholders_join (sep : string) (l : list string) :
  placeholders sep = 0 ->
  placeholders (Js.join sep l) = list_sum (map placeholders l).
Proof.
  intros Hsep. unfold Js.join. induction l as [|x l IH]; [reflexivity|].
  destruct l as [|y l].
  - cbn [String.concat map]. unfold list_sum. cbn [fold_right]. lia.
  - change (String.concat sep (x :: y :: l))
      with (x ++ sep ++ String.concat sep (y :: l))%string.
    rewrite !placeholders_app, Hsep, IH. reflexivity.
Qed.

(** One [if] of [search]: what it pushes on [conditions] has as many
    placeholders as it pushes values on [queryParams]. *)
Lemma pushed_alike (c : bool) (condition : string) (values : list BookRepository.SqlValue) :
  placeholders condition = length values ->
  list_sum (map placeholders (if c then [condition] else []))
  = length (if c then values else []).
Proof.
  intros H. unfold list_sum. destruct c; cbn [map fold_right length]; lia.
Qed.

Lemma statement_placeholders (base : string) (joins conditions : list string)
    (rest : string) :
  placeholders
    (base
     ++ (if nonempty joins then " " ++ Js.join " " joins else EmptyString)
     ++ (if nonempty conditions then " WHERE " ++ Js.join " AND " conditions
         else EmptyString)
     ++ rest)
  = placeholders base + list_sum (map placeholders joins)
    + list_sum (map placeholders conditions) + placeholders rest.
Proof.
  rewrite !placeholders_app.
  assert (Hj : placeholders (if nonempty joins then " " ++ Js.join " " joins
                             else EmptyString)
               = list_sum (map placeholders joins)).
  { destruct joins as [|j joins]; [reflexivity|]. cbn [nonempty].
    rewrite placeholders_app, placeholders_join; reflexivity. }
  assert (Hc : placeholders (if nonempty conditions
                             then " WHERE " ++ Js.join " AND " conditions
                             else EmptyString)
               = list_sum (map placeholders conditions)).
  { destruct conditions as [|c conditions]; [reflexivity|]. cbn [nonempty].
    rewrite placeholders_app, placeholders_join; reflexivity. }
  rewrite Hj, Hc. lia.
Qed.

(** [search] binds a value to every placeholder: the count statement has
    as many placeholders as values are bound to it, the page statement has
    two more, for the limit and the offset, which are bound last, after
    the same values.  This holds whichever filters are set. *)
Theorem search_binds_every_placeholder :
  forall params : BookRepository.BookSearchParams,
    let s := BookRepository.search_statements params in
    placeholders (BookRepository.countQuery s) = length (BookRepository.countValues s)
    /\ placeholders (BookRepository.pageQuery s) = length (BookRepository.pageValues s)
    /\ BookRepository.pageValues s
       = BookRepository.countValues s
         ++ [BookRepository.Number (Js.num_or (BookRepository.sp_limit params) 50);
             BookRepository.Number (Js.num_or (BookRepository.sp_offset params) 0)].
Proof.
  intros params s. subst s. unfold BookRepository.search_statements.
  cbn [BookRepository.countQuery BookRepository.countValues BookRepository.pageQuery
       BookRepository.pageValues].
  set (joins := _ ++ _ ++ _ ++ (if Js.truthy_opt (BookRepository.sp_query params)
                                then _ ++ _ else [])).
  set (conditions := _ ++ _ ++ _ ++ _ ++ _ ++ _ ++ _ ++ _ ++ _
                     ++ (if Js.truthy_num (BookRepository.sp_yearTo params)
                         then ["b.publication_year <= ?"] else [])).
  set (queryParams := _ ++ _ ++ _ ++ _ ++ _ ++ _ ++ _ ++ _ ++ _
                      ++ (if Js.truthy_num (BookRepository.sp_yearTo params)
                          then [BookRepository.Number _] else [])).
  assert (Hj : list_sum (map placeholders joins) = 0).
  { subst joins.
    destruct (Js.truthy_opt (BookRepository.sp_authorId params)),
      (Js.truthy_opt (BookRepository.sp_genreId params)),
      (Js.truthy_opt (BookRepository.sp_topicId params)),
      (Js.truthy_opt (BookRepository.sp_query params)); reflexivity. }
  assert (Hc : list_sum (map placeholders conditions) = length queryParams).
  { subst conditions queryParams. rewrite !map_app, !list_sum_app, !length_app.
    repeat match goal with
           | |- _ + _ = _ + _ => f_equal
           end; apply pushed_alike; reflexivity. }
  split; [|split; [|reflexivity]]; clearbody joins conditions queryParams.
  - pose proof (statement_placeholders
                  "SELECT COUNT(DISTINCT b.id) as total FROM books b" joins conditions
                  EmptyString) as H.
    rewrite append_nil_r in H. rewrite H, Hj, Hc. 
    change (placeholders "SELECT COUNT(DISTINCT b.id) as total FROM books b") with 0.
    cbn [placeholders]. lia.
  - rewrite statement_placeholders, Hj, Hc, length_app. cbn [length].
    change (placeholders "SELECT DISTINCT b.* FROM books b") with 0.
    rewrite !placeholders_app.
    assert (Hcol : forall sortBy, placeholders (BookRepository.getSortColumn sortBy) = 0).
    { intros sortBy. unfold BookRepository.getSortColumn.
      repeat match goal with
             | |- context [String.eqb sortBy ?x] => destruct (String.eqb sortBy x)
             end; reflexivity. }
    rewrite Hcol.
    assert (Hord : placeholders
                     match BookRepository.sp_sortOrder params with
                     | Some o => if String.eqb o "asc" then "ASC" else "DESC"
                     | None => "DESC"
                     end = 0).
    { destruct (BookRepository.sp_sortOrder params) as [o|]; [|reflexivity].
      destruct (String.eqb o "asc"); reflexivity. }
    rewrite Hord.
    change (placeholders " ORDER BY ") with 0. change (placeholders " ") with 0.
    change (placeholders " LIMIT ? OFFSET ?") with 2. lia.
Qed.

(** The text of the two statements of a search depends on which filters
    are set and on the order asked for, never on a value: two searches
    that set the same filters and ask for the same order prepare the same
    two statements, whatever they search for.  The values reach the
    database through the placeholders only. *)
Theorem search_text_ignores_values :
  forall p q : BookRepository.BookSearchParams,
    same_filters p q = true ->
    BookRepository.countQuery (BookRepository.search_statements p)
    = BookRepository.countQuery (BookRepository.search_statements q)
    /\ BookRepository.pageQuery (BookRepository.search_statements p)
       = BookRepository.pageQuery (BookRepository.search_statements q).
Proof.
  intros p q H. unfold same_filters in H.
  repeat (apply andb_prop in H; destruct H as [H ?]).
  repeat match goal with
         | E : Bool.eqb _ _ = true |- _ => apply eqb_prop in E
         end.
  assert (Hsort : BookRepository.sp_sortBy p = BookRepository.sp_sortBy q).
  { destruct (BookRepository.sp_sortBy p), (BookRepository.sp_sortBy q);
      try discriminate; [|reflexivity].
    f_equal. now apply String.eqb_eq. }
  assert (Horder : BookRepository.sp_sortOrder p = BookRepository.sp_sortOrder q).
  { destruct (BookRepository.sp_sortOrder p), (BookRepository.sp_sortOrder q);
      try discriminate; [|reflexivity].
    f_equal. now apply String.eqb_eq. }
  unfold BookRepository.search_statements.
  cbn [BookRepository.countQuery BookRepository.pageQuery].
  repeat match goal with
         | E : Js.truthy_opt _ = Js.truthy_opt _ |- _ => rewrite E; clear E
         | E : Js.truthy_num _ = Js.truthy_num _ |- _ => rewrite E; clear E
         end.
  rewrite Hsort, Horder. split; reflexivity.
Qed.

Lemma search_text_ignores_values_witness :
  same_filters search_by_ada search_by_bob = true
  /\ BookRepository.pageQuery (BookRepository.search_statements search_by_ada)
     = BookRepository.pageQuery (BookRepository.search_statements search_by_bob).
Proof.
  split; [reflexivity|].
  exact (proj2 (search_text_ignores_values search_by_ada search_by_bob eq_refl)).
Defined.

(** ** Deleting an author from the authors page *)

(** What [AuthorRepository.delete] may do to the store, whether or not it
    throws: nothing but drop the author's row and the links to the author. *)
Lemma author_delete_store (authorId : string) (db : Database) :
  let d := fst (AuthorRepository.delete authorId db) in
  publishers d = publishers db /\ series d = series db
  /\ genres d = genres db /\ topics d = topics db /\ categories d = categories db
  /\ books d = books db /\ book_genres d = book_genres db
  /\ book_topics d = book_topics db
  /\ (series_authors d = series_authors db
      \/ series_authors d = Stmt.without_right (series_authors db) authorId).
Proof.
  unfold AuthorRepository.delete, bind, query, throw.
  destruct (Nat.ltb 0 (Sql.count_book_authors_by_author db authorId));
    [cbn [fst]; repeat split; now left|].
  unfold Stmt.delete_series_authors_by_author, modify, Stmt.delete_authors.
  cbn [Stmt.set_series_authors series series_authors authors publishers genres topics
       categories books book_authors book_genres book_topics].
  destruct (Nat.eqb (Stmt.matching (authors db) authorId) 0);
    cbn [Nat.eqb fst Stmt.set_series_authors series series_authors authors publishers genres
         topics categories books book_authors book_genres book_topics].
  - repeat split. now right.
  - destruct (Nat.eqb (Stmt.matching (authors db) authorId) 0);
      cbn [fst series series_authors authors publishers genres
           topics categories books book_authors book_genres book_topics];
      repeat split; right; unfold Stmt.without_right; apply filter_twice.
Qed.

(** Through the authors page no series loses its last author.  Whatever
    the page lists for the author and whatever the user answers,
    [handleDelete] leaves every series that had an author with an author,
    as long as the links of series to authors are distinct, as their
    primary key has them; it touches no publisher, series, book, genre,
    topic or category; and when [checkAuthorDeleteImpact] reports a series
    it leaves the store as it was. *)
Theorem authors_page_never_empties_a_series :
  forall (rejected : Error -> string) (confirm : string -> bool)
         (author : AuthorsPage.AuthorWithStats) (db : Database),
    no_repeat (series_authors db) = true ->
    let db' := fst (AuthorsPage.handleDelete rejected confirm author db) in
    (forall s, In s (Sql.series_no_authors db') -> In s (Sql.series_no_authors db))
    /\ (publishers db' = publishers db /\ series db' = series db
        /\ genres db' = genres db /\ topics db' = topics db
        /\ categories db' = categories db /\ books db' = books db)
    /\ (DomainService.a_hasImpact
          (DomainService.checkAuthorDeleteImpact (AuthorsPage.listed_id author) db) = true ->
        db' = db).
Proof.
  intros rejected confirm author db Hkeys db'. subst db'.
  apply no_repeat_NoDup in Hkeys.
  unfold AuthorsPage.handleDelete.
  destruct (Nat.ltb 0 (AuthorsPage.listed_bookCount author));
    [cbn [fst]; repeat split; auto|].
  unfold Handlers.AUTHOR_CHECK_DELETE_IMPACT, try_catch, query.
  destruct (DomainService.a_hasImpact
              (DomainService.checkAuthorDeleteImpact (AuthorsPage.listed_id author) db))
    eqn:Himpact; [cbn [fst]; repeat split; auto|].
  destruct (negb (confirm _)); [cbn [fst]; repeat split; auto; discriminate|].
  set (a := AuthorsPage.listed_id author) in *.
  assert (Hstore : fst (let (db2, s) := Handlers.AUTHOR_DELETE a db in
                        match s with
                        | inl err => (db2, [("Failed to delete author: " ++ rejected err)%string])
                        | inr _ => (db2, [])
                        end)
                   = fst (AuthorRepository.delete a db)).
  { unfold Handlers.AUTHOR_DELETE, try_catch, Handlers.handleError, throw.
    destruct (AuthorRepository.delete a db) as [d [e|[]]]; reflexivity. }
  rewrite Hstore. clear Hstore.
  destruct (author_delete_store a db) as (Hp & Hs & Hg & Ht & Hc & Hb & _ & _ & Hl).
  split; [|split; [repeat split; assumption|discriminate]].
  intros s Hin. unfold Sql.series_no_authors in *.
  apply in_map_iff in Hin. destruct Hin as (r & <- & Hr).
  apply in_map_iff. exists r. split; [reflexivity|].
  apply filter_In in Hr. destruct Hr as [Hr Hnone]. rewrite Hs in Hr.
  apply filter_In. split; [exact Hr|].
  destruct Hl as [Hl|Hl]; rewrite Hl in Hnone; [exact Hnone|].
  apply negb_true_iff in Hnone. apply negb_true_iff.
  destruct (existsb (fun sa => String.eqb (id r) (fst sa)) (series_authors db)) eqn:E;
    [|reflexivity].
  exfalso. apply existsb_exists in E. destruct E as (l0 & Hl0 & E0).
  assert (Hkept : forall l, In l (series_authors db) -> String.eqb (id r) (fst l) = true ->
                            String.eqb (snd l) a = true).
  { intros l Hin Hfst. destruct (String.eqb (snd l) a) eqn:Ea; [reflexivity|].
    assert (Hex : existsb (fun sa => String.eqb (id r) (fst sa))
                    (Stmt.without_right (series_authors db) a) = true).
    { apply existsb_exists. exists l. split; [|exact Hfst].
      apply filter_In. split; [exact Hin|]. now rewrite Ea. }
    congruence. }
  pose proof (Hkept l0 Hl0 E0) as Ha0.
  unfold DomainService.checkAuthorDeleteImpact in Himpact.
  cbn [DomainService.a_hasImpact] in Himpact. apply nonempty_false in Himpact.
  unfold Sql.series_with_only_author in Himpact.
  assert (Hcount : Nat.eqb (Sql.count_series_authors_by_series db (id r)) 1 = false).
  { destruct (Nat.eqb (Sql.count_series_authors_by_series db (id r)) 1) eqn:Ec; [|reflexivity].
    exfalso.
    assert (Hin : In (mkRow (id r) (name r))
                    (flat_map
                       (fun s0 =>
                          map (fun _ => mkRow (id s0) (name s0))
                            (filter
                               (fun sa =>
                                  String.eqb (id s0) (fst sa) && String.eqb (snd sa) a
                                  && Nat.eqb (Sql.count_series_authors_by_series db (id s0)) 1)
                               (series_authors db)))
                       (series db))).
    { apply in_flat_map. exists r. split; [exact Hr|].
      apply in_map_iff. exists l0. split; [reflexivity|].
      apply filter_In. split; [exact Hl0|]. now rewrite E0, Ha0, Ec. }
    rewrite Himpact in Hin. contradiction. }
  apply Nat.eqb_neq in Hcount. unfold Sql.count_series_authors_by_series in Hcount.
  destruct (@another_one _ (fun l => String.eqb (fst l) (id r)) (series_authors db) l0
              Hkeys Hl0) as (l1 & Hl1 & F1 & Hne).
  - rewrite String.eqb_sym. exact E0.
  - exact Hcount.
  - rewrite String.eqb_sym in F1. pose proof (Hkept l1 Hl1 F1) as Ha1.
    apply Hne. apply String.eqb_eq in E0, F1, Ha0, Ha1.
    destruct l0, l1. cbn [fst snd] in *. congruence.
Qed.

Lemma authors_page_never_empties_a_series_witness :
  no_repeat (series_authors coauthored_saga) = true
  /\ authors
       (fst (AuthorsPage.handleDelete message (fun _ => true)
               (AuthorsPage.mkListed "A" "Ann" 0) coauthored_saga))
     = [mkRow "B" "Bob"]
  /\ forall s,
       In s (Sql.series_no_authors
               (fst (AuthorsPage.handleDelete message (fun _ => true)
                       (AuthorsPage.mkListed "A" "Ann" 0) coauthored_saga))) ->
       In s (Sql.series_no_authors coauthored_saga).
Proof.
  split; [reflexivity|]. split; [reflexivity|].
  exact (proj1 (authors_page_never_empties_a_series message (fun _ => true)
                  (AuthorsPage.mkListed "A" "Ann" 0) coauthored_saga eq_refl)).
Defined.

(** ** Rewriting a series *)

Lemma renamed_rows (l : list NamedRow) (s n : string) :
  map (fun r => if String.eqb (id r) s then mkRow (id r) n else r) l
  = map (fun r => if String.eqb (id r) s then mkRow s n else r) l.
Proof.
  apply map_ext. intros r. destruct (String.eqb (id r) s) eqn:E; [|reflexivity].
  apply String.eqb_eq in E. now rewrite E.
Qed.

Lemma has_row_renamed (l : list NamedRow) (s n i : string) :
  Sql.has_row (map (fun r => if String.eqb (id r) s then mkRow s n else r) l) i
  = Sql.has_row l i.
Proof.
  unfold Sql.has_row. induction l as [|r l IH]; [reflexivity|]. cbn [map existsb].
  rewrite IH. destruct (String.eqb (id r) s) eqn:E; [|reflexivity].
  apply String.eqb_eq in E. cbn [id]. now rewrite E.
Qed.

Lemma get_row_renamed (l : list NamedRow) (s n : string) :
  Sql.has_row l s = true ->
  Sql.get_row (map (fun r => if String.eqb (id r) s then mkRow s n else r) l) s
  = Some (mkRow s n).
Proof.
  unfold Sql.has_row, Sql.get_row. induction l as [|r l IH]; [discriminate|].
  cbn [existsb map find]. destruct (String.eqb (id r) s) eqn:E.
  - intros _. cbn [id]. now rewrite String.eqb_refl.
  - rewrite E. exact IH.
Qed.

Lemma series_update_run (seriesId : string) (input : SeriesInput) (db : Database) :
  match SeriesRepository.update seriesId input db with
  | (db', inr r) =>
      series_updatable seriesId input db = true
      /\ r = Some (mkRow seriesId (si_name input))
      /\ db' = with_series_updated seriesId input db
  | (db', inl _) => series_updatable seriesId input db = false /\ db' = db
  end.
Proof.
  unfold SeriesRepository.update, transaction, bind, query, series_updatable.
  unfold Stmt.update_series at 1. rewrite matching_has_row.
  destruct (Sql.has_row (series db) seriesId) eqn:Hrow; cbn [negb];
    [|cbn [Nat.eqb]; now split].
  rewrite matching_has_row, Hrow. cbn [negb andb]. rewrite renamed_rows.
  set (db1 := Stmt.set_series db _).
  unfold Stmt.delete_series_authors_by_series, modify.
  set (db2 := Stmt.set_series_authors db1 _).
  assert (H2 : Sql.has_row (series db2) seriesId = true).
  { unfold db2, db1. cbn [Stmt.set_series_authors Stmt.set_series series].
    now rewrite has_row_renamed. }
  pose proof (@series_authors_loop seriesId (si_authorIds input) db2 H2) as Ha.
  rewrite (@linkable_ext (series_authors db2) [] (authors db2) seriesId (si_authorIds input))
    in Ha by (intros x; apply no_link_left).
  destruct (for_each (si_authorIds input) _ db2) as [db3 [e|[]]];
    [cbn [authors db2 db1 Stmt.set_series Stmt.set_series_authors] in Ha;
     rewrite Ha; now split|].
  destruct Ha as [Ha ->].
  cbn [authors db2 db1 Stmt.set_series Stmt.set_series_authors] in Ha. rewrite Ha.
  split; [reflexivity|]. split; [|reflexivity].
  cbn [series db2 db1 Stmt.set_series Stmt.set_series_authors].
  now apply get_row_renamed.
Qed.

(** [SeriesRepository.update] completes exactly when the series is there
    and every listed author is in the store and listed once.  When it
    completes, the series carries the name of the input, its author links
    are those of the input, and nothing else has changed; when it throws,
    the store is as it was.  An empty list of authors is accepted, and
    leaves the series without any author link. *)
Theorem series_update_outcomes :
  forall (seriesId : string) (input : SeriesInput) (db : Database),
    let run := SeriesRepository.update seriesId input db in
    succeeds (SeriesRepository.update seriesId input) db
    = series_updatable seriesId input db
    /\ (forall e, snd run = inl e -> fst run = db)
    /\ (forall r, snd run = inr r ->
                  r = Some (mkRow seriesId (si_name input))
                  /\ fst run = with_series_updated seriesId input db)
    /\ (si_authorIds input = [] ->
        Sql.has_row (series db) seriesId = true ->
        snd run = inr (Some (mkRow seriesId (si_name input)))
        /\ Sql.count_series_authors_by_series (fst run) seriesId = 0).
Proof.
  intros seriesId input db run. subst run. unfold succeeds.
  pose proof (series_update_run seriesId input db) as H.
  assert (Hempty : si_authorIds input = [] ->
                   series_updatable seriesId input db = Sql.has_row (series db) seriesId).
  { intros E. unfold series_updatable. rewrite E. apply andb_true_r. }
  destruct (SeriesRepository.update seriesId input db) as [db' [e|r]]; cbn [fst snd].
  - destruct H as [Hc ->]. split; [now rewrite Hc|]. split; [reflexivity|].
    split; [discriminate|]. intros E Hrow. rewrite (Hempty E) in Hc. congruence.
  - destruct H as (Hc & -> & ->). split; [now rewrite Hc|]. split; [discriminate|].
    split; [intros r' E; injection E as <-; now split|].
    intros E _. split; [reflexivity|].
    unfold Sql.count_series_authors_by_series, with_series_updated. cbn [series_authors].
    rewrite E. cbn [map]. rewrite app_nil_r.
    rewrite filter_none; [reflexivity|].
    intros l Hl. apply filter_In in Hl. destruct Hl as [_ Hl].
    now apply negb_true_iff in Hl.
Qed.

(** ** Importing the same batch again *)

(** *** What one record does *)

Lemma record_step_cases {R C : Type} (find : Database -> option R) (create : Tx C)
    (count : ImportExportService.ImportResult -> ImportExportService.ImportResult)
    (describe : Error -> string) (h : ImportExportService.Heap) :
  record_step find create count describe h
  = match find (ImportExportService.store h) with
    | Some _ => (h, inr tt)
    | None =>
        match create (ImportExportService.store h) with
        | (db', inr _) =>
            (ImportExportService.mkHeap db' (count (ImportExportService.result h)), inr tt)
        | (db', inl e) =>
            (ImportExportService.mkHeap db'
               (with_errors (ImportExportService.result h) [describe e]),
             inr tt)
        end
    end.
Proof.
  unfold record_step, try_catch, bind, ImportExportService.lift, query.
  destruct (find (ImportExportService.store h)); [now destruct h|].
  cbn [ImportExportService.store ImportExportService.result].
  destruct (create (ImportExportService.store h)) as [db' [e|c]]; reflexivity.
Qed.

Section Outcomes.

Import ImportExportService.

Variable uuidv4 : Database -> string.

(** A record of a group with unique names whose id is new and whose name
    is taken costs one error line. *)
Lemma import_category_taken (r : NamedRow) (D : Database) :
  Js.truthy (id r) = true ->
  Sql.has_row (categories D) (id r) = false ->
  Stmt.has_name (categories D) (name r) = true ->
  inert (import_category uuidv4 r) D.
Proof.
  intros Hid Hrow Hname r0. pose proof Hrow as Hnone. rewrite has_row_not_null in Hnone.
  eexists.
  unfold import_category, try_catch, bind, lift, query, CategoryRepository.findById.
  cbn [store result].
  destruct (Sql.get_row (categories D) (id r)); [discriminate|].
  unfold CategoryRepository.create, bind. cbn [ni_id ni_name].
  rewrite (mint_given uuidv4 (id r) _ Hid). unfold Stmt.insert_categories.
  cbn [id name store result]. rewrite Hrow, Hname. reflexivity.
Qed.

Lemma import_genre_taken (r : NamedRow) (D : Database) :
  Js.truthy (id r) = true ->
  Sql.has_row (genres D) (id r) = false ->
  Stmt.has_name (genres D) (name r) = true ->
  inert (import_genre uuidv4 r) D.
Proof.
  intros Hid Hrow Hname r0. pose proof Hrow as Hnone. rewrite has_row_not_null in Hnone.
  eexists.
  unfold import_genre, try_catch, bind, lift, query, GenreRepository.findById.
  cbn [store result].
  destruct (Sql.get_row (genres D) (id r)); [discriminate|].
  unfold GenreRepository.create, bind. cbn [ni_id ni_name].
  rewrite (mint_given uuidv4 (id r) _ Hid). unfold Stmt.insert_genres.
  cbn [id name store result]. rewrite Hrow, Hname. reflexivity.
Qed.

Lemma import_topic_taken (r : NamedRow) (D : Database) :
  Js.truthy (id r) = true ->
  Sql.has_row (topics D) (id r) = false ->
  Stmt.has_name (topics D) (name r) = true ->
  inert (import_topic uuidv4 r) D.
Proof.
  intros Hid Hrow Hname r0. pose proof Hrow as Hnone. rewrite has_row_not_null in Hnone.
  eexists.
  unfold import_topic, try_catch, bind, lift, query, TopicRepository.findById.
  cbn [store result].
  destruct (Sql.get_row (topics D) (id r)); [discriminate|].
  unfold TopicRepository.create, bind. cbn [ni_id ni_name].
  rewrite (mint_given uuidv4 (id r) _ Hid). unfold Stmt.insert_topics.
  cbn [id name store result]. rewrite Hrow, Hname. reflexivity.
Qed.

(** A record that is in the store is passed over. *)
Lemma import_series_old (s : SeriesWithAuthors) (h : Heap) :
  Sql.has_row (series (store h)) (s_id s) = true -> import_series uuidv4 s h = (h, inr tt).
Proof.
  intros H. rewrite has_row_not_null in H.
  unfold import_series, try_catch, bind, lift, query, SeriesRepository.findById.
  destruct (Sql.get_row _ _); [now destruct h|discriminate].
Qed.

Lemma import_book_old (b : BookWithRelations) (h : Heap) :
  Sql.has_book (store h) (b_id b) = true -> import_book uuidv4 b h = (h, inr tt).
Proof.
  intros H. rewrite has_book_not_null in H.
  unfold import_book, try_catch, bind, lift, query, BookRepository.findById.
  destruct (Sql.get_book _ _); [now destruct h|discriminate].
Qed.

(** A series or a book that is new and cannot be created costs one error
    line. *)
Lemma import_series_refused (s : SeriesWithAuthors) (D : Database) :
  Js.truthy (s_id s) = true ->
  series_creatable (s_id s) (series_input_of s) D = false ->
  inert (import_series uuidv4 s) D.
Proof.
  intros Hid Hc r0.
  destruct (nonempty (map id (s_authors s))) eqn:Hne.
  - rewrite (import_series_shape uuidv4 s Hne), record_step_cases.
    cbn [store result].
    destruct (SeriesRepository.findById (s_id s) D);
      [exists []; now rewrite with_errors_nil|].
    pose proof (series_create_run uuidv4 (series_input_of s) D) as Hrun.
    cbn [si_id series_input_of] in Hrun. rewrite (@minted_given uuidv4 _ _ Hid) in Hrun.
    fold (series_input_of s) in Hrun |- *.
    destruct (SeriesRepository.create uuidv4 (series_input_of s) D) as [db' [e|c]].
    + destruct Hrun as [_ ->]. eexists. reflexivity.
    + destruct Hrun as [Hrun _]. congruence.
  - exists []. rewrite with_errors_nil. now apply import_series_skips_empty.
Qed.

Lemma import_book_refused (b : BookWithRelations) (D : Database) :
  Js.truthy (b_id b) = true ->
  book_creatable (b_id b) (book_input_of b) D = false ->
  inert (import_book uuidv4 b) D.
Proof.
  intros Hid Hc r0.
  change (import_book uuidv4 b)
    with (record_step (BookRepository.findById (b_id b))
            (BookRepository.create uuidv4 (book_input_of b))
            (fun r =>
               mkResult (success r) (S (booksImported r)) (authorsImported r)
                 (publishersImported r) (seriesImported r) (genresImported r)
                 (topicsImported r) (categoriesImported r) (errors r))
            (failed_message "book" (b_title b))).
  rewrite record_step_cases. cbn [store result].
  destruct (BookRepository.findById (b_id b) D);
    [exists []; now rewrite with_errors_nil|].
  pose proof (book_create_run uuidv4 (book_input_of b) D) as Hrun.
  cbn [bi_id book_input_of] in Hrun. rewrite (@minted_given uuidv4 _ _ Hid) in Hrun.
  fold (book_input_of b) in Hrun.
  destruct (BookRepository.create uuidv4 (book_input_of b) D) as [db' [e|c]].
  - destruct Hrun as [_ ->]. eexists. reflexivity.
  - destruct Hrun as [Hrun _]. congruence.
Qed.

End Outcomes.

(** *** Foreign keys while records are processed *)

Lemma forallb_impl {A : Type} (f g : A -> bool) (l : list A) :
  (forall x, In x l -> f x = true -> g x = true) -> forallb f l = true -> forallb g l = true.
Proof.
  intros H Hf. apply forallb_forall. intros x Hx. apply H; [exact Hx|].
  rewrite forallb_forall in Hf. now apply Hf.
Qed.

Lemma has_book_incl (db db' : Database) (i : string) :
  incl (books db) (books db') -> Sql.has_book db i = true -> Sql.has_book db' i = true.
Proof.
  unfold Sql.has_book. intros Hincl H. apply existsb_exists in H.
  destruct H as (r & Hr & He). apply existsb_exists. exists r. auto.
Qed.

Lemma book_fks_incl (db db' : Database) (b : BookRow) :
  incl (publishers db) (publishers db') -> incl (series db) (series db') ->
  incl (categories db) (categories db') ->
  Stmt.book_fks_ok db b = true -> Stmt.book_fks_ok db' b = true.
Proof.
  intros Hp Hs Hc. unfold Stmt.book_fks_ok. intros H.
  apply andb_prop in H. destruct H as [H H3]. apply andb_prop in H. destruct H as [H1 H2].
  rewrite (has_row_incl _ Hp H1), (has_row_incl _ Hc H2). cbn [andb].
  destruct (series_id b); [|reflexivity]. exact (has_row_incl _ Hs H3).
Qed.

(** The foreign keys hold on a store that has more rows, when every new
    book row and every new link row has its targets. *)
Lemma foreign_keys_kept (db db' : Database) :
  foreign_keys_ok db = true ->
  grows db db' ->
  (forall b, In b (books db') -> In b (books db) \/ Stmt.book_fks_ok db' b = true) ->
  (forall l, In l (book_authors db') ->
             In l (book_authors db)
             \/ Sql.has_book db' (fst l) && Sql.has_row (authors db') (snd l) = true) ->
  (forall l, In l (book_genres db') ->
             In l (book_genres db)
             \/ Sql.has_book db' (fst l) && Sql.has_row (genres db') (snd l) = true) ->
  (forall l, In l (book_topics db') ->
             In l (book_topics db)
             \/ Sql.has_book db' (fst l) && Sql.has_row (topics db') (snd l) = true) ->
  (forall l, In l (series_authors db') ->
             In l (series_authors db)
             \/ Sql.has_row (series db') (fst l) && Sql.has_row (authors db') (snd l) = true) ->
  foreign_keys_ok db' = true.
Proof.
  intros Hfk (Ga & Gp & Gs & Gg & Gt & Gc & Gb & _) Hb Hba Hbg Hbt Hsa.
  unfold foreign_keys_ok in *.
  repeat (apply andb_prop in Hfk; destruct Hfk as [Hfk ?]).
  repeat match goal with
         | F : forallb _ _ = true |- _ => rewrite forallb_forall in F
         end.
  repeat (apply andb_true_intro; split); apply forallb_forall.
  - intros b Hin. destruct (Hb b Hin) as [Hold|Hnew]; [|exact Hnew].
    apply (@book_fks_incl db db' b Gp Gs Gc). now apply Hfk.
  - intros l Hin. destruct (Hba l Hin) as [Hold|Hnew]; [|exact Hnew].
    match goal with F : forall x, In x (book_authors db) -> _ |- _ => apply F in Hold end.
    apply andb_prop in Hold. destruct Hold as [K1 K2].
    now rewrite (@has_book_incl db db' _ Gb K1), (has_row_incl _ Ga K2).
  - intros l Hin. destruct (Hbg l Hin) as [Hold|Hnew]; [|exact Hnew].
    match goal with F : forall x, In x (book_genres db) -> _ |- _ => apply F in Hold end.
    apply andb_prop in Hold. destruct Hold as [K1 K2].
    now rewrite (@has_book_incl db db' _ Gb K1), (has_row_incl _ Gg K2).
  - intros l Hin. destruct (Hbt l Hin) as [Hold|Hnew]; [|exact Hnew].
    match goal with F : forall x, In x (book_topics db) -> _ |- _ => apply F in Hold end.
    apply andb_prop in Hold. destruct Hold as [K1 K2].
    now rewrite (@has_book_incl db db' _ Gb K1), (has_row_incl _ Gt K2).
  - intros l Hin. destruct (Hsa l Hin) as [Hold|Hnew]; [|exact Hnew].
    match goal with F : forall x, In x (series_authors db) -> _ |- _ => apply F in Hold end.
    apply andb_prop in Hold. destruct Hold as [K1 K2].
    now rewrite (has_row_incl _ Gs K1), (has_row_incl _ Ga K2).
Qed.

(** A new row in one of the six entity tables breaks no foreign key. *)
Lemma foreign_keys_more_rows (db : Database) (r : NamedRow) :
  foreign_keys_ok db = true ->
  foreign_keys_ok (Stmt.set_categories db (categories db ++ [r])) = true
  /\ foreign_keys_ok (Stmt.set_authors db (authors db ++ [r])) = true
  /\ foreign_keys_ok (Stmt.set_publishers db (publishers db ++ [r])) = true
  /\ foreign_keys_ok (Stmt.set_genres db (genres db ++ [r])) = true
  /\ foreign_keys_ok (Stmt.set_topics db (topics db ++ [r])) = true.
Proof.
  intros Hfk.
  repeat split;
    (apply (foreign_keys_kept Hfk); [table_grows|..]; intros x Hx; left; exact Hx).
Qed.

Lemma linkable_listable (links : list Link) (t : list NamedRow) (i : string)
    (ids : list string) :
  (forall x, In x ids -> Stmt.has_link links (i, x) = false) ->
  linkable links t i ids = listable t ids.
Proof.
  intros Hfree. unfold linkable, listable. f_equal.
  induction ids as [|x ids IH]; [reflexivity|]. cbn [forallb].
  rewrite (Hfree x (or_introl eq_refl)), IH; [reflexivity|].
  intros y Hy. apply Hfree. now right.
Qed.

Lemma linkable_is_listable (links : list Link) (t : list NamedRow) (i : string)
    (ids : list string) :
  linkable links t i ids = true -> listable t ids = true.
Proof.
  unfold linkable, listable. intros H. apply andb_prop in H. destruct H as [H ->].
  rewrite andb_true_r. revert H. apply forallb_impl. intros x _ Hx.
  apply andb_prop in Hx. now destruct Hx.
Qed.

Lemma listable_rows (t : list NamedRow) (ids : list string) (x : string) :
  listable t ids = true -> In x ids -> Sql.has_row t x = true.
Proof.
  unfold listable. intros H Hx. apply andb_prop in H. destruct H as [H _].
  rewrite forallb_forall in H. now apply H.
Qed.

Lemma listable_below (t t' : list NamedRow) (ids : list string) :
  (forall x, Sql.has_row t x = true -> Sql.has_row t' x = true) ->
  listable t ids = true -> listable t' ids = true.
Proof.
  unfold listable. intros Hsub H. apply andb_prop in H. destruct H as [H ->].
  rewrite andb_true_r. revert H. apply forallb_impl. intros x _. apply Hsub.
Qed.

Lemma has_row_more (t more : list NamedRow) (i : string) :
  Sql.has_row (t ++ more) i = Sql.has_row t i || Sql.has_row more i.
Proof. unfold Sql.has_row. apply existsb_app. Qed.

(** A series that was created, and a book that was created, break no
    foreign key. *)
Lemma foreign_keys_with_series (i : string) (input : SeriesInput) (db : Database) :
  foreign_keys_ok db = true ->
  series_creatable i input db = true ->
  foreign_keys_ok (with_series i input db) = true.
Proof.
  intros Hfk Hc. unfold series_creatable in Hc. apply andb_prop in Hc. destruct Hc as [_ Hl].
  apply linkable_is_listable in Hl.
  apply (foreign_keys_kept Hfk); unfold with_series;
    cbn [authors publishers series genres topics categories books book_authors
         book_genres book_topics series_authors];
    [unfold grows;
     cbn [authors publishers series genres topics categories books book_authors
          book_genres book_topics series_authors];
     repeat split; auto using incl_refl, incl_appl|..];
    try (intros x Hx; left; exact Hx).
  intros l Hin. apply in_app_or in Hin. destruct Hin as [Hin|Hin]; [now left|right].
  apply in_map_iff in Hin. destruct Hin as (x & <- & Hx). cbn [fst snd].
  rewrite has_row_app_new. cbn [andb]. exact (@listable_rows _ _ x Hl Hx).
Qed.

Lemma foreign_keys_with_book (i : string) (input : BookInput) (db : Database) :
  foreign_keys_ok db = true ->
  book_creatable i input db = true ->
  foreign_keys_ok (with_book i input db) = true.
Proof.
  intros Hfk Hc. unfold book_creatable in Hc.
  apply andb_prop in Hc. destruct Hc as [Hc Ht].
  apply andb_prop in Hc. destruct Hc as [Hc Hg].
  apply andb_prop in Hc. destruct Hc as [Hc Ha].
  apply andb_prop in Hc. destruct Hc as [_ Hrow].
  apply linkable_is_listable in Ha, Hg, Ht.
  assert (Hnew : Sql.has_book (with_book i input db) i = true).
  { unfold Sql.has_book, with_book. cbn [books]. rewrite existsb_app. cbn [existsb].
    cbn [book_row_of book_id]. rewrite String.eqb_refl. apply orb_true_r. }
  apply (foreign_keys_kept Hfk).
  - unfold grows, with_book.
    cbn [authors publishers series genres topics categories books book_authors
         book_genres book_topics series_authors].
    repeat split; auto using incl_refl, incl_appl.
  - intros b Hin. unfold with_book in Hin. cbn [books] in Hin.
    apply in_app_or in Hin. destruct Hin as [Hin|[<-|[]]]; [now left|right]. exact Hrow.
  - intros l Hin. unfold with_book in Hin. cbn [book_authors] in Hin.
    apply in_app_or in Hin. destruct Hin as [Hin|Hin]; [now left|right].
    apply in_map_iff in Hin. destruct Hin as (x & <- & Hx). cbn [fst snd].
    rewrite Hnew. exact (@listable_rows _ _ x Ha Hx).
  - intros l Hin. unfold with_book in Hin. cbn [book_genres] in Hin.
    apply in_app_or in Hin. destruct Hin as [Hin|Hin]; [now left|right].
    apply in_map_iff in Hin. destruct Hin as (x & <- & Hx). cbn [fst snd].
    rewrite Hnew. exact (@listable_rows _ _ x Hg Hx).
  - intros l Hin. unfold with_book in Hin. cbn [book_topics] in Hin.
    apply in_app_or in Hin. destruct Hin as [Hin|Hin]; [now left|right].
    apply in_map_iff in Hin. destruct Hin as (x & <- & Hx). cbn [fst snd].
    rewrite Hnew. exact (@listable_rows _ _ x Ht Hx).
  - intros l Hin. left. exact Hin.
Qed.

(** On a store that satisfies its foreign keys, what decides whether a
    new series or a new book can be created is whether its targets are
    there. *)
Lemma series_creatable_new (i : string) (input : SeriesInput) (db : Database) :
  foreign_keys_ok db = true ->
  Sql.has_row (series db) i = false ->
  series_creatable i input db = listable (authors db) (si_authorIds input).
Proof.
  intros Hfk Hrow. unfold series_creatable. rewrite Hrow. cbn [negb andb].
  apply linkable_listable. intros x _. now apply no_link_of_missing_series.
Qed.

Lemma book_creatable_new (i : string) (input : BookInput) (db : Database) :
  foreign_keys_ok db = true ->
  Sql.has_book db i = false ->
  book_creatable i input db
  = Stmt.book_fks_ok db (book_row_of i input)
    && listable (authors db) (authorIds input)
    && listable (genres db) (genreIds input)
    && listable (topics db) (topicIds input).
Proof.
  intros Hfk Hrow. unfold book_creatable. rewrite Hrow. cbn [negb andb].
  assert (Hfree : forall x, Stmt.has_link (book_authors db) (i, x) = false
                            /\ Stmt.has_link (book_genres db) (i, x) = false
                            /\ Stmt.has_link (book_topics db) (i, x) = false).
  { intros x. destruct (no_link_of_missing_book db i x Hfk Hrow) as (H1 & H2 & H3).
    repeat split;
      match goal with
      | |- Stmt.has_link ?t ?l = false =>
          destruct (Stmt.has_link t l) eqn:E; [apply has_link_In in E; contradiction|reflexivity]
      end. }
  rewrite (@linkable_listable (book_authors db) (authors db) i (authorIds input))
    by (intros x _; apply Hfree).
  rewrite (@linkable_listable (book_genres db) (genres db) i (genreIds input))
    by (intros x _; apply Hfree).
  rewrite (@linkable_listable (book_topics db) (topics db) i (topicIds input))
    by (intros x _; apply Hfree).
  reflexivity.
Qed.

(** *** The first import: every record ends with nothing left to do *)

Section Settles.

Import ImportExportService.

Variable X : Type.
Variable step : X -> M Heap unit.
Variable good : X -> bool.
Variable phase : Database -> Database -> Prop.
Variable done : Database -> X -> bool.

Hypothesis phase_refl : forall db, phase db db.
Hypothesis phase_trans : forall a b c, phase a b -> phase b c -> phase a c.
Hypothesis done_later : forall x E D, phase E D -> done E x = true -> done D x = true.
Hypothesis step_settles :
  forall x h,
    good x = true ->
    foreign_keys_ok (store h) = true ->
    exists h',
      step x h = (h', inr tt)
      /\ phase (store h) (store h')
      /\ foreign_keys_ok (store h') = true
      /\ done (store h') x = true.

(** A group runs to its end, keeps the foreign keys, and leaves each of
    its records with nothing left to do. *)
Lemma group_settles (l : list X) :
  forall h,
    forallb good l = true ->
    foreign_keys_ok (store h) = true ->
    exists h',
      for_each l step h = (h', inr tt)
      /\ phase (store h) (store h')
      /\ foreign_keys_ok (store h') = true
      /\ forallb (done (store h')) l = true.
Proof.
  induction l as [|x l IH]; intros h Hgood Hfk.
  - exists h. split; [reflexivity|]. split; [apply phase_refl|]. now split.
  - cbn [forallb] in Hgood. apply andb_prop in Hgood. destruct Hgood as [Hx Hl].
    destruct (@step_settles x h Hx Hfk) as (h1 & Hrun1 & Hph1 & Hfk1 & Hdone1).
    destruct (IH h1 Hl Hfk1) as (h2 & Hrun2 & Hph2 & Hfk2 & Hdone2).
    exists h2. cbn [for_each]. unfold bind at 1. rewrite Hrun1.
    split; [exact Hrun2|]. split; [eapply phase_trans; eauto|]. split; [exact Hfk2|].
    cbn [forallb]. rewrite Hdone2, andb_true_r. eapply done_later; eauto.
Qed.

End Settles.

Lemma settled_row_later (unique_names : bool) (t t' : list NamedRow) (r : NamedRow) :
  incl t t' -> settled_row unique_names t r = true -> settled_row unique_names t' r = true.
Proof.
  intros Hincl. unfold settled_row. intros H. apply orb_true_iff in H. apply orb_true_iff.
  destruct H as [H|H].
  - left. exact (has_row_incl _ Hincl H).
  - right. apply andb_prop in H. destruct H as [Hu H]. rewrite Hu. cbn [andb].
    exact (has_name_incl _ Hincl H).
Qed.

(** One of the five groups of named records. *)
Section Named_settles.

Import ImportExportService.

Variable tbl : Database -> list NamedRow.
Variable set : Database -> list NamedRow -> Database.
Variable step : NamedRow -> M Heap unit.
Variable count : ImportResult -> ImportResult.
Variable unique_names : bool.

Hypothesis step_old : forall r h,
  Sql.has_row (tbl (store h)) (id r) = true -> step r h = (h, inr tt).
Hypothesis step_new : forall r h,
  Js.truthy (id r) = true ->
  Sql.has_row (tbl (store h)) (id r) = false ->
  (unique_names = true -> Stmt.has_name (tbl (store h)) (name r) = false) ->
  step r h = (mkHeap (set (store h) (tbl (store h) ++ [r])) (count (result h)), inr tt).
Hypothesis step_taken : forall r D,
  unique_names = true ->
  Js.truthy (id r) = true ->
  Sql.has_row (tbl D) (id r) = false ->
  Stmt.has_name (tbl D) (name r) = true ->
  inert (step r) D.
Hypothesis tbl_set : forall db t, tbl (set db t) = t.
Hypothesis set_grows : forall db r, grows db (set db (tbl db ++ [r])).
Hypothesis set_keys : forall db r,
  foreign_keys_ok db = true -> foreign_keys_ok (set db (tbl db ++ [r])) = true.

(** A record whose id or whose name is taken costs at most an error
    line. *)
Lemma named_inert (r : NamedRow) (D : Database) :
  Js.truthy (id r) = true ->
  settled_row unique_names (tbl D) r = true ->
  inert (step r) D.
Proof.
  intros Hid Hs. unfold settled_row in Hs.
  destruct (Sql.has_row (tbl D) (id r)) eqn:Hrow.
  - intros r0. exists []. rewrite with_errors_nil. now apply step_old.
  - cbn [orb] in Hs. apply andb_prop in Hs. destruct Hs as [Hu Hname].
    now apply step_taken.
Qed.

Lemma named_settles (r : NamedRow) (h : Heap) :
  Js.truthy (id r) = true ->
  foreign_keys_ok (store h) = true ->
  exists h',
    step r h = (h', inr tt)
    /\ grows (store h) (store h')
    /\ foreign_keys_ok (store h') = true
    /\ settled_row unique_names (tbl (store h')) r = true.
Proof.
  intros Hid Hfk. unfold settled_row.
  destruct (Sql.has_row (tbl (store h)) (id r)) eqn:Hrow.
  - exists h. rewrite (step_old r h Hrow), Hrow.
    split; [reflexivity|]. split; [apply grows_refl|]. now split.
  - destruct (unique_names && Stmt.has_name (tbl (store h)) (name r)) eqn:Htaken.
    + apply andb_prop in Htaken. destruct Htaken as [Hu Hname].
      destruct (step_taken r (store h) Hu Hid Hrow Hname (result h)) as (es & Hrun).
      exists (mkHeap (store h) (with_errors (result h) es)).
      replace (mkHeap (store h) (result h)) with h in Hrun by now destruct h.
      split; [exact Hrun|]. cbn [store]. split; [apply grows_refl|].
      split; [exact Hfk|]. rewrite Hu, Hname. apply orb_true_r.
    + rewrite step_new; [|exact Hid|exact Hrow|].
      2:{ intros Hu. rewrite Hu in Htaken. exact Htaken. }
      eexists. split; [reflexivity|]. cbn [store]. split; [apply set_grows|].
      split; [now apply set_keys|]. rewrite tbl_set, has_row_more.
      unfold Sql.has_row at 2. cbn [existsb]. rewrite String.eqb_refl.
      cbn [orb]. now rewrite orb_true_r.
Qed.

End Named_settles.

Section First_import.

Import ImportExportService.

Variable uuidv4 : Database -> string.

Lemma settled_series_later (s : SeriesWithAuthors) (E D : Database) :
  series_phase E D -> settled_series E s = true -> settled_series D s = true.
Proof.
  intros [Hg Ha]. unfold settled_series. rewrite Ha. intros H.
  apply orb_true_iff in H. destruct H as [H|H]; [|now rewrite H, orb_true_r].
  apply orb_true_iff in H. destruct H as [H|H]; [now rewrite H|].
  assert (Hs : incl (series E) (series D)) by apply Hg.
  now rewrite (has_row_incl _ Hs H), orb_true_r.
Qed.

Lemma settled_book_later (b : BookWithRelations) (E D : Database) :
  books_phase E D -> settled_book E b = true -> settled_book D b = true.
Proof.
  intros (Hg & Ha & Hp & Hs & Hgn & Ht & Hc). unfold settled_book, placeable.
  unfold Stmt.book_fks_ok. rewrite Ha, Hp, Hs, Hgn, Ht, Hc. intros H.
  apply orb_true_iff in H. destruct H as [H|H]; [|now rewrite H, orb_true_r].
  now rewrite (has_book_grows _ Hg H).
Qed.

Lemma series_settles (s : SeriesWithAuthors) (h : Heap) :
  Js.truthy (s_id s) = true ->
  foreign_keys_ok (store h) = true ->
  exists h',
    import_series uuidv4 s h = (h', inr tt)
    /\ series_phase (store h) (store h')
    /\ foreign_keys_ok (store h') = true
    /\ settled_series (store h') s = true.
Proof.
  intros Hid Hfk. unfold settled_series.
  destruct (Sql.has_row (series (store h)) (s_id s)) eqn:Hrow.
  { exists h. rewrite (import_series_old uuidv4 s h Hrow), Hrow.
    split; [reflexivity|]. split; [apply series_phase_refl|]. split; [exact Hfk|].
    now rewrite orb_true_r. }
  destruct (nonempty (map id (s_authors s))) eqn:Hne.
  2:{ exists h. rewrite (import_series_skips_empty uuidv4 s h Hne).
      split; [reflexivity|]. split; [apply series_phase_refl|]. now split. }
  destruct (series_creatable (s_id s) (series_input_of s) (store h)) eqn:Hc.
  - rewrite (import_series_new uuidv4 s h Hid Hne Hc). eexists.
    split; [reflexivity|]. cbn [store].
    split; [|split; [now apply foreign_keys_with_series|]].
    + unfold series_phase, with_series, grows.
      cbn [authors publishers series genres topics categories books book_authors
           book_genres book_topics series_authors].
      repeat split; auto using incl_refl, incl_appl.
    + unfold with_series. cbn [series]. now rewrite has_row_app_new, orb_true_r.
  - destruct (@import_series_refused uuidv4 s (store h) Hid Hc (result h)) as (es & Hrun).
    replace (mkHeap (store h) (result h)) with h in Hrun by now destruct h.
    eexists. split; [exact Hrun|]. cbn [store].
    split; [apply series_phase_refl|]. split; [exact Hfk|].
    rewrite (@series_creatable_new (s_id s) (series_input_of s) (store h) Hfk Hrow) in Hc.
    cbn [series_input_of si_authorIds] in Hc. rewrite Hc. apply orb_true_r.
Qed.

Lemma book_settles (b : BookWithRelations) (h : Heap) :
  Js.truthy (b_id b) = true ->
  foreign_keys_ok (store h) = true ->
  exists h',
    import_book uuidv4 b h = (h', inr tt)
    /\ books_phase (store h) (store h')
    /\ foreign_keys_ok (store h') = true
    /\ settled_book (store h') b = true.
Proof.
  intros Hid Hfk. unfold settled_book.
  destruct (Sql.has_book (store h) (b_id b)) eqn:Hrow.
  { exists h. rewrite (import_book_old uuidv4 b h Hrow), Hrow.
    split; [reflexivity|]. split; [apply books_phase_refl|]. now split. }
  destruct (book_creatable (b_id b) (book_input_of b) (store h)) eqn:Hc.
  - rewrite (import_book_new uuidv4 b h Hid Hc). eexists.
    split; [reflexivity|]. cbn [store].
    split; [|split; [now apply foreign_keys_with_book|]].
    + unfold books_phase, with_book, grows.
      cbn [authors publishers series genres topics categories books book_authors
           book_genres book_topics series_authors].
      repeat split; auto using incl_refl, incl_appl.
    + unfold Sql.has_book, with_book. cbn [books]. rewrite existsb_app. cbn [existsb].
      cbn [book_row_of book_id]. rewrite String.eqb_refl. cbn [orb].
      now rewrite orb_true_r.
  - destruct (@import_book_refused uuidv4 b (store h) Hid Hc (result h)) as (es & Hrun).
    replace (mkHeap (store h) (result h)) with h in Hrun by now destruct h.
    eexists. split; [exact Hrun|]. cbn [store].
    split; [apply books_phase_refl|]. split; [exact Hfk|].
    rewrite (@book_creatable_new (b_id b) (book_input_of b) (store h) Hfk Hrow) in Hc.
    unfold placeable. cbn [book_input_of authorIds genreIds topicIds] in Hc |- *.
    rewrite Hc. apply orb_true_r.
Qed.

(** The seven groups of an import run to their end on a store that
    satisfies its foreign keys, which the store they leave satisfies as
    well; there, every record of the batch has nothing left to do. *)
Lemma import_records_settle (data : ExportData) (h0 : Heap) :
  ids_nonempty data = true ->
  foreign_keys_ok (store h0) = true ->
  exists h7,
    import_records uuidv4 data h0 = (h7, inr tt)
    /\ grows (store h0) (store h7)
    /\ foreign_keys_ok (store h7) = true
    /\ settled data (store h7) = true.
Proof.
  unfold ids_nonempty. intros Hids Hfk0.
  apply andb_prop in Hids. destruct Hids as [Hids G7].
  apply andb_prop in Hids. destruct Hids as [Hids G6].
  apply andb_prop in Hids. destruct Hids as [Hids G5].
  apply andb_prop in Hids. destruct Hids as [Hids G4].
  apply andb_prop in Hids. destruct Hids as [Hids G3].
  apply andb_prop in Hids. destruct Hids as [G1 G2].
  destruct (@group_settles NamedRow (import_category uuidv4) (fun x => Js.truthy (id x))
              grows (fun db => settled_row true (categories db)) grows_refl grows_trans
              (fun x E D (Hg : grows E D) =>
                 @settled_row_later true _ _ x
                   (proj1 (proj2 (proj2 (proj2 (proj2 (proj2 Hg)))))))
              (@named_settles categories Stmt.set_categories (import_category uuidv4) _ true
                 (import_category_old uuidv4) (import_category_new uuidv4)
                 (fun r D _ => @import_category_taken uuidv4 r D)
                 (fun db t => eq_refl)
                 (fun db r => ltac:(table_grows))
                 (fun db r Hk => proj1 (foreign_keys_more_rows db r Hk)))
              (data_categories data) h0 G1 Hfk0) as (h1 & R1 & P1 & F1 & D1).
  destruct (@group_settles NamedRow (import_author uuidv4) (fun x => Js.truthy (id x))
              grows (fun db => settled_row false (authors db)) grows_refl grows_trans
              (fun x E D (Hg : grows E D) => @settled_row_later false _ _ x (proj1 Hg))
              (@named_settles authors Stmt.set_authors (import_author uuidv4) _ false
                 (import_author_old uuidv4) (import_author_new uuidv4)
                 (fun r D (Hu : false = true) => ltac:(discriminate Hu))
                 (fun db t => eq_refl)
                 (fun db r => ltac:(table_grows))
                 (fun db r Hk => proj1 (proj2 (foreign_keys_more_rows db r Hk))))
              (data_authors data) h1 G2 F1) as (h2 & R2 & P2 & F2 & D2).
  destruct (@group_settles NamedRow (import_publisher uuidv4) (fun x => Js.truthy (id x))
              grows (fun db => settled_row false (publishers db)) grows_refl grows_trans
              (fun x E D (Hg : grows E D) =>
                 @settled_row_later false _ _ x (proj1 (proj2 Hg)))
              (@named_settles publishers Stmt.set_publishers (import_publisher uuidv4) _ false
                 (import_publisher_old uuidv4) (import_publisher_new uuidv4)
                 (fun r D (Hu : false = true) => ltac:(discriminate Hu))
                 (fun db t => eq_refl)
                 (fun db r => ltac:(table_grows))
                 (fun db r Hk => proj1 (proj2 (proj2 (foreign_keys_more_rows db r Hk)))))
              (data_publishers data) h2 G3 F2) as (h3 & R3 & P3 & F3 & D3).
  destruct (@group_settles NamedRow (import_genre uuidv4) (fun x => Js.truthy (id x))
              grows (fun db => settled_row true (genres db)) grows_refl grows_trans
              (fun x E D (Hg : grows E D) =>
                 @settled_row_later true _ _ x (proj1 (proj2 (proj2 (proj2 Hg)))))
              (@named_settles genres Stmt.set_genres (import_genre uuidv4) _ true
                 (import_genre_old uuidv4) (import_genre_new uuidv4)
                 (fun r D _ => @import_genre_taken uuidv4 r D)
                 (fun db t => eq_refl)
                 (fun db r => ltac:(table_grows))
                 (fun db r Hk =>
                    proj1 (proj2 (proj2 (proj2 (foreign_keys_more_rows db r Hk))))))
              (data_genres data) h3 G4 F3) as (h4 & R4 & P4 & F4 & D4).
  destruct (@group_settles NamedRow (import_topic uuidv4) (fun x => Js.truthy (id x))
              grows (fun db => settled_row true (topics db)) grows_refl grows_trans
              (fun x E D (Hg : grows E D) =>
                 @settled_row_later true _ _ x
                   (proj1 (proj2 (proj2 (proj2 (proj2 Hg))))))
              (@named_settles topics Stmt.set_topics (import_topic uuidv4) _ true
                 (import_topic_old uuidv4) (import_topic_new uuidv4)
                 (fun r D _ => @import_topic_taken uuidv4 r D)
                 (fun db t => eq_refl)
                 (fun db r => ltac:(table_grows))
                 (fun db r Hk =>
                    proj2 (proj2 (proj2 (proj2 (foreign_keys_more_rows db r Hk))))))
              (data_topics data) h4 G5 F4) as (h5 & R5 & P5 & F5 & D5).
  destruct (@group_settles SeriesWithAuthors (import_series uuidv4)
              (fun x => Js.truthy (s_id x)) series_phase settled_series
              series_phase_refl series_phase_trans settled_series_later series_settles
              (data_series data) h5 G6 F5) as (h6 & R6 & P6 & F6 & D6).
  destruct (@group_settles BookWithRelations (import_book uuidv4)
              (fun x => Js.truthy (b_id x)) books_phase settled_book
              books_phase_refl books_phase_trans settled_book_later book_settles
              (data_books data) h6 G7 F6) as (h7 & R7 & P7 & F7 & D7).
  exists h7.
  pose proof (books_phase_grows P7) as X67.
  pose proof (grows_trans (series_phase_grows P6) X67) as X57.
  pose proof (grows_trans P5 X57) as X47.
  pose proof (grows_trans P4 X47) as X37.
  pose proof (grows_trans P3 X37) as X27.
  pose proof (grows_trans P2 X27) as X17.
  split; [|split; [exact (grows_trans P1 X17)|split; [exact F7|]]].
  - unfold import_records, bind. now rewrite R1, R2, R3, R4, R5, R6, R7.
  - unfold settled. repeat (apply andb_true_intro; split).
    + revert D1. apply forallb_impl. intros x _.
      apply settled_row_later, X17.
    + revert D2. apply forallb_impl. intros x _.
      apply settled_row_later, X27.
    + revert D3. apply forallb_impl. intros x _.
      apply settled_row_later, X37.
    + revert D4. apply forallb_impl. intros x _.
      apply settled_row_later, X47.
    + revert D5. apply forallb_impl. intros x _.
      apply settled_row_later, X57.
    + revert D6. apply forallb_impl. intros x _.
      apply settled_series_later, books_phase_series, P7.
    + exact D7.
Qed.

End First_import.

(** *** What the clean-up pass keeps *)

Lemma has_row_filter (p : string -> bool) (t : list NamedRow) (i : string) :
  Sql.has_row (filter (fun r => p (id r)) t) i = Sql.has_row t i && p i.
Proof.
  induction t as [|r t IH]; [reflexivity|]. cbn [filter].
  destruct (p (id r)) eqn:Hp.
  - rewrite !has_row_cons, IH. destruct (String.eqb (id r) i) eqn:E; [|reflexivity].
    apply String.eqb_eq in E. rewrite <- E, Hp. now rewrite andb_true_r.
  - rewrite has_row_cons, IH. destruct (String.eqb (id r) i) eqn:E; [|reflexivity].
    apply String.eqb_eq in E. rewrite <- E, Hp. now rewrite !andb_false_r.
Qed.

Lemma has_row_listed (p : string -> bool) (t : list NamedRow) (i : string) :
  Sql.has_row (map (fun a => mkRow (id a) (name a)) (filter (fun r => p (id r)) t)) i
  = Sql.has_row t i && p i.
Proof.
  rewrite map_unchanged by (intros x _; apply row_eta). apply has_row_filter.
Qed.

(** The rows that the clean-up pass keeps are those that have a book, and
    those that it removes are those that have none. *)
Lemma kept_rows (G : Database) (i : string) :
  Sql.has_row (authors (without_orphans G)) i = Sql.has_row (authors G) i && author_linked G i
  /\ Sql.has_row (publishers (without_orphans G)) i
     = Sql.has_row (publishers G) i && publisher_used G i
  /\ Sql.has_row (series (without_orphans G)) i = Sql.has_row (series G) i && series_used G i
  /\ Sql.has_row (Sql.orphan_authors G) i
     = Sql.has_row (authors G) i && negb (author_linked G i)
  /\ Sql.has_row (Sql.orphan_publishers G) i
     = Sql.has_row (publishers G) i && negb (publisher_used G i)
  /\ Sql.has_row (Sql.orphan_series G) i
     = Sql.has_row (series G) i && negb (series_used G i).
Proof.
  unfold without_orphans, Sql.orphan_authors, Sql.orphan_publishers, Sql.orphan_series.
  cbn [authors publishers series].
  split; [exact (has_row_filter (author_linked G) (authors G) i)|].
  split; [exact (has_row_filter (publisher_used G) (publishers G) i)|].
  split; [exact (has_row_filter (series_used G) (series G) i)|].
  split; [exact (has_row_listed (fun x => negb (author_linked G x)) (authors G) i)|].
  split; [exact (has_row_listed (fun x => negb (publisher_used G x)) (publishers G) i)|].
  exact (has_row_listed (fun x => negb (series_used G x)) (series G) i).
Qed.

Lemma re_added_refl (E G : list NamedRow) : re_added E G E.
Proof. exists []. split; [now rewrite app_nil_r|]. intros r []. Qed.

Lemma re_added_has (E G T : list NamedRow) (i : string) :
  re_added E G T -> Sql.has_row E i = true -> Sql.has_row T i = true.
Proof. intros (more & -> & _) H. now rewrite has_row_more, H. Qed.

Lemma re_added_below (E G T : list NamedRow) :
  (forall i, Sql.has_row E i = true -> Sql.has_row G i = true) ->
  re_added E G T ->
  forall i, Sql.has_row T i = true -> Sql.has_row G i = true.
Proof.
  intros Hsub (more & -> & Hmore) i H. rewrite has_row_more in H.
  apply orb_true_iff in H. destruct H as [H|H]; [now apply Hsub|].
  apply has_row_In in H. destruct H as (r & Hr & <-). now apply Hmore.
Qed.

Lemma re_added_more (E G T : list NamedRow) (r : NamedRow) :
  re_added E G T ->
  Sql.has_row G (id r) = true ->
  Sql.has_row T (id r) = false ->
  re_added E G (T ++ [r]).
Proof.
  intros (more & -> & Hmore) HG HT. exists (more ++ [r]).
  split; [now rewrite app_assoc|].
  intros x Hx. apply in_app_or in Hx. destruct Hx as [Hx|[<-|[]]]; [now apply Hmore|].
  split; [exact HG|]. rewrite has_row_more in HT. now apply orb_false_iff in HT.
Qed.

(** The rows that are added again have no book, and are removed again. *)
Lemma re_added_filter (p : string -> bool) (G T : list NamedRow) :
  re_added (filter (fun r => p (id r)) G) G T ->
  filter (fun r => p (id r)) T = filter (fun r => p (id r)) G.
Proof.
  intros (more & -> & Hmore). rewrite filter_app, filter_twice.
  rewrite (@filter_none _ (fun r => p (id r)) more); [apply app_nil_r|].
  intros r Hr. destruct (Hmore r Hr) as [HG HE].
  rewrite has_row_filter, HG in HE. exact HE.
Qed.

(** *** The second import *)

Lemma tally_refl (ka kp ks : Prop) (r : ImportExportService.ImportResult) :
  tally ka kp ks r r.
Proof. unfold tally. repeat split; reflexivity. Qed.

Lemma tally_trans (ka kp ks : Prop) (a b c : ImportExportService.ImportResult) :
  tally ka kp ks a b -> tally ka kp ks b c -> tally ka kp ks a c.
Proof.
  unfold tally. intros (A1 & A2 & A3 & A4 & A5 & A6 & A7) (B1 & B2 & B3 & B4 & B5 & B6 & B7).
  repeat split; try congruence.
  - intros K. rewrite (B5 K). now apply A5.
  - intros K. rewrite (B6 K). now apply A6.
  - intros K. rewrite (B7 K). now apply A7.
Qed.

Lemma tally_errors (ka kp ks : Prop) (r : ImportExportService.ImportResult)
    (es : list string) :
  tally ka kp ks r (with_errors r es).
Proof. unfold tally, with_errors. cbn. repeat split; reflexivity. Qed.

Lemma counted_rows_refl (h : ImportExportService.Heap) : counted_rows h h.
Proof. unfold counted_rows. repeat split; reflexivity. Qed.

Lemma counted_rows_trans (a b c : ImportExportService.Heap) :
  counted_rows a b -> counted_rows b c -> counted_rows a c.
Proof. unfold counted_rows. intros (A1 & A2 & A3) (B1 & B2 & B3). repeat split; lia. Qed.

Section Replay.

Import ImportExportService.

Variable uuidv4 : Database -> string.
Variable G : Database.
Variables ka kp ks : Prop.

(** A loop of steps that run to their end and keep the store as a replay
    of [G]. *)
Lemma for_each_replays {X : Type} (step : X -> M Heap unit) (l : list X) :
  (forall x h,
     In x l ->
     replays G (store h) ->
     exists h',
       step x h = (h', inr tt)
       /\ replays G (store h')
       /\ tally ka kp ks (result h) (result h')
       /\ counted_rows h h') ->
  forall h,
    replays G (store h) ->
    exists h',
      for_each l step h = (h', inr tt)
      /\ replays G (store h')
      /\ tally ka kp ks (result h) (result h')
      /\ counted_rows h h'.
Proof.
  induction l as [|x l IH]; intros Hstep h Hh.
  - exists h. split; [reflexivity|]. split; [exact Hh|].
    split; [apply tally_refl|apply counted_rows_refl].
  - destruct (Hstep x h (or_introl eq_refl) Hh) as (h1 & R1 & I1 & T1 & C1).
    destruct (IH (fun y k Hy => Hstep y k (or_intror Hy)) h1 I1) as (h2 & R2 & I2 & T2 & C2).
    exists h2. cbn [for_each]. unfold bind at 1. rewrite R1.
    split; [exact R2|]. split; [exact I2|].
    split; [exact (tally_trans T1 T2)|exact (counted_rows_trans C1 C2)].
Qed.

(** A step that is inert keeps the store and the counts. *)
Lemma inert_replays (step : M Heap unit) (h : Heap) :
  inert step (store h) ->
  replays G (store h) ->
  exists h',
    step h = (h', inr tt)
    /\ replays G (store h')
    /\ tally ka kp ks (result h) (result h')
    /\ counted_rows h h'.
Proof.
  intros Hinert Hh. destruct (Hinert (result h)) as (es & Hrun).
  replace (mkHeap (store h) (result h)) with h in Hrun by now destruct h.
  eexists. split; [exact Hrun|]. cbn [store result].
  split; [exact Hh|]. split; [apply tally_errors|].
  unfold counted_rows, with_errors. cbn. repeat split; reflexivity.
Qed.

Lemma kept_in_handed (i : string) :
  (Sql.has_row (authors (without_orphans G)) i = true -> Sql.has_row (authors G) i = true)
  /\ (Sql.has_row (publishers (without_orphans G)) i = true ->
      Sql.has_row (publishers G) i = true)
  /\ (Sql.has_row (series (without_orphans G)) i = true -> Sql.has_row (series G) i = true).
Proof.
  destruct (kept_rows G i) as (H1 & H2 & H3 & _). rewrite H1, H2, H3.
  repeat split; intros H; apply andb_prop in H; now destruct H.
Qed.

Lemma replays_below (S : Database) (i : string) :
  replays G S ->
  (Sql.has_row (authors S) i = true -> Sql.has_row (authors G) i = true)
  /\ (Sql.has_row (publishers S) i = true -> Sql.has_row (publishers G) i = true)
  /\ (Sql.has_row (series S) i = true -> Sql.has_row (series G) i = true).
Proof.
  intros (_ & _ & _ & _ & _ & _ & _ & Ha & Hp & Hs & _).
  split; [|split].
  - apply (re_added_below (fun x => proj1 (kept_in_handed x)) Ha).
  - apply (re_added_below (fun x => proj1 (proj2 (kept_in_handed x))) Hp).
  - apply (re_added_below (fun x => proj2 (proj2 (kept_in_handed x))) Hs).
Qed.

(** The store that the first import left is a replay of [G]. *)
Lemma replays_start : replays G (without_orphans G).
Proof.
  unfold replays. repeat (split; [reflexivity|]).
  split; [apply re_added_refl|]. split; [apply re_added_refl|].
  split; [apply re_added_refl|]. exists []. split; [now rewrite app_nil_r|]. intros l [].
Qed.

(** An author of the batch is passed over or added again; it is passed
    over when the clean-up pass had kept it. *)
Lemma author_replays (a : NamedRow) (h : Heap) :
  Js.truthy (id a) = true ->
  Sql.has_row (authors G) (id a) = true ->
  (ka -> Sql.has_row (authors (without_orphans G)) (id a) = true) ->
  replays G (store h) ->
  exists h',
    import_author uuidv4 a h = (h', inr tt)
    /\ replays G (store h')
    /\ tally ka kp ks (result h) (result h')
    /\ counted_rows h h'.
Proof.
  intros Hid HG Hkept Hh.
  destruct (Sql.has_row (authors (store h)) (id a)) eqn:Hrow.
  - exists h. rewrite (import_author_old uuidv4 a h Hrow).
    split; [reflexivity|]. split; [exact Hh|].
    split; [apply tally_refl|apply counted_rows_refl].
  - rewrite (import_author_new uuidv4 a h Hid Hrow) by discriminate.
    eexists. split; [reflexivity|]. cbn [store result]. split.
    + destruct Hh as (H1 & H2 & H3 & H4 & H5 & H6 & H7 & Ha & Hp & Hs & Hl).
      unfold replays.
      cbn [Stmt.set_authors authors publishers series genres topics categories books
           book_authors book_genres book_topics series_authors].
      do 7 (split; [assumption|]).
      split; [now apply re_added_more|]. split; [exact Hp|]. split; [exact Hs|exact Hl].
    + split.
      * unfold tally. cbn. repeat split; try reflexivity.
        intros K.
        destruct Hh as (_ & _ & _ & _ & _ & _ & _ & Ha & _).
        rewrite (re_added_has _ Ha (Hkept K)) in Hrow. discriminate.
      * unfold counted_rows. cbn. rewrite length_app. cbn. repeat split; lia.
Qed.

Lemma publisher_replays (p : NamedRow) (h : Heap) :
  Js.truthy (id p) = true ->
  Sql.has_row (publishers G) (id p) = true ->
  (kp -> Sql.has_row (publishers (without_orphans G)) (id p) = true) ->
  replays G (store h) ->
  exists h',
    import_publisher uuidv4 p h = (h', inr tt)
    /\ replays G (store h')
    /\ tally ka kp ks (result h) (result h')
    /\ counted_rows h h'.
Proof.
  intros Hid HG Hkept Hh.
  destruct (Sql.has_row (publishers (store h)) (id p)) eqn:Hrow.
  - exists h. rewrite (import_publisher_old uuidv4 p h Hrow).
    split; [reflexivity|]. split; [exact Hh|].
    split; [apply tally_refl|apply counted_rows_refl].
  - rewrite (import_publisher_new uuidv4 p h Hid Hrow) by discriminate.
    eexists. split; [reflexivity|]. cbn [store result]. split.
    + destruct Hh as (H1 & H2 & H3 & H4 & H5 & H6 & H7 & Ha & Hp & Hs & Hl).
      unfold replays.
      cbn [Stmt.set_publishers authors publishers series genres topics categories books
           book_authors book_genres book_topics series_authors].
      do 7 (split; [assumption|]).
      split; [exact Ha|]. split; [now apply re_added_more|]. split; [exact Hs|exact Hl].
    + split.
      * unfold tally. cbn. repeat split; try reflexivity.
        intros K.
        destruct Hh as (_ & _ & _ & _ & _ & _ & _ & _ & Hp & _).
        rewrite (re_added_has _ Hp (Hkept K)) in Hrow. discriminate.
      * unfold counted_rows. cbn. rewrite length_app. cbn. repeat split; lia.
Qed.

(** A series of the batch is passed over, refused or added again; it is
    not added again when the clean-up pass had kept it. *)
Lemma series_replays (s : SeriesWithAuthors) (h : Heap) :
  Js.truthy (s_id s) = true ->
  settled_series G s = true ->
  (ks -> Sql.has_row (series G) (s_id s) = true ->
         Sql.has_row (series (without_orphans G)) (s_id s) = true) ->
  replays G (store h) ->
  exists h',
    import_series uuidv4 s h = (h', inr tt)
    /\ replays G (store h')
    /\ tally ka kp ks (result h) (result h')
    /\ counted_rows h h'.
Proof.
  intros Hid Hsettled Hkept Hh.
  destruct (Sql.has_row (series (store h)) (s_id s)) eqn:Hrow.
  { exists h. rewrite (import_series_old uuidv4 s h Hrow).
    split; [reflexivity|]. split; [exact Hh|].
    split; [apply tally_refl|apply counted_rows_refl]. }
  destruct (nonempty (map id (s_authors s))) eqn:Hne.
  2:{ exists h. rewrite (import_series_skips_empty uuidv4 s h Hne).
      split; [reflexivity|]. split; [exact Hh|].
    split; [apply tally_refl|apply counted_rows_refl]. }
  destruct (series_creatable (s_id s) (series_input_of s) (store h)) eqn:Hc.
  2:{ apply inert_replays; [|exact Hh]. now apply import_series_refused. }
  assert (HG : Sql.has_row (series G) (s_id s) = true).
  { unfold settled_series in Hsettled. rewrite Hne in Hsettled. cbn [negb orb] in Hsettled.
    apply orb_true_iff in Hsettled. destruct Hsettled as [H|H]; [exact H|].
    apply negb_true_iff in H.
    unfold series_creatable in Hc. apply andb_prop in Hc. destruct Hc as [_ Hc].
    apply linkable_is_listable in Hc. cbn [series_input_of si_authorIds] in Hc.
    rewrite (@listable_below (authors (store h)) (authors G) _
               (fun x => proj1 (replays_below x Hh)) Hc) in H.
    discriminate. }
  assert (HE : Sql.has_row (series (without_orphans G)) (s_id s) = false).
  { destruct (Sql.has_row (series (without_orphans G)) (s_id s)) eqn:E; [|reflexivity].
    destruct Hh as (_ & _ & _ & _ & _ & _ & _ & _ & _ & Hs & _).
    rewrite (re_added_has _ Hs E) in Hrow. discriminate. }
  rewrite (import_series_new uuidv4 s h Hid Hne Hc).
  eexists. split; [reflexivity|]. cbn [store result]. split.
  - destruct Hh as (H1 & H2 & H3 & H4 & H5 & H6 & H7 & Ha & Hp & Hs & links & Hl & Hlinks).
    unfold replays, with_series.
    cbn [authors publishers series genres topics categories books
         book_authors book_genres book_topics series_authors].
    do 7 (split; [assumption|]).
    split; [exact Ha|]. split; [exact Hp|].
    split; [apply (re_added_more (mkRow (s_id s) (s_name s)) Hs HG Hrow)|].
    exists (links ++ map (fun x => (s_id s, x)) (map id (s_authors s))).
    split; [now rewrite Hl, app_assoc|].
    intros l Hin. apply in_app_or in Hin. destruct Hin as [Hin|Hin].
    + destruct (Hlinks l Hin) as [K1 K2]. split; [|exact K2].
      now rewrite has_row_more, K1.
    + apply in_map_iff in Hin. destruct Hin as (x & <- & _). cbn [fst].
      split; [apply has_row_app_new|exact HE].
  - split.
    + unfold tally. cbn. repeat split; try reflexivity.
      intros K. rewrite (Hkept K HG) in HE. discriminate.
    + unfold counted_rows, with_series. cbn. rewrite length_app. cbn. repeat split; lia.
Qed.

(** A book of the batch is passed over or refused. *)
Lemma book_replays (b : BookWithRelations) (h : Heap) :
  Js.truthy (b_id b) = true ->
  settled_book G b = true ->
  replays G (store h) ->
  exists h',
    import_book uuidv4 b h = (h', inr tt)
    /\ replays G (store h')
    /\ tally ka kp ks (result h) (result h')
    /\ counted_rows h h'.
Proof.
  intros Hid Hsettled Hh.
  destruct (Sql.has_book (store h) (b_id b)) eqn:Hrow.
  { exists h. rewrite (import_book_old uuidv4 b h Hrow).
    split; [reflexivity|]. split; [exact Hh|].
    split; [apply tally_refl|apply counted_rows_refl]. }
  apply inert_replays; [|exact Hh]. apply import_book_refused; [exact Hid|].
  destruct (book_creatable (b_id b) (book_input_of b) (store h)) eqn:Hc; [|reflexivity].
  exfalso.
  pose proof Hh as (H1 & H2 & H3 & H4 & H5 & H6 & H7 & _).
  unfold settled_book in Hsettled.
  assert (HG : Sql.has_book G (b_id b) = false).
  { unfold Sql.has_book in Hrow |- *. now rewrite <- H4. }
  rewrite HG in Hsettled. cbn [orb] in Hsettled. apply negb_true_iff in Hsettled.
  unfold book_creatable in Hc.
  apply andb_prop in Hc. destruct Hc as [Hc Ht].
  apply andb_prop in Hc. destruct Hc as [Hc Hg].
  apply andb_prop in Hc. destruct Hc as [Hc Ha].
  apply andb_prop in Hc. destruct Hc as [_ Hfk].
  apply linkable_is_listable in Ha, Hg, Ht.
  cbn [book_input_of authorIds genreIds topicIds] in Ha, Hg, Ht.
  unfold placeable in Hsettled.
  rewrite (@listable_below (authors (store h)) (authors G) _
             (fun x => proj1 (replays_below x Hh)) Ha) in Hsettled.
  rewrite <- H1, <- H2, Hg, Ht in Hsettled. rewrite !andb_true_r in Hsettled.
  unfold Stmt.book_fks_ok in Hfk, Hsettled.
  apply andb_prop in Hfk. destruct Hfk as [Hfk K3].
  apply andb_prop in Hfk. destruct Hfk as [K1 K2].
  rewrite (proj1 (proj2 (replays_below _ Hh)) K1) in Hsettled.
  rewrite <- H3, K2 in Hsettled. cbn [andb] in Hsettled.
  destruct (series_id (book_row_of (b_id b) (book_input_of b))); [|discriminate].
  rewrite (proj2 (proj2 (replays_below _ Hh)) K3) in Hsettled. discriminate.
Qed.

End Replay.

Lemma filter_kept_and_dropped {A : Type} (f g : A -> bool) (kept dropped : list A) :
  (forall x, In x kept -> g x = true /\ f x = true) ->
  (forall x, In x dropped -> f x = false) ->
  filter f (filter g (kept ++ dropped)) = kept.
Proof.
  intros Hkept Hdropped. rewrite !filter_app.
  rewrite (@filter_all _ g kept) by (intros x Hx; apply (Hkept x Hx)).
  rewrite (@filter_all _ f kept) by (intros x Hx; apply (Hkept x Hx)).
  rewrite (@filter_none _ f (filter g dropped)); [apply app_nil_r|].
  intros x Hx. apply filter_In in Hx. now apply Hdropped.
Qed.

(** After a replay of [G], the clean-up pass leaves what it left of
    [G]. *)
Lemma replays_cleanup (G S : Database) :
  foreign_keys_ok G = true ->
  replays G S ->
  without_orphans S = without_orphans G.
Proof.
  intros Hfk Hh.
  assert (Hbelow : forall i, Sql.has_row (series S) i = true -> Sql.has_row (series G) i = true)
    by (intros i; apply (replays_below i Hh)).
  destruct Hh as (H1 & H2 & H3 & H4 & H5 & H6 & H7 & Ha & Hp & Hs & links & Hl & Hlinks).
  assert (Hlinked : forall i, author_linked S i = author_linked G i)
    by (intros i; unfold author_linked; now rewrite H5).
  assert (Hused : forall i, series_used S i = series_used G i)
    by (intros i; unfold series_used; now rewrite H4).
  assert (Hsa : series_authors (without_orphans S) = series_authors (without_orphans G)).
  { unfold without_orphans at 1. cbn [series_authors]. rewrite Hl.
    apply filter_kept_and_dropped.
    - intros x Hx. unfold without_orphans in Hx. cbn [series_authors] in Hx.
      apply filter_In in Hx. destruct Hx as [Hx Hns]. apply filter_In in Hx.
      destruct Hx as [Hx Hna]. apply negb_true_iff in Hns, Hna.
      destruct (kept_rows G (snd x)) as (_ & _ & _ & Ka & _). rewrite Ka in Hna.
      destruct (kept_rows G (fst x)) as (_ & _ & _ & _ & _ & Ks). rewrite Ks in Hns.
      destruct (kept_rows S (snd x)) as (_ & _ & _ & Ka' & _). rewrite Ka', Hlinked.
      destruct (kept_rows S (fst x)) as (_ & _ & _ & _ & _ & Ks'). rewrite Ks', Hused.
      unfold foreign_keys_ok in Hfk. apply andb_prop in Hfk. destruct Hfk as [_ Hfk].
      rewrite forallb_forall in Hfk. apply Hfk in Hx. apply andb_prop in Hx.
      destruct Hx as [Hx1 Hx2]. rewrite Hx1 in Hns. rewrite Hx2 in Hna.
      cbn [andb] in Hns, Hna. apply negb_false_iff in Hns, Hna. rewrite Hns, Hna.
      cbn [negb]. now rewrite !andb_false_r.
    - intros x Hx. destruct (Hlinks x Hx) as [K1 K2].
      destruct (kept_rows S (fst x)) as (_ & _ & _ & _ & _ & K'). rewrite K', K1, Hused.
      destruct (kept_rows G (fst x)) as (_ & _ & K & _). rewrite K, (Hbelow _ K1) in K2.
      cbn [andb] in K2 |- *. now rewrite K2. }
  rewrite <- (database_eta (without_orphans S)), <- (database_eta (without_orphans G)), Hsa.
  unfold without_orphans.
  cbn [authors publishers series genres topics categories books book_authors book_genres
       book_topics].
  rewrite H1, H2, H3, H4, H5, H6, H7.
  f_equal.
  - exact (re_added_filter (author_linked G) Ha).
  - exact (re_added_filter (publisher_used G) Hp).
  - exact (re_added_filter (series_used G) Hs).
Qed.

(** The import runs its seven groups and then its clean-up pass. *)
Lemma import_groups_records (uuidv4 : Database -> string)
    (data : ImportExportService.ExportData) (h : ImportExportService.Heap) :
  ImportExportService.import_groups uuidv4 data h
  = (import_records uuidv4 data ;; ImportExportService.import_cleanup) h.
Proof.
  unfold ImportExportService.import_groups, import_records, bind.
  repeat match goal with
         | |- context [for_each ?l ?f ?k] =>
             destruct (for_each l f k) as [? [?|[]]]; try reflexivity
         end.
Qed.

(** An import whose file carries a version, and whose seven groups run
    to their end, leaves the store that they built without its orphans,
    and reports their counts. *)
Lemma import_outcome (uuidv4 : Database -> string) (data : ImportExportService.ExportData)
    (db : Database) (h7 : ImportExportService.Heap) :
  Js.truthy (ImportExportService.version data) = true ->
  import_records uuidv4 data
    (ImportExportService.mkHeap db ImportExportService.initial_result) = (h7, inr tt) ->
  exists r,
    ImportExportService.importFromJson uuidv4 data db
    = (without_orphans (ImportExportService.store h7), r)
    /\ tally True True True (ImportExportService.result h7) r.
Proof.
  intros Hv Hrun.
  destruct (import_cleanup_run h7) as (r' & Hc & C1 & C2 & C3 & C4 & C5 & C6 & C7).
  unfold ImportExportService.importFromJson, try_catch, ImportExportService.transaction_heap.
  rewrite Hv. cbn [negb]. unfold bind at 1. rewrite import_groups_records.
  unfold bind at 1. rewrite Hrun, Hc.
  unfold ImportExportService.set_success, ImportExportService.on_result, modify.
  cbn [ImportExportService.store ImportExportService.result].
  eexists. split; [reflexivity|]. unfold tally. cbn. repeat split; auto.
Qed.

(** Without a version the import stops before it reads or writes. *)
Lemma import_without_version (uuidv4 : Database -> string)
    (data : ImportExportService.ExportData) (db : Database) :
  Js.truthy (ImportExportService.version data) = false ->
  ImportExportService.importFromJson uuidv4 data db
  = (db, ImportExportService.mkResult false 0 0 0 0 0 0 0
           ["Invalid export file: missing version"]).
Proof.
  intros Hv.
  unfold ImportExportService.importFromJson, try_catch, ImportExportService.push_error,
    ImportExportService.on_result, modify.
  rewrite Hv. reflexivity.
Qed.

Section Second_import.

Import ImportExportService.

Variable uuidv4 : Database -> string.
Variable data : ExportData.
Variable G : Database.

Hypothesis data_ids : ids_nonempty data = true.
Hypothesis G_settled : settled data G = true.

(** Imported again on what the clean-up pass left of [G], the seven
    groups run to their end on a replay of [G]; they count no book, genre,
    topic or category, and no author, publisher or series unless the
    clean-up pass had removed one of the batch. *)
Lemma import_records_replay (r0 : ImportResult) :
  exists h7,
    import_records uuidv4 data (mkHeap (without_orphans G) r0) = (h7, inr tt)
    /\ replays G (store h7)
    /\ tally (spares_authors data G = true) (spares_publishers data G = true)
         (spares_series data G = true) r0 (result h7)
    /\ counted_rows (mkHeap (without_orphans G) r0) h7.
Proof.
  set (ka := spares_authors data G = true).
  set (kp := spares_publishers data G = true).
  set (ks := spares_series data G = true).
  pose proof data_ids as Hids. unfold ids_nonempty in Hids.
  apply andb_prop in Hids. destruct Hids as [Hids I7].
  apply andb_prop in Hids. destruct Hids as [Hids I6].
  apply andb_prop in Hids. destruct Hids as [Hids I5].
  apply andb_prop in Hids. destruct Hids as [Hids I4].
  apply andb_prop in Hids. destruct Hids as [Hids I3].
  apply andb_prop in Hids. destruct Hids as [I1 I2].
  pose proof G_settled as Hset. unfold settled in Hset.
  apply andb_prop in Hset. destruct Hset as [Hset S7].
  apply andb_prop in Hset. destruct Hset as [Hset S6].
  apply andb_prop in Hset. destruct Hset as [Hset S5].
  apply andb_prop in Hset. destruct Hset as [Hset S4].
  apply andb_prop in Hset. destruct Hset as [Hset S3].
  apply andb_prop in Hset. destruct Hset as [S1 S2].
  rewrite forallb_forall in I1, I2, I3, I4, I5, I6, I7, S1, S2, S3, S4, S5, S6, S7.
  destruct (@for_each_replays G ka kp ks NamedRow (import_category uuidv4)
              (data_categories data)) with (h := mkHeap (without_orphans G) r0)
    as (h1 & R1 & P1 & T1 & C1); [|apply replays_start|].
  { intros x h Hx Hh. apply inert_replays; [|exact Hh].
    apply (@named_inert categories (import_category uuidv4) true
             (import_category_old uuidv4) (fun r D _ => @import_category_taken uuidv4 r D));
      [now apply I1|].
    destruct Hh as (_ & _ & -> & _). now apply S1. }
  destruct (@for_each_replays G ka kp ks NamedRow (import_author uuidv4)
              (data_authors data)) with (h := h1) as (h2 & R2 & P2 & T2 & C2); [|exact P1|].
  { intros x h Hx Hh.
    assert (HG : Sql.has_row (authors G) (id x) = true).
    { specialize (S2 x Hx). unfold settled_row in S2. cbn [andb] in S2.
      now rewrite orb_false_r in S2. }
    apply author_replays; [now apply I2|exact HG| |exact Hh].
    intros K. unfold ka, spares_authors in K. rewrite forallb_forall in K.
    specialize (K x Hx). apply negb_true_iff in K.
    destruct (kept_rows G (id x)) as (K1 & _ & _ & K4 & _).
    rewrite K4, HG in K. cbn [andb] in K. apply negb_false_iff in K.
    now rewrite K1, HG, K. }
  destruct (@for_each_replays G ka kp ks NamedRow (import_publisher uuidv4)
              (data_publishers data)) with (h := h2) as (h3 & R3 & P3 & T3 & C3); [|exact P2|].
  { intros x h Hx Hh.
    assert (HG : Sql.has_row (publishers G) (id x) = true).
    { specialize (S3 x Hx). unfold settled_row in S3. cbn [andb] in S3.
      now rewrite orb_false_r in S3. }
    apply publisher_replays; [now apply I3|exact HG| |exact Hh].
    intros K. unfold kp, spares_publishers in K. rewrite forallb_forall in K.
    specialize (K x Hx). apply negb_true_iff in K.
    destruct (kept_rows G (id x)) as (_ & K2 & _ & _ & K5 & _).
    rewrite K5, HG in K. cbn [andb] in K. apply negb_false_iff in K.
    now rewrite K2, HG, K. }
  destruct (@for_each_replays G ka kp ks NamedRow (import_genre uuidv4)
              (data_genres data)) with (h := h3) as (h4 & R4 & P4 & T4 & C4); [|exact P3|].
  { intros x h Hx Hh. apply inert_replays; [|exact Hh].
    apply (@named_inert genres (import_genre uuidv4) true
             (import_genre_old uuidv4) (fun r D _ => @import_genre_taken uuidv4 r D));
      [now apply I4|].
    destruct Hh as (-> & _). now apply S4. }
  destruct (@for_each_replays G ka kp ks NamedRow (import_topic uuidv4)
              (data_topics data)) with (h := h4) as (h5 & R5 & P5 & T5 & C5); [|exact P4|].
  { intros x h Hx Hh. apply inert_replays; [|exact Hh].
    apply (@named_inert topics (import_topic uuidv4) true
             (import_topic_old uuidv4) (fun r D _ => @import_topic_taken uuidv4 r D));
      [now apply I5|].
    destruct Hh as (_ & -> & _). now apply S5. }
  destruct (@for_each_replays G ka kp ks SeriesWithAuthors (import_series uuidv4)
              (data_series data)) with (h := h5) as (h6 & R6 & P6 & T6 & C6); [|exact P5|].
  { intros x h Hx Hh.
    apply series_replays; [now apply I6|now apply S6| |exact Hh].
    intros K HG. unfold ks, spares_series in K. rewrite forallb_forall in K.
    specialize (K x Hx). apply negb_true_iff in K.
    destruct (kept_rows G (s_id x)) as (_ & _ & K3 & _ & _ & K6).
    rewrite K6, HG in K. cbn [andb] in K. apply negb_false_iff in K.
    now rewrite K3, HG, K. }
  destruct (@for_each_replays G ka kp ks BookWithRelations (import_book uuidv4)
              (data_books data)) with (h := h6) as (h7 & R7 & P7 & T7 & C7); [|exact P6|].
  { intros x h Hx Hh. apply book_replays; [now apply I7|now apply S7|exact Hh]. }
  exists h7. split; [|split; [exact P7|split]].
  - unfold import_records, bind. now rewrite R1, R2, R3, R4, R5, R6, R7.
  - cbn [result] in T1.
    exact (tally_trans T1 (tally_trans T2 (tally_trans T3 (tally_trans T4
             (tally_trans T5 (tally_trans T6 T7)))))).
  - exact (counted_rows_trans C1 (counted_rows_trans C2 (counted_rows_trans C3
             (counted_rows_trans C4 (counted_rows_trans C5 (counted_rows_trans C6 C7)))))).
Qed.

End Second_import.

(** What the clean-up pass leaves satisfies the foreign keys. *)
Lemma foreign_keys_without_orphans (G : Database) :
  foreign_keys_ok G = true -> foreign_keys_ok (without_orphans G) = true.
Proof.
  intros Hfk. pose proof Hfk as Hfacts. unfold foreign_keys_ok in Hfacts.
  repeat (apply andb_prop in Hfacts; destruct Hfacts as [Hfacts ?]).
  repeat match goal with
         | F : forallb _ _ = true |- _ => rewrite forallb_forall in F
         end.
  assert (Hbooks : forall i, Sql.has_book (without_orphans G) i = Sql.has_book G i)
    by reflexivity.
  unfold foreign_keys_ok. repeat (apply andb_true_intro; split); apply forallb_forall.
  - intros b Hb. change (In b (books G)) in Hb. pose proof (Hfacts b Hb) as Hok.
    unfold Stmt.book_fks_ok in Hok |- *.
    apply andb_prop in Hok. destruct Hok as [Hok K3].
    apply andb_prop in Hok. destruct Hok as [K1 K2].
    destruct (kept_rows G (publisher_id b)) as (_ & -> & _). rewrite K1.
    change (categories (without_orphans G)) with (categories G). rewrite K2.
    assert (Hp : publisher_used G (publisher_id b) = true).
    { unfold publisher_used. apply existsb_exists. exists b.
      split; [exact Hb|apply String.eqb_refl]. }
    rewrite Hp. cbn [andb]. destruct (series_id b) as [sid|] eqn:Es; [|reflexivity].
    destruct (kept_rows G sid) as (_ & _ & -> & _). rewrite K3. cbn [andb].
    unfold series_used. apply existsb_exists. exists b. split; [exact Hb|].
    unfold Sql.series_is. rewrite Es. apply String.eqb_refl.
  - intros l Hl. change (In l (book_authors G)) in Hl.
    match goal with
    | F : forall x, In x (book_authors G) -> _ |- _ => pose proof (F l Hl) as Hok
    end.
    apply andb_prop in Hok. destruct Hok as [K1 K2]. rewrite Hbooks, K1. cbn [andb].
    destruct (kept_rows G (snd l)) as (-> & _). rewrite K2. cbn [andb].
    unfold author_linked. apply existsb_exists. exists l.
    split; [exact Hl|apply String.eqb_refl].
  - intros l Hl. change (In l (book_genres G)) in Hl.
    match goal with
    | F : forall x, In x (book_genres G) -> _ |- _ => exact (F l Hl)
    end.
  - intros l Hl. change (In l (book_topics G)) in Hl.
    match goal with
    | F : forall x, In x (book_topics G) -> _ |- _ => exact (F l Hl)
    end.
  - intros l Hl. unfold without_orphans in Hl. cbn [series_authors] in Hl.
    apply filter_In in Hl. destruct Hl as [Hl Hns]. apply filter_In in Hl.
    destruct Hl as [Hl Hna]. apply negb_true_iff in Hns, Hna.
    match goal with
    | F : forall x, In x (series_authors G) -> _ |- _ => pose proof (F l Hl) as Hok
    end.
    apply andb_prop in Hok. destruct Hok as [K1 K2].
    destruct (kept_rows G (fst l)) as (_ & _ & E3 & _ & _ & E6).
    destruct (kept_rows G (snd l)) as (E1 & _ & _ & E4 & _).
    rewrite E6, K1 in Hns. rewrite E4, K2 in Hna. cbn [andb] in Hns, Hna.
    apply negb_false_iff in Hns, Hna. now rewrite E3, E1, K1, K2, Hns, Hna.
Qed.

(** When the second run adds no author, the clean-up pass of the first
    had removed no author of the batch; and likewise for publishers. *)
Lemma spared_when_not_added (data : ImportExportService.ExportData) (G S : Database) :
  settled data S = true ->
  replays G S ->
  (length (authors S) = length (authors (without_orphans G)) ->
   spares_authors data G = true)
  /\ (length (publishers S) = length (publishers (without_orphans G)) ->
      spares_publishers data G = true).
Proof.
  intros Hset (_ & _ & _ & _ & _ & _ & _ & Ha & Hp & _).
  unfold settled in Hset.
  repeat (apply andb_prop in Hset; destruct Hset as [Hset ?]).
  repeat match goal with
         | F : forallb _ _ = true |- _ => rewrite forallb_forall in F
         end.
  assert (Hsame : forall (E T : list NamedRow) (more : list NamedRow),
             T = E ++ more -> length T = length E -> T = E).
  { intros E T more -> Hlen. rewrite length_app in Hlen.
    destruct more; [apply app_nil_r|cbn in Hlen; lia]. }
  split; intros Hlen.
  - destruct Ha as (more & Hmore & _). rewrite (Hsame _ _ _ Hmore Hlen) in *.
    unfold spares_authors. apply forallb_forall. intros a Hin.
    match goal with
    | F : forall x, In x (ImportExportService.data_authors data) -> _ |- _ =>
        pose proof (F a Hin) as Hrow
    end.
    unfold settled_row in Hrow. cbn [andb] in Hrow. rewrite orb_false_r in Hrow.
    destruct (kept_rows G (id a)) as (E1 & _ & _ & E4 & _).
    rewrite E1 in Hrow. apply andb_prop in Hrow. destruct Hrow as [K1 K2].
    now rewrite E4, K1, K2.
  - destruct Hp as (more & Hmore & _). rewrite (Hsame _ _ _ Hmore Hlen) in *.
    unfold spares_publishers. apply forallb_forall. intros a Hin.
    match goal with
    | F : forall x, In x (ImportExportService.data_publishers data) -> _ |- _ =>
        pose proof (F a Hin) as Hrow
    end.
    unfold settled_row in Hrow. cbn [andb] in Hrow. rewrite orb_false_r in Hrow.
    destruct (kept_rows G (id a)) as (_ & E2 & _ & _ & E5 & _).
    rewrite E2 in Hrow. apply andb_prop in Hrow. destruct Hrow as [K1 K2].
    now rewrite E5, K1, K2.
Qed.

(** C7, as the code has it.  Take a store that satisfies its foreign
    keys and a batch whose records all carry a non-empty identifier.
    Importing the batch again leaves the store exactly as the first import
    left it.  The second run imports no book, no genre, no topic and no
    category.  It imports no author when the clean-up pass that closed
    the first import removed no author of the batch, and only then; the
    same holds of publishers.  It imports no series when that clean-up
    pass removed no series of the batch.  In every case the authors,
    publishers and series that the second run counts are rows that it adds
    to what the first import left, and that its own clean-up pass removes
    again.  [handed] and [handed_again] are the stores on which the
    clean-up passes of the two imports run. *)
Theorem import_again_changes_nothing :
  forall (uuidv4 : Database -> string) (data : ImportExportService.ExportData)
         (db : Database),
    ids_nonempty data = true ->
    foreign_keys_ok db = true ->
    let once := ImportExportService.importFromJson uuidv4 data db in
    let again := ImportExportService.importFromJson uuidv4 data (fst once) in
    let handed := before_cleanup uuidv4 data db in
    let handed_again := before_cleanup uuidv4 data (fst once) in
    fst again = fst once
    /\ ImportExportService.booksImported (snd again) = 0
    /\ ImportExportService.genresImported (snd again) = 0
    /\ ImportExportService.topicsImported (snd again) = 0
    /\ ImportExportService.categoriesImported (snd again) = 0
    /\ (spares_authors data handed = true ->
        ImportExportService.authorsImported (snd again) = 0)
    /\ (spares_publishers data handed = true ->
        ImportExportService.publishersImported (snd again) = 0)
    /\ (spares_series data handed = true ->
        ImportExportService.seriesImported (snd again) = 0)
    /\ (Js.truthy (ImportExportService.version data) = true ->
        fst once = fst (DomainService.cleanupOrphans handed)
        /\ fst again = fst (DomainService.cleanupOrphans handed_again)
        /\ length (authors handed_again)
           = length (authors (fst once)) + ImportExportService.authorsImported (snd again)
        /\ length (publishers handed_again)
           = length (publishers (fst once))
             + ImportExportService.publishersImported (snd again)
        /\ length (series handed_again)
           = length (series (fst once)) + ImportExportService.seriesImported (snd again)
        /\ (ImportExportService.authorsImported (snd again) = 0 ->
            spares_authors data handed = true)
        /\ (ImportExportService.publishersImported (snd again) = 0 ->
            spares_publishers data handed = true)).
Proof.
  intros uuidv4 data db Hids Hfk once again handed handed_again.
  destruct (Js.truthy (ImportExportService.version data)) eqn:Hv.
  - destruct (@import_records_settle uuidv4 data
                (ImportExportService.mkHeap db ImportExportService.initial_result) Hids Hfk)
      as (h7 & R1 & _ & K7 & S7).
    assert (Hhanded : handed = ImportExportService.store h7).
    { unfold handed, before_cleanup. now rewrite R1. }
    destruct (import_outcome uuidv4 data db Hv R1) as (r1 & Honce & _).
    destruct (@import_records_replay uuidv4 data (ImportExportService.store h7) Hids S7
                ImportExportService.initial_result) as (h7' & R2 & P2 & T2 & C2).
    destruct (@import_records_settle uuidv4 data
                (ImportExportService.mkHeap (without_orphans (ImportExportService.store h7))
                   ImportExportService.initial_result)
                Hids (@foreign_keys_without_orphans _ K7))
      as (h7'' & R2' & _ & _ & S7').
    rewrite R2 in R2'. injection R2' as <-.
    destruct (@spared_when_not_added data _ _ S7' P2) as [Ua Up].
    destruct (import_outcome uuidv4 data _ Hv R2) as (r2 & Hagain & T3).
    assert (Hhanded2 : handed_again = ImportExportService.store h7').
    { unfold handed_again, before_cleanup. subst once. rewrite Honce. cbn [fst].
      now rewrite R2. }
    pose proof (replays_cleanup K7 P2) as Hsame.
    subst again once. rewrite Honce. cbn [fst]. rewrite Hagain. cbn [fst snd].
    rewrite Hhanded, Hhanded2, !cleanup_run. cbn [fst].
    destruct T2 as (A1 & A2 & A3 & A4 & A5 & A6 & A7).
    destruct T3 as (B1 & B2 & B3 & B4 & B5 & B6 & B7).
    destruct C2 as (C1 & C2 & C3).
    cbn in A1, A2, A3, A4, A5, A6, A7.
    cbn [ImportExportService.store ImportExportService.result
         ImportExportService.initial_result ImportExportService.authorsImported
         ImportExportService.publishersImported ImportExportService.seriesImported]
      in C1, C2, C3.
    split; [exact Hsame|]. split; [congruence|]. split; [congruence|].
    split; [congruence|]. split; [congruence|].
    split; [intros K; rewrite (B5 I); now apply A5|].
    split; [intros K; rewrite (B6 I); now apply A6|].
    split; [intros K; rewrite (B7 I); now apply A7|].
    intros _. split; [reflexivity|]. split; [reflexivity|].
    rewrite (B5 I), (B6 I), (B7 I).
    split; [lia|]. split; [lia|]. split; [lia|].
    split; intros K; [apply Ua|apply Up]; lia.
  - subst again once. rewrite (import_without_version uuidv4 data db Hv). cbn [fst].
    rewrite (import_without_version uuidv4 data db Hv). cbn [fst snd].
    do 5 (split; [reflexivity|]). do 3 (split; [intros _; reflexivity|]).
    intros K. discriminate K.
Qed.

(** The export of the single shelf with a stray book, imported into a
    store that holds a stray author.  The first import rebuilds the shelf,
    fails on the stray book and removes the stray author; the second
    changes nothing and counts nothing. *)
Lemma import_again_changes_nothing_witness :
  ids_nonempty stray_book_batch = true
  /\ foreign_keys_ok stray_author_store = true
  /\ ImportExportService.errors
       (snd (ImportExportService.importFromJson fixed_uuid stray_book_batch
               stray_author_store))
     = [ImportExportService.failed_message "book" "Stray" Stmt.fk_failed;
        "Cleaned up 1 orphan author(s) without books"]
  /\ (let once :=
        ImportExportService.importFromJson fixed_uuid stray_book_batch stray_author_store in
      let again := ImportExportService.importFromJson fixed_uuid stray_book_batch (fst once) in
      fst once = single_shelf
      /\ fst again = fst once
      /\ ImportExportService.booksImported (snd again) = 0
      /\ ImportExportService.genresImported (snd again) = 0
      /\ ImportExportService.topicsImported (snd again) = 0
      /\ ImportExportService.categoriesImported (snd again) = 0
      /\ ImportExportService.authorsImported (snd again) = 0
      /\ ImportExportService.publishersImported (snd again) = 0
      /\ ImportExportService.seriesImported (snd again) = 0).
Proof.
  split; [reflexivity|]. split; [reflexivity|]. split; [vm_compute; reflexivity|].
  cbv zeta. split; [vm_compute; reflexivity|].
  destruct (import_again_changes_nothing fixed_uuid stray_book_batch stray_author_store
              eq_refl eq_refl) as (H1 & H2 & H3 & H4 & H5 & H6 & H7 & H8 & _).
  split; [exact H1|]. split; [exact H2|]. split; [exact H3|]. split; [exact H4|].
  split; [exact H5|].
  split; [apply H6; vm_compute; reflexivity|].
  split; [apply H7; vm_compute; reflexivity|].
  apply H8. vm_compute. reflexivity.
Defined.

(** The foreign keys do matter.  On a store with a dangling row in
    [series_authors], the first import of the shelf fails on the series and
    on the book, and its clean-up pass removes the dangling row with the
    author; the second import then succeeds on both. *)
Lemma import_twice_dangling_link :
  foreign_keys_ok dangling_link_store = false
  /\ books (fst (ImportExportService.importFromJson fixed_uuid shelf_batch
                   dangling_link_store)) = []
  /\ fst (ImportExportService.importFromJson fixed_uuid shelf_batch
            (fst (ImportExportService.importFromJson fixed_uuid shelf_batch
                    dangling_link_store)))
     = single_shelf.
Proof. repeat split; vm_compute; reflexivity. Qed.
